(** * SM_Developer_Plane: batch plane generator and FBX exporter

    A shallow embedding of [_Blender/SM_Developer_Plane.py].

    Python floats are modelled by rationals ([Q]); Python ints by [Z]; names
    by [string].  Coordinates are kept exact.  The quotient that [round] turns
    into the resolution of the grid is rounded to a binary64 number as the
    machine does, because there a rounding error of one bit decides between
    two integers.  The host document ([bpy.data], the scene collection) is an
    explicit state that every stage threads through; Python exceptions are
    values of an error monad. *)

From Stdlib Require Import String Ascii ZArith QArith Qround Qpower Qabs.
From Stdlib Require Import List Lia Lqa Bool.
From Stdlib Require Import DecimalString DecimalNat DecimalZ DecimalPos.
From Stdlib Require Import Permutation Sorted.
Import ListNotations.

Set Warnings "-register-all".
Open Scope Z_scope.

(** ** Python exceptions and the error monad *)

Inductive exn : Type :=
| ZeroDivisionError
| IndexError
| KeyError
| TypeError
| ValueError
| AttributeError
| RuntimeError
| ReferenceError
| OSError.

Inductive result (A : Type) : Type :=
| Ok (a : A)
| Raise (e : exn).

Arguments Ok {A} a.
Arguments Raise {A} e.

Definition bind {A B : Type} (c : result A) (k : A -> result B) : result B :=
  match c with
  | Ok a => k a
  | Raise e => Raise e
  end.

Notation "x <- c ;; k" := (bind c (fun x => k))
  (at level 61, c at next level, right associativity).
Notation "' p <- c ;; k" := (bind c (fun p => k))
  (at level 61, p pattern, c at next level, right associativity).

(** A [for] loop whose body may raise: the first exception ends the loop. *)
Fixpoint foreach {A S : Type} (l : list A) (body : A -> S -> result S) (s : S)
  : result S :=
  match l with
  | [] => Ok s
  | a :: l' => s' <- body a s ;; foreach l' body s'
  end.

(** ** Python numeric primitives *)

(** [a / b] with the quotient kept exact: the division of the UV
    coordinates. *)
Definition py_div (a b : Q) : result Q :=
  if Qeq_bool b 0 then Raise ZeroDivisionError else Ok (a / b)%Q.

(** [int(round(q))]: nearest integer, ties to the even neighbour. *)
Definition py_round (q : Q) : Z :=
  let f := Qfloor q in
  match (q - inject_Z f ?= 1 # 2)%Q with
  | Lt => f
  | Gt => f + 1
  | Eq => if Z.even f then f else f + 1
  end.

(** ** Binary floating point *)

Definition pow2 (e : Z) : Q := (2 ^ e)%Q.

(** The exponent of the leading bit of a positive rational: the largest [k]
    with [2^k <= q].  The bit lengths of numerator and denominator give it
    up to one. *)
Definition ilog2 (q : Q) : Z :=
  let k := Z.log2 (Qnum q) - Z.log2 (Zpos (Qden q)) in
  if Qle_bool (pow2 k) q then k else k - 1.

(** A Python float is a binary64 number.  [fl53 q] is the number with a
    significand of 53 bits nearest to [q], a tie going to the even
    significand: what a float literal and the result of a float operation
    are rounded to.  The exponent is not bounded: no value overflows to
    infinity or underflows to zero. *)
Definition fl53 (q : Q) : Q :=
  if Qeq_bool q 0 then 0%Q
  else
    let a := Qabs q in
    let e := ilog2 a - 52 in
    let m := py_round (a / pow2 e) in
    ((if Qle_bool 0 q then inject_Z m else - inject_Z m) * pow2 e)%Q.

(** The float nearest to the quotient of the floats nearest to [a] and
    [b]. *)
Definition float_quot (a b : Q) : Q := fl53 (fl53 a / fl53 b).

(** [a / b] on floats, the quotient rounded as the machine rounds it. *)
Definition float_div (a b : Q) : result Q :=
  if Qeq_bool b 0 then Raise ZeroDivisionError else Ok (float_quot a b).

(** [range(n)]: empty when [n <= 0]. *)
Definition range (n : Z) : list Z := map Z.of_nat (seq 0 (Z.to_nat n)).

(** [l[i]] for a list, negative indices counting from the end. *)
Definition getitem {A : Type} (l : list A) (i : Z) : result A :=
  let j := if i <? 0 then Z.of_nat (length l) + i else i in
  if j <? 0 then Raise IndexError
  else match nth_error l (Z.to_nat j) with
       | Some a => Ok a
       | None => Raise IndexError
       end.

(** ** User settings (lines 29-36) *)

Record Settings : Type := {
  PLANE_SUBDIVISION_SIZE : Q;
  EXPORT_BASE_DIR : string;
  PLANE_SIZES_CM : list Z;
  EXPORT_TO_FBX : bool
}.

Definition settings : Settings := {|
  PLANE_SUBDIVISION_SIZE := 2 # 10;
  EXPORT_BASE_DIR :=
    "D:\Projects\Personal\Unreal Projects\PSXSandboxProject\_Blender\Exported";
  PLANE_SIZES_CM := [20; 40; 60; 80; 100; 120; 140; 160; 180; 200];
  EXPORT_TO_FBX := true
|}.

(** ** Size pairs (lines 38-39) *)

(** [itertools.product(a, b)]: the first component varies slowest. *)
Definition product {A B : Type} (a : list A) (b : list B) : list (A * B) :=
  flat_map (fun x => map (fun y => (x, y)) b) a.

Definition PLANE_SIZES_M (cfg : Settings) : list Q :=
  map (fun s => inject_Z s / 100)%Q (PLANE_SIZES_CM cfg).

Definition PLANE_SIZE_PAIRS (cfg : Settings) : list (Q * Q) :=
  product (PLANE_SIZES_M cfg) (PLANE_SIZES_M cfg).

(** ** BMesh: the mesh under construction (lines 81-117) *)

Definition vec3 : Type := (Q * Q * Q)%type.
Definition vec2 : Type := (Q * Q)%type.

(** A face lists its corner vertices (indices into the vertex table) and
    carries one UV per corner (loop), in the same order. *)
Record BMFace : Type := {
  face_verts : list nat;
  face_uvs : list vec2
}.

Record BMesh : Type := {
  bm_verts : list vec3;
  bm_faces : list BMFace
}.

(** [bmesh.new()] *)
Definition bmesh_new : BMesh := {| bm_verts := []; bm_faces := [] |}.

(** [bm.verts.new(co)]: the new vertex is returned by its index. *)
Definition verts_new (co : vec3) (bm : BMesh) : nat * BMesh :=
  (length (bm_verts bm),
   {| bm_verts := bm_verts bm ++ [co]; bm_faces := bm_faces bm |}).

Definition mem_nat (v : nat) (l : list nat) : bool := existsb (Nat.eqb v) l.

Fixpoint has_dup (l : list nat) : bool :=
  match l with
  | [] => false
  | v :: l' => mem_nat v l' || has_dup l'
  end.

(** Two corner lists describe the same face when they use the same vertices. *)
Definition same_verts (a b : list nat) : bool :=
  (length a =? length b)%nat
  && forallb (fun v => mem_nat v b) a
  && forallb (fun v => mem_nat v a) b.

Fixpoint find_face (tri : list nat) (fs : list BMFace) (i : nat) : option nat :=
  match fs with
  | [] => None
  | f :: fs' =>
      if same_verts tri (face_verts f) then Some i
      else find_face tri fs' (S i)
  end.

(** [bm.faces.new(tri)]: [ValueError] for fewer than three corners, a repeated
    vertex, or a face that already exists; fresh loops carry the UV layer's
    default (0, 0). *)
Definition faces_new (tri : list nat) (bm : BMesh) : result (nat * BMesh) :=
  if (length tri <? 3)%nat then Raise ValueError
  else if has_dup tri then Raise ValueError
  else match find_face tri (bm_faces bm) 0 with
       | Some _ => Raise ValueError
       | None =>
           Ok (length (bm_faces bm),
               {| bm_verts := bm_verts bm;
                  bm_faces := bm_faces bm
                    ++ [{| face_verts := tri;
                           face_uvs := map (fun _ => (0, 0)%Q) tri |}] |})
       end.

(** [bm.faces.get(tri)]: the existing face, or [None]. *)
Definition faces_get (tri : list nat) (bm : BMesh) : result (option nat) :=
  if (length tri <? 3)%nat then Raise ValueError
  else if has_dup tri then Raise ValueError
  else Ok (find_face tri (bm_faces bm) 0).

Fixpoint set_nth {A : Type} (i : nat) (a : A) (l : list A) : list A :=
  match l, i with
  | [], _ => []
  | _ :: l', O => a :: l'
  | x :: l', S i' => x :: set_nth i' a l'
  end.

(** Lines 113-117: every loop of the face gets the normalised position of its
    vertex. *)
Definition loop_uv (bm : BMesh) (min_x max_x min_y max_y : Q) (v : nat)
  : result vec2 :=
  match nth_error (bm_verts bm) v with
  | None => Raise RuntimeError
  | Some (vx, vy, _) =>
      u <- py_div (vx - min_x)%Q (max_x - min_x)%Q ;;
      v_uv <- py_div (vy - min_y)%Q (max_y - min_y)%Q ;;
      Ok (u, v_uv)
  end.

Fixpoint loops_uv (bm : BMesh) (min_x max_x min_y max_y : Q) (vs : list nat)
  : result (list vec2) :=
  match vs with
  | [] => Ok []
  | v :: vs' =>
      uv <- loop_uv bm min_x max_x min_y max_y v ;;
      uvs <- loops_uv bm min_x max_x min_y max_y vs' ;;
      Ok (uv :: uvs)
  end.

(** Lines 108-117: one triangle.  A face that cannot be created because it
    exists is looked up instead ([except ValueError]); a failed lookup leaves
    [face = None] and [face.loops] raises [AttributeError]. *)
Definition add_tri (min_x max_x min_y max_y : Q) (tri : list nat) (bm : BMesh)
  : result BMesh :=
  '(face, bm1) <-
    match faces_new tri bm with
    | Ok (i, bm1) => Ok (Some i, bm1)
    | Raise ValueError => o <- faces_get tri bm ;; Ok (o, bm)
    | Raise e => Raise e
    end ;;
  match face with
  | None => Raise AttributeError
  | Some i =>
      match nth_error (bm_faces bm1) i with
      | None => Raise RuntimeError
      | Some f =>
          uvs <- loops_uv bm1 min_x max_x min_y max_y (face_verts f) ;;
          Ok {| bm_verts := bm_verts bm1;
                bm_faces := set_nth i {| face_verts := face_verts f;
                                         face_uvs := uvs |} (bm_faces bm1) |}
      end
  end.

(** Lines 82-94: one row of vertices, then the rows of the grid. *)
Fixpoint new_row (step width height : Q) (y : Z) (xs : list Z) (bm : BMesh)
  : list nat * BMesh :=
  match xs with
  | [] => ([], bm)
  | x :: xs' =>
      let (v, bm1) :=
        verts_new ((inject_Z x * step) - width / 2,
                   (inject_Z y * step) - height / 2, 0)%Q bm in
      let (row, bm2) := new_row step width height y xs' bm1 in
      (v :: row, bm2)
  end.

Fixpoint new_grid (step width height : Q) (n_x : Z) (ys : list Z) (bm : BMesh)
  : list (list nat) * BMesh :=
  match ys with
  | [] => ([], bm)
  | y :: ys' =>
      let (row, bm1) := new_row step width height y (range (n_x + 1)) bm in
      let (rows, bm2) := new_grid step width height n_x ys' bm1 in
      (row :: rows, bm2)
  end.

(** Lines 100-117: one grid cell, split from top-left to bottom-right. *)
Definition add_cell (verts_grid : list (list nat))
  (min_x max_x min_y max_y : Q) (y x : Z) (bm : BMesh) : result BMesh :=
  row0 <- getitem verts_grid y ;;
  v0 <- getitem row0 x ;;
  row0' <- getitem verts_grid y ;;
  v1 <- getitem row0' (x + 1) ;;
  row1 <- getitem verts_grid (y + 1) ;;
  v2 <- getitem row1 x ;;
  row1' <- getitem verts_grid (y + 1) ;;
  v3 <- getitem row1' (x + 1) ;;
  let tris := [[v0; v1; v2]; [v1; v3; v2]] in
  foreach tris (add_tri min_x max_x min_y max_y) bm.

(** Lines 76-117 of [create_subdivided_plane_bmesh]: the geometry, before it
    is handed to the document. *)
Definition subdivided_plane (step width height : Q) : result BMesh :=
  q_x <- float_div width step ;;
  let n_x := py_round q_x in
  q_y <- float_div height step ;;
  let n_y := py_round q_y in
  let min_x := (- width / 2)%Q in
  let max_x := (width / 2)%Q in
  let min_y := (- height / 2)%Q in
  let max_y := (height / 2)%Q in
  let (verts_grid, bm) :=
    new_grid step width height n_x (range (n_y + 1)) bmesh_new in
  foreach (range n_y)
    (fun y => foreach (range n_x)
                (add_cell verts_grid min_x max_x min_y max_y y))
    bm.

(** Lines 130-133 of [create_simple_plane]: a single quad, no UV layer. *)
Definition simple_plane (width height : Q) : BMesh :=
  let hw := (width / 2)%Q in
  let hh := (height / 2)%Q in
  {| bm_verts := [(- hw, - hh, 0); (hw, - hh, 0); (hw, hh, 0); (- hw, hh, 0)]%Q;
     bm_faces := [{| face_verts := [0; 1; 2; 3]%nat; face_uvs := [] |}] |}.

(** ** Python string primitives *)

Definition is_digit_char (c : ascii) : bool :=
  (48 <=? nat_of_ascii c)%nat && (nat_of_ascii c <=? 57)%nat.

Fixpoint all_digits (s : string) : bool :=
  match s with
  | EmptyString => true
  | String c s' => is_digit_char c && all_digits s'
  end.

(** [s.isdigit()] on an ASCII name: non-empty, decimal digits only. *)
Definition isdigit (s : string) : bool :=
  match s with
  | EmptyString => false
  | String _ _ => all_digits s
  end.

(** ["x" in s] *)
Fixpoint contains_char (c : ascii) (s : string) : bool :=
  match s with
  | EmptyString => false
  | String a s' => Ascii.eqb a c || contains_char c s'
  end.

(** [s.startswith(p)] *)
Definition startswith (s p : string) : bool := String.prefix p s.

(** [s.split(sep)] for a one-character separator. *)
Fixpoint split_on (sep : ascii) (s : string) : list string :=
  match s with
  | EmptyString => [EmptyString]
  | String c s' =>
      if Ascii.eqb c sep then EmptyString :: split_on sep s'
      else match split_on sep s' with
           | [] => [String c EmptyString]
           | p :: ps => String c p :: ps
           end
  end.

(** [f"{n}"] for an int. *)
Definition str (n : Z) : string := NilZero.string_of_int (Z.to_int n).

(** [int(s)] for an optional minus sign followed by decimal digits; every other
    string is a [ValueError]. *)
Definition py_int (s : string) : result Z :=
  match NilZero.int_of_string s with
  | Some d => Ok (Z.of_int d)
  | None => Raise ValueError
  end.

(** [n in names] *)
Definition name_in (n : string) (names : list string) : bool :=
  existsb (String.eqb n) names.

(** [sorted(l, key=key)]: the keys are computed first, then the elements are
    put in order by a stable insertion that only asks [<] of two keys; a key
    or a comparison that raises ends the sort. *)
Fixpoint sorted_insert {K A : Type} (lt : K -> K -> result bool)
  (x : K * A) (l : list (K * A)) : result (list (K * A)) :=
  match l with
  | [] => Ok [x]
  | y :: l' =>
      b <- lt (fst y) (fst x) ;;
      if b then r <- sorted_insert lt x l' ;; Ok (y :: r)
      else Ok (x :: y :: l')
  end.

Fixpoint sorted_keyed {K A : Type} (lt : K -> K -> result bool)
  (l : list (K * A)) : result (list (K * A)) :=
  match l with
  | [] => Ok []
  | x :: l' => r <- sorted_keyed lt l' ;; sorted_insert lt x r
  end.

Fixpoint with_keys {K A : Type} (key : A -> result K) (l : list A)
  : result (list (K * A)) :=
  match l with
  | [] => Ok []
  | a :: l' => k <- key a ;; r <- with_keys key l' ;; Ok ((k, a) :: r)
  end.

Definition py_sorted {K A : Type} (key : A -> result K)
  (lt : K -> K -> result bool) (l : list A) : result (list A) :=
  keyed <- with_keys key l ;;
  r <- sorted_keyed lt keyed ;;
  Ok (map snd r).

Definition int_lt (a b : Z) : result bool := Ok (a <? b).
Definition str_lt (a b : string) : result bool := Ok (String.ltb a b).

(** ** Sort key of a subcollection name (lines 167-168) *)

Inductive part : Type :=
| PInt (n : Z)
| PStr (s : string).

Definition part_eqb (a b : part) : bool :=
  match a, b with
  | PInt x, PInt y => x =? y
  | PStr x, PStr y => String.eqb x y
  | _, _ => false
  end.

(** [a < b] between an int and a str is a [TypeError]. *)
Definition part_lt (a b : part) : result bool :=
  match a, b with
  | PInt x, PInt y => Ok (x <? y)
  | PStr x, PStr y => Ok (String.ltb x y)
  | _, _ => Raise TypeError
  end.

(** [a < b] on two lists: the first differing position decides. *)
Fixpoint key_lt (a b : list part) : result bool :=
  match a, b with
  | [], [] => Ok false
  | [], _ :: _ => Ok true
  | _ :: _, [] => Ok false
  | x :: a', y :: b' => if part_eqb x y then key_lt a' b' else part_lt x y
  end.

Fixpoint alnum_parts (parts : list string) : result (list part) :=
  match parts with
  | [] => Ok []
  | p :: ps =>
      k <- (if isdigit p then n <- py_int p ;; Ok (PInt n) else Ok (PStr p)) ;;
      ks <- alnum_parts ps ;;
      Ok (k :: ks)
  end.

Definition alnum_key (s : string) : result (list part) :=
  alnum_parts (split_on "x" s).

(** ** The host document *)

(** A mesh datablock of [bpy.data.meshes]. *)
Record Mesh : Type := {
  mesh_name : string;
  mesh_geometry : BMesh
}.

(** An object of [bpy.data.objects]; [obj_data] names its datablock. *)
Record Object : Type := {
  obj_name : string;
  obj_type : string;
  obj_data : string
}.

(** A collection of [bpy.data.collections]: child collections and linked
    objects, by name and in link order. *)
Record Collection : Type := {
  col_name : string;
  col_children : list string;
  col_objects : list string
}.

Record Document : Type := {
  data_collections : list Collection;
  data_objects : list Object;
  data_meshes : list Mesh;
  scene_children : list string;
  scene_objects : list string
}.

(** A reference to a collection: the scene's root collection or a datablock. *)
Inductive coll_ref : Type :=
| SceneCollection
| DataCollection (name : string).

Definition coll_ref_eqb (a b : coll_ref) : bool :=
  match a, b with
  | SceneCollection, SceneCollection => true
  | DataCollection x, DataCollection y => String.eqb x y
  | _, _ => false
  end.

Definition collection_names (D : Document) : list string :=
  map col_name (data_collections D).
Definition object_names (D : Document) : list string :=
  map obj_name (data_objects D).
Definition mesh_names (D : Document) : list string :=
  map mesh_name (data_meshes D).

(** *** Datablock names are unique: a taken name gets a numeric suffix *)

Definition pad3 (k : nat) : string :=
  let s := NilEmpty.string_of_uint (Nat.to_uint k) in
  match String.length s with
  | 1%nat => "00" ++ s
  | 2%nat => "0" ++ s
  | _ => s
  end.

Definition candidate (name : string) (k : nat) : string :=
  name ++ "." ++ pad3 k.

Fixpoint first_free (taken : list string) (name : string) (k fuel : nat)
  : string :=
  match fuel with
  | O => candidate name k
  | S fuel' =>
      if name_in (candidate name k) taken
      then first_free taken name (S k) fuel'
      else candidate name k
  end.

Definition unique_name (taken : list string) (name : string) : string :=
  if name_in name taken then first_free taken name 1 (length taken) else name.

(** *** [bpy.data.collections] *)

(** [bpy.data.collections.get(name)] *)
Definition collections_get (name : string) (D : Document) : option Collection :=
  find (fun c => String.eqb (col_name c) name) (data_collections D).

(** [bpy.data.collections[name]] *)
Definition collections_item (name : string) (D : Document) : result Collection :=
  match collections_get name D with
  | Some c => Ok c
  | None => Raise KeyError
  end.

(** [bpy.data.collections.new(name)]: an empty, unlinked collection. *)
Definition collections_new (name : string) (D : Document) : string * Document :=
  let n := unique_name (collection_names D) name in
  (n, {| data_collections :=
           data_collections D
           ++ [{| col_name := n; col_children := []; col_objects := [] |}];
         data_objects := data_objects D;
         data_meshes := data_meshes D;
         scene_children := scene_children D;
         scene_objects := scene_objects D |}).

Definition remove_name (n : string) (l : list string) : list string :=
  filter (fun m => negb (String.eqb m n)) l.

(** [bpy.data.collections.remove(col)]: the collection is unlinked from every
    parent and deleted; its children and objects stay in the document. *)
Definition collections_remove (name : string) (D : Document) : Document :=
  {| data_collections :=
       map (fun c => {| col_name := col_name c;
                        col_children := remove_name name (col_children c);
                        col_objects := col_objects c |})
           (filter (fun c => negb (String.eqb (col_name c) name))
                   (data_collections D));
     data_objects := data_objects D;
     data_meshes := data_meshes D;
     scene_children := remove_name name (scene_children D);
     scene_objects := scene_objects D |}.

(** *** [bpy.data.objects] and [bpy.data.meshes] *)

(** [bpy.data.objects.remove(obj, do_unlink=True)]: the object is unlinked
    from every collection and deleted; its mesh datablock stays. *)
Definition objects_remove (name : string) (D : Document) : Document :=
  {| data_collections :=
       map (fun c => {| col_name := col_name c;
                        col_children := col_children c;
                        col_objects := remove_name name (col_objects c) |})
           (data_collections D);
     data_objects :=
       filter (fun o => negb (String.eqb (obj_name o) name)) (data_objects D);
     data_meshes := data_meshes D;
     scene_children := scene_children D;
     scene_objects := remove_name name (scene_objects D) |}.

(** [bpy.data.meshes.new(name)] filled with a geometry ([bm.to_mesh(mesh)],
    [mesh.from_pydata(...)]). *)
Definition meshes_new (name : string) (g : BMesh) (D : Document)
  : string * Document :=
  let n := unique_name (mesh_names D) name in
  (n, {| data_collections := data_collections D;
         data_objects := data_objects D;
         data_meshes := data_meshes D
                        ++ [{| mesh_name := n; mesh_geometry := g |}];
         scene_children := scene_children D;
         scene_objects := scene_objects D |}).

(** [bpy.data.objects.new(name, mesh)]: an unlinked object of type MESH. *)
Definition objects_new (name mesh : string) (D : Document)
  : string * Document :=
  let n := unique_name (object_names D) name in
  (n, {| data_collections := data_collections D;
         data_objects := data_objects D
                         ++ [{| obj_name := n; obj_type := "MESH";
                                obj_data := mesh |}];
         data_meshes := data_meshes D;
         scene_children := scene_children D;
         scene_objects := scene_objects D |}).

Definition objects_get (name : string) (D : Document) : option Object :=
  find (fun o => String.eqb (obj_name o) name) (data_objects D).

(** *** Links between collections and their members *)

Definition update_collection (name : string) (f : Collection -> Collection)
  (cs : list Collection) : list Collection :=
  map (fun c => if String.eqb (col_name c) name then f c else c) cs.

Definition set_children (l : list string) (c : Collection) : Collection :=
  {| col_name := col_name c; col_children := l; col_objects := col_objects c |}.

Definition set_objects (l : list string) (c : Collection) : Collection :=
  {| col_name := col_name c; col_children := col_children c; col_objects := l |}.

(** [parent.children] *)
Definition children_of (parent : coll_ref) (D : Document)
  : result (list string) :=
  match parent with
  | SceneCollection => Ok (scene_children D)
  | DataCollection p =>
      match collections_get p D with
      | Some c => Ok (col_children c)
      | None => Raise ReferenceError
      end
  end.

(** [parent.objects] *)
Definition objects_of (parent : coll_ref) (D : Document)
  : result (list string) :=
  match parent with
  | SceneCollection => Ok (scene_objects D)
  | DataCollection p =>
      match collections_get p D with
      | Some c => Ok (col_objects c)
      | None => Raise ReferenceError
      end
  end.

Definition put_children (parent : coll_ref) (l : list string) (D : Document)
  : Document :=
  match parent with
  | SceneCollection =>
      {| data_collections := data_collections D;
         data_objects := data_objects D;
         data_meshes := data_meshes D;
         scene_children := l;
         scene_objects := scene_objects D |}
  | DataCollection p =>
      {| data_collections :=
           update_collection p (set_children l) (data_collections D);
         data_objects := data_objects D;
         data_meshes := data_meshes D;
         scene_children := scene_children D;
         scene_objects := scene_objects D |}
  end.

Definition put_objects (parent : coll_ref) (l : list string) (D : Document)
  : Document :=
  match parent with
  | SceneCollection =>
      {| data_collections := data_collections D;
         data_objects := data_objects D;
         data_meshes := data_meshes D;
         scene_children := scene_children D;
         scene_objects := l |}
  | DataCollection p =>
      {| data_collections :=
           update_collection p (set_objects l) (data_collections D);
         data_objects := data_objects D;
         data_meshes := data_meshes D;
         scene_children := scene_children D;
         scene_objects := scene_objects D |}
  end.

(** [parent.children.link(child)]: appended; [RuntimeError] when the child is
    already linked there. *)
Definition children_link (parent : coll_ref) (child : string) (D : Document)
  : result Document :=
  l <- children_of parent D ;;
  if name_in child l then Raise RuntimeError
  else Ok (put_children parent (l ++ [child]) D).

(** [parent.children.unlink(child)]: [RuntimeError] when it is not linked. *)
Definition children_unlink (parent : coll_ref) (child : string) (D : Document)
  : result Document :=
  l <- children_of parent D ;;
  if name_in child l then Ok (put_children parent (remove_name child l) D)
  else Raise RuntimeError.

(** [parent.objects.link(obj)] *)
Definition objects_link (parent : coll_ref) (obj : string) (D : Document)
  : result Document :=
  l <- objects_of parent D ;;
  if name_in obj l then Raise RuntimeError
  else Ok (put_objects parent (l ++ [obj]) D).

(** [parent.objects.unlink(obj)] *)
Definition objects_unlink (parent : coll_ref) (obj : string) (D : Document)
  : result Document :=
  l <- objects_of parent D ;;
  if name_in obj l then Ok (put_objects parent (remove_name obj l) D)
  else Raise RuntimeError.

(** ** Cleanup (lines 42-50) *)

Definition generated_name (n : string) : bool :=
  isdigit n || contains_char "x" n || startswith n "UCX_".

(** The two loops run over [list(bpy.data.objects)] and over
    [bpy.data.collections]; [objs] and [cols] are these two enumerations, in
    the order in which the host yields them. *)
Definition cleanup_enum (objs : list Object) (cols : list Collection)
  (D : Document) : Document :=
  let remove_collections :=
    filter (fun col => generated_name (col_name col)) cols in
  let D1 :=
    fold_left (fun D' obj =>
                 if String.eqb (obj_type obj) "MESH"
                 then objects_remove (obj_name obj) D' else D')
              objs D in
  fold_left (fun D' col => collections_remove (col_name col) D')
            remove_collections D1.

(** Cleanup when the host enumerates its data in the order of the
    document. *)
Definition cleanup (D : Document) : Document :=
  cleanup_enum (data_objects D) (data_collections D) D.

(** ** Width and height collections (lines 53-71) *)

(** A Python dict keyed by ints is a list of (key, value) pairs. *)

Fixpoint dict_get {V : Type} (k : Z) (d : list (Z * V)) : result V :=
  match d with
  | [] => Raise KeyError
  | (k', v) :: d' => if k' =? k then Ok v else dict_get k d'
  end.

Fixpoint dict_set {V : Type} (k : Z) (v : V) (d : list (Z * V)) : list (Z * V) :=
  match d with
  | [] => [(k, v)]
  | (k', v') :: d' =>
      if k' =? k then (k', v) :: d' else (k', v') :: dict_set k v d'
  end.

Definition subcol_name_of (width_cm height_cm : Z) : string :=
  str width_cm ++ "x" ++ str height_cm.

(** The caches and the document, as the loops of lines 57-71 thread them. *)
Record Build : Type := {
  width_collections : list (Z * string);
  height_collections_map : list (Z * list (Z * string));
  build_doc : Document
}.

(** Lines 65-71: one height under a width collection. *)
Definition add_height_collection (width_cm : Z) (width_collection : string)
  (height_cm : Z) (st : Build) : result Build :=
  let D := build_doc st in
  let subcol_name := subcol_name_of width_cm height_cm in
  '(subcollection, D1) <-
    match collections_get subcol_name D with
    | Some c => Ok (col_name c, D)
    | None =>
        let (n, D') := collections_new subcol_name D in
        D'' <- children_link (DataCollection width_collection) n D' ;;
        Ok (n, D'')
    end ;;
  inner <- dict_get width_cm (height_collections_map st) ;;
  Ok {| width_collections := width_collections st;
        height_collections_map :=
          dict_set width_cm (dict_set height_cm subcollection inner)
                   (height_collections_map st);
        build_doc := D1 |}.

(** Lines 57-71: one width. *)
Definition add_width_collection (sizes : list Z) (width_cm : Z) (st : Build)
  : result Build :=
  let D := build_doc st in
  let col_name' := str width_cm in
  '(width_collection, D1) <-
    match collections_get col_name' D with
    | Some c => Ok (col_name c, D)
    | None =>
        let (n, D') := collections_new col_name' D in
        D'' <- children_link SceneCollection n D' ;;
        Ok (n, D'')
    end ;;
  foreach sizes (add_height_collection width_cm width_collection)
    {| width_collections :=
         dict_set width_cm width_collection (width_collections st);
       height_collections_map := height_collections_map st;
       build_doc := D1 |}.

Definition build_hierarchy (cfg : Settings) (D : Document) : result Build :=
  foreach (PLANE_SIZES_CM cfg) (add_width_collection (PLANE_SIZES_CM cfg))
    {| width_collections := [];
       height_collections_map :=
         fold_left (fun d w => dict_set w [] d) (PLANE_SIZES_CM cfg) [];
       build_doc := D |}.

(** ** Mesh objects (lines 75-140) *)

Definition create_subdivided_plane_bmesh (cfg : Settings) (width height : Q)
  (name : string) (D : Document) : result (string * Document) :=
  bm <- subdivided_plane (PLANE_SUBDIVISION_SIZE cfg) width height ;;
  let (mesh, D1) := meshes_new name bm D in
  Ok (objects_new name mesh D1).

Definition create_simple_plane (width height : Q) (name : string)
  (D : Document) : string * Document :=
  let (mesh, D1) := meshes_new name (simple_plane width height) D in
  objects_new name mesh D1.

(** Lines 159-163: [try: ... unlink(o) except Exception: pass]. *)
Definition try_unlink_from_scene (o : string) (D : Document) : Document :=
  match objects_unlink SceneCollection o D with
  | Ok D' => D'
  | Raise _ => D
  end.

(** ** Main creation loop (lines 144-163) *)

Definition create_pair (cfg : Settings) (hmap : list (Z * list (Z * string)))
  (pair : Q * Q) (D : Document) : result Document :=
  let (width, height) := pair in
  let width_cm := py_round (width * 100) in
  let height_cm := py_round (height * 100) in
  let obj_name' := subcol_name_of width_cm height_cm in
  let ucx_name := ("UCX_" ++ obj_name')%string in
  '(obj, D1) <- create_subdivided_plane_bmesh cfg width height obj_name' D ;;
  let (obj_ucx, D2) := create_simple_plane width height ucx_name D1 in
  inner <- dict_get width_cm hmap ;;
  subcol <- dict_get height_cm inner ;;
  D3 <- objects_link (DataCollection subcol) obj D2 ;;
  D4 <- objects_link (DataCollection subcol) obj_ucx D3 ;;
  Ok (fold_left (fun D' o => try_unlink_from_scene o D') [obj; obj_ucx] D4).

Definition create_planes (cfg : Settings) (hmap : list (Z * list (Z * string)))
  (D : Document) : result Document :=
  foreach (PLANE_SIZE_PAIRS cfg) (create_pair cfg hmap) D.

(** ** Sorting (lines 171-193) *)

(** Lines 188-193: the objects of one subcollection, by name. *)
Definition sort_objects (subcol : string) (D : Document) : result Document :=
  objs <- objects_of (DataCollection subcol) D ;;
  objs_sorted <- py_sorted (fun o => Ok o) str_lt objs ;;
  D1 <- foreach objs (objects_unlink (DataCollection subcol)) D ;;
  foreach objs_sorted (objects_link (DataCollection subcol)) D1.

(** Lines 186-193: one subcollection is linked back, then its objects. *)
Definition relink_height (width_col subcol_name : string) (D : Document)
  : result Document :=
  c <- collections_item subcol_name D ;;
  D1 <- children_link (DataCollection width_col) (col_name c) D ;;
  subcol <- collections_item subcol_name D1 ;;
  sort_objects (col_name subcol) D1.

(** Lines 178-193: one width collection. *)
Definition relink_width (name : string) (D : Document) : result Document :=
  c <- collections_item name D ;;
  D1 <- children_link SceneCollection (col_name c) D ;;
  width_col <- collections_item name D1 ;;
  children <- children_of (DataCollection (col_name width_col)) D1 ;;
  height_coll_names <- py_sorted alnum_key key_lt children ;;
  D2 <- foreach children
          (children_unlink (DataCollection (col_name width_col))) D1 ;;
  foreach height_coll_names (relink_height (col_name width_col)) D2.

Definition sort_hierarchy (D : Document) : result Document :=
  width_coll_names <-
    py_sorted py_int int_lt (filter isdigit (scene_children D)) ;;
  D1 <- foreach (scene_children D)
          (fun col D' =>
             if name_in col width_coll_names
             then children_unlink SceneCollection col D' else Ok D')
          D ;;
  foreach width_coll_names relink_width D1.

(** ** Lines 42-193: the document after generation *)

Definition generate_enum (objs : list Object) (cols : list Collection)
  (cfg : Settings) (D : Document) : result Document :=
  st <- build_hierarchy cfg (cleanup_enum objs cols D) ;;
  D1 <- create_planes cfg (height_collections_map st) (build_doc st) ;;
  sort_hierarchy D1.

Definition generate (cfg : Settings) (D : Document) : result Document :=
  generate_enum (data_objects D) (data_collections D) cfg D.

(** ** The view layer (lines 198-205) *)

Inductive LayerCollection : Type :=
| LayerColl (collection : coll_ref) (children : list LayerCollection).

Definition layer_collection_of (lc : LayerCollection) : coll_ref :=
  match lc with LayerColl c _ => c end.

(** The host keeps one layer collection per collection linked below the scene
    root, mirroring the hierarchy. *)
Fixpoint layer_tree (fuel : nat) (D : Document) (c : coll_ref)
  : LayerCollection :=
  LayerColl c
    match fuel with
    | O => []
    | S fuel' =>
        match children_of c D with
        | Ok l => map (fun n => layer_tree fuel' D (DataCollection n)) l
        | Raise _ => []
        end
    end.

Definition view_layer_root (D : Document) : LayerCollection :=
  layer_tree (S (length (data_collections D))) D SceneCollection.

Fixpoint find_layer_collection (layer_coll : LayerCollection) (coll : coll_ref)
  : option LayerCollection :=
  match layer_coll with
  | LayerColl c children =>
      if coll_ref_eqb c coll then Some layer_coll
      else (fix first (l : list LayerCollection) : option LayerCollection :=
              match l with
              | [] => None
              | child :: l' =>
                  match find_layer_collection child coll with
                  | Some res => Some res
                  | None => first l'
                  end
              end) children
  end.

(** ** The host around the document, and the operating system *)

Record Host : Type := {
  doc : Document;
  active_layer_collection : coll_ref;
  active_object : option string;
  files : list string;
  stdout : list string;
  fbx_calls : list string
}.

(** What the operating system and the FBX exporter answer: the path
    separator, and which calls raise.  [remove_error p = Some msg] makes
    [os.remove(p)] raise an exception that prints as [msg]. *)
Record Os : Type := {
  sep : string;
  makedirs_error : string -> bool;
  remove_error : string -> option string;
  export_error : string -> bool
}.

(** Statements over the host: an exception keeps the state reached so far. *)
Definition E (A : Type) : Type := Host -> result A * Host.

Definition e_ret {A : Type} (a : A) : E A := fun h => (Ok a, h).

Definition e_bind {A B : Type} (c : E A) (k : A -> E B) : E B :=
  fun h => match c h with
           | (Ok a, h') => k a h'
           | (Raise e, h') => (Raise e, h')
           end.

Notation "x <~ c ;; k" := (e_bind c (fun x => k))
  (at level 61, c at next level, right associativity).
Notation "c ;;; k" := (e_bind c (fun _ => k))
  (at level 61, right associativity).

Definition e_lift {A : Type} (r : result A) : E A := fun h => (r, h).

Definition e_get : E Host := fun h => (Ok h, h).

Fixpoint e_foreach {A : Type} (l : list A) (body : A -> E unit) : E unit :=
  match l with
  | [] => e_ret tt
  | a :: l' => body a ;;; e_foreach l' body
  end.

Definition print (s : string) : E unit :=
  fun h => (Ok tt, {| doc := doc h;
                      active_layer_collection := active_layer_collection h;
                      active_object := active_object h;
                      files := files h;
                      stdout := stdout h ++ [s];
                      fbx_calls := fbx_calls h |}).

Definition set_active_layer_collection (c : coll_ref) : E unit :=
  fun h => (Ok tt, {| doc := doc h;
                      active_layer_collection := c;
                      active_object := active_object h;
                      files := files h;
                      stdout := stdout h;
                      fbx_calls := fbx_calls h |}).

Definition set_active_object (o : string) : E unit :=
  fun h => (Ok tt, {| doc := doc h;
                      active_layer_collection := active_layer_collection h;
                      active_object := Some o;
                      files := files h;
                      stdout := stdout h;
                      fbx_calls := fbx_calls h |}).

Definition set_files (l : list string) : E unit :=
  fun h => (Ok tt, {| doc := doc h;
                      active_layer_collection := active_layer_collection h;
                      active_object := active_object h;
                      files := l;
                      stdout := stdout h;
                      fbx_calls := fbx_calls h |}).

Definition endswith (s p : string) : bool :=
  let n := String.length s in
  let m := String.length p in
  (m <=? n)%nat && String.eqb (substring (n - m) m s) p.

(** [os.path.join(a, b)] with separator [sep]: a component that starts at
    the root replaces what precedes it. *)
Definition path_join (sep a b : string) : string :=
  if String.prefix sep b && negb (String.eqb sep "") then b
  else if String.eqb a "" || endswith a sep then (a ++ b)%string
  else (a ++ sep ++ b)%string.

(** [os.makedirs(path, exist_ok=True)] *)
Definition os_makedirs (os : Os) (path : string) : E unit :=
  if makedirs_error os path then e_lift (Raise OSError) else e_ret tt.

(** [os.path.isfile(path)] *)
Definition os_isfile (path : string) : E bool :=
  fun h => (Ok (name_in path (files h)), h).

(** [bpy.ops.export_scene.fbx(filepath=path, ...)]: the call is recorded,
    then either raises or leaves a file at [path]. *)
Definition export_scene_fbx (os : Os) (path : string) : E unit :=
  fun h =>
    let h1 := {| doc := doc h;
                 active_layer_collection := active_layer_collection h;
                 active_object := active_object h;
                 files := files h;
                 stdout := stdout h;
                 fbx_calls := fbx_calls h ++ [path] |} in
    if export_error os path then (Raise RuntimeError, h1)
    else (Ok tt, {| doc := doc h1;
                    active_layer_collection := active_layer_collection h1;
                    active_object := active_object h1;
                    files := if name_in path (files h1) then files h1
                             else files h1 ++ [path];
                    stdout := stdout h1;
                    fbx_calls := fbx_calls h1 |}).

(** Lines 240-246: an old file is removed; a failure is only printed. *)
Definition remove_old_file (os : Os) (export_path : string) : E unit :=
  is_file <~ os_isfile export_path ;;
  if is_file then
    match remove_error os export_path with
    | None =>
        h <~ e_get ;;
        set_files (remove_name export_path (files h)) ;;;
        print ("Removed old file: " ++ export_path)%string
    | Some e =>
        print ("Could not remove old file " ++ export_path ++ ": " ++ e)%string
    end
  else e_ret tt.

Definition is_mesh_object (D : Document) (name : string) : bool :=
  match objects_get name D with
  | Some o => String.eqb (obj_type o) "MESH"
  | None => false
  end.

Definition export_path_of (cfg : Settings) (os : Os)
  (width_cm height_cm subcol : string) : string :=
  path_join (sep os)
    (path_join (sep os) (path_join (sep os) (EXPORT_BASE_DIR cfg) width_cm)
       height_cm)
    ("SM_Developer_Plane_" ++ subcol ++ ".fbx")%string.

(** Lines 217-265: one subcollection of a width collection. *)
Definition export_subcol (cfg : Settings) (os : Os) (width_cm subcol : string)
  : E unit :=
  if negb (contains_char "x" subcol) then e_ret tt
  else
    height_cm <~ e_lift (getitem (split_on "x" subcol) 1) ;;
    h <~ e_get ;;
    objs <~ e_lift (objects_of (DataCollection subcol) (doc h)) ;;
    let objects_to_export := filter (is_mesh_object (doc h)) objs in
    match objects_to_export with
    | [] => e_ret tt
    | first :: _ =>
        match find_layer_collection (view_layer_root (doc h))
                (DataCollection subcol) with
        | None =>
            print ("LayerCollection for " ++ subcol
                   ++ " not found, skipping.")%string
        | Some target_layer_collection =>
            set_active_layer_collection
              (layer_collection_of target_layer_collection) ;;;
            let export_dir :=
              path_join (sep os)
                (path_join (sep os) (EXPORT_BASE_DIR cfg) width_cm)
                height_cm in
            os_makedirs os export_dir ;;;
            let fbx_filename :=
              ("SM_Developer_Plane_" ++ subcol ++ ".fbx")%string in
            let export_path := path_join (sep os) export_dir fbx_filename in
            remove_old_file os export_path ;;;
            let main_plane :=
              find (fun obj => String.eqb obj subcol) objects_to_export in
            set_active_object
              (match main_plane with
               | Some o => o
               | None => first
               end) ;;;
            export_scene_fbx os export_path ;;;
            print ("Exported " ++ export_path)%string
        end
    end.

(** Lines 215-265: one width collection. *)
Definition export_width (cfg : Settings) (os : Os) (width_col : string)
  : E unit :=
  h <~ e_get ;;
  children <~ e_lift (children_of (DataCollection width_col) (doc h)) ;;
  subcols <~ e_lift (py_sorted alnum_key key_lt children) ;;
  e_foreach subcols (export_subcol cfg os width_col).

(** Lines 209-269. *)
Definition export_stage (cfg : Settings) (os : Os) : E unit :=
  if EXPORT_TO_FBX cfg then
    print "Now exporting FBX files..." ;;;
    h <~ e_get ;;
    width_collections' <~
      e_lift (py_sorted py_int int_lt
                (filter isdigit (scene_children (doc h)))) ;;
    e_foreach width_collections' (export_width cfg os) ;;;
    print "Batch FBX export complete."
  else print "EXPORT_TO_FBX is set to False. Skipping FBX export step.".

Definition set_doc (D : Document) : E unit :=
  fun h => (Ok tt, {| doc := D;
                      active_layer_collection := active_layer_collection h;
                      active_object := active_object h;
                      files := files h;
                      stdout := stdout h;
                      fbx_calls := fbx_calls h |}).

(** What the host does to the selection when cleanup removes data: an
    active object that is removed is no longer active, and when the active
    layer collection is no longer found below the root of the view layer of
    the cleaned document [C], the root becomes the active one. *)
Definition clear_removed (C : Document) : E unit :=
  fun h =>
    (Ok tt,
     {| doc := doc h;
        active_layer_collection :=
          match find_layer_collection (view_layer_root C)
                  (active_layer_collection h) with
          | Some _ => active_layer_collection h
          | None => SceneCollection
          end;
        active_object :=
          match active_object h with
          | Some o => if is_mesh_object (doc h) o then None else Some o
          | None => None
          end;
        files := files h;
        stdout := stdout h;
        fbx_calls := fbx_calls h |}).

(** ** The whole script *)

(** [objs] and [cols] are the enumerations of the host's objects and
    collections that cleanup runs over.  A generation stage that raises
    leaves the script before line 195; the half-built document of that case
    is not tracked. *)
Definition run_enum (objs : list Object) (cols : list Collection)
  (cfg : Settings) (os : Os) : E unit :=
  h <~ e_get ;;
  D <~ e_lift (generate_enum objs cols cfg (doc h)) ;;
  clear_removed (cleanup_enum objs cols (doc h)) ;;;
  set_doc D ;;;
  print "Plane generation and organization complete!" ;;;
  export_stage cfg os.

(** The script when the host enumerates its data in the order of the
    document. *)
Definition run (cfg : Settings) (os : Os) : E unit :=
  fun h =>
    run_enum (data_objects (doc h)) (data_collections (doc h)) cfg os h.

(** * Specification vocabulary *)

(** ** The tessellated grid *)

(** Position of the vertex created for grid index (x, y). *)
Definition grid_co (step width height : Q) (y x : Z) : vec3 :=
  ((inject_Z x * step) - width / 2, (inject_Z y * step) - height / 2, 0)%Q.

(** The vertex table after the rows [ys] have been created, row by row. *)
Definition grid_verts (step width height : Q) (n_x : Z) (ys : list Z)
  : list vec3 :=
  flat_map (fun y => map (grid_co step width height y) (range (n_x + 1))) ys.

(** [verts_grid]: [k] rows of [m] vertex indices, counted from [base]. *)
Definition grid_rows (base m k : nat) : list (list nat) :=
  map (fun j => map (fun i => base + j * m + i)%nat (seq 0 m)) (seq 0 k).

(** The UV that lines 114-117 give to a loop at position [co]. *)
Definition norm_uv (min_x max_x min_y max_y : Q) (co : vec3) : vec2 :=
  let '(vx, vy, _) := co in
  ((vx - min_x) / (max_x - min_x), (vy - min_y) / (max_y - min_y))%Q.

Definition uv_of (min_x max_x min_y max_y : Q) (V : list vec3) (v : nat)
  : vec2 :=
  norm_uv min_x max_x min_y max_y (nth v V (0, 0, 0)%Q).

(** A face only uses vertices of the table [V] and every loop carries the
    normalised position of its vertex. *)
Definition face_ok (min_x max_x min_y max_y : Q) (V : list vec3) (f : BMFace)
  : Prop :=
  Forall (fun v => (v < length V)%nat) (face_verts f)
  /\ face_uvs f = map (uv_of min_x max_x min_y max_y V) (face_verts f).

Definition mesh_inv (min_x max_x min_y max_y : Q) (V : list vec3) (bm : BMesh)
  : Prop :=
  bm_verts bm = V /\ Forall (face_ok min_x max_x min_y max_y V) (bm_faces bm).

(** ** Names *)

(** The number a numeric suffix stands for. *)
Definition decode_nat (s : string) : option nat :=
  option_map Nat.of_uint (NilEmpty.uint_of_string s).

(** ** Documents *)

(** Referential integrity: every name a collection or the scene refers to
    is the name of a datablock of the document. *)
Definition wf_doc (D : Document) : bool :=
  forallb (fun n => name_in n (collection_names D)) (scene_children D)
  && forallb (fun n => name_in n (object_names D)) (scene_objects D)
  && forallb (fun c =>
                forallb (fun n => name_in n (collection_names D))
                        (col_children c)
                && forallb (fun n => name_in n (object_names D))
                           (col_objects c))
             (data_collections D).

Definition is_mesh (o : Object) : bool := String.eqb (obj_type o) "MESH".

Definition keep_names (ns : list string) (l : list string) : list string :=
  filter (fun m => negb (name_in m ns)) l.

(** The document without the objects named in [ns]. *)
Definition remove_objects (ns : list string) (D : Document) : Document :=
  {| data_collections :=
       map (fun c => set_objects (keep_names ns (col_objects c)) c)
           (data_collections D);
     data_objects :=
       filter (fun o => negb (name_in (obj_name o) ns)) (data_objects D);
     data_meshes := data_meshes D;
     scene_children := scene_children D;
     scene_objects := keep_names ns (scene_objects D) |}.

(** The document without the collections named in [ns]. *)
Definition remove_collections (ns : list string) (D : Document) : Document :=
  {| data_collections :=
       map (fun c => set_children (keep_names ns (col_children c)) c)
           (filter (fun c => negb (name_in (col_name c) ns))
                   (data_collections D));
     data_objects := data_objects D;
     data_meshes := data_meshes D;
     scene_children := keep_names ns (scene_children D);
     scene_objects := scene_objects D |}.

Definition mesh_object_names (D : Document) : list string :=
  map obj_name (filter is_mesh (data_objects D)).

Definition generated_collection_names (D : Document) : list string :=
  map col_name
      (filter (fun c => generated_name (col_name c)) (data_collections D)).

(** What cleanup leaves: no collection with a generated name, no mesh
    object, and no dangling reference. *)
Definition clean (D : Document) : Prop :=
  Forall (fun c => generated_name (col_name c) = false) (data_collections D)
  /\ Forall (fun o => is_mesh o = false) (data_objects D)
  /\ wf_doc D = true.

Definition mk_col (n : string) (children objects : list string) : Collection :=
  {| col_name := n; col_children := children; col_objects := objects |}.

Definition find_col (n : string) (l : list Collection) : option Collection :=
  find (fun c => String.eqb (col_name c) n) l.

(** ** The generated hierarchy *)

(** The collections generated for the width [w], in creation order: the
    width collection, then one subcollection per height. *)
Definition width_block (sizes : list Z) (children : Z -> list string)
  (objects : Z -> Z -> list string) (w : Z) : list Collection :=
  mk_col (str w) (children w) []
  :: map (fun h => mk_col (subcol_name_of w h) [] (objects w h)) sizes.

Definition hierarchy (sizes : list Z) (children : Z -> list string)
  (objects : Z -> Z -> list string) (ws : list Z) : list Collection :=
  flat_map (width_block sizes children objects) ws.

(** Subcollection names of a width, in configuration order. *)
Definition subs (sizes : list Z) (w : Z) : list string :=
  map (subcol_name_of w) sizes.

Definition no_objects (w h : Z) : list string := [].

(** The caches of lines 54-55 once the hierarchy is built. *)
Definition width_cache (ws : list Z) : list (Z * string) :=
  map (fun w => (w, str w)) ws.

Definition height_cache (sizes ws : list Z) : list (Z * list (Z * string)) :=
  map (fun w => (w, map (fun h => (h, subcol_name_of w h)) sizes)) ws.

Definition empty_cache (ws : list Z) : list (Z * list (Z * string)) :=
  map (fun w => (w, @nil (Z * string))) ws.

(** The state of the loop of lines 65-71 for the width [w], once the heights
    [hdone] are done; [pre] holds the collections created before. *)
Definition heights_state (w : Z) (pre : list Collection) (os : list Object)
  (ms : list Mesh) (sc so : list string) (wc : list (Z * string))
  (hm1 hm2 : list (Z * list (Z * string))) (hdone : list Z) : Build :=
  {| width_collections := wc;
     height_collections_map :=
       hm1 ++ (w, map (fun h => (h, subcol_name_of w h)) hdone) :: hm2;
     build_doc :=
       Build_Document
         (pre ++ mk_col (str w) (subs hdone w) []
              :: map (fun h => mk_col (subcol_name_of w h) [] []) hdone)
         os ms sc so |}.

(** The state of the loop of lines 57-71 once the widths [done] are done and
    [ws] are still to come. *)
Definition widths_state (sizes : list Z) (pre0 : list Collection)
  (os : list Object) (ms : list Mesh) (sc0 so : list string)
  (done ws : list Z) : Build :=
  {| width_collections := width_cache done;
     height_collections_map := height_cache sizes done ++ empty_cache ws;
     build_doc :=
       Build_Document
         (pre0 ++ hierarchy sizes (subs sizes) no_objects done)
         os ms (sc0 ++ map str done) so |}.

(** ** The generated planes *)

(** Centimeters to meters (line 38). *)
Definition to_m (s : Z) : Q := (inject_Z s / 100)%Q.

(** The geometry [create_subdivided_plane_bmesh] hands to the document. *)
Definition plane_geometry (cfg : Settings) (width height : Q) : BMesh :=
  match subdivided_plane (PLANE_SUBDIVISION_SIZE cfg) width height with
  | Ok bm => bm
  | Raise _ => bmesh_new
  end.

(** What one pass of the main loop creates for the size pair (w, h): the
    names the host gave to the two objects and to their mesh datablocks. *)
Record Created : Type := {
  cr_w : Z;
  cr_h : Z;
  cr_obj : string;
  cr_mesh : string;
  cr_ucx : string;
  cr_ucx_mesh : string
}.

Definition create_record (onames mnames : list string) (w h : Z) : Created :=
  let n := subcol_name_of w h in
  let m := unique_name mnames n in
  let p := unique_name onames n in
  {| cr_w := w; cr_h := h;
     cr_obj := p;
     cr_mesh := m;
     cr_ucx := unique_name (onames ++ [p]) ("UCX_" ++ n);
     cr_ucx_mesh := unique_name (mnames ++ [m]) ("UCX_" ++ n) |}.

Fixpoint plan (onames mnames : list string) (ps : list (Z * Z))
  : list Created :=
  match ps with
  | [] => []
  | (w, h) :: ps' =>
      let cr := create_record onames mnames w h in
      cr :: plan (onames ++ [cr_obj cr; cr_ucx cr])
                 (mnames ++ [cr_mesh cr; cr_ucx_mesh cr]) ps'
  end.

Definition created_objects (cr : Created) : list Object :=
  [{| obj_name := cr_obj cr; obj_type := "MESH"; obj_data := cr_mesh cr |};
   {| obj_name := cr_ucx cr; obj_type := "MESH";
      obj_data := cr_ucx_mesh cr |}].

Definition created_meshes (cfg : Settings) (cr : Created) : list Mesh :=
  [{| mesh_name := cr_mesh cr;
      mesh_geometry :=
        plane_geometry cfg (to_m (cr_w cr)) (to_m (cr_h cr)) |};
   {| mesh_name := cr_ucx_mesh cr;
      mesh_geometry := simple_plane (to_m (cr_w cr)) (to_m (cr_h cr)) |}].

Definition is_pair (w h : Z) (cr : Created) : bool :=
  (cr_w cr =? w) && (cr_h cr =? h).

(** The objects linked into the subcollection of (w, h). *)
Definition pair_objects (pl : list Created) (w h : Z) : list string :=
  match find (is_pair w h) pl with
  | Some cr => [cr_obj cr; cr_ucx cr]
  | None => []
  end.

(** Objects per subcollection, with the entry of (w, h) replaced. *)
Definition set_pair (ob : Z -> Z -> list string) (w h : Z) (l : list string)
  (w' h' : Z) : list string :=
  if (w' =? w) && (h' =? h) then l else ob w' h'.

(** Children per width collection, with the entry of [w] replaced. *)
Definition set_width (ch : Z -> list string) (w : Z) (l : list string)
  (w' : Z) : list string :=
  if w' =? w then l else ch w'.

(** A size pair in meters, as the main loop receives it. *)
Definition pair_m (p : Z * Z) : Q * Q := (to_m (fst p), to_m (snd p)).

(** ** Sorting *)

(** Stable insertion sort under a strict order given as a boolean test. *)
Fixpoint insert_by {A : Type} (ltb : A -> A -> bool) (x : A) (l : list A)
  : list A :=
  match l with
  | [] => [x]
  | y :: l' => if ltb y x then y :: insert_by ltb x l' else x :: y :: l'
  end.

Fixpoint sort_by {A : Type} (ltb : A -> A -> bool) (l : list A) : list A :=
  match l with
  | [] => []
  | x :: l' => insert_by ltb x (sort_by ltb l')
  end.

(** The configured sizes in ascending order. *)
Definition sorted_sizes (sizes : list Z) : list Z := sort_by Z.ltb sizes.

(** A document whose collections are [pre0] followed by the generated
    hierarchy with children [ch] and objects [ob]. *)
Definition hdoc (sizes : list Z) (pre0 : list Collection) (os : list Object)
  (ms : list Mesh) (so : list string) (ob : Z -> Z -> list string)
  (ch : Z -> list string) (sc : list string) : Document :=
  Build_Document (pre0 ++ hierarchy sizes ch ob sizes) os ms sc so.

(** ** The whole generation *)

Fixpoint nodup_z (l : list Z) : bool :=
  match l with
  | [] => true
  | x :: l' => negb (existsb (Z.eqb x) l') && nodup_z l'
  end.

(** Settings the script is written for: a positive subdivision size, and
    sizes that are non-negative and pairwise different. *)
Definition valid_settings (cfg : Settings) : bool :=
  match (0 ?= PLANE_SUBDIVISION_SIZE cfg)%Q with Lt => true | _ => false end
  && nodup_z (PLANE_SIZES_CM cfg)
  && forallb (fun w => 0 <=? w) (PLANE_SIZES_CM cfg).

(** The planes of a run on the cleaned document [C]. *)
Definition planes (cfg : Settings) (C : Document) : list Created :=
  plan (object_names C) (mesh_names C)
       (product (PLANE_SIZES_CM cfg) (PLANE_SIZES_CM cfg)).

(** The document a run leaves, given the cleaned document [C]: what was in
    [C], then the generated collections, objects and meshes. *)
Definition generated (cfg : Settings) (C : Document) : Document :=
  let sizes := PLANE_SIZES_CM cfg in
  let pl := planes cfg C in
  hdoc sizes (data_collections C)
    (data_objects C ++ flat_map created_objects pl)
    (data_meshes C ++ flat_map (created_meshes cfg) pl)
    (scene_objects C)
    (pair_objects pl)
    (subs (sorted_sizes sizes))
    (scene_children C ++ map str (sorted_sizes sizes)).

(** ** Observations on a document *)

Definition meshes_get (name : string) (D : Document) : option Mesh :=
  find (fun m => String.eqb (mesh_name m) name) (data_meshes D).

(** The geometry behind the object called [name]: its mesh datablock. *)
Definition object_geometry (D : Document) (name : string) : option BMesh :=
  match objects_get name D with
  | Some o =>
      match meshes_get (obj_data o) D with
      | Some m => Some (mesh_geometry m)
      | None => None
      end
  | None => None
  end.

(** All UVs of a mesh, loop by loop. *)
Definition all_uvs (bm : BMesh) : list vec2 := flat_map face_uvs (bm_faces bm).

Definition in_unit_square (uv : vec2) : Prop :=
  (0 <= fst uv <= 1)%Q /\ (0 <= snd uv <= 1)%Q.

(** An empty host document. *)
Definition empty_document : Document :=
  {| data_collections := []; data_objects := []; data_meshes := [];
     scene_children := []; scene_objects := [] |}.

Definition created_object_names (l : list Created) : list string :=
  flat_map (fun cr => [cr_obj cr; cr_ucx cr]) l.

Definition created_mesh_names (l : list Created) : list string :=
  flat_map (fun cr => [cr_mesh cr; cr_ucx_mesh cr]) l.

(** The names in [l] come in strictly ascending order of their sort keys:
    every key exists, and of two names the earlier has the smaller key. *)
Definition ascending {K : Type} (key : string -> result K)
  (lt : K -> K -> result bool) (l : list string) : Prop :=
  StronglySorted
    (fun a b => exists ka kb,
       key a = Ok ka /\ key b = Ok kb /\ lt ka kb = Ok true) l.

(** The names the main loop asks the host for. *)
Definition plane_names (cfg : Settings) : list string :=
  flat_map (fun p => let n := subcol_name_of (fst p) (snd p) in
                     [n; ("UCX_" ++ n)%string])
           (product (PLANE_SIZES_CM cfg) (PLANE_SIZES_CM cfg)).

(** No object that survives cleanup already bears the name of a plane. *)
Definition no_name_clash (cfg : Settings) (D : Document) : bool :=
  forallb (fun o => is_mesh o || negb (name_in (obj_name o) (plane_names cfg)))
          (data_objects D).

Definition objects_named (n : string) (D : Document) : list Object :=
  filter (fun o => String.eqb (obj_name o) n) (data_objects D).

Definition collections_named (n : string) (D : Document) : list Collection :=
  filter (fun c => String.eqb (col_name c) n) (data_collections D).

(** [objects_to_export] of line 221 for the subcollection [subcol]. *)
Definition objects_to_export (D : Document) (subcol : string) : list string :=
  match objects_of (DataCollection subcol) D with
  | Ok objs => filter (is_mesh_object D) objs
  | Raise _ => []
  end.

(** ** The export plan *)

(** The path handed to the exporter for [subcol], if the loop body of lines
    217-265 reaches the export call for it. *)
Definition subcol_exports (cfg : Settings) (sep' : string) (D : Document)
  (width_cm subcol : string) : list string :=
  if negb (contains_char "x" subcol) then []
  else
    match getitem (split_on "x" subcol) 1 with
    | Raise _ => []
    | Ok height_cm =>
        match objects_of (DataCollection subcol) D with
        | Raise _ => []
        | Ok objs =>
            match filter (is_mesh_object D) objs with
            | [] => []
            | _ :: _ =>
                match find_layer_collection (view_layer_root D)
                        (DataCollection subcol) with
                | None => []
                | Some _ =>
                    [path_join sep'
                       (path_join sep'
                          (path_join sep' (EXPORT_BASE_DIR cfg) width_cm)
                          height_cm)
                       ("SM_Developer_Plane_" ++ subcol ++ ".fbx")%string]
                end
            end
        end
    end.

Definition width_exports (cfg : Settings) (sep' : string) (D : Document)
  (width_col : string) : list string :=
  match children_of (DataCollection width_col) D with
  | Raise _ => []
  | Ok children =>
      match py_sorted alnum_key key_lt children with
      | Raise _ => []
      | Ok subcols => flat_map (subcol_exports cfg sep' D width_col) subcols
      end
  end.

(** All export paths of a run on the generated document [D], in call
    order. *)
Definition planned_exports (cfg : Settings) (sep' : string) (D : Document)
  : list string :=
  if EXPORT_TO_FBX cfg then
    match py_sorted py_int int_lt (filter isdigit (scene_children D)) with
    | Raise _ => []
    | Ok ws => flat_map (width_exports cfg sep' D) ws
    end
  else [].

(** The document a run leaves: the generated one, or the one it started
    from when generation raised. *)
Definition final_document (cfg : Settings) (D : Document) : Document :=
  match generate cfg D with
  | Ok D' => D'
  | Raise _ => D
  end.

(** What lines 240-246 print for the export path [p]. *)
Definition removal_log (os : Os) (h : Host) (p : string) : list string :=
  if name_in p (files h) then
    match remove_error os p with
    | None => [("Removed old file: " ++ p)%string]
    | Some e => [("Could not remove old file " ++ p ++ ": " ++ e)%string]
    end
  else [].

(** The files on disk once lines 240-246 are done. *)
Definition files_after_removal (os : Os) (h : Host) (p : string)
  : list string :=
  if name_in p (files h) then
    match remove_error os p with
    | None => remove_name p (files h)
    | Some _ => files h
    end
  else files h.

(** ** What two documents have in common beyond mesh datablocks *)

(** The collections with their children and objects, the scene links, and
    every object with its name, its type and, for a mesh object, the
    geometry behind it.  Names of mesh datablocks and datablocks that no
    object uses are left out. *)
Record Snapshot : Type := {
  snap_collections : list Collection;
  snap_objects : list (string * string * option BMesh);
  snap_scene_children : list string;
  snap_scene_objects : list string
}.

Definition snap_object (D : Document) (o : Object)
  : string * string * option BMesh :=
  (obj_name o, obj_type o,
   if is_mesh o then object_geometry D (obj_name o) else None).

Definition snapshot (D : Document) : Snapshot :=
  {| snap_collections := data_collections D;
     snap_objects := map (snap_object D) (data_objects D);
     snap_scene_children := scene_children D;
     snap_scene_objects := scene_objects D |}.

(** The snapshot entries of a created pair. *)
Definition created_snaps (cfg : Settings) (cr : Created)
  : list (string * string * option BMesh) :=
  [(cr_obj cr, "MESH"%string,
    Some (plane_geometry cfg (to_m (cr_w cr)) (to_m (cr_h cr))));
   (cr_ucx cr, "MESH"%string,
    Some (simple_plane (to_m (cr_w cr)) (to_m (cr_h cr))))].

(** A document with other mesh datablocks. *)
Definition with_meshes (ms : list Mesh) (D : Document) : Document :=
  {| data_collections := data_collections D;
     data_objects := data_objects D;
     data_meshes := ms;
     scene_children := scene_children D;
     scene_objects := scene_objects D |}.

(** The names and sizes of a created pair, without its mesh datablocks. *)
Definition created_key (cr : Created) : Z * Z * string * string :=
  (cr_w cr, cr_h cr, cr_obj cr, cr_ucx cr).

(** ** Concrete documents and hosts *)

(** The scene of a new file: one collection with a cube, a camera and a
    light. *)
Definition default_scene : Document :=
  {| data_collections :=
       [{| col_name := "Collection"; col_children := [];
           col_objects := ["Cube"; "Camera"; "Light"]%string |}];
     data_objects :=
       [{| obj_name := "Cube"; obj_type := "MESH"; obj_data := "Cube" |};
        {| obj_name := "Camera"; obj_type := "CAMERA";
           obj_data := "Camera" |};
        {| obj_name := "Light"; obj_type := "LIGHT"; obj_data := "Light" |}];
     data_meshes := [{| mesh_name := "Cube"; mesh_geometry := bmesh_new |}];
     scene_children := ["Collection"%string];
     scene_objects := [] |}.

(** A scene whose camera was renamed to 20x20 by the user. *)
Definition renamed_camera_scene : Document :=
  {| data_collections :=
       [{| col_name := "Collection"; col_children := [];
           col_objects := ["20x20"%string] |}];
     data_objects :=
       [{| obj_name := "20x20"; obj_type := "CAMERA";
           obj_data := "Camera" |}];
     data_meshes := [];
     scene_children := ["Collection"%string];
     scene_objects := [] |}.

(** A hand-built document with one width collection and one leaf. *)
Definition one_leaf_scene : Document :=
  {| data_collections :=
       [{| col_name := "20"; col_children := ["20x40"%string];
           col_objects := [] |};
        {| col_name := "20x40"; col_children := [];
           col_objects := ["20x40"; "UCX_20x40"]%string |}];
     data_objects :=
       [{| obj_name := "20x40"; obj_type := "MESH"; obj_data := "20x40" |};
        {| obj_name := "UCX_20x40"; obj_type := "MESH";
           obj_data := "UCX_20x40" |}];
     data_meshes :=
       [{| mesh_name := "20x40";
           mesh_geometry := plane_geometry settings (2 # 10) (4 # 10) |};
        {| mesh_name := "UCX_20x40";
           mesh_geometry := simple_plane (2 # 10) (4 # 10) |}];
     scene_children := ["20"%string];
     scene_objects := [] |}.

(** The same leaf with the proxy linked before the primary mesh. *)
Definition reversed_leaf_scene : Document :=
  {| data_collections :=
       [{| col_name := "20"; col_children := ["20x40"%string];
           col_objects := [] |};
        {| col_name := "20x40"; col_children := [];
           col_objects := ["UCX_20x40"; "20x40"]%string |}];
     data_objects := data_objects one_leaf_scene;
     data_meshes := data_meshes one_leaf_scene;
     scene_children := ["20"%string];
     scene_objects := [] |}.

(** A host that has run nothing yet. *)
Definition host_of (D : Document) (fs : list string) : Host :=
  {| doc := D; active_layer_collection := SceneCollection;
     active_object := None; files := fs; stdout := []; fbx_calls := [] |}.

(** An operating system on which every call succeeds. *)
Definition willing_os : Os :=
  {| sep := "/"; makedirs_error := fun _ => false;
     remove_error := fun _ => None; export_error := fun _ => false |}.

(** An operating system that refuses to delete any file. *)
Definition read_only_os : Os :=
  {| sep := "/"; makedirs_error := fun _ => false;
     remove_error := fun _ => Some "Permission denied"%string;
     export_error := fun _ => false |}.

(** The layer collection of [c] in the view layer of [D], if any. *)
Definition layer_of (D : Document) (c : string) : LayerCollection :=
  match find_layer_collection (view_layer_root D) (DataCollection c) with
  | Some t => t
  | None => view_layer_root D
  end.

(** A host holding [one_leaf_scene] and an export of an earlier run. *)
Definition one_leaf_host : Host :=
  host_of one_leaf_scene
    [export_path_of settings read_only_os "20" "40" "20x40"].

(** ** The triangles of the grid *)

(** The two triangles of the cell whose bottom-left vertex has index [a],
    in a vertex table with rows of [m] vertices: bottom-left, bottom-right,
    top-left; then bottom-right, top-right, top-left. *)
Definition cell_tris (m a : nat) : list (list nat) :=
  [[a; a + 1; a + m]; [a + 1; a + m + 1; a + m]]%nat.

(** The triangles of [n_y] rows of [n_x] cells, row by row. *)
Definition row_tris (m n_x j : nat) : list (list nat) :=
  flat_map (fun i => cell_tris m (j * m + i)) (seq 0 n_x).

Definition grid_tris (m n_y n_x : nat) : list (list nat) :=
  flat_map (row_tris m n_x) (seq 0 n_y).

(** ** Positions *)

Definition vec3_eq (p q : vec3) : Prop :=
  (fst (fst p) == fst (fst q) /\ snd (fst p) == snd (fst q)
   /\ snd p == snd q)%Q.

(** [p] is, up to the representation of rationals, a vertex of [bm]. *)
Definition has_vertex (bm : BMesh) (p : vec3) : Prop :=
  exists q, In q (bm_verts bm) /\ vec3_eq q p.

(** [p] lies in the rectangle of the given size around the origin, in the
    plane z = 0. *)
Definition in_rectangle (width height : Q) (p : vec3) : Prop :=
  (- width / 2 <= fst (fst p) <= width / 2
   /\ - height / 2 <= snd (fst p) <= height / 2
   /\ snd p == 0)%Q.

(** ** The view layer, flattened *)

(** The layer collections of a tree in depth-first order, parents first. *)
Fixpoint layer_nodes (lc : LayerCollection) : list LayerCollection :=
  match lc with
  | LayerColl _ children => lc :: flat_map layer_nodes children
  end.

(** ** The export loops on the generated hierarchy *)

Definition export_dir_of (cfg : Settings) (os : Os)
  (width_cm height_cm : string) : string :=
  path_join (sep os) (path_join (sep os) (EXPORT_BASE_DIR cfg) width_cm)
    height_cm.

(** Directory and file of the size pair (w, h). *)
Definition export_leaf (cfg : Settings) (os : Os) (w h : Z)
  : string * string :=
  (export_dir_of cfg os (str w) (str h),
   export_path_of cfg os (str w) (str h) (subcol_name_of w h)).

(** The leaves of one width group, heights ascending, and of all width
    groups, widths ascending. *)
Definition width_leaves (cfg : Settings) (os : Os) (w : Z)
  : list (string * string) :=
  map (export_leaf cfg os w) (sorted_sizes (PLANE_SIZES_CM cfg)).

Definition export_leaves (cfg : Settings) (os : Os)
  : list (string * string) :=
  flat_map (width_leaves cfg os) (sorted_sizes (PLANE_SIZES_CM cfg)).

(** How the loops end on the leaves [l]: at the first directory that cannot
    be made, at the first export that raises, or normally. *)
Fixpoint export_outcome (os : Os) (l : list (string * string))
  : result unit :=
  match l with
  | [] => Ok tt
  | (d, p) :: l' =>
      if makedirs_error os d then Raise OSError
      else if export_error os p then Raise RuntimeError
      else export_outcome os l'
  end.

(** The paths handed to the exporter until then. *)
Fixpoint calls_made (os : Os) (l : list (string * string)) : list string :=
  match l with
  | [] => []
  | (d, p) :: l' =>
      if makedirs_error os d then []
      else p :: (if export_error os p then [] else calls_made os l')
  end.

(** No file of [h] is missing in [h'], and the files [ps] are there. *)
Definition files_grow (ps : list string) (h h' : Host) : Prop :=
  (forall q, In q (files h) -> In q (files h'))
  /\ (forall p, In p ps -> In p (files h')).

(** ** Orientation *)

(** The vertex of [bm] with index [v]. *)
Definition vertex (bm : BMesh) (v : nat) : vec3 := nth v (bm_verts bm) (0, 0, 0)%Q.

(** Twice the signed area of the triangle (p, q, r) seen from +Z: positive
    when the corners run counter-clockwise. *)
Definition cross_z (p q r : vec3) : Q :=
  ((fst (fst q) - fst (fst p)) * (snd (fst r) - snd (fst p))
   - (snd (fst q) - snd (fst p)) * (fst (fst r) - fst (fst p)))%Q.

(** ** Other settings *)

(** The settings with a subdivision size of zero. *)
Definition zero_step_settings : Settings :=
  {| PLANE_SUBDIVISION_SIZE := 0;
     EXPORT_BASE_DIR := EXPORT_BASE_DIR settings;
     PLANE_SIZES_CM := PLANE_SIZES_CM settings;
     EXPORT_TO_FBX := EXPORT_TO_FBX settings |}.

(** The settings with the export switched off. *)
Definition no_export_settings : Settings :=
  {| PLANE_SUBDIVISION_SIZE := PLANE_SUBDIVISION_SIZE settings;
     EXPORT_BASE_DIR := EXPORT_BASE_DIR settings;
     PLANE_SIZES_CM := PLANE_SIZES_CM settings;
     EXPORT_TO_FBX := false |}.

(** ** Names within ASCII *)

(** A name without a character beyond ASCII.  On such a name [isdigit] is
    Python's [str.isdigit]; beyond ASCII Python knows further digits. *)
Definition ascii_name (s : string) : bool :=
  forallb (fun c => (nat_of_ascii c <? 128)%nat) (list_ascii_of_string s).

Definition ascii_names (l : list string) : bool := forallb ascii_name l.

(** * Rounding *)

Lemma py_round_comp (q q' : Q) : (q == q')%Q -> py_round q = py_round q'.
Proof.
  intros E. unfold py_round.
  rewrite (Qfloor_comp _ _ E).
  assert (H : ((q - inject_Z (Qfloor q') ?= 1 # 2) = (q' - inject_Z (Qfloor q') ?= 1 # 2))%Q).
  { apply Qcompare_comp; [rewrite E|]; reflexivity. }
  rewrite H. reflexivity.
Qed.

Lemma py_round_cases (q : Q) :
  (py_round q = Qfloor q /\ (q - inject_Z (Qfloor q) <= 1 # 2)%Q) \/
  (py_round q = Qfloor q + 1 /\ (1 # 2 <= q - inject_Z (Qfloor q))%Q).
Proof.
  unfold py_round.
  destruct (q - inject_Z (Qfloor q) ?= 1 # 2)%Q eqn:E.
  - apply Qeq_alt in E. destruct (Z.even (Qfloor q)); [left | right]; split; auto; rewrite E; apply Qle_refl.
  - apply Qlt_alt in E. left; split; auto. apply Qlt_le_weak; exact E.
  - apply Qgt_alt in E. right; split; auto. apply Qlt_le_weak; exact E.
Qed.

Lemma py_round_nearest (q : Q) :
  (q - (1 # 2) <= inject_Z (py_round q) <= q + (1 # 2))%Q.
Proof.
  pose proof (Qfloor_le q) as Hl. pose proof (Qlt_floor q) as Hu.
  rewrite inject_Z_plus in Hu. change (inject_Z 1) with 1%Q in Hu.
  destruct (py_round_cases q) as [[-> H] | [-> H]].
  - split; lra.
  - rewrite inject_Z_plus. change (inject_Z 1) with 1%Q. split; lra.
Qed.

Lemma py_round_nonneg (q : Q) : (0 <= q)%Q -> 0 <= py_round q.
Proof.
  intros H. assert (0 <= Qfloor q).
  { change 0 with (Qfloor 0). apply Qfloor_resp_le; exact H. }
  destruct (py_round_cases q) as [[-> _] | [-> _]]; lia.
Qed.

Lemma py_round_nonpos (q : Q) : (q <= 0)%Q -> py_round q <= 0.
Proof.
  intros H. pose proof (py_round_nearest q) as [_ Hu].
  assert (Hlt : (inject_Z (py_round q) < inject_Z 1)%Q) by (change (inject_Z 1) with 1%Q; lra).
  rewrite <- Zlt_Qlt in Hlt. lia.
Qed.

Lemma py_round_inject_Z (z : Z) : py_round (inject_Z z) = z.
Proof.
  unfold py_round. rewrite Qfloor_Z.
  assert (E : (inject_Z z - inject_Z z ?= 1 # 2)%Q = Lt).
  { assert (H : (inject_Z z - inject_Z z < 1 # 2)%Q) by lra.
    apply Qlt_alt in H. exact H. }
  rewrite E. reflexivity.
Qed.

(** * Binary floating point *)

Lemma pow2_pos (e : Z) : (0 < pow2 e)%Q.
Proof. unfold pow2. apply Qpower_0_lt. reflexivity. Qed.

Lemma pow2_add (a b : Z) : (pow2 (a + b) == pow2 a * pow2 b)%Q.
Proof. unfold pow2. apply Qpower_plus. discriminate. Qed.

Lemma pow2_Z (n : Z) : 0 <= n -> (pow2 n == inject_Z (2 ^ n))%Q.
Proof.
  intros H. unfold pow2. rewrite Zpower_Qpower by exact H. reflexivity.
Qed.

Lemma pow2_sub (a b : Z) : (pow2 (a - b) == pow2 a / pow2 b)%Q.
Proof. unfold pow2. apply Qpower_minus. discriminate. Qed.

Lemma pow2_le (a b : Z) : a <= b -> (pow2 a <= pow2 b)%Q.
Proof.
  intros H. unfold pow2. apply Qpower_le_compat_l; [exact H|]. discriminate.
Qed.

(** The leading bit: [2 ^ ilog2 q <= q]. *)
Lemma ilog2_le (q : Q) : (0 < q)%Q -> (pow2 (ilog2 q) <= q)%Q.
Proof.
  intros Hq. unfold ilog2.
  set (k := Z.log2 (Qnum q) - Z.log2 (Z.pos (Qden q))).
  destruct (Qle_bool (pow2 k) q) eqn:E; [apply Qle_bool_iff; exact E|].
  destruct q as [n d]. cbn [Qnum Qden] in k.
  assert (Hn : 0 < n).
  { unfold Qlt in Hq. cbn in Hq. lia. }
  destruct (Z.log2_spec n Hn) as [Hn1 _].
  destruct (Z.log2_spec (Z.pos d) (Pos2Z.is_pos d)) as [_ Hd2].
  pose proof (Z.log2_nonneg n) as Ln.
  pose proof (Z.log2_nonneg (Z.pos d)) as Ld.
  replace (k - 1) with (Z.log2 n - Z.succ (Z.log2 (Z.pos d))) by (subst k; lia).
  rewrite pow2_sub, !pow2_Z by lia.
  apply Qle_shift_div_r.
  - change 0%Q with (inject_Z 0). rewrite <- Zlt_Qlt. lia.
  - unfold Qle, Qmult, inject_Z. cbn [Qnum Qden].
    rewrite !Z.mul_1_r, Pos.mul_1_r.
    apply Z.le_trans with (n * Z.pos d); [|nia].
    apply Z.mul_le_mono_nonneg; lia.
Qed.

Lemma Qabs_pos_eq (q : Q) : (0 < q)%Q -> Qabs q = q.
Proof.
  destruct q as [[|p|p] d]; unfold Qlt; cbn; intros H;
    [lia | reflexivity | lia].
Qed.

Lemma Qabs_neg_eq (q : Q) : (q < 0)%Q -> Qabs q = (- q)%Q.
Proof.
  destruct q as [[|p|p] d]; unfold Qlt; cbn; intros H;
    [lia | lia | reflexivity].
Qed.

Lemma Qeq_bool_pos (q : Q) : (0 < q)%Q -> Qeq_bool q 0 = false.
Proof.
  intros H. destruct (Qeq_bool q 0) eqn:E; [|reflexivity].
  apply Qeq_bool_iff in E. rewrite E in H. discriminate H.
Qed.

Lemma Qeq_bool_neg (q : Q) : (q < 0)%Q -> Qeq_bool q 0 = false.
Proof.
  intros H. destruct (Qeq_bool q 0) eqn:E; [|reflexivity].
  apply Qeq_bool_iff in E. rewrite E in H. discriminate H.
Qed.

(** A positive number is rounded with a relative error of at most 2^-53. *)
Lemma fl53_pos (q : Q) :
  (0 < q)%Q ->
  (q * (1 - (1 # 2 ^ 53)) <= fl53 q <= q * (1 + (1 # 2 ^ 53)))%Q.
Proof.
  intros Hq. unfold fl53.
  rewrite (Qeq_bool_pos q Hq), (Qabs_pos_eq q Hq).
  assert (H0 : Qle_bool 0 q = true)
    by (apply Qle_bool_iff; apply Qlt_le_weak; exact Hq).
  rewrite H0.
  set (e := ilog2 q - 52).
  pose proof (pow2_pos e) as HP.
  pose proof (ilog2_le q Hq) as Hl.
  replace (ilog2 q) with (52 + e) in Hl by (subst e; lia).
  rewrite pow2_add in Hl.
  assert (E52 : (pow2 52 == inject_Z (2 ^ 52))%Q) by (apply pow2_Z; lia).
  rewrite E52 in Hl.
  pose proof (py_round_nearest (q / pow2 e)) as [Hm1 Hm2].
  set (m := inject_Z (py_round (q / pow2 e))) in *.
  set (P := pow2 e) in *.
  assert (Eq : (q == q / P * P)%Q).
  { field. intros E. rewrite E in HP. discriminate HP. }
  set (s := (q / P)%Q) in *.
  assert (Hs : (inject_Z (2 ^ 52) <= s)%Q).
  { apply Qmult_le_r with P; [exact HP|]. rewrite <- Eq. exact Hl. }
  assert (Hu : ((1 # 2) * P <= q * (1 # 2 ^ 53))%Q).
  { rewrite Eq.
    assert (H1 : (1 # 2 == inject_Z (2 ^ 52) * (1 # 2 ^ 53))%Q) by reflexivity.
    rewrite H1.
    assert (H2 : (inject_Z (2 ^ 52) * (1 # 2 ^ 53) * P
                  == inject_Z (2 ^ 52) * P * (1 # 2 ^ 53))%Q) by ring.
    rewrite H2. apply Qmult_le_compat_r; [|discriminate].
    apply Qmult_le_compat_r; [exact Hs | apply Qlt_le_weak; exact HP]. }
  assert (Hm1' : ((s - (1 # 2)) * P <= m * P)%Q)
    by (apply Qmult_le_compat_r; [exact Hm1 | apply Qlt_le_weak; exact HP]).
  assert (Hm2' : (m * P <= (s + (1 # 2)) * P)%Q)
    by (apply Qmult_le_compat_r; [exact Hm2 | apply Qlt_le_weak; exact HP]).
  assert (E1 : ((s - (1 # 2)) * P == q - (1 # 2) * P)%Q)
    by (rewrite Eq; ring).
  assert (E2 : ((s + (1 # 2)) * P == q + (1 # 2) * P)%Q)
    by (rewrite Eq; ring).
  rewrite E1 in Hm1'. rewrite E2 in Hm2'.
  split.
  - apply Qle_trans with (q - (1 # 2) * P)%Q; [|exact Hm1'].
    assert (E3 : (q * (1 - (1 # 2 ^ 53)) == q - q * (1 # 2 ^ 53))%Q) by ring.
    rewrite E3. apply Qplus_le_r. apply Qopp_le_compat. exact Hu.
  - apply Qle_trans with (q + (1 # 2) * P)%Q; [exact Hm2'|].
    assert (E3 : (q * (1 + (1 # 2 ^ 53)) == q + q * (1 # 2 ^ 53))%Q) by ring.
    rewrite E3. apply Qplus_le_r. exact Hu.
Qed.

Lemma fl53_zero (q : Q) : (q == 0)%Q -> fl53 q = 0%Q.
Proof.
  intros E. unfold fl53. apply Qeq_bool_iff in E. rewrite E. reflexivity.
Qed.

Lemma fl53_gt_0 (q : Q) : (0 < q)%Q -> (0 < fl53 q)%Q.
Proof.
  intros Hq. destruct (fl53_pos q Hq) as [H _].
  apply Qlt_le_trans with (q * (1 - (1 # 2 ^ 53)))%Q; [|exact H].
  apply Qmult_lt_0_compat; [exact Hq | reflexivity].
Qed.

Lemma fl53_opp (q : Q) : (q < 0)%Q -> (fl53 q == - fl53 (- q))%Q.
Proof.
  intros Hq.
  assert (Hq' : (0 < - q)%Q) by lra.
  unfold fl53.
  rewrite (Qeq_bool_neg q Hq), (Qeq_bool_pos _ Hq'), (Qabs_neg_eq q Hq),
    (Qabs_pos_eq _ Hq').
  assert (H0 : Qle_bool 0 q = false).
  { destruct (Qle_bool 0 q) eqn:E; [|reflexivity].
    apply Qle_bool_iff in E. lra. }
  assert (H1 : Qle_bool 0 (- q) = true) by (apply Qle_bool_iff; lra).
  rewrite H0, H1. ring.
Qed.

Lemma fl53_lt_0 (q : Q) : (q < 0)%Q -> (fl53 q < 0)%Q.
Proof.
  intros Hq. rewrite (fl53_opp q Hq).
  assert (H : (0 < fl53 (- q))%Q) by (apply fl53_gt_0; lra).
  lra.
Qed.

Lemma fl53_nonzero (q : Q) : ~ (q == 0)%Q -> ~ (fl53 q == 0)%Q.
Proof.
  intros Hq E. destruct (Qlt_le_dec 0 q) as [H|H].
  - pose proof (fl53_gt_0 q H). lra.
  - assert (H' : (q < 0)%Q).
    { apply Qle_lt_or_eq in H. destruct H as [H|H]; [exact H|].
      contradiction. }
    pose proof (fl53_lt_0 q H'). lra.
Qed.

Lemma float_div_ok (a b : Q) :
  ~ (b == 0)%Q -> float_div a b = Ok (float_quot a b).
Proof.
  intros H. unfold float_div.
  destruct (Qeq_bool b 0) eqn:E; [|reflexivity].
  apply Qeq_bool_iff in E. contradiction.
Qed.

(** The sign of the quotient. *)
Lemma float_quot_pos (a b : Q) :
  (0 < a)%Q -> (0 < b)%Q -> (0 < float_quot a b)%Q.
Proof.
  intros Ha Hb. unfold float_quot. apply fl53_gt_0.
  apply Qlt_shift_div_l; [apply fl53_gt_0; exact Hb|].
  rewrite Qmult_0_l. apply fl53_gt_0. exact Ha.
Qed.

Lemma float_quot_zero (a b : Q) : (a == 0)%Q -> float_quot a b = 0%Q.
Proof.
  intros Ha. unfold float_quot. rewrite (fl53_zero a Ha).
  apply fl53_zero. unfold Qdiv. apply Qmult_0_l.
Qed.

Lemma float_quot_nonpos (a b : Q) :
  (a <= 0)%Q -> (0 < b)%Q -> (float_quot a b <= 0)%Q.
Proof.
  intros Ha Hb. apply Qle_lt_or_eq in Ha. destruct Ha as [Ha|Ha].
  - unfold float_quot. apply Qlt_le_weak. apply fl53_lt_0.
    pose proof (fl53_lt_0 a Ha) as H1. pose proof (fl53_gt_0 b Hb) as H2.
    apply Qlt_shift_div_r; [exact H2|]. rewrite Qmult_0_l. exact H1.
  - rewrite (float_quot_zero a b Ha). apply Qle_refl.
Qed.

(** The quotient of two positive numbers is off by at most 2^-51 of its
    value: the two operands and the result are rounded once each. *)
Lemma float_quot_bounds (a b : Q) :
  (0 < a)%Q -> (0 < b)%Q ->
  (a / b * (1 - (1 # 2 ^ 51)) <= float_quot a b
   <= a / b * (1 + (1 # 2 ^ 51)))%Q.
Proof.
  intros Ha Hb.
  pose proof (fl53_pos a Ha) as [Ha1 Ha2].
  pose proof (fl53_pos b Hb) as [Hb1 Hb2].
  pose proof (fl53_gt_0 a Ha) as Hx. pose proof (fl53_gt_0 b Hb) as Hy.
  set (x := fl53 a) in *. set (y := fl53 b) in *.
  assert (Hxy : (0 < x / y)%Q).
  { apply Qlt_shift_div_l; [exact Hy|]. rewrite Qmult_0_l. exact Hx. }
  pose proof (fl53_pos (x / y) Hxy) as [Hz1 Hz2].
  unfold float_quot. fold x y.
  set (z := fl53 (x / y)) in *.
  set (u := (1 # 2 ^ 53)%Q) in *.
  assert (Hab : (0 < a / b)%Q).
  { apply Qlt_shift_div_l; [exact Hb|]. rewrite Qmult_0_l. exact Ha. }
  assert (Hb' : ~ (b == 0)%Q) by (intros E; rewrite E in Hb; discriminate Hb).
  (* x / y lies between a/b * (1-u)/(1+u) and a/b * (1+u)/(1-u) *)
  assert (Hlo : (a / b * ((1 - u) / (1 + u)) <= x / y)%Q).
  { apply Qle_shift_div_l; [exact Hy|].
    apply Qle_trans with (a / b * ((1 - u) / (1 + u)) * (b * (1 + u)))%Q.
    - apply Qmult_le_l; [|exact Hb2].
      apply Qmult_lt_0_compat; [exact Hab | reflexivity].
    - assert (E : (a / b * ((1 - u) / (1 + u)) * (b * (1 + u))
                   == a * (1 - u))%Q).
      { field. split; [discriminate | exact Hb']. }
      rewrite E. exact Ha1. }
  assert (Hhi : (x / y <= a / b * ((1 + u) / (1 - u)))%Q).
  { apply Qle_shift_div_r; [exact Hy|].
    apply Qle_trans with (a / b * ((1 + u) / (1 - u)) * (b * (1 - u)))%Q.
    - assert (E : (a / b * ((1 + u) / (1 - u)) * (b * (1 - u))
                   == a * (1 + u))%Q).
      { field. split; [discriminate | exact Hb']. }
      rewrite E. exact Ha2.
    - apply Qmult_le_l; [|exact Hb1].
      apply Qmult_lt_0_compat; [exact Hab | reflexivity]. }
  split.
  - apply Qle_trans with (x / y * (1 - u))%Q; [|exact Hz1].
    apply Qle_trans with (a / b * ((1 - u) / (1 + u)) * (1 - u))%Q.
    + rewrite <- Qmult_assoc. apply Qmult_le_l; [exact Hab|]. discriminate.
    + apply Qmult_le_compat_r; [exact Hlo | discriminate].
  - apply Qle_trans with (x / y * (1 + u))%Q; [exact Hz2|].
    apply Qle_trans with (a / b * ((1 + u) / (1 - u)) * (1 + u))%Q.
    + apply Qmult_le_compat_r; [exact Hhi | discriminate].
    + rewrite <- Qmult_assoc. apply Qmult_le_l; [exact Hab|]. discriminate.
Qed.

Lemma py_round_unique (q : Q) (a : Z) :
  (inject_Z a - (1 # 2) < q < inject_Z a + (1 # 2))%Q -> py_round q = a.
Proof.
  intros [H1 H2]. pose proof (py_round_nearest q) as [H3 H4].
  assert (L : (inject_Z (py_round q) < inject_Z (a + 1))%Q).
  { rewrite inject_Z_plus. change (inject_Z 1) with 1%Q. lra. }
  assert (U : (inject_Z a < inject_Z (py_round q + 1))%Q).
  { rewrite inject_Z_plus. change (inject_Z 1) with 1%Q. lra. }
  rewrite <- Zlt_Qlt in L, U. lia.
Qed.

(** A length of [a] whole steps, [a] below 2^50, gives [a] cells: the
    rounding errors of the division stay below one half. *)
Lemma float_quot_multiple (len step : Q) (a : Z) :
  (0 < step)%Q -> 1 <= a < 2 ^ 50 -> (len == inject_Z a * step)%Q ->
  py_round (float_quot len step) = a.
Proof.
  intros Hs Ha E.
  assert (Ha1 : (1 <= inject_Z a)%Q)
    by (change 1%Q with (inject_Z 1); rewrite <- Zle_Qle; lia).
  assert (Ha2 : (inject_Z a < inject_Z (2 ^ 50))%Q)
    by (rewrite <- Zlt_Qlt; lia).
  assert (Hl : (0 < len)%Q).
  { rewrite E. apply Qmult_lt_0_compat; [lra | exact Hs]. }
  pose proof (float_quot_bounds len step Hl Hs) as [B1 B2].
  assert (Eq : (len / step == inject_Z a)%Q).
  { rewrite E. field. intros E0. rewrite E0 in Hs. discriminate Hs. }
  rewrite Eq in B1, B2.
  apply py_round_unique.
  assert (Hu : (inject_Z a * (1 # 2 ^ 51) < 1 # 2)%Q).
  { apply Qlt_le_trans with (inject_Z (2 ^ 50) * (1 # 2 ^ 51))%Q;
      [|discriminate].
    apply Qmult_lt_compat_r; [reflexivity | exact Ha2]. }
  assert (E1 : (inject_Z a * (1 - (1 # 2 ^ 51))
                == inject_Z a - inject_Z a * (1 # 2 ^ 51))%Q) by ring.
  assert (E2 : (inject_Z a * (1 + (1 # 2 ^ 51))
                == inject_Z a + inject_Z a * (1 # 2 ^ 51))%Q) by ring.
  rewrite E1 in B1. rewrite E2 in B2.
  set (t := (inject_Z a * (1 # 2 ^ 51))%Q) in *.
  split; lra.
Qed.

(** * Ranges and the error monad *)

Lemma range_length (n : Z) : length (range n) = Z.to_nat n.
Proof. unfold range. rewrite length_map, length_seq. reflexivity. Qed.

Lemma In_range (n x : Z) : In x (range n) <-> 0 <= x < n.
Proof.
  unfold range. rewrite in_map_iff. split.
  - intros [i [<- Hi]]. apply in_seq in Hi. lia.
  - intros H. exists (Z.to_nat x). split; [lia | apply in_seq; lia].
Qed.

Lemma range_nil (n : Z) : n <= 0 -> range n = [].
Proof.
  intros H. unfold range. replace (Z.to_nat n) with O by lia. reflexivity.
Qed.

Lemma getitem_nth {A : Type} (l : list A) (i : nat) (a : A) :
  nth_error l i = Some a -> getitem l (Z.of_nat i) = Ok a.
Proof.
  intros H. unfold getitem.
  assert (E : (Z.of_nat i <? 0) = false) by (apply Z.ltb_ge; lia).
  cbv zeta. rewrite !E, Nat2Z.id, H. reflexivity.
Qed.

Lemma foreach_inv {A S : Type} (I : S -> Prop) (l : list A)
  (body : A -> S -> result S) :
  (forall a s, In a l -> I s -> exists s', body a s = Ok s' /\ I s') ->
  forall s, I s -> exists s', foreach l body s = Ok s' /\ I s'.
Proof.
  induction l as [|a l IH]; intros Hb s Hs; simpl.
  - exists s. split; [reflexivity | exact Hs].
  - destruct (Hb a s (or_introl eq_refl) Hs) as [s1 [E1 H1]].
    rewrite E1. simpl. apply IH; [|exact H1].
    intros a' s' Ha'. apply Hb. right. exact Ha'.
Qed.


Lemma new_row_spec (step width height : Q) (y : Z) (xs : list Z) (bm : BMesh) :
  new_row step width height y xs bm =
  (map (fun i => length (bm_verts bm) + i)%nat (seq 0 (length xs)),
   {| bm_verts := bm_verts bm ++ map (grid_co step width height y) xs;
      bm_faces := bm_faces bm |}).
Proof.
  revert bm. induction xs as [|x xs IH]; intros bm; simpl.
  - rewrite app_nil_r. destruct bm; reflexivity.
  - rewrite IH. simpl. f_equal.
    + f_equal; [lia|]. rewrite <- seq_shift, map_map.
      apply map_ext. intros i. rewrite length_app. simpl. lia.
    + rewrite <- app_assoc. reflexivity.
Qed.

Lemma new_grid_spec (step width height : Q) (n_x : Z) (ys : list Z)
  (bm : BMesh) :
  new_grid step width height n_x ys bm =
  (map (fun j => map (fun i => length (bm_verts bm)
                               + j * length (range (n_x + 1)) + i)%nat
                  (seq 0 (length (range (n_x + 1)))))
       (seq 0 (length ys)),
   {| bm_verts := bm_verts bm ++ grid_verts step width height n_x ys;
      bm_faces := bm_faces bm |}).
Proof.
  revert bm. induction ys as [|y ys IH]; intros bm; simpl.
  - rewrite app_nil_r. destruct bm; reflexivity.
  - rewrite new_row_spec, IH. simpl. f_equal.
    + f_equal.
      * apply map_ext. intros i. lia.
      * rewrite <- seq_shift, map_map. apply map_ext. intros j.
        apply map_ext. intros i. rewrite length_app, length_map. lia.
    + rewrite <- app_assoc. reflexivity.
Qed.

Lemma grid_verts_length (step width height : Q) (n_x : Z) (ys : list Z) :
  length (grid_verts step width height n_x ys)
  = (length ys * Z.to_nat (n_x + 1))%nat.
Proof.
  unfold grid_verts. induction ys as [|y ys IH]; simpl; [reflexivity|].
  rewrite length_app, length_map, range_length, IH. reflexivity.
Qed.

Lemma grid_rows_nth (base m k j i : nat) :
  (j < k)%nat -> (i < m)%nat ->
  exists row, nth_error (grid_rows base m k) j = Some row
              /\ nth_error row i = Some (base + j * m + i)%nat.
Proof.
  intros Hj Hi. unfold grid_rows.
  exists (map (fun i => base + j * m + i)%nat (seq 0 m)). split.
  - rewrite nth_error_map, nth_error_seq.
    destruct (Nat.ltb_spec j k); [reflexivity | lia].
  - rewrite nth_error_map, nth_error_seq.
    destruct (Nat.ltb_spec i m); [reflexivity | lia].
Qed.


Lemma py_div_ok (a b : Q) : ~ (b == 0)%Q -> py_div a b = Ok (a / b)%Q.
Proof.
  intros H. unfold py_div. destruct (Qeq_bool b 0) eqn:E; [|reflexivity].
  apply Qeq_bool_iff in E. contradiction.
Qed.

Lemma Forall_set_nth {A : Type} (P : A -> Prop) (i : nat) (a : A) (l : list A) :
  Forall P l -> P a -> Forall P (set_nth i a l).
Proof.
  intros Hl Ha. revert i.
  induction Hl as [|x l Hx Hl IH]; intros i; destruct i; simpl;
    constructor; auto.
Qed.

Lemma find_face_Some (tri : list nat) (fs : list BMFace) (i k : nat) :
  find_face tri fs i = Some k ->
  exists f, nth_error fs (k - i) = Some f /\ (i <= k)%nat
            /\ same_verts tri (face_verts f) = true.
Proof.
  revert i. induction fs as [|f fs IH]; intros i H; simpl in H; [discriminate|].
  destruct (same_verts tri (face_verts f)) eqn:E.
  - injection H as <-. exists f. rewrite Nat.sub_diag. auto.
  - destruct (IH _ H) as [g [Hg [Hle Hs]]]. exists g.
    replace (k - i)%nat with (S (k - S i)) by lia. simpl. repeat split; auto. lia.
Qed.

Lemma set_nth_last {A : Type} (l : list A) (a b : A) :
  set_nth (length l) a (l ++ [b]) = l ++ [a].
Proof. induction l as [|x l IH]; simpl; [reflexivity | rewrite IH; reflexivity]. Qed.

Section FaceLoop.

Variables (min_x max_x min_y max_y : Q) (V : list vec3).
Hypothesis Hdx : ~ (max_x - min_x == 0)%Q.
Hypothesis Hdy : ~ (max_y - min_y == 0)%Q.



Lemma loop_uv_ok (bm : BMesh) (v : nat) :
  bm_verts bm = V -> (v < length V)%nat ->
  loop_uv bm min_x max_x min_y max_y v = Ok (uv_of min_x max_x min_y max_y V v).
Proof.
  intros HV Hv. unfold loop_uv, uv_of. rewrite HV.
  destruct (nth_error V v) as [co|] eqn:E.
  - rewrite (nth_error_nth _ _ _ E). destruct co as [[vx vy] vz].
    rewrite !py_div_ok by assumption. reflexivity.
  - apply nth_error_None in E. lia.
Qed.

Lemma loops_uv_ok (bm : BMesh) (vs : list nat) :
  bm_verts bm = V -> Forall (fun v => (v < length V)%nat) vs ->
  loops_uv bm min_x max_x min_y max_y vs = Ok (map (uv_of min_x max_x min_y max_y V) vs).
Proof.
  intros HV H. induction H as [|v vs Hv Hvs IH]; simpl; [reflexivity|].
  rewrite (loop_uv_ok _ _ HV Hv). simpl. rewrite IH. reflexivity.
Qed.

Lemma add_tri_ok (tri : list nat) (bm : BMesh) :
  mesh_inv min_x max_x min_y max_y V bm -> (3 <= length tri)%nat -> has_dup tri = false ->
  Forall (fun v => (v < length V)%nat) tri ->
  exists bm', add_tri min_x max_x min_y max_y tri bm = Ok bm' /\ mesh_inv min_x max_x min_y max_y V bm'.
Proof.
  intros [HV HF] Hlen Hdup Htri. unfold add_tri, faces_new, faces_get.
  assert (E3 : (length tri <? 3)%nat = false) by (apply Nat.ltb_ge; exact Hlen).
  rewrite E3, Hdup.
  destruct (find_face tri (bm_faces bm) 0) as [k|] eqn:Ef; simpl.
  - destruct (find_face_Some _ _ _ _ Ef) as [f [Hf _]].
    rewrite Nat.sub_0_r in Hf. rewrite Hf.
    assert (Hok : face_ok min_x max_x min_y max_y V f).
    { rewrite Forall_forall in HF. apply HF. eapply nth_error_In; eauto. }
    destruct Hok as [Hfv Hfu].
    rewrite (loops_uv_ok _ _ HV Hfv). simpl. eexists. split; [reflexivity|].
    split; simpl; [exact HV|]. apply Forall_set_nth; [exact HF|].
    split; simpl; auto.
  - rewrite nth_error_app2 by lia. rewrite Nat.sub_diag. simpl.
    rewrite loops_uv_ok; simpl; auto.
    eexists. split; [reflexivity|]. split; simpl; [exact HV|].
    rewrite set_nth_last. apply Forall_app. split; [exact HF|].
    constructor; [|constructor]. split; simpl; auto.
Qed.

Lemma add_tris_ok (tris : list (list nat)) (bm : BMesh) :
  mesh_inv min_x max_x min_y max_y V bm ->
  Forall (fun tri => (3 <= length tri)%nat /\ has_dup tri = false
                     /\ Forall (fun v => (v < length V)%nat) tri) tris ->
  exists bm', foreach tris (add_tri min_x max_x min_y max_y) bm = Ok bm'
              /\ mesh_inv min_x max_x min_y max_y V bm'.
Proof.
  intros Hbm Ht. apply foreach_inv; [|exact Hbm].
  intros tri s Hin Hs. rewrite Forall_forall in Ht.
  destruct (Ht _ Hin) as [H3 [Hd Hv]]. apply add_tri_ok; auto.
Qed.
End FaceLoop.

Lemma has_dup3 (a b c : nat) :
  a <> b -> a <> c -> b <> c -> has_dup [a; b; c] = false.
Proof.
  intros H1 H2 H3. simpl.
  apply Nat.eqb_neq in H1, H2, H3. rewrite H1, H2, H3. reflexivity.
Qed.

Lemma add_cell_ok (min_x max_x min_y max_y : Q) (V : list vec3) (m k : nat)
  (y x : Z) (bm : BMesh) :
  ~ (max_x - min_x == 0)%Q -> ~ (max_y - min_y == 0)%Q ->
  length V = (k * m)%nat ->
  0 <= y -> (Z.to_nat y + 1 < k)%nat -> 0 <= x -> (Z.to_nat x + 1 < m)%nat ->
  mesh_inv min_x max_x min_y max_y V bm ->
  exists bm',
    add_cell (grid_rows 0 m k) min_x max_x min_y max_y y x bm = Ok bm'
    /\ mesh_inv min_x max_x min_y max_y V bm'.
Proof.
  intros Hdx Hdy HV Hy Hyk Hx Hxm Hbm. unfold add_cell.
  set (j := Z.to_nat y). set (i := Z.to_nat x).
  replace y with (Z.of_nat j) by (subst j; lia).
  replace x with (Z.of_nat i) by (subst i; lia).
  replace (Z.of_nat j + 1) with (Z.of_nat (S j)) by lia.
  replace (Z.of_nat i + 1) with (Z.of_nat (S i)) by lia.
  destruct (grid_rows_nth 0 m k j i)
    as [r0 [Hr0 Hv0]]; [lia | lia |].
  destruct (grid_rows_nth 0 m k j (S i))
    as [r0' [Hr0' Hv1]]; [lia | lia |].
  destruct (grid_rows_nth 0 m k (S j) i)
    as [r1 [Hr1 Hv2]]; [lia | lia |].
  destruct (grid_rows_nth 0 m k (S j) (S i))
    as [r1' [Hr1' Hv3]]; [lia | lia |].
  assert (r0' = r0) as -> by congruence.
  assert (r1' = r1) as -> by congruence.
  rewrite (getitem_nth _ _ _ Hr0). cbn [bind].
  rewrite (getitem_nth _ _ _ Hv0). cbn [bind].
  rewrite (getitem_nth _ _ _ Hv1). cbn [bind].
  rewrite (getitem_nth _ _ _ Hr1). cbn [bind].
  rewrite (getitem_nth _ _ _ Hv2). cbn [bind].
  rewrite (getitem_nth _ _ _ Hv3). cbn [bind].
  apply add_tris_ok; auto.
  assert (Hb : forall a b, (a <= S j)%nat -> (b < m)%nat -> (a * m + b < length V)%nat).
  { intros a b Ha Hb. rewrite HV. nia. }
  repeat constructor; simpl; try lia; try (apply has_dup3; simpl; nia);
    try (apply Hb; lia).
  all: subst i j; rewrite HV; nia.
Qed.

(** The full tessellation returns a mesh: its vertex table is the grid and
    every loop carries the normalised position of its vertex. *)
Lemma subdivided_plane_spec (step width height : Q) :
  ~ (step == 0)%Q ->
  let n_x := py_round (float_quot width step) in
  let n_y := py_round (float_quot height step) in
  exists bm,
    subdivided_plane step width height = Ok bm
    /\ mesh_inv (- width / 2) (width / 2) (- height / 2) (height / 2)
         (grid_verts step width height n_x (range (n_y + 1))) bm.
Proof.
  intros Hs n_x n_y. unfold subdivided_plane.
  rewrite !float_div_ok by exact Hs. cbn [bind]. fold n_x n_y.
  rewrite new_grid_spec. cbn [bmesh_new bm_verts bm_faces app length Nat.add].
  set (V := grid_verts step width height n_x (range (n_y + 1))).
  apply foreach_inv; [|split; [reflexivity | constructor]].
  intros y bm Hy Hbm. apply foreach_inv; [|exact Hbm].
  intros x bm' Hx Hbm'. apply In_range in Hy, Hx.
  assert (Hw : ~ (width == 0)%Q).
  { intros E. assert (n_x = 0); [|lia]. subst n_x.
    rewrite (float_quot_zero width step E). reflexivity. }
  assert (Hh : ~ (height == 0)%Q).
  { intros E. assert (n_y = 0); [|lia]. subst n_y.
    rewrite (float_quot_zero height step E). reflexivity. }
  apply (add_cell_ok _ _ _ _ V (length (range (n_x + 1)))
           (length (range (n_y + 1)))); auto.
  - intros E. apply Hw. unfold Qdiv in E. change (/ 2)%Q with (1 # 2)%Q in E. lra.
  - intros E. apply Hh. unfold Qdiv in E. change (/ 2)%Q with (1 # 2)%Q in E. lra.
  - subst V. rewrite grid_verts_length, !range_length. reflexivity.
  - lia.
  - rewrite range_length. lia.
  - lia.
  - rewrite range_length. lia.
Qed.

(** * Names: digits, separators and unique suffixes *)

Lemma name_in_In (n : string) (l : list string) :
  name_in n l = true <-> In n l.
Proof.
  unfold name_in. rewrite existsb_exists. split.
  - intros [m [Hm E]]. apply String.eqb_eq in E. subst. exact Hm.
  - intros H. exists n. split; [exact H | apply String.eqb_refl].
Qed.

Lemma name_in_false (n : string) (l : list string) :
  name_in n l = false <-> ~ In n l.
Proof.
  rewrite <- name_in_In. destruct (name_in n l); split; congruence.
Qed.

Lemma append_nil_r (s : string) : (s ++ "")%string = s.
Proof. induction s as [|c s IH]; simpl; [reflexivity | rewrite IH; reflexivity]. Qed.

Lemma append_assoc (a b c : string) :
  ((a ++ b) ++ c)%string = (a ++ (b ++ c))%string.
Proof. induction a as [|x a IH]; simpl; [reflexivity | rewrite IH; reflexivity]. Qed.

Lemma append_inj_l (a b c : string) :
  (a ++ b)%string = (a ++ c)%string -> b = c.
Proof.
  induction a as [|x a IH]; simpl; intros H; [exact H|].
  injection H as H. exact (IH H).
Qed.

Lemma length_append (a b : string) :
  String.length (a ++ b) = (String.length a + String.length b)%nat.
Proof. induction a as [|x a IH]; simpl; [reflexivity | rewrite IH; reflexivity]. Qed.

Lemma NoDup_map_injective {A B : Type} (f : A -> B) (l : list A) :
  (forall a b, f a = f b -> a = b) -> NoDup l -> NoDup (map f l).
Proof.
  intros Hf H. induction H as [|x l Hx Hl IH]; simpl; constructor; auto.
  rewrite in_map_iff. intros [y [E Hy]]. apply Hf in E. subst. contradiction.
Qed.

Lemma uint_all_digits (d : Decimal.uint) :
  all_digits (NilEmpty.string_of_uint d) = true.
Proof. induction d; simpl; auto. Qed.

Lemma uint_no_x (d : Decimal.uint) :
  contains_char "x" (NilEmpty.string_of_uint d) = false.
Proof. induction d; simpl; auto. Qed.

Lemma nilzero_nonnil (d : Decimal.uint) :
  d <> Decimal.Nil -> NilZero.string_of_uint d = NilEmpty.string_of_uint d.
Proof. destruct d; simpl; congruence. Qed.

Lemma str_pos (p : positive) :
  str (Z.pos p) = NilEmpty.string_of_uint (Pos.to_uint p).
Proof.
  unfold str. simpl. apply nilzero_nonnil. apply Unsigned.to_uint_nonnil.
Qed.

Lemma str_nonneg_isdigit (n : Z) : 0 <= n -> isdigit (str n) = true.
Proof.
  intros H. destruct n as [|p|p]; [reflexivity | | lia].
  rewrite str_pos. pose proof (Unsigned.to_uint_nonnil p) as Hn.
  pose proof (uint_all_digits (Pos.to_uint p)) as Hd.
  destruct (Pos.to_uint p); simpl in *; congruence.
Qed.

Lemma str_no_x (n : Z) : contains_char "x" (str n) = false.
Proof.
  destruct n as [|p|p]; [reflexivity | rewrite str_pos; apply uint_no_x |].
  unfold str. simpl. rewrite nilzero_nonnil by apply Unsigned.to_uint_nonnil.
  apply uint_no_x.
Qed.

Lemma py_int_str (n : Z) : py_int (str n) = Ok n.
Proof.
  unfold py_int, str. rewrite NilZero.isi.
  - rewrite DecimalZ.of_to. reflexivity.
  - destruct n; simpl; try discriminate.
    intros H. injection H as H. exact (Unsigned.to_uint_nonnil _ H).
  - destruct n; simpl; try discriminate.
    intros H. injection H as H. exact (Unsigned.to_uint_nonnil _ H).
Qed.

Lemma str_inj (a b : Z) : str a = str b -> a = b.
Proof.
  intros H. pose proof (py_int_str a) as Ha. rewrite H, py_int_str in Ha.
  congruence.
Qed.

Lemma contains_char_append (c : ascii) (a b : string) :
  contains_char c (a ++ b) = contains_char c a || contains_char c b.
Proof.
  induction a as [|x a IH]; simpl; [reflexivity|].
  rewrite IH, orb_assoc. reflexivity.
Qed.

Lemma split_on_no_sep (c : ascii) (s : string) :
  contains_char c s = false -> split_on c s = [s].
Proof.
  induction s as [|x s IH]; simpl; intros H; [reflexivity|].
  apply orb_false_iff in H. destruct H as [H1 H2].
  rewrite H1, (IH H2). reflexivity.
Qed.

Lemma split_on_append (c : ascii) (a b : string) :
  contains_char c a = false ->
  split_on c (a ++ String c b) = a :: split_on c b.
Proof.
  induction a as [|x a IH]; simpl; intros H.
  - rewrite Ascii.eqb_refl. reflexivity.
  - apply orb_false_iff in H. destruct H as [H1 H2].
    rewrite H1, (IH H2). reflexivity.
Qed.

Lemma split_subcol_name (w h : Z) :
  split_on "x" (subcol_name_of w h) = [str w; str h].
Proof.
  unfold subcol_name_of. change ("x" ++ str h)%string with (String "x" (str h)).
  rewrite split_on_append by apply str_no_x.
  rewrite split_on_no_sep by apply str_no_x. reflexivity.
Qed.

Lemma subcol_name_inj (w h w' h' : Z) :
  subcol_name_of w h = subcol_name_of w' h' -> w = w' /\ h = h'.
Proof.
  intros H. pose proof (split_subcol_name w h) as E.
  rewrite H, split_subcol_name in E. injection E as E1 E2.
  split; apply str_inj; congruence.
Qed.

Lemma subcol_name_has_x (w h : Z) :
  contains_char "x" (subcol_name_of w h) = true.
Proof.
  unfold subcol_name_of. rewrite contains_char_append. simpl.
  apply orb_true_r.
Qed.

Lemma subcol_name_generated (w h : Z) :
  generated_name (subcol_name_of w h) = true.
Proof.
  unfold generated_name. rewrite subcol_name_has_x, orb_true_r. reflexivity.
Qed.

Lemma str_generated (n : Z) : 0 <= n -> generated_name (str n) = true.
Proof.
  intros H. unfold generated_name. rewrite str_nonneg_isdigit by exact H.
  reflexivity.
Qed.

Lemma subcol_name_not_str (w h n : Z) : subcol_name_of w h <> str n.
Proof.
  intros H. pose proof (subcol_name_has_x w h) as E.
  rewrite H, str_no_x in E. discriminate.
Qed.

Lemma alnum_key_subcol_name (w h : Z) :
  0 <= w -> 0 <= h ->
  alnum_key (subcol_name_of w h) = Ok [PInt w; PInt h].
Proof.
  intros Hw Hh. unfold alnum_key. rewrite split_subcol_name. simpl.
  rewrite !str_nonneg_isdigit, !py_int_str by assumption. reflexivity.
Qed.

(** ** Unique names *)

Lemma of_uint_D0 (d : Decimal.uint) :
  Nat.of_uint (Decimal.D0 d) = Nat.of_uint d.
Proof. reflexivity. Qed.

Lemma decode_nat_zero (s : string) :
  decode_nat (String "0" s) = decode_nat s.
Proof.
  unfold decode_nat. simpl.
  destruct (NilEmpty.uint_of_string s); reflexivity.
Qed.

Lemma decode_pad3 (k : nat) : decode_nat (pad3 k) = Some k.
Proof.
  assert (H : decode_nat (NilEmpty.string_of_uint (Nat.to_uint k)) = Some k).
  { unfold decode_nat. rewrite NilEmpty.usu. simpl.
    rewrite DecimalNat.Unsigned.of_to. reflexivity. }
  unfold pad3.
  destruct (String.length (NilEmpty.string_of_uint (Nat.to_uint k)))
    as [|[|[|n]]]; auto.
  - simpl. rewrite decode_nat_zero, decode_nat_zero. exact H.
  - simpl. rewrite decode_nat_zero. exact H.
Qed.

Lemma candidate_inj (n : string) (i j : nat) :
  candidate n i = candidate n j -> i = j.
Proof.
  unfold candidate. intros H. apply append_inj_l in H.
  apply append_inj_l in H.
  pose proof (decode_pad3 i) as E. rewrite H, decode_pad3 in E. congruence.
Qed.

Lemma candidate_neq (n : string) (k : nat) : candidate n k <> n.
Proof.
  unfold candidate. intros H.
  apply (f_equal String.length) in H. rewrite length_append in H.
  simpl in H. lia.
Qed.

Lemma first_free_spec (taken : list string) (n : string) (fuel k : nat) :
  exists j, first_free taken n k fuel = candidate n j
            /\ (name_in (candidate n j) taken = false
                \/ forall i, (k <= i < k + fuel)%nat ->
                             name_in (candidate n i) taken = true).
Proof.
  revert k. induction fuel as [|fuel IH]; intros k; simpl.
  - exists k. split; [reflexivity|]. right. intros i Hi. lia.
  - destruct (name_in (candidate n k) taken) eqn:E.
    + destruct (IH (S k)) as [j [Hj Hc]]. exists j. split; [exact Hj|].
      destruct Hc as [Hc|Hc]; [left; exact Hc|]. right. intros i Hi.
      destruct (Nat.eq_dec i k) as [->|Hne]; [exact E|]. apply Hc. lia.
    + exists k. split; [reflexivity|]. left. exact E.
Qed.

Lemma unique_name_not_taken (taken : list string) (n : string) :
  name_in n taken = false -> unique_name taken n = n.
Proof. intros H. unfold unique_name. rewrite H. reflexivity. Qed.

Lemma unique_name_fresh (taken : list string) (n : string) :
  name_in (unique_name taken n) taken = false.
Proof.
  unfold unique_name. destruct (name_in n taken) eqn:E; [|exact E].
  destruct (first_free_spec taken n (length taken) 1) as [j [-> [H|H]]];
    [exact H|]. exfalso.
  assert (Hn : NoDup (n :: map (candidate n) (seq 1 (length taken)))).
  { constructor.
    - rewrite in_map_iff. intros [i [Hi _]]. exact (candidate_neq n i Hi).
    - apply NoDup_map_injective; [|apply seq_NoDup].
      intros a b Hab. exact (candidate_inj _ _ _ Hab). }
  assert (Hi : incl (n :: map (candidate n) (seq 1 (length taken))) taken).
  { intros x [<-|Hx]; [apply name_in_In; exact E|].
    apply in_map_iff in Hx. destruct Hx as [i [<- Hi]].
    apply in_seq in Hi. apply name_in_In. apply H. lia. }
  pose proof (NoDup_incl_length Hn Hi) as Hl. simpl in Hl.
  rewrite length_map, length_seq in Hl. lia.
Qed.

Lemma unique_name_prefix (taken : list string) (n : string) :
  exists suffix, unique_name taken n = (n ++ suffix)%string.
Proof.
  unfold unique_name. destruct (name_in n taken).
  - destruct (first_free_spec taken n (length taken) 1) as [j [-> _]].
    unfold candidate. eexists. reflexivity.
  - exists ""%string. symmetry. apply append_nil_r.
Qed.

(** ** Order between a digit-led and a "U"-led name *)

Lemma digit_before_U (c : ascii) :
  is_digit_char c = true -> (c ?= "U")%char = Lt.
Proof.
  destruct c as [[] [] [] [] [] [] [] []]; simpl; intros H;
    try discriminate; reflexivity.
Qed.

Lemma isdigit_head (s : string) :
  isdigit s = true ->
  exists c s', s = String c s' /\ is_digit_char c = true.
Proof.
  destruct s as [|c s']; simpl; intros H; [discriminate|].
  apply andb_true_iff in H. exists c, s'. split; [reflexivity | apply H].
Qed.

(** * Cleanup *)

Lemma keep_names_id (ns l : list string) :
  (forall n, In n l -> ~ In n ns) -> keep_names ns l = l.
Proof.
  unfold keep_names. induction l as [|x l IH]; simpl; intros H;
    [reflexivity|].
  assert (E : name_in x ns = false) by (apply name_in_false; apply H; auto).
  rewrite E. simpl. rewrite IH; [reflexivity|].
  intros n Hn. apply H. right. exact Hn.
Qed.

Lemma keep_names_nil (l : list string) : keep_names [] l = l.
Proof. apply keep_names_id. intros n _ []. Qed.

Lemma keep_names_cons (n : string) (ns l : list string) :
  keep_names ns (remove_name n l) = keep_names (n :: ns) l.
Proof.
  unfold keep_names, remove_name, name_in.
  induction l as [|x l IH]; cbn [filter existsb]; [reflexivity|].
  destruct (String.eqb x n); cbn [negb orb filter]; rewrite IH; reflexivity.
Qed.

Lemma In_keep_names (ns l : list string) (n : string) :
  In n (keep_names ns l) <-> In n l /\ ~ In n ns.
Proof.
  unfold keep_names. rewrite filter_In, negb_true_iff, name_in_false.
  reflexivity.
Qed.

Lemma remove_objects_nil (D : Document) : remove_objects [] D = D.
Proof.
  destruct D as [cs os ms sc so]. unfold remove_objects. simpl. f_equal.
  - induction cs as [|c cs IH]; simpl; [reflexivity|].
    rewrite IH, keep_names_nil. destruct c; reflexivity.
  - induction os as [|o os IH]; simpl; [reflexivity|]. rewrite IH. reflexivity.
  - apply keep_names_nil.
Qed.

Lemma remove_objects_cons (n : string) (ns : list string) (D : Document) :
  remove_objects ns (objects_remove n D) = remove_objects (n :: ns) D.
Proof.
  destruct D as [cs os ms sc so].
  unfold remove_objects, objects_remove. cbn [data_collections data_objects
    data_meshes scene_children scene_objects]. f_equal.
  - rewrite map_map. apply map_ext. intros c. unfold set_objects.
    cbn [col_name col_children col_objects].
    rewrite keep_names_cons. reflexivity.
  - unfold name_in.
    induction os as [|o os IH]; cbn [filter existsb]; [reflexivity|].
    destruct (String.eqb (obj_name o) n); cbn [negb orb filter];
      rewrite IH; reflexivity.
  - apply keep_names_cons.
Qed.

Lemma cleanup_objects_fold (l : list Object) (D : Document) :
  fold_left (fun D' obj =>
               if String.eqb (obj_type obj) "MESH"
               then objects_remove (obj_name obj) D' else D') l D
  = remove_objects (map obj_name (filter is_mesh l)) D.
Proof.
  revert D. induction l as [|o l IH]; intros D; simpl.
  - symmetry. apply remove_objects_nil.
  - rewrite IH. unfold is_mesh at 2.
    destruct (String.eqb (obj_type o) "MESH"); simpl; [|reflexivity].
    apply remove_objects_cons.
Qed.

Lemma remove_collections_nil (D : Document) : remove_collections [] D = D.
Proof.
  destruct D as [cs os ms sc so]. unfold remove_collections. simpl. f_equal.
  - induction cs as [|c cs IH]; simpl; [reflexivity|].
    rewrite IH, keep_names_nil. destruct c; reflexivity.
  - apply keep_names_nil.
Qed.

Lemma remove_collections_cons (n : string) (ns : list string) (D : Document) :
  remove_collections ns (collections_remove n D)
  = remove_collections (n :: ns) D.
Proof.
  destruct D as [cs os ms sc so].
  unfold remove_collections, collections_remove. cbn [data_collections
    data_objects data_meshes scene_children scene_objects]. f_equal.
  - unfold name_in.
    induction cs as [|c cs IH]; cbn [filter existsb map]; [reflexivity|].
    destruct (String.eqb (col_name c) n); cbn [negb orb filter map];
      [exact IH|].
    cbn [col_name]. destruct (existsb (String.eqb (col_name c)) ns);
      cbn [negb filter map]; [exact IH|].
    rewrite IH. unfold set_children. cbn [col_name col_children col_objects].
    rewrite keep_names_cons. reflexivity.
  - apply keep_names_cons.
Qed.

Lemma cleanup_collections_fold (l : list Collection) (D : Document) :
  fold_left (fun D' col => collections_remove (col_name col) D') l D
  = remove_collections (map col_name l) D.
Proof.
  revert D. induction l as [|c l IH]; intros D; simpl.
  - symmetry. apply remove_collections_nil.
  - rewrite IH. apply remove_collections_cons.
Qed.

(** Cleanup in one step: the mesh objects go, then the collections with a
    generated name. *)
Lemma cleanup_eq (D : Document) :
  cleanup D
  = remove_collections (generated_collection_names D)
      (remove_objects (mesh_object_names D) D).
Proof.
  unfold cleanup, cleanup_enum.
  rewrite cleanup_collections_fold, cleanup_objects_fold.
  reflexivity.
Qed.

(** ** The order of enumeration does not matter *)

Lemma name_in_ext (n : string) (ns ns' : list string) :
  (forall m, In m ns <-> In m ns') -> name_in n ns = name_in n ns'.
Proof.
  intros H. destruct (name_in n ns') eqn:E.
  - apply name_in_In. apply H. apply name_in_In. exact E.
  - apply name_in_false. intros Hn. apply H in Hn.
    apply name_in_In in Hn. congruence.
Qed.

Lemma keep_names_ext (ns ns' l : list string) :
  (forall m, In m ns <-> In m ns') -> keep_names ns l = keep_names ns' l.
Proof.
  intros H. unfold keep_names. apply filter_ext. intros n.
  rewrite (name_in_ext n ns ns' H). reflexivity.
Qed.

Lemma remove_objects_ext (ns ns' : list string) (D : Document) :
  (forall m, In m ns <-> In m ns') ->
  remove_objects ns D = remove_objects ns' D.
Proof.
  intros H. unfold remove_objects. f_equal.
  - apply map_ext. intros c. rewrite (keep_names_ext ns ns' _ H). reflexivity.
  - apply filter_ext. intros o. rewrite (name_in_ext _ ns ns' H). reflexivity.
  - apply keep_names_ext. exact H.
Qed.

Lemma remove_collections_ext (ns ns' : list string) (D : Document) :
  (forall m, In m ns <-> In m ns') ->
  remove_collections ns D = remove_collections ns' D.
Proof.
  intros H. unfold remove_collections. f_equal.
  - rewrite (filter_ext _ (fun c => negb (name_in (col_name c) ns')))
      by (intros c; rewrite (name_in_ext _ ns ns' H); reflexivity).
    apply map_ext. intros c. rewrite (keep_names_ext ns ns' _ H). reflexivity.
  - apply keep_names_ext. exact H.
Qed.

Lemma In_filter_map_perm {A : Type} (f : A -> bool) (g : A -> string)
  (l l' : list A) (m : string) :
  Permutation l l' ->
  In m (map g (filter f l)) <-> In m (map g (filter f l')).
Proof.
  intros P. rewrite !in_map_iff.
  split; intros [a [E Ha]]; exists a; (split; [exact E|]);
    apply filter_In in Ha; apply filter_In; destruct Ha as [Ha Hf];
    (split; [|exact Hf]).
  - exact (Permutation_in a P Ha).
  - exact (Permutation_in a (Permutation_sym P) Ha).
Qed.

(** Cleanup removes the same objects and collections in whatever order the
    host enumerates them. *)
Lemma cleanup_enum_perm (objs : list Object) (cols : list Collection)
  (D : Document) :
  Permutation objs (data_objects D) ->
  Permutation cols (data_collections D) ->
  cleanup_enum objs cols D = cleanup D.
Proof.
  intros Po Pc. rewrite cleanup_eq. unfold cleanup_enum.
  rewrite cleanup_collections_fold, cleanup_objects_fold.
  unfold generated_collection_names, mesh_object_names.
  rewrite (remove_objects_ext _ (map obj_name
                                   (filter is_mesh (data_objects D))))
    by (intros m; apply In_filter_map_perm; exact Po).
  apply remove_collections_ext.
  intros m. apply In_filter_map_perm. exact Pc.
Qed.

Lemma wf_doc_iff (D : Document) :
  wf_doc D = true <->
  (forall n, In n (scene_children D) -> In n (collection_names D))
  /\ (forall n, In n (scene_objects D) -> In n (object_names D))
  /\ (forall c, In c (data_collections D) ->
        (forall n, In n (col_children c) -> In n (collection_names D))
        /\ (forall n, In n (col_objects c) -> In n (object_names D))).
Proof.
  unfold wf_doc. rewrite !andb_true_iff, !forallb_forall.
  split.
  - intros [[H1 H2] H3]. repeat split.
    + intros n Hn. apply name_in_In. auto.
    + intros n Hn. apply name_in_In. auto.
    + intros n Hn. specialize (H3 _ H). apply andb_true_iff in H3.
      destruct H3 as [H3 _]. rewrite forallb_forall in H3.
      apply name_in_In. auto.
    + intros n Hn. specialize (H3 _ H). apply andb_true_iff in H3.
      destruct H3 as [_ H3]. rewrite forallb_forall in H3.
      apply name_in_In. auto.
  - intros [H1 [H2 H3]]. repeat split.
    + intros n Hn. apply name_in_In. auto.
    + intros n Hn. apply name_in_In. auto.
    + intros c Hc. destruct (H3 _ Hc) as [Ha Hb].
      apply andb_true_iff. rewrite !forallb_forall.
      split; intros n Hn; apply name_in_In; auto.
Qed.

Lemma cleanup_collection_names (D : Document) :
  collection_names (cleanup D)
  = keep_names (generated_collection_names D) (collection_names D).
Proof.
  rewrite cleanup_eq. unfold collection_names, remove_collections,
    remove_objects, keep_names.
  cbn [data_collections]. rewrite map_map. cbn [set_children col_name].
  induction (data_collections D) as [|c cs IH]; cbn [map filter];
    [reflexivity|].
  cbn [set_objects col_name].
  destruct (name_in (col_name c) (generated_collection_names D));
    cbn [negb map]; rewrite IH; reflexivity.
Qed.

Lemma cleanup_object_names (D : Document) :
  object_names (cleanup D)
  = keep_names (mesh_object_names D) (object_names D).
Proof.
  rewrite cleanup_eq. unfold object_names, remove_collections,
    remove_objects, keep_names.
  cbn [data_objects].
  induction (data_objects D) as [|o os IH]; cbn [map filter]; [reflexivity|].
  destruct (name_in (obj_name o) (mesh_object_names D));
    cbn [negb map]; rewrite IH; reflexivity.
Qed.

Lemma cleanup_collections_In (D : Document) (c : Collection) :
  In c (data_collections (cleanup D)) ->
  exists c0, In c0 (data_collections D)
    /\ col_name c = col_name c0
    /\ ~ In (col_name c0) (generated_collection_names D)
    /\ col_children c
       = keep_names (generated_collection_names D) (col_children c0)
    /\ col_objects c = keep_names (mesh_object_names D) (col_objects c0).
Proof.
  rewrite cleanup_eq. unfold remove_collections, remove_objects.
  cbn [data_collections]. rewrite in_map_iff.
  intros [c1 [<- H1]]. apply filter_In in H1. destruct H1 as [H1 Hn].
  apply in_map_iff in H1. destruct H1 as [c0 [<- H0]].
  exists c0. cbn [set_children set_objects col_name col_children col_objects]
    in *. repeat split; auto.
  apply name_in_false. apply negb_true_iff. exact Hn.
Qed.

(** Cleanup leaves a clean document. *)
Lemma cleanup_clean (D : Document) : wf_doc D = true -> clean (cleanup D).
Proof.
  intros Hwf. apply wf_doc_iff in Hwf. destruct Hwf as [Hsc [Hso Hcs]].
  unfold clean. repeat split.
  - apply Forall_forall. intros c Hc.
    destruct (cleanup_collections_In _ _ Hc) as [c0 [H0 [En [Hn _]]]].
    rewrite En. destruct (generated_name (col_name c0)) eqn:G; [|reflexivity].
    exfalso. apply Hn. unfold generated_collection_names.
    apply in_map. apply filter_In. split; assumption.
  - apply Forall_forall. intros o Ho. rewrite cleanup_eq in Ho.
    unfold remove_collections, remove_objects in Ho. cbn [data_objects] in Ho.
    apply filter_In in Ho. destruct Ho as [Ho Hn].
    destruct (is_mesh o) eqn:M; [|reflexivity]. exfalso.
    apply negb_true_iff, name_in_false in Hn. apply Hn.
    unfold mesh_object_names. apply in_map. apply filter_In. split; assumption.
  - apply wf_doc_iff.
    rewrite cleanup_collection_names, cleanup_object_names.
    repeat split.
    + rewrite cleanup_eq. cbn [remove_collections scene_children].
      intros n Hn. apply In_keep_names in Hn. apply In_keep_names.
      split; [apply Hsc|]; apply Hn.
    + rewrite cleanup_eq. cbn [remove_collections remove_objects
        scene_objects]. intros n Hn. apply In_keep_names in Hn.
      apply In_keep_names. split; [apply Hso|]; apply Hn.
    + destruct (cleanup_collections_In _ _ H) as [c0 [H0 [_ [_ [Ec _]]]]].
      intros n Hn. rewrite Ec in Hn. apply In_keep_names in Hn.
      apply In_keep_names. split; [|apply Hn]. apply (Hcs _ H0). apply Hn.
    + destruct (cleanup_collections_In _ _ H) as [c0 [H0 [_ [_ [_ Eo]]]]].
      intros n Hn. rewrite Eo in Hn. apply In_keep_names in Hn.
      apply In_keep_names. split; [|apply Hn]. apply (Hcs _ H0). apply Hn.
Qed.

(** * Lists of collections *)

Lemma find_col_app (n : string) (a b : list Collection) :
  find_col n (a ++ b)
  = match find_col n a with Some c => Some c | None => find_col n b end.
Proof.
  unfold find_col. induction a as [|c a IH]; simpl; [reflexivity|].
  destruct (String.eqb (col_name c) n); [reflexivity | exact IH].
Qed.

Lemma find_col_none (n : string) (l : list Collection) :
  ~ In n (map col_name l) -> find_col n l = None.
Proof.
  unfold find_col. induction l as [|c l IH]; simpl; intros H; [reflexivity|].
  destruct (String.eqb_spec (col_name c) n) as [E|E].
  - exfalso. apply H. left. exact E.
  - apply IH. intros Hn. apply H. right. exact Hn.
Qed.

Lemma find_col_some_In (n : string) (l : list Collection) (c : Collection) :
  find_col n l = Some c -> In c l /\ col_name c = n.
Proof.
  unfold find_col. intros H. apply find_some in H. destruct H as [H1 H2].
  apply String.eqb_eq in H2. auto.
Qed.

Lemma find_col_In_names (n : string) (l : list Collection) :
  In n (map col_name l) -> exists c, find_col n l = Some c.
Proof.
  intros H. destruct (find_col n l) as [c|] eqn:E; [eauto|].
  exfalso. unfold find_col in E. apply in_map_iff in H.
  destruct H as [c [Hc Hin]].
  pose proof (find_none _ _ E _ Hin) as Hf. cbn beta in Hf.
  rewrite Hc, String.eqb_refl in Hf. discriminate.
Qed.

Lemma update_collection_app (n : string) (f : Collection -> Collection)
  (a b : list Collection) :
  update_collection n f (a ++ b)
  = update_collection n f a ++ update_collection n f b.
Proof. apply map_app. Qed.

Lemma update_collection_id (n : string) (f : Collection -> Collection)
  (l : list Collection) :
  ~ In n (map col_name l) -> update_collection n f l = l.
Proof.
  unfold update_collection. induction l as [|c l IH]; simpl; intros H;
    [reflexivity|].
  destruct (String.eqb_spec (col_name c) n) as [E|E].
  - exfalso. apply H. left. exact E.
  - rewrite IH; [reflexivity|]. intros Hn. apply H. right. exact Hn.
Qed.

Lemma update_collection_cons_eq (n : string) (f : Collection -> Collection)
  (c : Collection) (l : list Collection) :
  col_name c = n ->
  update_collection n f (c :: l) = f c :: update_collection n f l.
Proof.
  intros E. unfold update_collection. cbn [map].
  rewrite E, String.eqb_refl. reflexivity.
Qed.

Lemma update_collection_cons_neq (n : string) (f : Collection -> Collection)
  (c : Collection) (l : list Collection) :
  col_name c <> n ->
  update_collection n f (c :: l) = c :: update_collection n f l.
Proof.
  intros E. unfold update_collection. cbn [map].
  apply String.eqb_neq in E. rewrite E. reflexivity.
Qed.

Lemma collections_get_find (n : string) (D : Document) :
  collections_get n D = find_col n (data_collections D).
Proof. reflexivity. Qed.

Lemma clean_no_generated (D : Document) (n : string) :
  clean D -> generated_name n = true -> ~ In n (collection_names D).
Proof.
  intros [H _] G Hn. unfold collection_names in Hn.
  apply in_map_iff in Hn. destruct Hn as [c [<- Hc]].
  rewrite Forall_forall in H. rewrite (H _ Hc) in G. discriminate.
Qed.

Lemma clean_scene_children (D : Document) (n : string) :
  clean D -> In n (scene_children D) -> generated_name n = false.
Proof.
  intros HC Hn. destruct (generated_name n) eqn:G; [|reflexivity].
  exfalso. apply (clean_no_generated D n HC G).
  destruct HC as [_ [_ Hwf]]. apply wf_doc_iff in Hwf. apply Hwf. exact Hn.
Qed.

(** ** Names of the generated hierarchy *)

Lemma width_block_names (sizes : list Z) (ch : Z -> list string)
  (ob : Z -> Z -> list string) (w : Z) :
  map col_name (width_block sizes ch ob w) = str w :: subs sizes w.
Proof.
  unfold width_block, subs. simpl. rewrite map_map. reflexivity.
Qed.

Lemma hierarchy_names (sizes : list Z) (ch : Z -> list string)
  (ob : Z -> Z -> list string) (ws : list Z) (n : string) :
  In n (map col_name (hierarchy sizes ch ob ws)) <->
  exists w, In w ws
    /\ (n = str w \/ exists h, In h sizes /\ n = subcol_name_of w h).
Proof.
  unfold hierarchy. rewrite in_map_iff. split.
  - intros [c [<- Hc]]. apply in_flat_map in Hc. destruct Hc as [w [Hw Hc]].
    exists w. split; [exact Hw|].
    assert (Hn : In (col_name c) (map col_name (width_block sizes ch ob w)))
      by (apply in_map; exact Hc).
    rewrite width_block_names in Hn. destruct Hn as [<-|Hn]; [left; reflexivity|].
    right. unfold subs in Hn. apply in_map_iff in Hn.
    destruct Hn as [h [<- Hh]]. exists h. auto.
  - intros [w [Hw Hn]].
    assert (Hin : In n (map col_name (width_block sizes ch ob w))).
    { rewrite width_block_names. destruct Hn as [->|[h [Hh ->]]].
      - left. reflexivity.
      - right. unfold subs. apply in_map. exact Hh. }
    apply in_map_iff in Hin. destruct Hin as [c [<- Hc]].
    exists c. split; [reflexivity|]. apply in_flat_map. exists w. auto.
Qed.

(** * Building the hierarchy (lines 53-71) *)

Lemma dict_get_skip {V : Type} (k : Z) (v : V) (a b : list (Z * V)) :
  ~ In k (map fst a) -> dict_get k (a ++ (k, v) :: b) = Ok v.
Proof.
  induction a as [|[k' v'] a IH]; simpl; intros H.
  - rewrite Z.eqb_refl. reflexivity.
  - destruct (Z.eqb_spec k' k) as [E|E]; [exfalso; apply H; auto|].
    apply IH. intros Hk. apply H. right. exact Hk.
Qed.

Lemma dict_set_new {V : Type} (k : Z) (v : V) (a : list (Z * V)) :
  ~ In k (map fst a) -> dict_set k v a = a ++ [(k, v)].
Proof.
  induction a as [|[k' v'] a IH]; simpl; intros H; [reflexivity|].
  destruct (Z.eqb_spec k' k) as [E|E]; [exfalso; apply H; auto|].
  rewrite IH; [reflexivity|]. intros Hk. apply H. right. exact Hk.
Qed.

Lemma dict_set_skip {V : Type} (k : Z) (v v0 : V) (a b : list (Z * V)) :
  ~ In k (map fst a) ->
  dict_set k v (a ++ (k, v0) :: b) = a ++ (k, v) :: b.
Proof.
  induction a as [|[k' v'] a IH]; simpl; intros H.
  - rewrite Z.eqb_refl. reflexivity.
  - destruct (Z.eqb_spec k' k) as [E|E]; [exfalso; apply H; auto|].
    rewrite IH; [reflexivity|]. intros Hk. apply H. right. exact Hk.
Qed.

Lemma NoDup_app_not_in {A : Type} (a : list A) (x : A) (b : list A) :
  NoDup (a ++ x :: b) -> ~ In x a.
Proof.
  intros H Hx. apply NoDup_remove_2 in H. apply H. apply in_or_app. auto.
Qed.

Lemma empty_cache_fold (ws acc : list Z) :
  NoDup (acc ++ ws) ->
  fold_left (fun d w => dict_set w [] d) ws (empty_cache acc)
  = empty_cache (acc ++ ws).
Proof.
  revert acc. induction ws as [|w ws IH]; intros acc H; simpl.
  - rewrite app_nil_r. reflexivity.
  - assert (Hw : ~ In w (map fst (empty_cache acc))).
    { unfold empty_cache. rewrite map_map. simpl. rewrite map_id.
      exact (NoDup_app_not_in _ _ _ H). }
    rewrite dict_set_new by exact Hw.
    assert (E : empty_cache acc ++ [(w, [])] = empty_cache (acc ++ [w])).
    { unfold empty_cache. rewrite map_app. reflexivity. }
    rewrite E, IH; rewrite <- app_assoc; [reflexivity | exact H].
Qed.



Lemma subs_not_in (w h : Z) (hdone : list Z) :
  ~ In h hdone -> ~ In (subcol_name_of w h) (subs hdone w).
Proof.
  intros H Hn. unfold subs in Hn. apply in_map_iff in Hn.
  destruct Hn as [h' [E Hh']]. apply subcol_name_inj in E.
  destruct E as [_ ->]. contradiction.
Qed.

Section Heights.

Variables (w : Z) (pre : list Collection) (os : list Object)
  (ms : list Mesh) (sc so : list string) (wc : list (Z * string))
  (hm1 hm2 : list (Z * list (Z * string))).

Hypothesis Hpre_w : ~ In (str w) (map col_name pre).
Hypothesis Hhm1 : ~ In w (map fst hm1).

Lemma add_height_ok (h : Z) (hdone : list Z) :
  ~ In h hdone ->
  ~ In (subcol_name_of w h) (map col_name pre) ->
  add_height_collection w (str w) h (heights_state w pre os ms sc so wc hm1 hm2 hdone)
  = Ok (heights_state w pre os ms sc so wc hm1 hm2 (hdone ++ [h])).
Proof.
  intros Hh Hp. unfold add_height_collection, heights_state.
  cbn [build_doc height_collections_map width_collections].
  set (n := subcol_name_of w h).
  set (X := mk_col (str w) (subs hdone w) []).
  set (Y := map (fun h0 => mk_col (subcol_name_of w h0) [] []) hdone).
  assert (HY : map col_name Y = subs hdone w).
  { subst Y. unfold subs. rewrite map_map. reflexivity. }
  assert (Hn : ~ In n (map col_name (pre ++ X :: Y))).
  { rewrite map_app. cbn [map]. rewrite HY. intros Hn.
    apply in_app_or in Hn. destruct Hn as [Hn|[Hn|Hn]].
    - exact (Hp Hn).
    - subst X n. cbn [mk_col col_name] in Hn.
      symmetry in Hn. exact (subcol_name_not_str _ _ _ Hn).
    - exact (subs_not_in w h hdone Hh Hn). }
  rewrite collections_get_find. cbn [data_collections].
  rewrite (find_col_none _ _ Hn).
  unfold collections_new, collection_names. cbn [data_collections
    data_objects data_meshes scene_children scene_objects].
  rewrite unique_name_not_taken by (apply name_in_false; exact Hn).
  fold n. unfold children_link, children_of.
  rewrite collections_get_find. cbn [data_collections].
  assert (Ef : find_col (str w)
                 ((pre ++ X :: Y) ++ [mk_col n [] []]) = Some X).
  { rewrite <- app_assoc, find_col_app, (find_col_none _ _ Hpre_w).
    unfold find_col. cbn [app find]. subst X. cbn [mk_col col_name].
    rewrite String.eqb_refl. reflexivity. }
  fold (mk_col n [] []). rewrite Ef. cbn [bind].
  subst X. cbn [mk_col col_children].
  assert (Hc : name_in n (subs hdone w) = false).
  { apply name_in_false. exact (subs_not_in w h hdone Hh). }
  rewrite Hc. cbn [bind put_children data_collections data_objects
    data_meshes scene_children scene_objects].
  rewrite dict_get_skip by exact Hhm1. cbn [bind].
  rewrite dict_set_skip by exact Hhm1.
  rewrite dict_set_new
    by (rewrite map_map; cbn [fst]; rewrite map_id; exact Hh).
  f_equal. f_equal.
  - rewrite map_app. reflexivity.
  - f_equal. rewrite <- app_assoc.
    rewrite update_collection_app.
    rewrite (update_collection_id _ _ _ Hpre_w).
    f_equal. cbn [app].
    rewrite update_collection_cons_eq by reflexivity.
    rewrite update_collection_id.
    + unfold set_children. cbn [col_name col_children col_objects].
      unfold mk_col, subs. rewrite !map_app. reflexivity.
    + rewrite map_app, HY. cbn [map mk_col col_name]. intros Hin.
      apply in_app_or in Hin. destruct Hin as [Hin|[Hin|[]]].
      * unfold subs in Hin. apply in_map_iff in Hin.
        destruct Hin as [h' [E _]]. exact (subcol_name_not_str _ _ _ E).
      * exact (subcol_name_not_str _ _ _ Hin).
Qed.

Lemma add_heights_ok (hs hdone : list Z) :
  NoDup (hdone ++ hs) ->
  (forall h, In h hs -> ~ In (subcol_name_of w h) (map col_name pre)) ->
  foreach hs (add_height_collection w (str w)) (heights_state w pre os ms sc so wc hm1 hm2 hdone)
  = Ok (heights_state w pre os ms sc so wc hm1 hm2 (hdone ++ hs)).
Proof.
  revert hdone. induction hs as [|h hs IH]; intros hdone Hnd Hp; simpl.
  - rewrite app_nil_r. reflexivity.
  - rewrite add_height_ok.
    + cbn [bind]. rewrite IH.
      * rewrite <- app_assoc. reflexivity.
      * rewrite <- app_assoc. exact Hnd.
      * intros h' Hh'. apply Hp. right. exact Hh'.
    + exact (NoDup_app_not_in _ _ _ Hnd).
    + apply Hp. left. reflexivity.
Qed.

End Heights.

Section Widths.

Variables (sizes : list Z) (pre0 : list Collection) (os : list Object)
  (ms : list Mesh) (sc0 so : list string).

Hypothesis Hpre : forall n,
  generated_name n = true -> ~ In n (map col_name pre0).
Hypothesis Hsc : forall n, In n sc0 -> generated_name n = false.
Hypothesis Hsizes : NoDup sizes.

Lemma str_not_in_built (w : Z) (done : list Z) :
  0 <= w -> ~ In w done ->
  ~ In (str w)
      (map col_name (pre0 ++ hierarchy sizes (subs sizes) no_objects done)).
Proof.
  intros Hw Hd Hn. rewrite map_app in Hn. apply in_app_or in Hn.
  destruct Hn as [Hn|Hn].
  - exact (Hpre _ (str_generated w Hw) Hn).
  - apply hierarchy_names in Hn. destruct Hn as [w' [Hw' [E|[h [_ E]]]]].
    + apply str_inj in E. subst. contradiction.
    + symmetry in E. exact (subcol_name_not_str _ _ _ E).
Qed.

Lemma sub_not_in_built (w h : Z) (done : list Z) :
  ~ In w done ->
  ~ In (subcol_name_of w h)
      (map col_name (pre0 ++ hierarchy sizes (subs sizes) no_objects done)).
Proof.
  intros Hd Hn. rewrite map_app in Hn. apply in_app_or in Hn.
  destruct Hn as [Hn|Hn].
  - exact (Hpre _ (subcol_name_generated w h) Hn).
  - apply hierarchy_names in Hn. destruct Hn as [w' [Hw' [E|[h' [_ E]]]]].
    + exact (subcol_name_not_str _ _ _ E).
    + apply subcol_name_inj in E. destruct E as [-> _]. contradiction.
Qed.

Lemma add_width_ok (w : Z) (done ws : list Z) :
  0 <= w -> ~ In w done ->
  add_width_collection sizes w (widths_state sizes pre0 os ms sc0 so done (w :: ws))
  = Ok (widths_state sizes pre0 os ms sc0 so (done ++ [w]) ws).
Proof.
  intros Hw Hd. unfold add_width_collection, widths_state.
  cbn [build_doc height_collections_map width_collections].
  pose proof (str_not_in_built w done Hw Hd) as Hn.
  rewrite collections_get_find. cbn [data_collections].
  rewrite (find_col_none _ _ Hn).
  unfold collections_new, collection_names. cbn [data_collections
    data_objects data_meshes scene_children scene_objects].
  rewrite unique_name_not_taken by (apply name_in_false; exact Hn).
  unfold children_link, children_of. cbn [scene_children bind].
  assert (Hs : name_in (str w) (sc0 ++ map str done) = false).
  { apply name_in_false. intros Hin. apply in_app_or in Hin.
    destruct Hin as [Hin|Hin].
    - apply Hsc in Hin. rewrite str_generated in Hin by exact Hw.
      discriminate.
    - apply in_map_iff in Hin. destruct Hin as [w' [E Hw']].
      apply str_inj in E. subst. contradiction. }
  rewrite Hs. cbn [bind put_children data_collections data_objects
    data_meshes scene_children scene_objects].
  rewrite dict_set_new
    by (unfold width_cache; rewrite map_map; cbn [fst]; rewrite map_id;
        exact Hd).
  change (foreach sizes (add_height_collection w (str w))
            (heights_state w
               (pre0 ++ hierarchy sizes (subs sizes) no_objects done)
               os ms ((sc0 ++ map str done) ++ [str w]) so
               (width_cache done ++ [(w, str w)])
               (height_cache sizes done) (empty_cache ws) [])
          = Ok (widths_state sizes pre0 os ms sc0 so (done ++ [w]) ws)).
  rewrite add_heights_ok.
  - unfold heights_state, widths_state. cbn [app]. f_equal. f_equal.
    + unfold width_cache. rewrite map_app. reflexivity.
    + unfold height_cache. rewrite map_app, <- app_assoc. reflexivity.
    + f_equal.
      * unfold hierarchy. rewrite flat_map_app. cbn [flat_map].
        rewrite app_nil_r, <- app_assoc. reflexivity.
      * rewrite map_app, <- app_assoc. reflexivity.
  - exact Hn.
  - unfold height_cache. rewrite map_map. cbn [fst]. rewrite map_id.
    exact Hd.
  - exact Hsizes.
  - intros h _. apply sub_not_in_built. exact Hd.
Qed.

Lemma add_widths_ok (ws done : list Z) :
  NoDup (done ++ ws) -> Forall (fun w => 0 <= w) ws ->
  foreach ws (add_width_collection sizes) (widths_state sizes pre0 os ms sc0 so done ws)
  = Ok (widths_state sizes pre0 os ms sc0 so (done ++ ws) []).
Proof.
  revert done. induction ws as [|w ws IH]; intros done Hnd Hpos; simpl.
  - rewrite app_nil_r. reflexivity.
  - inversion Hpos as [|? ? Hw Hpos']; subst.
    rewrite add_width_ok;
      [|exact Hw | exact (NoDup_app_not_in _ _ _ Hnd)].
    cbn [bind]. rewrite IH.
    + rewrite <- app_assoc. reflexivity.
    + rewrite <- app_assoc. exact Hnd.
    + exact Hpos'.
Qed.

End Widths.

(** The hierarchy builder on a clean document: one width collection per
    size, linked to the scene, each with one subcollection per size. *)
Lemma build_hierarchy_ok (cfg : Settings) (C : Document) :
  clean C -> NoDup (PLANE_SIZES_CM cfg) ->
  Forall (fun w => 0 <= w) (PLANE_SIZES_CM cfg) ->
  let sizes := PLANE_SIZES_CM cfg in
  build_hierarchy cfg C
  = Ok {| width_collections := width_cache sizes;
          height_collections_map := height_cache sizes sizes;
          build_doc :=
            Build_Document
              (data_collections C
               ++ hierarchy sizes (subs sizes) no_objects sizes)
              (data_objects C) (data_meshes C)
              (scene_children C ++ map str sizes) (scene_objects C) |}.
Proof.
  intros HC Hnd Hpos sizes. unfold build_hierarchy. fold sizes.
  change (@nil (Z * list (Z * string))) with (empty_cache []).
  rewrite empty_cache_fold by exact Hnd. cbn [app].
  pose proof (add_widths_ok sizes (data_collections C) (data_objects C)
                (data_meshes C) (scene_children C) (scene_objects C)) as H.
  unfold widths_state in H. specialize (H (fun n G => clean_no_generated C n HC G)
    (fun n Hn => clean_scene_children C n HC Hn) Hnd sizes [] Hnd Hpos).
  cbn [app width_cache height_cache hierarchy flat_map map] in H.
  rewrite !app_nil_r in H. destruct C as [cs os ms sc so].
  cbn [data_collections data_objects data_meshes scene_children
    scene_objects] in *.
  rewrite H. reflexivity.
Qed.

(** * Lookups and updates in the generated hierarchy *)

Lemma In_width_block (sizes : list Z) (ch : Z -> list string)
  (ob : Z -> Z -> list string) (w : Z) (c : Collection) :
  In c (width_block sizes ch ob w) <->
  c = mk_col (str w) (ch w) []
  \/ exists h, In h sizes /\ c = mk_col (subcol_name_of w h) [] (ob w h).
Proof.
  unfold width_block. cbn [In]. rewrite in_map_iff. split.
  - intros [H|[h [H Hh]]]; [left; auto | right; exists h; auto].
  - intros [H|[h [Hh H]]]; [left; auto | right; exists h; auto].
Qed.

Lemma find_col_hierarchy_sub (sizes : list Z) (ch : Z -> list string)
  (ob : Z -> Z -> list string) (ws : list Z) (w h : Z) :
  In w ws -> In h sizes ->
  find_col (subcol_name_of w h) (hierarchy sizes ch ob ws)
  = Some (mk_col (subcol_name_of w h) [] (ob w h)).
Proof.
  intros Hw Hh.
  destruct (find_col_In_names (subcol_name_of w h)
              (hierarchy sizes ch ob ws)) as [c Hc].
  { apply hierarchy_names. exists w. split; [exact Hw|]. right. exists h. auto. }
  rewrite Hc. f_equal. apply find_col_some_In in Hc. destruct Hc as [Hin En].
  unfold hierarchy in Hin. apply in_flat_map in Hin.
  destruct Hin as [w' [_ Hin]]. apply In_width_block in Hin.
  destruct Hin as [->|[h' [_ ->]]]; cbn [mk_col col_name] in En.
  - symmetry in En. exfalso. exact (subcol_name_not_str _ _ _ En).
  - apply subcol_name_inj in En. destruct En as [-> ->]. reflexivity.
Qed.

Lemma find_col_hierarchy_width (sizes : list Z) (ch : Z -> list string)
  (ob : Z -> Z -> list string) (ws : list Z) (w : Z) :
  In w ws ->
  find_col (str w) (hierarchy sizes ch ob ws) = Some (mk_col (str w) (ch w) []).
Proof.
  intros Hw.
  destruct (find_col_In_names (str w) (hierarchy sizes ch ob ws)) as [c Hc].
  { apply hierarchy_names. exists w. auto. }
  rewrite Hc. f_equal. apply find_col_some_In in Hc. destruct Hc as [Hin En].
  unfold hierarchy in Hin. apply in_flat_map in Hin.
  destruct Hin as [w' [_ Hin]]. apply In_width_block in Hin.
  destruct Hin as [->|[h' [_ ->]]]; cbn [mk_col col_name] in En.
  - apply str_inj in En. subst. reflexivity.
  - exfalso. exact (subcol_name_not_str _ _ _ En).
Qed.

Lemma update_hierarchy_objects (sizes : list Z) (ch : Z -> list string)
  (ob ob' : Z -> Z -> list string) (ws : list Z) (w h : Z)
  (l : list string) :
  (forall w' h', In w' ws -> In h' sizes ->
     ob' w' h' = if (w' =? w) && (h' =? h) then l else ob w' h') ->
  update_collection (subcol_name_of w h) (set_objects l)
    (hierarchy sizes ch ob ws)
  = hierarchy sizes ch ob' ws.
Proof.
  intros H. unfold hierarchy, update_collection.
  induction ws as [|w' ws IH]; cbn [flat_map map]; [reflexivity|].
  rewrite map_app, IH by (intros; apply H; [right|]; assumption).
  f_equal. unfold width_block. cbn [map mk_col col_name].
  destruct (String.eqb_spec (str w') (subcol_name_of w h)) as [E|_].
  { symmetry in E. exfalso. exact (subcol_name_not_str _ _ _ E). }
  f_equal. rewrite map_map. apply map_ext_in. intros h' Hh'.
  cbn [col_name mk_col]. rewrite (H w' h' (or_introl eq_refl) Hh').
  destruct (String.eqb_spec (subcol_name_of w' h') (subcol_name_of w h))
    as [E|E].
  - apply subcol_name_inj in E. destruct E as [-> ->].
    rewrite !Z.eqb_refl. reflexivity.
  - destruct (Z.eqb_spec w' w) as [->|]; [|reflexivity].
    destruct (Z.eqb_spec h' h) as [->|]; [|reflexivity].
    contradiction.
Qed.

Lemma update_hierarchy_children (sizes : list Z) (ch ch' : Z -> list string)
  (ob : Z -> Z -> list string) (ws : list Z) (w : Z) (l : list string) :
  (forall w', In w' ws -> ch' w' = if w' =? w then l else ch w') ->
  update_collection (str w) (set_children l) (hierarchy sizes ch ob ws)
  = hierarchy sizes ch' ob ws.
Proof.
  intros H. unfold hierarchy, update_collection.
  induction ws as [|w' ws IH]; cbn [flat_map map]; [reflexivity|].
  rewrite map_app, IH by (intros; apply H; right; assumption).
  f_equal. unfold width_block. cbn [map mk_col col_name].
  rewrite (H w' (or_introl eq_refl)). f_equal.
  - destruct (String.eqb_spec (str w') (str w)) as [E|E].
    + apply str_inj in E. subst. rewrite Z.eqb_refl. reflexivity.
    + destruct (Z.eqb_spec w' w) as [->|]; [contradiction | reflexivity].
  - rewrite map_map. apply map_ext. intros h'. cbn [col_name mk_col].
    destruct (String.eqb_spec (subcol_name_of w' h') (str w)) as [E|_];
      [|reflexivity].
    exfalso. exact (subcol_name_not_str _ _ _ E).
Qed.

Lemma hierarchy_ext (sizes : list Z) (ch ch' : Z -> list string)
  (ob ob' : Z -> Z -> list string) (ws : list Z) :
  (forall w, In w ws -> ch w = ch' w) ->
  (forall w h, In w ws -> In h sizes -> ob w h = ob' w h) ->
  hierarchy sizes ch ob ws = hierarchy sizes ch' ob' ws.
Proof.
  intros Hc Ho. unfold hierarchy.
  induction ws as [|w ws IH]; cbn [flat_map]; [reflexivity|].
  rewrite IH;
    [| intros; apply Hc; right; assumption
     | intros; apply Ho; [right|]; assumption].
  f_equal. unfold width_block. rewrite (Hc w (or_introl eq_refl)). f_equal.
  apply map_ext_in. intros h Hh. rewrite (Ho w h (or_introl eq_refl) Hh).
  reflexivity.
Qed.

(** * The main creation loop (lines 144-163) *)

Lemma to_m_round (w : Z) : py_round (to_m w * 100) = w.
Proof.
  rewrite (py_round_comp _ (inject_Z w)); [apply py_round_inject_Z|].
  unfold to_m. field.
Qed.

Lemma subdivided_plane_total (cfg : Settings) (width height : Q) :
  ~ (PLANE_SUBDIVISION_SIZE cfg == 0)%Q ->
  subdivided_plane (PLANE_SUBDIVISION_SIZE cfg) width height
  = Ok (plane_geometry cfg width height).
Proof.
  intros Hs. unfold plane_geometry.
  destruct (subdivided_plane_spec _ width height Hs) as [bm [E _]].
  rewrite E. reflexivity.
Qed.

Lemma dict_get_map {V : Type} (f : Z -> V) (k : Z) (ks : list Z) :
  In k ks -> dict_get k (map (fun x => (x, f x)) ks) = Ok (f k).
Proof.
  induction ks as [|x ks IH]; cbn [map dict_get In]; intros H; [contradiction|].
  destruct (Z.eqb_spec x k) as [->|Hne]; [reflexivity|].
  apply IH. destruct H as [H|H]; [contradiction | exact H].
Qed.

Lemma subcol_name_head (w h : Z) :
  0 <= w ->
  exists c s, subcol_name_of w h = String c s /\ is_digit_char c = true.
Proof.
  intros Hw. destruct (isdigit_head _ (str_nonneg_isdigit w Hw))
    as [c [s [E Hc]]].
  exists c, (s ++ "x" ++ str h)%string. split; [|exact Hc].
  unfold subcol_name_of. rewrite E. reflexivity.
Qed.

(** A primary name sorts strictly before a proxy name, whatever suffixes the
    host appended. *)
Lemma primary_before_proxy (w h w' h' : Z) (taken taken' : list string) :
  0 <= w ->
  let p := unique_name taken (subcol_name_of w h) in
  let u := unique_name taken' ("UCX_" ++ subcol_name_of w' h') in
  String.ltb p u = true /\ String.ltb u p = false /\ p <> u.
Proof.
  intros Hw p u.
  destruct (unique_name_prefix taken (subcol_name_of w h)) as [s1 E1].
  destruct (unique_name_prefix taken' ("UCX_" ++ subcol_name_of w' h'))
    as [s2 E2].
  destruct (subcol_name_head w h Hw) as [c [s [E Hc]]].
  subst p u. rewrite E1, E2, E. cbn [append].
  pose proof (digit_before_U c Hc) as Hlt.
  unfold String.ltb. cbn [String.compare].
  rewrite Hlt. rewrite (Ascii.compare_antisym "U" c), Hlt. cbn [CompOpp].
  repeat split. intros Heq. injection Heq as Heq _. subst c. discriminate.
Qed.

Lemma find_is_pair_app (pl : list Created) (cr : Created) (w h : Z) :
  find (is_pair w h) (pl ++ [cr])
  = match find (is_pair w h) pl with
    | Some c => Some c
    | None => if is_pair w h cr then Some cr else None
    end.
Proof.
  induction pl as [|c pl IH]; cbn [app find]; [reflexivity|].
  destruct (is_pair w h c); [reflexivity | exact IH].
Qed.

Lemma pair_objects_snoc (pl : list Created) (cr : Created) (w h w' h' : Z) :
  cr_w cr = w -> cr_h cr = h -> pair_objects pl w h = [] ->
  pair_objects (pl ++ [cr]) w' h'
  = if (w' =? w) && (h' =? h) then [cr_obj cr; cr_ucx cr]
    else pair_objects pl w' h'.
Proof.
  intros Ew Eh Hnone. unfold pair_objects in *.
  rewrite find_is_pair_app. unfold is_pair at 2. rewrite Ew, Eh.
  rewrite (Z.eqb_sym w w'), (Z.eqb_sym h h').
  destruct (find (is_pair w' h') pl) as [c|] eqn:Ef.
  - destruct ((w' =? w) && (h' =? h)) eqn:E; [|reflexivity].
    apply andb_true_iff in E. destruct E as [E1 E2].
    apply Z.eqb_eq in E1, E2. subst w' h'. rewrite Ef in Hnone.
    discriminate.
  - destruct ((w' =? w) && (h' =? h)); reflexivity.
Qed.

Section HierarchyOps.

Variables (sizes : list Z) (pre0 : list Collection) (os : list Object)
  (ms : list Mesh).

Hypothesis Hpre : forall n,
  generated_name n = true -> ~ In n (map col_name pre0).

Lemma get_sub (ch : Z -> list string) (ob : Z -> Z -> list string)
  (w h : Z) :
  In w sizes -> In h sizes ->
  find_col (subcol_name_of w h) (pre0 ++ hierarchy sizes ch ob sizes)
  = Some (mk_col (subcol_name_of w h) [] (ob w h)).
Proof.
  intros Hw Hh. rewrite find_col_app, find_col_none.
  - apply find_col_hierarchy_sub; assumption.
  - apply Hpre. apply subcol_name_generated.
Qed.

Lemma get_width (ch : Z -> list string) (ob : Z -> Z -> list string)
  (w : Z) :
  In w sizes -> 0 <= w ->
  find_col (str w) (pre0 ++ hierarchy sizes ch ob sizes)
  = Some (mk_col (str w) (ch w) []).
Proof.
  intros Hw Hpos. rewrite find_col_app, find_col_none.
  - apply find_col_hierarchy_width; assumption.
  - apply Hpre. apply str_generated. exact Hpos.
Qed.

Lemma put_objects_sub (ch : Z -> list string) (ob : Z -> Z -> list string)
  (sc so : list string) (w h : Z) (l : list string) :
  put_objects (DataCollection (subcol_name_of w h)) l
    (Build_Document (pre0 ++ hierarchy sizes ch ob sizes) os ms sc so)
  = Build_Document (pre0 ++ hierarchy sizes ch (set_pair ob w h l) sizes)
      os ms sc so.
Proof.
  unfold put_objects. cbn [data_collections data_objects data_meshes
    scene_children scene_objects]. f_equal.
  rewrite update_collection_app, update_collection_id
    by (apply Hpre; apply subcol_name_generated).
  f_equal. apply update_hierarchy_objects. intros. reflexivity.
Qed.

Lemma put_children_width (ch : Z -> list string) (ob : Z -> Z -> list string)
  (sc so : list string) (w : Z) (l : list string) :
  0 <= w ->
  put_children (DataCollection (str w)) l
    (Build_Document (pre0 ++ hierarchy sizes ch ob sizes) os ms sc so)
  = Build_Document (pre0 ++ hierarchy sizes (set_width ch w l) ob sizes)
      os ms sc so.
Proof.
  intros Hw. unfold put_children. cbn [data_collections data_objects
    data_meshes scene_children scene_objects]. f_equal.
  rewrite update_collection_app, update_collection_id
    by (apply Hpre; apply str_generated; exact Hw).
  f_equal. apply update_hierarchy_children. intros. reflexivity.
Qed.

Lemma objects_link_sub (ch : Z -> list string) (ob : Z -> Z -> list string)
  (sc so : list string) (w h : Z) (o : string) :
  In w sizes -> In h sizes -> ~ In o (ob w h) ->
  objects_link (DataCollection (subcol_name_of w h)) o
    (Build_Document (pre0 ++ hierarchy sizes ch ob sizes) os ms sc so)
  = Ok (Build_Document
          (pre0 ++ hierarchy sizes ch (set_pair ob w h (ob w h ++ [o])) sizes)
          os ms sc so).
Proof.
  intros Hw Hh Ho. unfold objects_link, objects_of.
  rewrite collections_get_find. cbn [data_collections].
  rewrite get_sub by assumption. cbn [bind mk_col col_objects].
  apply name_in_false in Ho. rewrite Ho. rewrite put_objects_sub.
  reflexivity.
Qed.

Lemma objects_unlink_sub (ch : Z -> list string) (ob : Z -> Z -> list string)
  (sc so : list string) (w h : Z) (o : string) :
  In w sizes -> In h sizes -> In o (ob w h) ->
  objects_unlink (DataCollection (subcol_name_of w h)) o
    (Build_Document (pre0 ++ hierarchy sizes ch ob sizes) os ms sc so)
  = Ok (Build_Document
          (pre0 ++ hierarchy sizes ch
                     (set_pair ob w h (remove_name o (ob w h))) sizes)
          os ms sc so).
Proof.
  intros Hw Hh Ho. unfold objects_unlink, objects_of.
  rewrite collections_get_find. cbn [data_collections].
  rewrite get_sub by assumption. cbn [bind mk_col col_objects].
  apply name_in_In in Ho. rewrite Ho. rewrite put_objects_sub.
  reflexivity.
Qed.

Lemma children_link_width (ch : Z -> list string)
  (ob : Z -> Z -> list string) (sc so : list string) (w : Z) (n : string) :
  In w sizes -> 0 <= w -> ~ In n (ch w) ->
  children_link (DataCollection (str w)) n
    (Build_Document (pre0 ++ hierarchy sizes ch ob sizes) os ms sc so)
  = Ok (Build_Document
          (pre0 ++ hierarchy sizes (set_width ch w (ch w ++ [n])) ob sizes)
          os ms sc so).
Proof.
  intros Hw Hpos Hn. unfold children_link, children_of.
  rewrite collections_get_find. cbn [data_collections].
  rewrite get_width by assumption. cbn [bind mk_col col_children].
  apply name_in_false in Hn. rewrite Hn.
  rewrite put_children_width by exact Hpos. reflexivity.
Qed.

Lemma children_unlink_width (ch : Z -> list string)
  (ob : Z -> Z -> list string) (sc so : list string) (w : Z) (n : string) :
  In w sizes -> 0 <= w -> In n (ch w) ->
  children_unlink (DataCollection (str w)) n
    (Build_Document (pre0 ++ hierarchy sizes ch ob sizes) os ms sc so)
  = Ok (Build_Document
          (pre0 ++ hierarchy sizes
                     (set_width ch w (remove_name n (ch w))) ob sizes)
          os ms sc so).
Proof.
  intros Hw Hpos Hn. unfold children_unlink, children_of.
  rewrite collections_get_find. cbn [data_collections].
  rewrite get_width by assumption. cbn [bind mk_col col_children].
  apply name_in_In in Hn. rewrite Hn.
  rewrite put_children_width by exact Hpos. reflexivity.
Qed.

End HierarchyOps.

Lemma try_unlink_noop (o : string) (D : Document) :
  ~ In o (scene_objects D) -> try_unlink_from_scene o D = D.
Proof.
  intros H. unfold try_unlink_from_scene, objects_unlink, objects_of.
  cbn [bind]. apply name_in_false in H. rewrite H. reflexivity.
Qed.

Section CreatePlanes.

Variables (cfg : Settings) (sizes : list Z) (ch : Z -> list string)
  (pre0 : list Collection) (sc so : list string).

Hypothesis Hstep : ~ (PLANE_SUBDIVISION_SIZE cfg == 0)%Q.
Hypothesis Hpre : forall n,
  generated_name n = true -> ~ In n (map col_name pre0).
Hypothesis Hpos : Forall (fun w => 0 <= w) sizes.

Lemma create_pair_ok (dp : list Created) (os : list Object) (ms : list Mesh)
  (w h : Z) :
  In w sizes -> In h sizes -> pair_objects dp w h = [] ->
  incl so (map obj_name os) ->
  let cr := create_record (map obj_name os) (map mesh_name ms) w h in
  create_pair cfg (height_cache sizes sizes) (to_m w, to_m h)
    (Build_Document (pre0 ++ hierarchy sizes ch (pair_objects dp) sizes)
       os ms sc so)
  = Ok (Build_Document
          (pre0 ++ hierarchy sizes ch (pair_objects (dp ++ [cr])) sizes)
          (os ++ created_objects cr) (ms ++ created_meshes cfg cr) sc so).
Proof.
  intros Hw Hh Hnone Hso cr.
  assert (Hw0 : 0 <= w) by (rewrite Forall_forall in Hpos; auto).
  unfold create_pair. rewrite !to_m_round.
  unfold create_subdivided_plane_bmesh, create_simple_plane.
  rewrite subdivided_plane_total by exact Hstep. cbn [bind].
  unfold meshes_new, objects_new, mesh_names, object_names.
  cbn [data_collections data_objects data_meshes scene_children
    scene_objects].
  cbn [bind data_collections data_objects data_meshes scene_children
    scene_objects].
  rewrite !map_app. cbn [map mesh_name obj_name].
  set (n := subcol_name_of w h).
  set (m := unique_name (map mesh_name ms) n).
  set (p := unique_name (map obj_name os) n).
  set (mu := unique_name (map mesh_name ms ++ [m]) ("UCX_" ++ n)).
  set (u := unique_name (map obj_name os ++ [p]) ("UCX_" ++ n)).
  unfold height_cache.
  rewrite (dict_get_map
             (fun w0 => map (fun h0 => (h0, subcol_name_of w0 h0)) sizes)
             w sizes Hw).
  cbn [bind].
  rewrite (dict_get_map (fun h0 => subcol_name_of w h0) h sizes Hh).
  cbn [bind]. fold n.
  destruct (primary_before_proxy w h w h (map obj_name os)
              (map obj_name os ++ [p]) Hw0) as [_ [_ Hpu]].
  fold n in Hpu. fold p in Hpu. fold u in Hpu.
  subst n. rewrite (objects_link_sub sizes pre0 _ _ Hpre) by
    (try assumption; rewrite Hnone; intros []).
  cbn [bind]. rewrite Hnone. cbn [app].
  rewrite (objects_link_sub sizes pre0 _ _ Hpre);
    [| assumption | assumption
     | unfold set_pair; rewrite !Z.eqb_refl; cbn [andb];
       intros [E|[]]; apply Hpu; exact E].
  cbn [bind fold_left].
  assert (Hp : ~ In p so).
  { intros Hin. apply Hso in Hin. apply name_in_In in Hin.
    subst p. rewrite unique_name_fresh in Hin. discriminate. }
  assert (Hu : ~ In u so).
  { intros Hin. apply Hso in Hin.
    assert (Hin' : In u (map obj_name os ++ [p]))
      by (apply in_or_app; left; exact Hin).
    apply name_in_In in Hin'. subst u.
    rewrite unique_name_fresh in Hin'. discriminate. }
  rewrite (try_unlink_noop p) by exact Hp.
  rewrite (try_unlink_noop u) by exact Hu.
  f_equal. f_equal.
  - f_equal. apply hierarchy_ext; [reflexivity|].
    intros w' h' _ _.
    rewrite (pair_objects_snoc dp cr w h w' h') by (try reflexivity; exact Hnone).
    unfold set_pair. rewrite !Z.eqb_refl. cbn [andb app].
    destruct ((w' =? w) && (h' =? h)); reflexivity.
  - rewrite <- app_assoc. reflexivity.
  - rewrite <- app_assoc. reflexivity.
Qed.

Lemma create_pairs_ok (ps : list (Z * Z)) :
  forall (dp : list Created) (os : list Object) (ms : list Mesh),
  NoDup ps ->
  (forall w h, In (w, h) ps ->
     In w sizes /\ In h sizes /\ pair_objects dp w h = []) ->
  incl so (map obj_name os) ->
  let pl := plan (map obj_name os) (map mesh_name ms) ps in
  foreach (map pair_m ps) (create_pair cfg (height_cache sizes sizes))
    (Build_Document (pre0 ++ hierarchy sizes ch (pair_objects dp) sizes)
       os ms sc so)
  = Ok (Build_Document
          (pre0 ++ hierarchy sizes ch (pair_objects (dp ++ pl)) sizes)
          (os ++ flat_map created_objects pl)
          (ms ++ flat_map (created_meshes cfg) pl) sc so).
Proof.
  induction ps as [|[w h] ps IH]; intros dp os ms Hnd Hin Hso pl.
  - subst pl. cbn [plan map foreach flat_map]. rewrite !app_nil_r.
    reflexivity.
  - destruct (Hin w h (or_introl eq_refl)) as [Hw [Hh Hnone]].
    inversion Hnd as [|? ? Hnotin Hnd']; subst.
    cbn [map foreach]. unfold pair_m at 1. cbn [fst snd].
    rewrite (create_pair_ok dp os ms w h Hw Hh Hnone Hso). cbn [bind].
    set (cr := create_record (map obj_name os) (map mesh_name ms) w h).
    rewrite IH.
    + subst pl. cbn [plan]. fold cr.
      rewrite !map_app. cbn [created_objects created_meshes map obj_name
        mesh_name flat_map].
      rewrite <- !app_assoc. reflexivity.
    + exact Hnd'.
    + intros w' h' Hin'. destruct (Hin w' h' (or_intror Hin'))
        as [Hw' [Hh' Hnone']].
      repeat split; try assumption.
      rewrite (pair_objects_snoc dp cr w h w' h')
        by (try reflexivity; exact Hnone).
      destruct ((w' =? w) && (h' =? h)) eqn:E; [|exact Hnone'].
      apply andb_true_iff in E. destruct E as [E1 E2].
      apply Z.eqb_eq in E1, E2. subst. contradiction.
    + intros x Hx. rewrite map_app. apply in_or_app. left. apply Hso.
      exact Hx.
Qed.

End CreatePlanes.

Lemma product_list_prod {A B : Type} (a : list A) (b : list B) :
  product a b = list_prod a b.
Proof. unfold product. symmetry. apply list_prod_as_flat_map. Qed.

Lemma In_product {A B : Type} (a : list A) (b : list B) (x : A) (y : B) :
  In (x, y) (product a b) <-> In x a /\ In y b.
Proof. rewrite product_list_prod. apply in_prod_iff. Qed.

Lemma NoDup_product {A B : Type} (a : list A) (b : list B) :
  NoDup a -> NoDup b -> NoDup (product a b).
Proof.
  intros Ha Hb. unfold product.
  induction Ha as [|x a Hx Ha IH]; cbn [flat_map]; [constructor|].
  apply NoDup_app.
  - apply NoDup_map_injective; [|exact Hb]. intros y y' E. congruence.
  - exact IH.
  - intros [x' y] H1 H2. apply in_map_iff in H1. destruct H1 as [y' [E _]].
    injection E as <- <-. apply in_flat_map in H2.
    destruct H2 as [x'' [Hx'' H2]]. apply in_map_iff in H2.
    destruct H2 as [y'' [E _]]. injection E as <- _. contradiction.
Qed.

Lemma product_map {A B C D : Type} (f : A -> C) (g : B -> D)
  (a : list A) (b : list B) :
  product (map f a) (map g b)
  = map (fun p => (f (fst p), g (snd p))) (product a b).
Proof.
  unfold product. induction a as [|x a IH]; cbn [map flat_map];
    [reflexivity|].
  rewrite map_app, IH, !map_map. reflexivity.
Qed.

(** The main loop on a freshly built hierarchy: every size pair gets its two
    objects, linked into its subcollection. *)
Lemma create_planes_ok (cfg : Settings) (ch : Z -> list string)
  (pre0 : list Collection) (os : list Object) (ms : list Mesh)
  (sc so : list string) :
  let sizes := PLANE_SIZES_CM cfg in
  ~ (PLANE_SUBDIVISION_SIZE cfg == 0)%Q ->
  (forall n, generated_name n = true -> ~ In n (map col_name pre0)) ->
  Forall (fun w => 0 <= w) sizes -> NoDup sizes ->
  incl so (map obj_name os) ->
  let pl := plan (map obj_name os) (map mesh_name ms) (product sizes sizes) in
  create_planes cfg (height_cache sizes sizes)
    (Build_Document (pre0 ++ hierarchy sizes ch no_objects sizes) os ms sc so)
  = Ok (Build_Document
          (pre0 ++ hierarchy sizes ch (pair_objects pl) sizes)
          (os ++ flat_map created_objects pl)
          (ms ++ flat_map (created_meshes cfg) pl) sc so).
Proof.
  intros sizes Hstep Hpre Hpos Hnd Hso pl.
  unfold create_planes, PLANE_SIZE_PAIRS, PLANE_SIZES_M. fold sizes.
  rewrite (product_map (fun s => (inject_Z s / 100)%Q)
             (fun s => (inject_Z s / 100)%Q)).
  change (map (fun p => ((inject_Z (fst p) / 100)%Q,
                         (inject_Z (snd p) / 100)%Q)) (product sizes sizes))
    with (map pair_m (product sizes sizes)).
  change no_objects with (pair_objects []).
  rewrite (create_pairs_ok cfg sizes ch pre0 sc so Hstep Hpre Hpos).
  - reflexivity.
  - apply NoDup_product; exact Hnd.
  - intros w h Hin. apply In_product in Hin. destruct Hin as [Hw Hh].
    repeat split; assumption.
  - exact Hso.
Qed.

(** * Sorting *)

Lemma foreach_app {A S : Type} (a b : list A) (body : A -> S -> result S)
  (s : S) :
  foreach (a ++ b) body s = (s' <- foreach a body s ;; foreach b body s').
Proof.
  revert s. induction a as [|x a IH]; intros s; cbn [app foreach bind];
    [reflexivity|].
  destruct (body x s) as [s1|e]; cbn [bind]; [apply IH | reflexivity].
Qed.

Lemma sorted_insert_pure {A B K : Type} (g : B -> A) (kf : B -> K)
  (lt : K -> K -> result bool) (ltb : B -> B -> bool) (x : B) (l : list B) :
  (forall a b, lt (kf a) (kf b) = Ok (ltb a b)) ->
  sorted_insert lt (kf x, g x) (map (fun b => (kf b, g b)) l)
  = Ok (map (fun b => (kf b, g b)) (insert_by ltb x l)).
Proof.
  intros Hlt. induction l as [|y l IH]; cbn [map sorted_insert insert_by fst];
    [reflexivity|].
  rewrite Hlt. cbn [bind]. destruct (ltb y x); [|reflexivity].
  rewrite IH. reflexivity.
Qed.

Lemma sorted_keyed_pure {A B K : Type} (g : B -> A) (kf : B -> K)
  (lt : K -> K -> result bool) (ltb : B -> B -> bool) (l : list B) :
  (forall a b, lt (kf a) (kf b) = Ok (ltb a b)) ->
  sorted_keyed lt (map (fun b => (kf b, g b)) l)
  = Ok (map (fun b => (kf b, g b)) (sort_by ltb l)).
Proof.
  intros Hlt. induction l as [|x l IH]; cbn [map sorted_keyed sort_by];
    [reflexivity|].
  rewrite IH. cbn [bind]. apply sorted_insert_pure. exact Hlt.
Qed.

Lemma with_keys_pure {A B K : Type} (g : B -> A) (key : A -> result K)
  (kf : B -> K) (l : list B) :
  (forall b, In b l -> key (g b) = Ok (kf b)) ->
  with_keys key (map g l) = Ok (map (fun b => (kf b, g b)) l).
Proof.
  induction l as [|x l IH]; cbn [map with_keys]; intros H; [reflexivity|].
  rewrite (H x (or_introl eq_refl)). cbn [bind].
  rewrite IH by (intros; apply H; right; assumption). reflexivity.
Qed.

(** [sorted] on names whose keys all exist and compare: the result is the
    insertion sort of the underlying values. *)
Lemma py_sorted_pure {A B K : Type} (g : B -> A) (key : A -> result K)
  (kf : B -> K) (lt : K -> K -> result bool) (ltb : B -> B -> bool)
  (l : list B) :
  (forall b, In b l -> key (g b) = Ok (kf b)) ->
  (forall a b, lt (kf a) (kf b) = Ok (ltb a b)) ->
  py_sorted key lt (map g l) = Ok (map g (sort_by ltb l)).
Proof.
  intros Hk Hlt. unfold py_sorted.
  rewrite (with_keys_pure g key kf l Hk). cbn [bind].
  rewrite (sorted_keyed_pure g kf lt ltb l Hlt). cbn [bind].
  rewrite map_map. reflexivity.
Qed.

(** ** The insertion sort: a sorted permutation *)

Lemma insert_by_perm {A : Type} (ltb : A -> A -> bool) (x : A) (l : list A) :
  Permutation (x :: l) (insert_by ltb x l).
Proof.
  induction l as [|y l IH]; cbn [insert_by]; [reflexivity|].
  destruct (ltb y x); [|reflexivity].
  rewrite perm_swap. constructor. exact IH.
Qed.

Lemma sort_by_perm {A : Type} (ltb : A -> A -> bool) (l : list A) :
  Permutation l (sort_by ltb l).
Proof.
  induction l as [|x l IH]; cbn [sort_by]; [reflexivity|].
  rewrite <- insert_by_perm. constructor. exact IH.
Qed.

Lemma In_sort_by {A : Type} (ltb : A -> A -> bool) (l : list A) (x : A) :
  In x (sort_by ltb l) <-> In x l.
Proof.
  split; apply Permutation_in;
    [symmetry | idtac]; apply sort_by_perm.
Qed.

Lemma NoDup_sort_by {A : Type} (ltb : A -> A -> bool) (l : list A) :
  NoDup l -> NoDup (sort_by ltb l).
Proof. apply Permutation_NoDup. apply sort_by_perm. Qed.

Lemma insert_sorted_Z (x : Z) (l : list Z) :
  StronglySorted Z.le l -> StronglySorted Z.le (insert_by Z.ltb x l).
Proof.
  intros H. induction H as [|y l Hl IH Hy]; cbn [insert_by].
  - constructor; constructor.
  - destruct (Z.ltb_spec y x) as [Hlt|Hge].
    + constructor; [exact IH|].
      apply Forall_forall. intros z Hz.
      apply (Permutation_in _ (Permutation_sym (insert_by_perm Z.ltb x l)))
        in Hz.
      destruct Hz as [<-|Hz]; [lia|]. rewrite Forall_forall in Hy. auto.
    + constructor; [constructor; assumption|].
      constructor; [exact Hge|]. apply Forall_forall. intros z Hz.
      rewrite Forall_forall in Hy. specialize (Hy z Hz). lia.
Qed.

Lemma sorted_sizes_sorted (sizes : list Z) :
  StronglySorted Z.le (sorted_sizes sizes).
Proof.
  unfold sorted_sizes. induction sizes as [|x l IH]; cbn [sort_by].
  - constructor.
  - apply insert_sorted_Z. exact IH.
Qed.

(** Without repeated sizes the order is strict. *)
Lemma sorted_sizes_strict (sizes : list Z) :
  NoDup sizes -> StronglySorted Z.lt (sorted_sizes sizes).
Proof.
  intros Hnd. pose proof (sorted_sizes_sorted sizes) as Hs.
  pose proof (NoDup_sort_by Z.ltb sizes Hnd) as Hn.
  fold (sorted_sizes sizes) in Hn.
  induction Hs as [|x l Hl IH Hx]; [constructor|].
  inversion Hn as [|? ? Hnotin Hn']; subst.
  constructor; [apply IH; exact Hn'|].
  apply Forall_forall. intros z Hz. rewrite Forall_forall in Hx.
  specialize (Hx z Hz). assert (x <> z) by (intros ->; contradiction). lia.
Qed.

(** ** The sorts of the script on generated names *)

Lemma sorted_widths (ws : list Z) :
  py_sorted py_int int_lt (map str ws) = Ok (map str (sorted_sizes ws)).
Proof.
  apply (py_sorted_pure str py_int (fun w => w) int_lt Z.ltb).
  - intros w _. apply py_int_str.
  - intros a b. reflexivity.
Qed.

Lemma key_lt_pair (w a b : Z) :
  key_lt [PInt w; PInt a] [PInt w; PInt b] = Ok (a <? b).
Proof.
  cbn [key_lt part_eqb part_lt]. rewrite Z.eqb_refl.
  destruct (Z.eqb_spec a b) as [->|]; [|reflexivity].
  rewrite Z.ltb_irrefl. reflexivity.
Qed.

Lemma sorted_heights (w : Z) (hs : list Z) :
  0 <= w -> Forall (fun h => 0 <= h) hs ->
  py_sorted alnum_key key_lt (subs hs w) = Ok (subs (sorted_sizes hs) w).
Proof.
  intros Hw Hpos. unfold subs.
  apply (py_sorted_pure (subcol_name_of w) alnum_key
           (fun h => [PInt w; PInt h]) key_lt Z.ltb).
  - intros h Hh. rewrite Forall_forall in Hpos.
    apply alnum_key_subcol_name; auto.
  - intros a b. apply key_lt_pair.
Qed.

Lemma sorted_pair (p u : string) :
  String.ltb u p = false ->
  py_sorted (fun o => Ok o) str_lt [p; u] = Ok [p; u].
Proof.
  intros H. unfold py_sorted. cbn [with_keys bind sorted_keyed sorted_insert
    fst]. unfold str_lt. rewrite H. reflexivity.
Qed.

(** * The sorting stage (lines 171-193) *)

Lemma foreach_skip {A S : Type} (l : list A) (body : A -> S -> result S)
  (s : S) :
  (forall a, In a l -> body a s = Ok s) -> foreach l body s = Ok s.
Proof.
  induction l as [|a l IH]; cbn [foreach]; intros H; [reflexivity|].
  rewrite (H a (or_introl eq_refl)). cbn [bind].
  apply IH. intros; apply H; right; assumption.
Qed.

Lemma remove_name_notin (n : string) (l : list string) :
  ~ In n l -> remove_name n l = l.
Proof.
  unfold remove_name. induction l as [|x l IH]; cbn [filter]; intros H;
    [reflexivity|].
  destruct (String.eqb_spec x n) as [E|E]; cbn [negb].
  - exfalso. apply H. left. exact E.
  - rewrite IH; [reflexivity|]. intros Hn. apply H. right. exact Hn.
Qed.

Lemma remove_name_head (n : string) (l : list string) :
  ~ In n l -> remove_name n (n :: l) = l.
Proof.
  intros H. unfold remove_name. cbn [filter]. rewrite String.eqb_refl.
  cbn [negb]. apply remove_name_notin. exact H.
Qed.

Lemma remove_name_app (n : string) (a b : list string) :
  remove_name n (a ++ b) = remove_name n a ++ remove_name n b.
Proof. unfold remove_name. apply filter_app. Qed.

Lemma set_pair_same (ob : Z -> Z -> list string) (w h : Z) (l : list string) :
  set_pair ob w h l w h = l.
Proof. unfold set_pair. rewrite !Z.eqb_refl. reflexivity. Qed.

Lemma set_width_same (ch : Z -> list string) (w : Z) (l : list string) :
  set_width ch w l w = l.
Proof. unfold set_width. rewrite Z.eqb_refl. reflexivity. Qed.

Lemma set_width_other (ch : Z -> list string) (w w' : Z) (l : list string) :
  w' <> w -> set_width ch w l w' = ch w'.
Proof.
  intros H. unfold set_width. apply Z.eqb_neq in H. rewrite H. reflexivity.
Qed.

Lemma hdoc_ext (sizes : list Z) (pre0 : list Collection) (os : list Object)
  (ms : list Mesh) (so : list string) (ob ob' : Z -> Z -> list string)
  (ch ch' : Z -> list string) (sc : list string) :
  (forall w, In w sizes -> ch w = ch' w) ->
  (forall w h, In w sizes -> In h sizes -> ob w h = ob' w h) ->
  hdoc sizes pre0 os ms so ob ch sc = hdoc sizes pre0 os ms so ob' ch' sc.
Proof.
  intros Hc Ho. unfold hdoc. f_equal. f_equal. apply hierarchy_ext; assumption.
Qed.

Lemma NoDup_subs (hs : list Z) (w : Z) : NoDup hs -> NoDup (subs hs w).
Proof.
  intros H. unfold subs. apply NoDup_map_injective; [|exact H].
  intros a b E. apply subcol_name_inj in E. apply E.
Qed.

Lemma In_subs (hs : list Z) (w : Z) (n : string) :
  In n (subs hs w) <-> exists h, In h hs /\ n = subcol_name_of w h.
Proof.
  unfold subs. rewrite in_map_iff. split; intros [h [H1 H2]]; exists h; auto.
Qed.

Lemma filter_none {A : Type} (f : A -> bool) (l : list A) :
  (forall a, In a l -> f a = false) -> filter f l = [].
Proof.
  induction l as [|x l IH]; cbn [filter]; intros H; [reflexivity|].
  rewrite (H x (or_introl eq_refl)). apply IH.
  intros a Ha. apply H. right. exact Ha.
Qed.

Lemma filter_isdigit_str (ws : list Z) :
  (forall w, In w ws -> 0 <= w) -> filter isdigit (map str ws) = map str ws.
Proof.
  induction ws as [|w ws IH]; cbn [map filter]; intros H; [reflexivity|].
  rewrite str_nonneg_isdigit by (apply H; left; reflexivity).
  rewrite IH; [reflexivity|]. intros w' Hw'. apply H. right. exact Hw'.
Qed.

Section SortStage.

Variables (sizes : list Z) (pre0 : list Collection) (os : list Object)
  (ms : list Mesh) (sc0 so : list string) (ob : Z -> Z -> list string).

Hypothesis Hpre : forall n,
  generated_name n = true -> ~ In n (map col_name pre0).
Hypothesis Hsc : forall n, In n sc0 -> generated_name n = false.
Hypothesis Hpos : Forall (fun w => 0 <= w) sizes.
Hypothesis Hnd : NoDup sizes.
Hypothesis Hob : forall w h, In w sizes -> In h sizes ->
  exists p u, ob w h = [p; u] /\ p <> u /\ String.ltb u p = false.

Lemma set_pair_twice (ob' : Z -> Z -> list string) (ch : Z -> list string)
  (sc : list string) (w h : Z) (a b : list string) :
  hdoc sizes pre0 os ms so (set_pair (set_pair ob' w h a) w h b) ch sc
  = hdoc sizes pre0 os ms so (set_pair ob' w h b) ch sc.
Proof.
  apply hdoc_ext; [reflexivity|]. intros w' h' _ _. unfold set_pair.
  destruct ((w' =? w) && (h' =? h)); reflexivity.
Qed.

Lemma set_width_twice (ob' : Z -> Z -> list string) (ch : Z -> list string)
  (sc : list string) (w : Z) (a b : list string) :
  hdoc sizes pre0 os ms so ob' (set_width (set_width ch w a) w b) sc
  = hdoc sizes pre0 os ms so ob' (set_width ch w b) sc.
Proof.
  apply hdoc_ext; [|reflexivity]. intros w' _. unfold set_width.
  destruct (w' =? w); reflexivity.
Qed.

Lemma unlink_object_hd (ob' : Z -> Z -> list string) (ch : Z -> list string)
  (sc : list string) (w h : Z) (o : string) (rest : list string) :
  In w sizes -> In h sizes -> ob' w h = o :: rest -> ~ In o rest ->
  objects_unlink (DataCollection (subcol_name_of w h)) o
    (hdoc sizes pre0 os ms so ob' ch sc)
  = Ok (hdoc sizes pre0 os ms so (set_pair ob' w h rest) ch sc).
Proof.
  intros Hw Hh E Hn. unfold hdoc.
  rewrite (objects_unlink_sub sizes pre0 os ms Hpre)
    by (try assumption; rewrite E; left; reflexivity).
  rewrite E, remove_name_head by exact Hn. reflexivity.
Qed.

Lemma link_object_hd (ob' : Z -> Z -> list string) (ch : Z -> list string)
  (sc : list string) (w h : Z) (o : string) (l : list string) :
  In w sizes -> In h sizes -> ob' w h = l -> ~ In o l ->
  objects_link (DataCollection (subcol_name_of w h)) o
    (hdoc sizes pre0 os ms so ob' ch sc)
  = Ok (hdoc sizes pre0 os ms so (set_pair ob' w h (l ++ [o])) ch sc).
Proof.
  intros Hw Hh E Hn. unfold hdoc.
  rewrite (objects_link_sub sizes pre0 os ms Hpre)
    by (try assumption; rewrite E; exact Hn).
  rewrite E. reflexivity.
Qed.

Lemma sort_objects_ok (ch : Z -> list string) (sc : list string) (w h : Z) :
  In w sizes -> In h sizes ->
  sort_objects (subcol_name_of w h) (hdoc sizes pre0 os ms so ob ch sc)
  = Ok (hdoc sizes pre0 os ms so ob ch sc).
Proof.
  intros Hw Hh. destruct (Hob w h Hw Hh) as [p [u [E [Hpu Hlt]]]].
  unfold sort_objects, objects_of.
  rewrite collections_get_find. unfold hdoc at 1. cbn [data_collections].
  rewrite (get_sub sizes pre0 Hpre) by assumption.
  cbn [bind mk_col col_objects]. rewrite E.
  rewrite (sorted_pair p u Hlt). cbn [bind foreach].
  rewrite (unlink_object_hd ob ch sc w h p [u] Hw Hh E)
    by (intros [H|[]]; apply Hpu; congruence).
  cbn [bind].
  rewrite (unlink_object_hd _ ch sc w h u [] Hw Hh (set_pair_same _ _ _ _))
    by (intros []).
  cbn [bind]. rewrite set_pair_twice.
  rewrite (link_object_hd _ ch sc w h p [] Hw Hh (set_pair_same _ _ _ _))
    by (intros []).
  cbn [bind app]. rewrite set_pair_twice.
  rewrite (link_object_hd _ ch sc w h u [p] Hw Hh (set_pair_same _ _ _ _))
    by (intros [H|[]]; apply Hpu; exact H).
  cbn [bind app]. rewrite set_pair_twice. f_equal.
  apply hdoc_ext; [reflexivity|]. intros w' h' _ _. unfold set_pair.
  destruct ((w' =? w) && (h' =? h)) eqn:Eq; [|reflexivity].
  apply andb_true_iff in Eq. destruct Eq as [E1 E2].
  apply Z.eqb_eq in E1, E2. subst w' h'. symmetry. exact E.
Qed.

Lemma size_nonneg (w : Z) : In w sizes -> 0 <= w.
Proof. intros H. rewrite Forall_forall in Hpos. auto. Qed.

Lemma unlink_child_hd (ch : Z -> list string) (sc : list string) (w : Z)
  (n : string) (rest : list string) :
  In w sizes -> ch w = n :: rest -> ~ In n rest ->
  children_unlink (DataCollection (str w)) n
    (hdoc sizes pre0 os ms so ob ch sc)
  = Ok (hdoc sizes pre0 os ms so ob (set_width ch w rest) sc).
Proof.
  intros Hw E Hn. unfold hdoc.
  rewrite (children_unlink_width sizes pre0 os ms Hpre ch ob sc so w n Hw
             (size_nonneg w Hw))
    by (rewrite E; left; reflexivity).
  rewrite E, remove_name_head by exact Hn. reflexivity.
Qed.

Lemma link_child_hd (ch : Z -> list string) (sc : list string) (w : Z)
  (n : string) (l : list string) :
  In w sizes -> ch w = l -> ~ In n l ->
  children_link (DataCollection (str w)) n
    (hdoc sizes pre0 os ms so ob ch sc)
  = Ok (hdoc sizes pre0 os ms so ob (set_width ch w (l ++ [n])) sc).
Proof.
  intros Hw E Hn. unfold hdoc.
  rewrite (children_link_width sizes pre0 os ms Hpre ch ob sc so w n Hw
             (size_nonneg w Hw))
    by (rewrite E; exact Hn).
  rewrite E. reflexivity.
Qed.

Lemma item_sub (ch : Z -> list string) (sc : list string) (w h : Z) :
  In w sizes -> In h sizes ->
  collections_item (subcol_name_of w h) (hdoc sizes pre0 os ms so ob ch sc)
  = Ok (mk_col (subcol_name_of w h) [] (ob w h)).
Proof.
  intros Hw Hh. unfold collections_item. rewrite collections_get_find.
  unfold hdoc. cbn [data_collections].
  rewrite (get_sub sizes pre0 Hpre) by assumption. reflexivity.
Qed.

Lemma item_width (ch : Z -> list string) (sc : list string) (w : Z) :
  In w sizes ->
  collections_item (str w) (hdoc sizes pre0 os ms so ob ch sc)
  = Ok (mk_col (str w) (ch w) []).
Proof.
  intros Hw. unfold collections_item. rewrite collections_get_find.
  unfold hdoc. cbn [data_collections].
  rewrite (get_width sizes pre0 Hpre _ _ w Hw (size_nonneg w Hw)).
  reflexivity.
Qed.

Lemma link_scene_hd (ch : Z -> list string) (sc : list string) (n : string) :
  ~ In n sc ->
  children_link SceneCollection n (hdoc sizes pre0 os ms so ob ch sc)
  = Ok (hdoc sizes pre0 os ms so ob ch (sc ++ [n])).
Proof.
  intros Hn. unfold children_link, children_of, hdoc.
  cbn [scene_children bind]. apply name_in_false in Hn. rewrite Hn.
  reflexivity.
Qed.

Lemma relink_height_ok (ch : Z -> list string) (sc : list string) (w h : Z)
  (l : list string) :
  In w sizes -> In h sizes -> ch w = l -> ~ In (subcol_name_of w h) l ->
  relink_height (str w) (subcol_name_of w h)
    (hdoc sizes pre0 os ms so ob ch sc)
  = Ok (hdoc sizes pre0 os ms so ob
          (set_width ch w (l ++ [subcol_name_of w h])) sc).
Proof.
  intros Hw Hh E Hn. unfold relink_height.
  rewrite item_sub by assumption. cbn [bind mk_col col_name].
  rewrite (link_child_hd ch sc w _ l Hw E Hn). cbn [bind].
  rewrite item_sub by assumption. cbn [bind mk_col col_name].
  apply sort_objects_ok; assumption.
Qed.

Lemma relink_heights_ok (hs : list Z) :
  forall (done : list Z) (ch : Z -> list string) (sc : list string) (w : Z),
  In w sizes -> (forall h, In h hs -> In h sizes) -> NoDup (done ++ hs) ->
  ch w = subs done w ->
  foreach (subs hs w) (relink_height (str w))
    (hdoc sizes pre0 os ms so ob ch sc)
  = Ok (hdoc sizes pre0 os ms so ob
          (set_width ch w (subs (done ++ hs) w)) sc).
Proof.
  induction hs as [|h hs IH]; intros done ch sc w Hw Hin Hn E.
  - cbn [subs map foreach]. rewrite app_nil_r, <- E. f_equal.
    apply hdoc_ext; [|reflexivity]. intros w' _. unfold set_width.
    destruct (Z.eqb_spec w' w) as [->|]; reflexivity.
  - cbn [subs map foreach]. fold (subs hs w).
    rewrite (relink_height_ok ch sc w h (subs done w) Hw
               (Hin h (or_introl eq_refl)) E)
      by (apply subs_not_in; exact (NoDup_app_not_in _ _ _ Hn)).
    cbn [bind].
    rewrite (IH (done ++ [h]) _ sc w Hw).
    + rewrite set_width_twice, <- app_assoc. reflexivity.
    + intros h' Hh'. apply Hin. right. exact Hh'.
    + rewrite <- app_assoc. exact Hn.
    + rewrite set_width_same. unfold subs. rewrite map_app. reflexivity.
Qed.

Lemma unlink_children_ok (rest : list string) :
  forall (ch : Z -> list string) (sc : list string) (w : Z),
  In w sizes -> ch w = rest -> NoDup rest ->
  foreach rest (children_unlink (DataCollection (str w)))
    (hdoc sizes pre0 os ms so ob ch sc)
  = Ok (hdoc sizes pre0 os ms so ob (set_width ch w []) sc).
Proof.
  induction rest as [|n rest IH]; intros ch sc w Hw E Hn.
  - cbn [foreach]. f_equal. apply hdoc_ext; [|reflexivity].
    intros w' _. unfold set_width.
    destruct (Z.eqb_spec w' w) as [->|]; [exact E | reflexivity].
  - inversion Hn as [|? ? Hnotin Hn']; subst. cbn [foreach].
    rewrite (unlink_child_hd ch sc w n rest Hw E Hnotin). cbn [bind].
    rewrite (IH _ sc w Hw (set_width_same _ _ _) Hn').
    rewrite set_width_twice. reflexivity.
Qed.

Lemma relink_width_ok (ch : Z -> list string) (sc : list string) (w : Z) :
  In w sizes -> ch w = subs sizes w -> ~ In (str w) sc ->
  relink_width (str w) (hdoc sizes pre0 os ms so ob ch sc)
  = Ok (hdoc sizes pre0 os ms so ob
          (set_width ch w (subs (sorted_sizes sizes) w)) (sc ++ [str w])).
Proof.
  intros Hw E Hn. unfold relink_width.
  rewrite item_width by exact Hw. cbn [bind mk_col col_name].
  rewrite (link_scene_hd ch sc (str w) Hn). cbn [bind].
  rewrite item_width by exact Hw. cbn [bind mk_col col_name].
  unfold children_of. rewrite collections_get_find. unfold hdoc at 1.
  cbn [data_collections].
  rewrite (get_width sizes pre0 Hpre _ _ w Hw (size_nonneg w Hw)).
  cbn [bind mk_col col_children]. rewrite E.
  rewrite (sorted_heights w sizes (size_nonneg w Hw) Hpos). cbn [bind].
  rewrite (unlink_children_ok (subs sizes w) ch _ w Hw E
             (NoDup_subs sizes w Hnd)).
  cbn [bind].
  rewrite (relink_heights_ok (sorted_sizes sizes) [] _ _ w Hw).
  - cbn [app]. rewrite set_width_twice. reflexivity.
  - intros h Hh. apply In_sort_by in Hh. exact Hh.
  - cbn [app]. apply NoDup_sort_by. exact Hnd.
  - apply set_width_same.
Qed.

Lemma relink_widths_ok (todo : list Z) :
  forall (ch : Z -> list string) (sc : list string),
  NoDup todo ->
  (forall w, In w todo ->
     In w sizes /\ ch w = subs sizes w /\ ~ In (str w) sc) ->
  exists ch',
    foreach (map str todo) relink_width (hdoc sizes pre0 os ms so ob ch sc)
    = Ok (hdoc sizes pre0 os ms so ob ch' (sc ++ map str todo))
    /\ (forall w, In w todo -> ch' w = subs (sorted_sizes sizes) w)
    /\ (forall w, ~ In w todo -> ch' w = ch w).
Proof.
  induction todo as [|w todo IH]; intros ch sc Hn Hall.
  - exists ch. cbn [map foreach]. rewrite app_nil_r.
    repeat split; auto. intros w [].
  - inversion Hn as [|? ? Hnotin Hn']; subst.
    destruct (Hall w (or_introl eq_refl)) as [Hw [E Hsc']].
    cbn [map foreach]. rewrite (relink_width_ok ch sc w Hw E Hsc').
    cbn [bind].
    destruct (IH (set_width ch w (subs (sorted_sizes sizes) w))
                (sc ++ [str w]) Hn') as [ch' [Hrun [Hin Hout]]].
    { intros w' Hw'. destruct (Hall w' (or_intror Hw')) as [H1 [H2 H3]].
      assert (Hne : w' <> w) by (intros ->; contradiction).
      repeat split; [exact H1 | rewrite set_width_other; assumption |].
      intros Hi. apply in_app_or in Hi. destruct Hi as [Hi|[Hi|[]]];
        [contradiction|]. apply str_inj in Hi. congruence. }
    exists ch'. rewrite Hrun, <- app_assoc. repeat split; auto.
    + intros w' [<-|Hw']; [|apply Hin; exact Hw'].
      rewrite Hout by exact Hnotin. apply set_width_same.
    + intros w' Hw'. rewrite Hout by (intros Hi; apply Hw'; right; exact Hi).
      apply set_width_other. intros ->. apply Hw'. left. reflexivity.
Qed.

Lemma unlink_scene_ok (ch : Z -> list string) (names : list string)
  (ws : list Z) :
  NoDup ws -> (forall w, In w ws -> In w sizes /\ In (str w) names) ->
  foreach (map str ws)
    (fun col D' =>
       if name_in col names then children_unlink SceneCollection col D'
       else Ok D')
    (hdoc sizes pre0 os ms so ob ch (sc0 ++ map str ws))
  = Ok (hdoc sizes pre0 os ms so ob ch sc0).
Proof.
  induction ws as [|w ws IH]; intros Hn Hall.
  - cbn [map foreach]. rewrite app_nil_r. reflexivity.
  - inversion Hn as [|? ? Hnotin Hn']; subst.
    destruct (Hall w (or_introl eq_refl)) as [Hw Hin].
    cbn [map foreach]. apply name_in_In in Hin. rewrite Hin.
    unfold children_unlink, children_of. unfold hdoc at 1.
    cbn [scene_children bind].
    assert (Hi : name_in (str w) (sc0 ++ str w :: map str ws) = true).
    { apply name_in_In. apply in_or_app. right. left. reflexivity. }
    rewrite Hi. cbn [bind put_children data_collections data_objects
      data_meshes scene_children scene_objects].
    rewrite remove_name_app, remove_name_head, remove_name_notin.
    + apply IH; [exact Hn'|]. intros w' Hw'. apply Hall. right. exact Hw'.
    + intros Hs. apply Hsc in Hs.
      rewrite str_generated in Hs by (apply size_nonneg; exact Hw).
      discriminate.
    + intros Hs. apply in_map_iff in Hs. destruct Hs as [w' [E Hw']].
      apply str_inj in E. subst. contradiction.
Qed.

Lemma not_generated_not_digit (n : string) :
  generated_name n = false -> isdigit n = false.
Proof.
  unfold generated_name. intros H. apply orb_false_iff in H.
  destruct H as [H _]. apply orb_false_iff in H. apply H.
Qed.

Lemma digit_children :
  filter isdigit (sc0 ++ map str sizes) = map str sizes.
Proof.
  rewrite filter_app, filter_none, filter_isdigit_str.
  - reflexivity.
  - apply size_nonneg.
  - intros n Hn. apply not_generated_not_digit, Hsc, Hn.
Qed.

(** The sorting stage on the generated hierarchy: width collections are
    relinked to the scene in ascending order, and so are the subcollections
    of every width; the objects keep their order. *)
Lemma sort_hierarchy_ok :
  sort_hierarchy
    (hdoc sizes pre0 os ms so ob (subs sizes) (sc0 ++ map str sizes))
  = Ok (hdoc sizes pre0 os ms so ob
          (subs (sorted_sizes sizes))
          (sc0 ++ map str (sorted_sizes sizes))).
Proof.
  unfold sort_hierarchy. unfold hdoc at 1 2. cbn [scene_children].
  rewrite digit_children, sorted_widths. cbn [bind].
  fold (hdoc sizes pre0 os ms so ob (subs sizes) (sc0 ++ map str sizes)).
  rewrite foreach_app.
  rewrite foreach_skip.
  2:{ intros n Hn.
      assert (E : name_in n (map str (sorted_sizes sizes)) = false).
      { apply name_in_false. intros Hi. apply in_map_iff in Hi.
        destruct Hi as [w [<- Hw]]. apply In_sort_by in Hw.
        apply Hsc in Hn. rewrite str_generated in Hn
          by (apply size_nonneg; exact Hw). discriminate. }
      rewrite E. reflexivity. }
  cbn [bind].
  rewrite (unlink_scene_ok (subs sizes) (map str (sorted_sizes sizes)) sizes
             Hnd).
  2:{ intros w Hw. split; [exact Hw|]. apply in_map.
      apply In_sort_by. exact Hw. }
  cbn [bind].
  destruct (relink_widths_ok (sorted_sizes sizes) (subs sizes) sc0)
    as [ch' [Hrun [Hin _]]].
  { apply NoDup_sort_by. exact Hnd. }
  { intros w Hw. apply In_sort_by in Hw. repeat split; auto.
    intros Hs. apply Hsc in Hs.
    rewrite str_generated in Hs by (apply size_nonneg; exact Hw).
    discriminate. }
  rewrite Hrun. f_equal. apply hdoc_ext; [|reflexivity].
  intros w Hw. apply Hin. apply In_sort_by. exact Hw.
Qed.

End SortStage.

(** * The whole generation (lines 42-193) *)

Lemma nodup_z_NoDup (l : list Z) : nodup_z l = true -> NoDup l.
Proof.
  induction l as [|x l IH]; cbn [nodup_z]; intros H; [constructor|].
  apply andb_true_iff in H. destruct H as [H1 H2].
  constructor; [|apply IH; exact H2].
  intros Hin. apply negb_true_iff in H1.
  assert (E : existsb (Z.eqb x) l = true).
  { apply existsb_exists. exists x. split; [exact Hin | apply Z.eqb_refl]. }
  congruence.
Qed.

Lemma valid_settings_spec (cfg : Settings) :
  valid_settings cfg = true ->
  (0 < PLANE_SUBDIVISION_SIZE cfg)%Q
  /\ NoDup (PLANE_SIZES_CM cfg)
  /\ Forall (fun w => 0 <= w) (PLANE_SIZES_CM cfg).
Proof.
  unfold valid_settings. intros H.
  apply andb_true_iff in H. destruct H as [H H3].
  apply andb_true_iff in H. destruct H as [H1 H2].
  repeat split.
  - apply Qlt_alt. destruct (0 ?= PLANE_SUBDIVISION_SIZE cfg)%Q;
      [discriminate | reflexivity | discriminate].
  - apply nodup_z_NoDup. exact H2.
  - apply Forall_forall. intros w Hw. rewrite forallb_forall in H3.
    apply Z.leb_le. apply H3. exact Hw.
Qed.

Lemma plan_find (ps : list (Z * Z)) (w h : Z) :
  forall on0 mn0, In (w, h) ps ->
  exists on mn,
    find (is_pair w h) (plan on0 mn0 ps) = Some (create_record on mn w h).
Proof.
  induction ps as [|[w' h'] ps IH]; intros on0 mn0 Hin; [destruct Hin|].
  cbn [plan find]. unfold is_pair at 1. cbn [create_record cr_w cr_h].
  destruct ((w' =? w) && (h' =? h)) eqn:E.
  - apply andb_true_iff in E. destruct E as [E1 E2].
    apply Z.eqb_eq in E1, E2. subst. exists on0, mn0. reflexivity.
  - destruct Hin as [Hin|Hin].
    + injection Hin as -> ->. rewrite !Z.eqb_refl in E. discriminate.
    + apply IH. exact Hin.
Qed.

(** Every subcollection holds its primary object, then its proxy. *)
Lemma pair_objects_plan (on0 mn0 : list string) (ps : list (Z * Z))
  (w h : Z) :
  In (w, h) ps -> 0 <= w ->
  exists on mn,
    let cr := create_record on mn w h in
    pair_objects (plan on0 mn0 ps) w h = [cr_obj cr; cr_ucx cr]
    /\ cr_obj cr <> cr_ucx cr
    /\ String.ltb (cr_obj cr) (cr_ucx cr) = true
    /\ String.ltb (cr_ucx cr) (cr_obj cr) = false.
Proof.
  intros Hin Hw. destruct (plan_find ps w h on0 mn0 Hin) as [on [mn E]].
  exists on, mn. cbn zeta. unfold pair_objects. rewrite E.
  split; [reflexivity|]. cbn [create_record cr_obj cr_ucx].
  destruct (primary_before_proxy w h w h on
              (on ++ [unique_name on (subcol_name_of w h)]) Hw)
    as [H1 [H2 H3]].
  auto.
Qed.

Lemma clean_scene_objects (C : Document) :
  clean C -> incl (scene_objects C) (map obj_name (data_objects C)).
Proof.
  intros [_ [_ Hwf]]. apply wf_doc_iff in Hwf.
  intros n Hn. apply Hwf. exact Hn.
Qed.

(** A run on a well-formed document with valid settings raises nothing, and
    leaves the cleaned document extended by the generated content. *)
Lemma generate_ok (cfg : Settings) (D : Document) :
  valid_settings cfg = true -> wf_doc D = true ->
  generate cfg D = Ok (generated cfg (cleanup D)).
Proof.
  intros Hcfg Hwf. apply valid_settings_spec in Hcfg.
  destruct Hcfg as [Hstep [Hnd Hpos]].
  pose proof (cleanup_clean D Hwf) as HC.
  set (C := cleanup D) in *.
  assert (Hpre : forall n, generated_name n = true ->
                           ~ In n (map col_name (data_collections C)))
    by (intros n G; exact (clean_no_generated C n HC G)).
  assert (Hsc : forall n, In n (scene_children C) -> generated_name n = false)
    by (intros n Hn; exact (clean_scene_children C n HC Hn)).
  assert (Hstep' : ~ (PLANE_SUBDIVISION_SIZE cfg == 0)%Q)
    by (intros E; rewrite E in Hstep; exact (Qlt_irrefl 0 Hstep)).
  unfold generate, generate_enum. fold (cleanup D). fold C.
  pose proof (build_hierarchy_ok cfg C HC Hnd Hpos) as Hb.
  cbn zeta in Hb. rewrite Hb. clear Hb.
  cbn [bind build_doc height_collections_map].
  pose proof (create_planes_ok cfg (subs (PLANE_SIZES_CM cfg))
                (data_collections C) (data_objects C) (data_meshes C)
                (scene_children C ++ map str (PLANE_SIZES_CM cfg))
                (scene_objects C) Hstep' Hpre Hpos Hnd
                (clean_scene_objects C HC)) as Hc.
  cbn zeta in Hc. rewrite Hc. clear Hc. cbn [bind].
  pose proof (sort_hierarchy_ok (PLANE_SIZES_CM cfg) (data_collections C)
                (data_objects C ++ flat_map created_objects (planes cfg C))
                (data_meshes C
                 ++ flat_map (created_meshes cfg) (planes cfg C))
                (scene_children C) (scene_objects C)
                (pair_objects (planes cfg C)) Hpre Hsc Hpos Hnd) as Hs.
  unfold hdoc in Hs. unfold generated, hdoc, planes in *.
  apply Hs. clear Hs.
  intros w h Hw Hh.
  destruct (pair_objects_plan (object_names C) (mesh_names C)
              (product (PLANE_SIZES_CM cfg) (PLANE_SIZES_CM cfg)) w h)
    as [on [mn [E [H1 [_ H2]]]]].
  - apply In_product. auto.
  - rewrite Forall_forall in Hpos. auto.
  - eexists. eexists. split; [exact E|]. auto.
Qed.

(** * The tessellator (lines 75-126) *)

Lemma find_app_fresh {A : Type} (f : A -> bool) (l : list A) (a : A) :
  (forall x, In x l -> f x = false) -> f a = true ->
  find f (l ++ [a]) = Some a.
Proof.
  intros Hl Ha. induction l as [|x l IH]; cbn [app find].
  - rewrite Ha. reflexivity.
  - rewrite (Hl x (or_introl eq_refl)). apply IH.
    intros y Hy. apply Hl. right. exact Hy.
Qed.

Lemma find_app_l {A : Type} (f : A -> bool) (l l' : list A) (a : A) :
  find f l = Some a -> find f (l ++ l') = Some a.
Proof.
  induction l as [|x l IH]; cbn [app find]; [discriminate|].
  destruct (f x); [auto | exact IH].
Qed.

Lemma fresh_not_named {A : Type} (name_of : A -> string) (l : list A)
  (n : string) :
  forall x, In x l ->
  String.eqb (name_of x) (unique_name (map name_of l) n) = false.
Proof.
  intros x Hx. apply String.eqb_neq. intros E.
  pose proof (unique_name_fresh (map name_of l) n) as Hf.
  apply name_in_false in Hf. apply Hf. rewrite <- E. apply in_map. exact Hx.
Qed.

(** The object that [create_subdivided_plane_bmesh] returns is backed by the
    tessellated geometry. *)
Lemma create_subdivided_plane_ok (cfg : Settings) (width height : Q)
  (name : string) (D : Document) :
  ~ (PLANE_SUBDIVISION_SIZE cfg == 0)%Q ->
  exists obj D',
    create_subdivided_plane_bmesh cfg width height name D = Ok (obj, D')
    /\ object_geometry D' obj = Some (plane_geometry cfg width height).
Proof.
  intros Hs. unfold create_subdivided_plane_bmesh.
  rewrite subdivided_plane_total by exact Hs. cbn [bind].
  unfold meshes_new, objects_new, object_names, mesh_names.
  cbn [data_collections data_objects data_meshes scene_children
    scene_objects].
  eexists. eexists. split; [reflexivity|].
  unfold object_geometry, objects_get, meshes_get.
  cbn [data_objects data_meshes].
  rewrite find_app_fresh;
    [| apply (fresh_not_named obj_name) | apply String.eqb_refl].
  cbn [obj_data].
  rewrite find_app_fresh;
    [| apply (fresh_not_named mesh_name) | apply String.eqb_refl].
  reflexivity.
Qed.

Lemma plane_geometry_spec (cfg : Settings) (width height : Q) :
  ~ (PLANE_SUBDIVISION_SIZE cfg == 0)%Q ->
  let step := PLANE_SUBDIVISION_SIZE cfg in
  mesh_inv (- width / 2) (width / 2) (- height / 2) (height / 2)
    (grid_verts step width height (py_round (float_quot width step))
       (range (py_round (float_quot height step) + 1)))
    (plane_geometry cfg width height).
Proof.
  intros Hs step. unfold plane_geometry.
  destruct (subdivided_plane_spec step width height Hs) as [bm [E H]].
  fold step. rewrite E. exact H.
Qed.

Lemma plane_vertex_count (cfg : Settings) (width height : Q) :
  let step := PLANE_SUBDIVISION_SIZE cfg in
  (0 < step)%Q -> (0 < width)%Q -> (0 < height)%Q ->
  Z.of_nat (length (bm_verts (plane_geometry cfg width height)))
  = (py_round (float_quot width step) + 1)
    * (py_round (float_quot height step) + 1).
Proof.
  intros step Hs Hw Hh.
  assert (Hs' : ~ (step == 0)%Q)
    by (intros E; rewrite E in Hs; exact (Qlt_irrefl 0 Hs)).
  destruct (plane_geometry_spec cfg width height Hs') as [HV _].
  fold step in HV. rewrite HV, grid_verts_length, range_length.
  assert (Hx : 0 <= py_round (float_quot width step)).
  { apply py_round_nonneg. apply Qlt_le_weak.
    apply float_quot_pos; assumption. }
  assert (Hy : 0 <= py_round (float_quot height step)).
  { apply py_round_nonneg. apply Qlt_le_weak.
    apply float_quot_pos; assumption. }
  lia.
Qed.

(** C5: for positive width and height the function returns an object whose
    mesh has (round(w/step)+1) x (round(h/step)+1) vertices.  Here w/step is
    the quotient as Python computes it, the float nearest to the quotient of
    the two floats, which is within 2^-51 of the exact quotient, and round
    picks an integer within 1/2 of it: no remainder of w/step or h/step is
    an error. *)
Theorem vertex_count (cfg : Settings) (width height : Q) (name : string)
  (D : Document) :
  let step := PLANE_SUBDIVISION_SIZE cfg in
  let q_x := float_quot width step in
  let q_y := float_quot height step in
  (0 < step)%Q -> (0 < width)%Q -> (0 < height)%Q ->
  exists obj D' bm,
    create_subdivided_plane_bmesh cfg width height name D = Ok (obj, D')
    /\ object_geometry D' obj = Some bm
    /\ Z.of_nat (length (bm_verts bm))
       = (py_round q_x + 1) * (py_round q_y + 1)
    /\ (q_x - (1 # 2) <= inject_Z (py_round q_x) <= q_x + (1 # 2))%Q
    /\ (q_y - (1 # 2) <= inject_Z (py_round q_y) <= q_y + (1 # 2))%Q
    /\ (width / step * (1 - (1 # 2 ^ 51)) <= q_x
        <= width / step * (1 + (1 # 2 ^ 51)))%Q
    /\ (height / step * (1 - (1 # 2 ^ 51)) <= q_y
        <= height / step * (1 + (1 # 2 ^ 51)))%Q.
Proof.
  intros step q_x q_y Hs Hw Hh.
  assert (Hs' : ~ (step == 0)%Q)
    by (intros E; rewrite E in Hs; exact (Qlt_irrefl 0 Hs)).
  destruct (create_subdivided_plane_ok cfg width height name D Hs')
    as [obj [D' [E G]]].
  exists obj, D', (plane_geometry cfg width height).
  split; [exact E|]. split; [exact G|].
  split; [apply plane_vertex_count; assumption|].
  split; [apply py_round_nearest|]. split; [apply py_round_nearest|].
  split; apply float_quot_bounds; assumption.
Qed.

Lemma plane_no_faces (cfg : Settings) (width height : Q) :
  let step := PLANE_SUBDIVISION_SIZE cfg in
  (0 < step)%Q -> (width <= 0)%Q \/ (height <= 0)%Q ->
  bm_faces (plane_geometry cfg width height) = [].
Proof.
  intros step Hs Hwh.
  assert (Hs' : ~ (step == 0)%Q)
    by (intros E; rewrite E in Hs; exact (Qlt_irrefl 0 Hs)).
  unfold plane_geometry, subdivided_plane. fold step.
  rewrite !float_div_ok by exact Hs'. cbn [bind].
  rewrite new_grid_spec. cbn [bmesh_new bm_verts bm_faces app].
  assert (Hneg : forall q, (q <= 0)%Q -> py_round (float_quot q step) <= 0).
  { intros q Hq. apply py_round_nonpos.
    apply float_quot_nonpos; assumption. }
  destruct Hwh as [Hw|Hh].
  - rewrite foreach_skip; [reflexivity|].
    intros y _. rewrite (range_nil (py_round (float_quot width step)))
      by (apply Hneg; exact Hw). reflexivity.
  - rewrite (range_nil (py_round (float_quot height step)))
      by (apply Hneg; exact Hh). reflexivity.
Qed.

(** C9: with a width or height that is zero or negative the function still
    returns an object, and its mesh has no face: the face loops are empty,
    so the UV divisions are never reached. *)
Theorem degenerate_plane (cfg : Settings) (width height : Q) (name : string)
  (D : Document) :
  (0 < PLANE_SUBDIVISION_SIZE cfg)%Q ->
  (width <= 0)%Q \/ (height <= 0)%Q ->
  exists obj D' bm,
    create_subdivided_plane_bmesh cfg width height name D = Ok (obj, D')
    /\ object_geometry D' obj = Some bm
    /\ bm_faces bm = [].
Proof.
  intros Hs Hwh.
  assert (Hs' : ~ (PLANE_SUBDIVISION_SIZE cfg == 0)%Q)
    by (intros E; rewrite E in Hs; exact (Qlt_irrefl 0 Hs)).
  destruct (create_subdivided_plane_ok cfg width height name D Hs')
    as [obj [D' [E G]]].
  exists obj, D', (plane_geometry cfg width height).
  repeat split; try assumption. apply plane_no_faces; assumption.
Qed.

(** ** UV coordinates *)

(** Every UV of the tessellated plane is the normalised position of a grid
    vertex. *)
Lemma plane_uvs (cfg : Settings) (width height : Q) (uv : vec2) :
  let step := PLANE_SUBDIVISION_SIZE cfg in
  ~ (step == 0)%Q ->
  In uv (all_uvs (plane_geometry cfg width height)) ->
  exists x y,
    0 <= x <= py_round (float_quot width step)
    /\ 0 <= y <= py_round (float_quot height step)
    /\ uv = norm_uv (- width / 2) (width / 2) (- height / 2) (height / 2)
              (grid_co step width height y x).
Proof.
  intros step Hs Hin.
  destruct (plane_geometry_spec cfg width height Hs) as [HV HF].
  fold step in HV, HF. unfold all_uvs in Hin. apply in_flat_map in Hin.
  destruct Hin as [f [Hf Huv]]. rewrite Forall_forall in HF.
  destruct (HF f Hf) as [Hv Hu]. rewrite Hu in Huv.
  apply in_map_iff in Huv. destruct Huv as [v [<- Hvin]].
  rewrite Forall_forall in Hv. specialize (Hv v Hvin).
  unfold uv_of.
  set (V := grid_verts step width height (py_round (float_quot width step))
              (range (py_round (float_quot height step) + 1))) in *.
  assert (Hn : In (nth v V (0, 0, 0)%Q) V) by (apply nth_In; exact Hv).
  destruct (nth v V (0, 0, 0)%Q) as [[vx vy] vz] eqn:En.
  unfold V, grid_verts in Hn. apply in_flat_map in Hn.
  destruct Hn as [y [Hy Hn]]. apply in_map_iff in Hn.
  destruct Hn as [x [E Hx]]. apply In_range in Hy, Hx.
  exists x, y. rewrite E. repeat split; lia.
Qed.

Lemma norm_uv_grid (step width height : Q) (y x : Z) :
  ~ (width == 0)%Q -> ~ (height == 0)%Q ->
  let uv := norm_uv (- width / 2) (width / 2) (- height / 2) (height / 2)
              (grid_co step width height y x) in
  (fst uv == inject_Z x * step / width)%Q
  /\ (snd uv == inject_Z y * step / height)%Q.
Proof.
  intros Hw Hh. unfold norm_uv, grid_co. cbn [fst snd].
  split; field; (split; [assumption|]); intros E.
  - apply Hw. lra.
  - apply Hh. lra.
Qed.

(** When the grid does not overshoot the requested size, every UV lies in
    the unit square. *)
Lemma plane_uvs_in_unit_square (cfg : Settings) (width height : Q) :
  let step := PLANE_SUBDIVISION_SIZE cfg in
  (0 < step)%Q -> (0 < width)%Q -> (0 < height)%Q ->
  (inject_Z (py_round (float_quot width step)) * step <= width)%Q ->
  (inject_Z (py_round (float_quot height step)) * step <= height)%Q ->
  forall uv, In uv (all_uvs (plane_geometry cfg width height)) ->
             in_unit_square uv.
Proof.
  intros step Hs Hw Hh Hfx Hfy uv Hin.
  assert (Hs' : ~ (step == 0)%Q)
    by (intros E; rewrite E in Hs; exact (Qlt_irrefl 0 Hs)).
  destruct (plane_uvs cfg width height uv Hs' Hin)
    as [x [y [Hx [Hy ->]]]]. fold step.
  assert (Hw' : ~ (width == 0)%Q)
    by (intros E; rewrite E in Hw; exact (Qlt_irrefl 0 Hw)).
  assert (Hh' : ~ (height == 0)%Q)
    by (intros E; rewrite E in Hh; exact (Qlt_irrefl 0 Hh)).
  destruct (norm_uv_grid step width height y x Hw' Hh') as [Eu Ev].
  unfold in_unit_square. rewrite Eu, Ev.
  assert (Hb : forall (k n : Z) (len : Q),
             0 <= k <= n -> (0 < len)%Q -> (inject_Z n * step <= len)%Q ->
             (0 <= inject_Z k * step / len <= 1)%Q).
  { intros k n len Hk Hlen Hfit.
    assert (H0 : (inject_Z 0 <= inject_Z k)%Q)
      by (rewrite <- Zle_Qle; lia).
    change (inject_Z 0) with 0%Q in H0.
    assert (H1 : (inject_Z k <= inject_Z n)%Q)
      by (rewrite <- Zle_Qle; lia).
    split.
    - apply Qle_shift_div_l; [exact Hlen|]. nra.
    - apply Qle_shift_div_r; [exact Hlen|]. nra. }
  split;
    [apply (Hb x (py_round (float_quot width step)) width)
    | apply (Hb y (py_round (float_quot height step)) height)]; assumption.
Qed.

(** C1, evaluated at width = height = 0.35 m with the configured step of
    0.2 m: round(1.75) = 2 cells of 0.2 m overshoot the requested 0.35 m, the
    last column of vertices lies at x = 0.225 > width/2, and its loops get
    u = 0.4 / 0.35 = 8/7, outside the unit square. *)
Theorem uv_leaves_unit_square :
  exists obj D' bm uv,
    create_subdivided_plane_bmesh settings (35 # 100) (35 # 100) "35x35"
      empty_document = Ok (obj, D')
    /\ object_geometry D' obj = Some bm
    /\ In uv (all_uvs bm)
    /\ (fst uv == 8 # 7)%Q
    /\ ~ in_unit_square uv.
Proof.
  destruct (create_subdivided_plane_ok settings (35 # 100) (35 # 100)
              "35x35" empty_document) as [obj [D' [E G]]];
    [intros H; discriminate H|].
  exists obj, D', (plane_geometry settings (35 # 100) (35 # 100)).
  exists (nth 7 (all_uvs (plane_geometry settings (35 # 100) (35 # 100)))
            (0, 0)%Q).
  split; [exact E|]. split; [exact G|]. split; [|split].
  - apply nth_In. vm_compute. lia.
  - vm_compute. reflexivity.
  - intros [[_ H] _]. vm_compute in H. apply H. reflexivity.
Qed.

(** * The size pairs (lines 38-39) *)

(** C6: the pairs the main loop iterates over are exactly the ordered pairs
    of scaled sizes: every (width, height) with both components among the
    sizes in meters, hence also width = height and both orders of two
    different sizes, and nothing else; there are n * n of them. *)
Theorem size_pairs_cross_product (cfg : Settings) :
  PLANE_SIZES_M cfg = map (fun s => (inject_Z s / 100)%Q) (PLANE_SIZES_CM cfg)
  /\ (forall width height,
        In (width, height) (PLANE_SIZE_PAIRS cfg)
        <-> In width (PLANE_SIZES_M cfg) /\ In height (PLANE_SIZES_M cfg))
  /\ (forall a, In a (PLANE_SIZES_M cfg) -> In (a, a) (PLANE_SIZE_PAIRS cfg))
  /\ (forall a b, In (a, b) (PLANE_SIZE_PAIRS cfg)
                  -> In (b, a) (PLANE_SIZE_PAIRS cfg))
  /\ length (PLANE_SIZE_PAIRS cfg)
     = (length (PLANE_SIZES_CM cfg) * length (PLANE_SIZES_CM cfg))%nat.
Proof.
  unfold PLANE_SIZE_PAIRS. split; [reflexivity|]. split; [|split; [|split]].
  - intros width height. apply In_product.
  - intros a Ha. apply In_product. auto.
  - intros a b H. apply In_product in H. apply In_product. tauto.
  - rewrite product_list_prod, length_prod. unfold PLANE_SIZES_M.
    rewrite length_map. reflexivity.
Qed.

(** * What a run leaves in the document *)

Lemma plan_app_names (on0 mn0 : list string) (ps : list (Z * Z)) :
  forall l1 cr l2,
  plan on0 mn0 ps = l1 ++ cr :: l2 ->
  exists ps1 ps2,
    ps = ps1 ++ (cr_w cr, cr_h cr) :: ps2
    /\ l1 = plan on0 mn0 ps1
    /\ cr = create_record (on0 ++ created_object_names l1)
              (mn0 ++ created_mesh_names l1) (cr_w cr) (cr_h cr).
Proof.
  revert on0 mn0. induction ps as [|[w h] ps IH]; intros on0 mn0 l1 cr l2 E.
  - destruct l1; discriminate E.
  - cbn [plan] in E. destruct l1 as [|c l1].
    + cbn [app] in E. injection E as <- _.
      exists [], ps. cbn [app plan created_object_names created_mesh_names
        flat_map create_record cr_w cr_h]. rewrite !app_nil_r. auto.
    + cbn [app] in E. injection E as <- E.
      destruct (IH _ _ l1 cr l2 E) as [ps1 [ps2 [-> [-> Ecr]]]].
      exists ((w, h) :: ps1), ps2. cbn [app plan]. repeat split.
      cbn [created_object_names created_mesh_names flat_map app] in *.
      rewrite <- !app_assoc in Ecr. exact Ecr.
Qed.

Lemma plan_In (on0 mn0 : list string) (ps : list (Z * Z)) (cr : Created) :
  In cr (plan on0 mn0 ps) ->
  exists l1 l2,
    plan on0 mn0 ps = l1 ++ cr :: l2
    /\ In (cr_w cr, cr_h cr) ps
    /\ cr = create_record (on0 ++ created_object_names l1)
              (mn0 ++ created_mesh_names l1) (cr_w cr) (cr_h cr).
Proof.
  intros Hin. apply in_split in Hin. destruct Hin as [l1 [l2 E]].
  destruct (plan_app_names on0 mn0 ps l1 cr l2 E) as [ps1 [ps2 [Ep [_ Ecr]]]].
  exists l1, l2. repeat split; try assumption.
  rewrite Ep. apply in_or_app. right. left. reflexivity.
Qed.

Lemma created_objects_names (l : list Created) :
  map obj_name (flat_map created_objects l) = created_object_names l.
Proof.
  unfold created_object_names.
  induction l as [|c l IH]; cbn [flat_map]; [reflexivity|].
  rewrite map_app, IH. reflexivity.
Qed.

Lemma created_meshes_names (cfg : Settings) (l : list Created) :
  map mesh_name (flat_map (created_meshes cfg) l) = created_mesh_names l.
Proof.
  unfold created_mesh_names.
  induction l as [|c l IH]; cbn [flat_map]; [reflexivity|].
  rewrite map_app, IH. reflexivity.
Qed.

Section Generated.

Variables (cfg : Settings) (C : Document).
Hypothesis Hcfg : valid_settings cfg = true.
Hypothesis HC : clean C.

Lemma generated_sub (w h : Z) :
  In w (PLANE_SIZES_CM cfg) -> In h (PLANE_SIZES_CM cfg) ->
  collections_get (subcol_name_of w h) (generated cfg C)
  = Some (mk_col (subcol_name_of w h) [] (pair_objects (planes cfg C) w h)).
Proof.
  intros Hw Hh. rewrite collections_get_find. unfold generated, hdoc.
  cbn [data_collections]. apply get_sub; try assumption.
  intros n G. exact (clean_no_generated C n HC G).
Qed.

Lemma generated_width (w : Z) :
  In w (PLANE_SIZES_CM cfg) ->
  collections_get (str w) (generated cfg C)
  = Some (mk_col (str w) (subs (sorted_sizes (PLANE_SIZES_CM cfg)) w) []).
Proof.
  intros Hw. rewrite collections_get_find. unfold generated, hdoc.
  cbn [data_collections]. apply get_width; try assumption.
  - intros n G. exact (clean_no_generated C n HC G).
  - apply valid_settings_spec in Hcfg. destruct Hcfg as [_ [_ Hpos]].
    rewrite Forall_forall in Hpos. auto.
Qed.

(** The two objects of a created pair and the geometry behind them. *)
Lemma generated_objects (cr : Created) :
  In cr (planes cfg C) ->
  objects_get (cr_obj cr) (generated cfg C)
  = Some {| obj_name := cr_obj cr; obj_type := "MESH";
            obj_data := cr_mesh cr |}
  /\ objects_get (cr_ucx cr) (generated cfg C)
     = Some {| obj_name := cr_ucx cr; obj_type := "MESH";
               obj_data := cr_ucx_mesh cr |}
  /\ object_geometry (generated cfg C) (cr_obj cr)
     = Some (plane_geometry cfg (to_m (cr_w cr)) (to_m (cr_h cr)))
  /\ object_geometry (generated cfg C) (cr_ucx cr)
     = Some (simple_plane (to_m (cr_w cr)) (to_m (cr_h cr))).
Proof.
  intros Hin. unfold planes in Hin.
  destruct (plan_In _ _ _ cr Hin) as [l1 [l2 [E [_ Ecr]]]].
  set (on := object_names C ++ created_object_names l1) in *.
  set (mn := mesh_names C ++ created_mesh_names l1) in *.
  assert (Eo : data_objects (generated cfg C)
               = ((data_objects C ++ flat_map created_objects l1)
                  ++ [{| obj_name := cr_obj cr; obj_type := "MESH";
                         obj_data := cr_mesh cr |}])
                 ++ {| obj_name := cr_ucx cr; obj_type := "MESH";
                       obj_data := cr_ucx_mesh cr |}
                    :: flat_map created_objects l2).
  { unfold generated, hdoc, planes. cbn [data_objects]. rewrite E.
    rewrite flat_map_app. cbn [flat_map created_objects app].
    rewrite <- !app_assoc. reflexivity. }
  assert (Em : data_meshes (generated cfg C)
               = ((data_meshes C ++ flat_map (created_meshes cfg) l1)
                  ++ [{| mesh_name := cr_mesh cr;
                         mesh_geometry :=
                           plane_geometry cfg (to_m (cr_w cr))
                             (to_m (cr_h cr)) |}])
                 ++ {| mesh_name := cr_ucx_mesh cr;
                       mesh_geometry :=
                         simple_plane (to_m (cr_w cr)) (to_m (cr_h cr)) |}
                    :: flat_map (created_meshes cfg) l2).
  { unfold generated, hdoc, planes. cbn [data_meshes]. rewrite E.
    rewrite flat_map_app. cbn [flat_map created_meshes app].
    rewrite <- !app_assoc. reflexivity. }
  assert (Hon : map obj_name (data_objects C ++ flat_map created_objects l1)
                = on).
  { rewrite map_app, created_objects_names. reflexivity. }
  assert (Hmn : map mesh_name
                  (data_meshes C ++ flat_map (created_meshes cfg) l1) = mn).
  { rewrite map_app, created_meshes_names. reflexivity. }
  assert (Hp : cr_obj cr = unique_name on (subcol_name_of (cr_w cr) (cr_h cr)))
    by (rewrite Ecr at 1; reflexivity).
  assert (Hu : cr_ucx cr
               = unique_name (on ++ [cr_obj cr])
                   ("UCX_" ++ subcol_name_of (cr_w cr) (cr_h cr)))
    by (rewrite Ecr at 1; cbn [create_record cr_ucx]; rewrite <- Hp;
        reflexivity).
  assert (Hm : cr_mesh cr
               = unique_name mn (subcol_name_of (cr_w cr) (cr_h cr)))
    by (rewrite Ecr at 1; reflexivity).
  assert (Hmu : cr_ucx_mesh cr
                = unique_name (mn ++ [cr_mesh cr])
                    ("UCX_" ++ subcol_name_of (cr_w cr) (cr_h cr)))
    by (rewrite Ecr at 1; cbn [create_record cr_ucx_mesh]; rewrite <- Hm;
        reflexivity).
  assert (Gp : objects_get (cr_obj cr) (generated cfg C)
               = Some {| obj_name := cr_obj cr; obj_type := "MESH";
                         obj_data := cr_mesh cr |}).
  { unfold objects_get. rewrite Eo. apply find_app_l. apply find_app_fresh.
    - intros x Hx. rewrite Hp, <- Hon. apply fresh_not_named. exact Hx.
    - apply String.eqb_refl. }
  assert (Gu : objects_get (cr_ucx cr) (generated cfg C)
               = Some {| obj_name := cr_ucx cr; obj_type := "MESH";
                         obj_data := cr_ucx_mesh cr |}).
  { unfold objects_get. rewrite Eo.
    change (?a ++ ?x :: ?b) with (a ++ [x] ++ b). rewrite app_assoc.
    apply find_app_l. apply find_app_fresh.
    - intros x Hx. rewrite Hu.
      replace (on ++ [cr_obj cr])
        with (map obj_name
                ((data_objects C ++ flat_map created_objects l1)
                 ++ [{| obj_name := cr_obj cr; obj_type := "MESH";
                        obj_data := cr_mesh cr |}]))
        by (rewrite map_app, Hon; reflexivity).
      apply fresh_not_named. exact Hx.
    - apply String.eqb_refl. }
  assert (Mp : meshes_get (cr_mesh cr) (generated cfg C)
               = Some {| mesh_name := cr_mesh cr;
                         mesh_geometry :=
                           plane_geometry cfg (to_m (cr_w cr))
                             (to_m (cr_h cr)) |}).
  { unfold meshes_get. rewrite Em. apply find_app_l. apply find_app_fresh.
    - intros x Hx. rewrite Hm, <- Hmn. apply fresh_not_named. exact Hx.
    - apply String.eqb_refl. }
  assert (Mu : meshes_get (cr_ucx_mesh cr) (generated cfg C)
               = Some {| mesh_name := cr_ucx_mesh cr;
                         mesh_geometry :=
                           simple_plane (to_m (cr_w cr)) (to_m (cr_h cr)) |}).
  { unfold meshes_get. rewrite Em.
    change (?a ++ ?x :: ?b) with (a ++ [x] ++ b). rewrite app_assoc.
    apply find_app_l. apply find_app_fresh.
    - intros x Hx. rewrite Hmu.
      replace (mn ++ [cr_mesh cr])
        with (map mesh_name
                ((data_meshes C ++ flat_map (created_meshes cfg) l1)
                 ++ [{| mesh_name := cr_mesh cr;
                        mesh_geometry :=
                          plane_geometry cfg (to_m (cr_w cr))
                            (to_m (cr_h cr)) |}]))
        by (rewrite map_app, Hmn; reflexivity).
      apply fresh_not_named. exact Hx.
    - apply String.eqb_refl. }
  repeat split; try assumption.
  - unfold object_geometry. rewrite Gp. cbn [obj_data]. rewrite Mp.
    reflexivity.
  - unfold object_geometry. rewrite Gu. cbn [obj_data]. rewrite Mu.
    reflexivity.
Qed.

End Generated.

(** * Order of objects and groups after a run *)

Lemma append_prefix (a s : string) : exists t, (a ++ s)%string = (a ++ t)%string.
Proof. exists s. reflexivity. Qed.

Lemma pair_record (cfg : Settings) (C : Document) (w h : Z) :
  In w (PLANE_SIZES_CM cfg) -> In h (PLANE_SIZES_CM cfg) ->
  exists cr,
    In cr (planes cfg C) /\ cr_w cr = w /\ cr_h cr = h
    /\ pair_objects (planes cfg C) w h = [cr_obj cr; cr_ucx cr]
    /\ (exists on mn, cr = create_record on mn w h).
Proof.
  intros Hw Hh. unfold planes.
  destruct (plan_find (product (PLANE_SIZES_CM cfg) (PLANE_SIZES_CM cfg))
              w h (object_names C) (mesh_names C)) as [on [mn E]].
  { apply In_product. auto. }
  exists (create_record on mn w h). unfold pair_objects. rewrite E.
  repeat split.
  - apply find_some in E. apply E.
  - exists on, mn. reflexivity.
Qed.

(** ** Ascending keys *)

Lemma ascending_widths (l : list Z) :
  StronglySorted Z.lt l -> ascending py_int int_lt (map str l).
Proof.
  unfold ascending. intros H.
  induction H as [|x l Hl IH Hx]; cbn [map]; constructor; [exact IH|].
  apply Forall_forall. intros n Hn. apply in_map_iff in Hn.
  destruct Hn as [y [<- Hy]]. rewrite Forall_forall in Hx.
  exists x, y. rewrite !py_int_str. repeat split. unfold int_lt.
  f_equal. apply Z.ltb_lt. auto.
Qed.

Lemma ascending_heights (w : Z) (l : list Z) :
  0 <= w -> Forall (fun h => 0 <= h) l -> StronglySorted Z.lt l ->
  ascending alnum_key key_lt (subs l w).
Proof.
  unfold ascending, subs. intros Hw Hpos H.
  induction H as [|x l Hl IH Hx]; cbn [map]; constructor.
  - apply IH. inversion Hpos; assumption.
  - apply Forall_forall. intros n Hn. apply in_map_iff in Hn.
    destruct Hn as [y [<- Hy]]. rewrite Forall_forall in Hx, Hpos.
    exists [PInt w; PInt x], [PInt w; PInt y].
    rewrite (alnum_key_subcol_name w x Hw (Hpos x (or_introl eq_refl))).
    rewrite (alnum_key_subcol_name w y Hw (Hpos y (or_intror Hy))).
    repeat split. rewrite key_lt_pair. f_equal. apply Z.ltb_lt. auto.
Qed.

Lemma alnum_key_word (s : string) :
  contains_char "x" s = false -> isdigit s = false ->
  alnum_key s = Ok [PStr s].
Proof.
  intros Hx Hd. unfold alnum_key. rewrite split_on_no_sep by exact Hx.
  cbn [alnum_parts]. rewrite Hd. reflexivity.
Qed.

(** C2: after the sorting stage of a run from any well-formed document, the
    digit-named children of the scene are the width groups in strictly
    ascending numeric order, and the children of every width group are its
    subgroups in strictly ascending order of [alnum_key], which splits a
    name at "x", reads digit-only parts as numbers and keeps any other part
    as a string that is compared as a string. *)
Theorem sorted_iteration_order (cfg : Settings) (D : Document) :
  valid_settings cfg = true -> wf_doc D = true ->
  exists F,
    generate cfg D = Ok F
    /\ filter isdigit (scene_children F)
       = map str (sorted_sizes (PLANE_SIZES_CM cfg))
    /\ ascending py_int int_lt (filter isdigit (scene_children F))
    /\ (forall w, In w (PLANE_SIZES_CM cfg) ->
          children_of (DataCollection (str w)) F
          = Ok (subs (sorted_sizes (PLANE_SIZES_CM cfg)) w)
          /\ ascending alnum_key key_lt
               (subs (sorted_sizes (PLANE_SIZES_CM cfg)) w))
    /\ (forall w h, 0 <= w -> 0 <= h ->
          alnum_key (subcol_name_of w h) = Ok [PInt w; PInt h])
    /\ (forall a b, contains_char "x" a = false -> isdigit a = false ->
          contains_char "x" b = false -> isdigit b = false ->
          alnum_key a = Ok [PStr a] /\ alnum_key b = Ok [PStr b]
          /\ key_lt [PStr a] [PStr b] = Ok (String.ltb a b)).
Proof.
  intros Hcfg Hwf.
  pose proof (cleanup_clean D Hwf) as HC.
  pose proof (valid_settings_spec cfg Hcfg) as [Hstep [Hnd Hpos]].
  set (sizes := PLANE_SIZES_CM cfg) in *.
  assert (Hpos' : forall w, In w (sorted_sizes sizes) -> 0 <= w).
  { intros w Hw. apply In_sort_by in Hw. rewrite Forall_forall in Hpos.
    auto. }
  assert (Hdig : filter isdigit (scene_children (generated cfg (cleanup D)))
                 = map str (sorted_sizes sizes)).
  { unfold generated, hdoc. cbn [scene_children]. fold sizes.
    rewrite filter_app, filter_none, filter_isdigit_str.
    - reflexivity.
    - exact Hpos'.
    - intros n Hn. apply not_generated_not_digit.
      exact (clean_scene_children _ n HC Hn). }
  exists (generated cfg (cleanup D)).
  split; [apply generate_ok; assumption|].
  split; [exact Hdig|]. split; [|split; [|split]].
  - rewrite Hdig. apply ascending_widths. apply sorted_sizes_strict.
    exact Hnd.
  - intros w Hw. split.
    + unfold children_of.
      rewrite (generated_width cfg (cleanup D) Hcfg HC w Hw). reflexivity.
    + apply ascending_heights.
      * rewrite Forall_forall in Hpos. auto.
      * apply Forall_forall. exact Hpos'.
      * apply sorted_sizes_strict. exact Hnd.
  - intros w h Hw Hh. apply alnum_key_subcol_name; assumption.
  - intros a b Ha1 Ha2 Hb1 Hb2.
    rewrite !alnum_key_word by assumption. repeat split.
    cbn [key_lt part_eqb part_lt].
    destruct (String.eqb_spec a b) as [->|Hne]; [|reflexivity].
    unfold String.ltb.
    assert (E : String.compare b b = Eq).
    { clear. induction b as [|c b IH]; cbn [String.compare]; [reflexivity|].
      unfold Ascii.compare. rewrite N.compare_refl. exact IH. }
    rewrite E. reflexivity.
Qed.

(** * One primary and one proxy per size pair *)

Lemma sub_not_ucx (w h : Z) (s : string) :
  0 <= w -> subcol_name_of w h <> ("UCX_" ++ s)%string.
Proof.
  intros Hw E. destruct (subcol_name_head w h Hw) as [c [t [Ec Hc]]].
  rewrite Ec in E. cbn [append] in E. injection E as -> _. discriminate Hc.
Qed.

Lemma plan_keys (on0 mn0 : list string) (ps : list (Z * Z)) :
  map (fun cr => (cr_w cr, cr_h cr)) (plan on0 mn0 ps) = ps.
Proof.
  revert on0 mn0. induction ps as [|[w h] ps IH]; intros on0 mn0;
    cbn [plan map create_record cr_w cr_h]; [reflexivity|].
  rewrite IH. reflexivity.
Qed.

(** Without a clash the host keeps the requested names. *)
Lemma plan_exact (ps : list (Z * Z)) :
  forall on0 mn0,
  NoDup ps -> (forall w h, In (w, h) ps -> 0 <= w) ->
  (forall n w h, In n on0 -> In (w, h) ps ->
     n <> subcol_name_of w h /\ n <> ("UCX_" ++ subcol_name_of w h)%string) ->
  forall cr, In cr (plan on0 mn0 ps) ->
    cr_obj cr = subcol_name_of (cr_w cr) (cr_h cr)
    /\ cr_ucx cr = ("UCX_" ++ subcol_name_of (cr_w cr) (cr_h cr))%string.
Proof.
  induction ps as [|[w h] ps IH]; intros on0 mn0 Hnd Hpos Hfree cr Hin;
    [destruct Hin|].
  inversion Hnd as [|? ? Hnotin Hnd']; subst.
  assert (Hw : 0 <= w) by (apply (Hpos w h); left; reflexivity).
  assert (Ep : unique_name on0 (subcol_name_of w h) = subcol_name_of w h).
  { apply unique_name_not_taken. apply name_in_false. intros Hn.
    destruct (Hfree _ w h Hn (or_introl eq_refl)) as [H _]. apply H.
    reflexivity. }
  assert (Eu : unique_name (on0 ++ [subcol_name_of w h])
                 ("UCX_" ++ subcol_name_of w h)
               = ("UCX_" ++ subcol_name_of w h)%string).
  { apply unique_name_not_taken. apply name_in_false. intros Hn.
    apply in_app_or in Hn. destruct Hn as [Hn|[Hn|[]]].
    - destruct (Hfree _ w h Hn (or_introl eq_refl)) as [_ H]. apply H.
      reflexivity.
    - exact (sub_not_ucx w h _ Hw Hn). }
  cbn [plan] in Hin. destruct Hin as [<-|Hin].
  - cbn [create_record cr_obj cr_ucx cr_w cr_h]. rewrite Ep, Eu. auto.
  - cbn [create_record cr_obj cr_ucx] in Hin. rewrite Ep, Eu in Hin.
    apply (IH _ _ Hnd') in Hin; [exact Hin | |].
    + intros w' h' H'. apply (Hpos w' h'). right. exact H'.
    + intros n w' h' Hn H'.
      assert (Hw' : 0 <= w') by (apply (Hpos w' h'); right; exact H').
      apply in_app_or in Hn. destruct Hn as [Hn|[<-|[<-|[]]]].
      * apply (Hfree n w' h' Hn). right. exact H'.
      * split.
        -- intros E. apply subcol_name_inj in E. destruct E as [-> ->].
           contradiction.
        -- apply sub_not_ucx. exact Hw.
      * split.
        -- intros E. symmetry in E. exact (sub_not_ucx w' h' _ Hw' E).
        -- intros E. apply append_inj_l in E. apply subcol_name_inj in E.
           destruct E as [-> ->]. contradiction.
Qed.

Lemma filter_named_unique {A : Type} (f : A -> string) (l : list A) (o : A) :
  NoDup (map f l) -> In o l ->
  filter (fun x => String.eqb (f x) (f o)) l = [o].
Proof.
  induction l as [|x l IH]; cbn [map filter In]; intros Hnd Hin;
    [contradiction|].
  inversion Hnd as [|? ? Hnotin Hnd']; subst.
  destruct Hin as [->|Hin].
  - rewrite String.eqb_refl. f_equal. apply filter_none.
    intros a Ha. apply String.eqb_neq. intros E. apply Hnotin.
    rewrite <- E. apply in_map. exact Ha.
  - destruct (String.eqb_spec (f x) (f o)) as [E|_].
    + exfalso. apply Hnotin. rewrite E. apply in_map. exact Hin.
    + apply IH; assumption.
Qed.

Lemma filter_app_unique {A : Type} (f : A -> string) (a b : list A) (o : A) :
  ~ In (f o) (map f a) -> NoDup (map f b) -> In o b ->
  filter (fun x => String.eqb (f x) (f o)) (a ++ b) = [o].
Proof.
  intros Ha Hb Hin. rewrite filter_app, filter_none.
  - apply filter_named_unique; assumption.
  - intros x Hx. apply String.eqb_neq. intros E. apply Ha. rewrite <- E.
    apply in_map. exact Hx.
Qed.

Lemma NoDup_plane_names (cfg : Settings) :
  valid_settings cfg = true -> NoDup (plane_names cfg).
Proof.
  intros Hcfg. apply valid_settings_spec in Hcfg.
  destruct Hcfg as [_ [Hnd Hpos]]. unfold plane_names.
  assert (Hps : NoDup (product (PLANE_SIZES_CM cfg) (PLANE_SIZES_CM cfg)))
    by (apply NoDup_product; exact Hnd).
  assert (Hw : forall p,
             In p (product (PLANE_SIZES_CM cfg) (PLANE_SIZES_CM cfg)) ->
             0 <= fst p).
  { intros [w h] H. apply In_product in H. rewrite Forall_forall in Hpos.
    apply Hpos. apply H. }
  induction Hps as [|[w h] ps Hnotin Hps IH]; cbn [flat_map fst snd];
    [constructor|].
  assert (Hw0 : 0 <= w) by (apply (Hw (w, h)); left; reflexivity).
  assert (Hrest : forall n,
             In n (flat_map
                     (fun p => [subcol_name_of (fst p) (snd p);
                                ("UCX_" ++ subcol_name_of (fst p) (snd p))%string])
                     ps) ->
             exists w' h', In (w', h') ps
               /\ (n = subcol_name_of w' h'
                   \/ n = ("UCX_" ++ subcol_name_of w' h')%string)).
  { intros n Hn. apply in_flat_map in Hn. destruct Hn as [[w' h'] [H1 H2]].
    exists w', h'. split; [exact H1|]. cbn [fst snd In] in H2.
    destruct H2 as [<-|[<-|[]]]; auto. }
  cbn [app]. constructor; [|constructor].
  - intros [E|Hn]; [exact (sub_not_ucx w h _ Hw0 (eq_sym E))|].
    apply Hrest in Hn. destruct Hn as [w' [h' [H1 [E|E]]]].
    + apply subcol_name_inj in E. destruct E as [-> ->]. contradiction.
    + exact (sub_not_ucx w h _ Hw0 E).
  - intros Hn. apply Hrest in Hn. destruct Hn as [w' [h' [H1 [E|E]]]].
    + symmetry in E. apply (sub_not_ucx w' h' _) in E; [exact E|].
      apply (Hw (w', h')). right. exact H1.
    + apply append_inj_l in E. apply subcol_name_inj in E.
      destruct E as [-> ->]. contradiction.
  - apply IH. intros p Hp. apply Hw. right. exact Hp.
Qed.

Lemma NoDup_hierarchy_names (sizes : list Z) (ch : Z -> list string)
  (ob : Z -> Z -> list string) (ws : list Z) :
  NoDup sizes -> NoDup ws ->
  NoDup (map col_name (hierarchy sizes ch ob ws)).
Proof.
  intros Hs Hw. unfold hierarchy.
  induction Hw as [|w ws Hnotin Hw IH]; cbn [flat_map map]; [constructor|].
  rewrite map_app, width_block_names. apply NoDup_app.
  - constructor; [|apply NoDup_subs; exact Hs].
    intros Hn. apply In_subs in Hn. destruct Hn as [h [_ E]].
    symmetry in E. exact (subcol_name_not_str _ _ _ E).
  - exact IH.
  - intros n Hn1 Hn2.
    apply (hierarchy_names sizes ch ob ws n) in Hn2.
    destruct Hn2 as [w' [Hw' Hn2]].
    destruct Hn1 as [<-|Hn1].
    + destruct Hn2 as [E|[h' [_ E]]].
      * apply str_inj in E. subst. contradiction.
      * symmetry in E. exact (subcol_name_not_str _ _ _ E).
    + apply In_subs in Hn1. destruct Hn1 as [h [_ ->]].
      destruct Hn2 as [E|[h' [_ E]]].
      * exact (subcol_name_not_str _ _ _ E).
      * apply subcol_name_inj in E. destruct E as [-> _]. contradiction.
Qed.

Lemma cleanup_objects_In (D : Document) (o : Object) :
  In o (data_objects (cleanup D)) -> In o (data_objects D).
Proof.
  rewrite cleanup_eq. unfold remove_collections, remove_objects.
  cbn [data_objects]. intros H. apply filter_In in H. apply H.
Qed.

Lemma no_clash_free (cfg : Settings) (D : Document) (n : string) :
  wf_doc D = true -> no_name_clash cfg D = true ->
  In n (object_names (cleanup D)) -> ~ In n (plane_names cfg).
Proof.
  intros Hwf Hc Hn. unfold object_names in Hn. apply in_map_iff in Hn.
  destruct Hn as [o [<- Ho]].
  destruct (cleanup_clean D Hwf) as [_ [Hmesh _]].
  rewrite Forall_forall in Hmesh. specialize (Hmesh o Ho).
  apply cleanup_objects_In in Ho. unfold no_name_clash in Hc.
  rewrite forallb_forall in Hc. specialize (Hc o Ho).
  rewrite Hmesh in Hc. cbn [orb] in Hc. apply negb_true_iff in Hc.
  apply name_in_false. exact Hc.
Qed.

Lemma In_plane_names (cfg : Settings) (w h : Z) :
  In w (PLANE_SIZES_CM cfg) -> In h (PLANE_SIZES_CM cfg) ->
  In (subcol_name_of w h) (plane_names cfg)
  /\ In ("UCX_" ++ subcol_name_of w h)%string (plane_names cfg).
Proof.
  intros Hw Hh. unfold plane_names.
  split; apply in_flat_map; exists (w, h);
    (split; [apply In_product; auto|]); cbn [fst snd In]; auto.
Qed.

Section NoClash.

Variables (cfg : Settings) (D : Document).
Hypothesis Hcfg : valid_settings cfg = true.
Hypothesis Hwf : wf_doc D = true.
Hypothesis Hclash : no_name_clash cfg D = true.

Lemma planes_exact (cr : Created) :
  In cr (planes cfg (cleanup D)) ->
  cr_obj cr = subcol_name_of (cr_w cr) (cr_h cr)
  /\ cr_ucx cr = ("UCX_" ++ subcol_name_of (cr_w cr) (cr_h cr))%string.
Proof.
  pose proof (valid_settings_spec cfg Hcfg) as [_ [Hnd Hpos]].
  apply plan_exact.
  - apply NoDup_product; exact Hnd.
  - intros w h H. apply In_product in H. rewrite Forall_forall in Hpos.
    apply Hpos. apply H.
  - intros n w h Hn H. apply In_product in H. destruct H as [Hw Hh].
    pose proof (no_clash_free cfg D n Hwf Hclash Hn) as Hfree.
    destruct (In_plane_names cfg w h Hw Hh) as [H1 H2].
    split; intros ->; contradiction.
Qed.

Lemma created_names_exact :
  created_object_names (planes cfg (cleanup D)) = plane_names cfg.
Proof.
  assert (H : forall l,
             (forall cr, In cr l ->
                cr_obj cr = subcol_name_of (cr_w cr) (cr_h cr)
                /\ cr_ucx cr
                   = ("UCX_" ++ subcol_name_of (cr_w cr) (cr_h cr))%string) ->
             created_object_names l
             = flat_map
                 (fun p => let n := subcol_name_of (fst p) (snd p) in
                           [n; ("UCX_" ++ n)%string])
                 (map (fun cr => (cr_w cr, cr_h cr)) l)).
  { unfold created_object_names.
    induction l as [|cr l IH]; intros Hl; cbn [flat_map map];
      [reflexivity|].
    destruct (Hl cr (or_introl eq_refl)) as [E1 E2].
    rewrite IH by (intros c Hc; apply Hl; right; exact Hc).
    cbn [fst snd]. rewrite E1, E2. reflexivity. }
  rewrite (H _ planes_exact). unfold planes. rewrite plan_keys.
  reflexivity.
Qed.

End NoClash.

(** C4, as the code has it: when no object that survives cleanup already
    bears the name of a plane, a run leaves for every configured size pair
    exactly one object named "{w}x{h}", a mesh object backed by the
    tessellated plane, and exactly one named "UCX_{w}x{h}", a mesh object
    backed by the single quad; both are the objects of the one collection
    named "{w}x{h}", which is a child of the one collection named "{w}",
    itself a child of the scene. *)
Theorem one_pair_per_size (cfg : Settings) (D : Document) :
  valid_settings cfg = true -> wf_doc D = true ->
  no_name_clash cfg D = true ->
  exists F,
    generate cfg D = Ok F
    /\ forall w h,
       In w (PLANE_SIZES_CM cfg) -> In h (PLANE_SIZES_CM cfg) ->
       let n := subcol_name_of w h in
       let ucx := ("UCX_" ++ n)%string in
       (exists m, objects_named n F
                  = [{| obj_name := n; obj_type := "MESH"; obj_data := m |}])
       /\ object_geometry F n = Some (plane_geometry cfg (to_m w) (to_m h))
       /\ (exists m, objects_named ucx F
                     = [{| obj_name := ucx; obj_type := "MESH";
                           obj_data := m |}])
       /\ object_geometry F ucx = Some (simple_plane (to_m w) (to_m h))
       /\ collections_named n F = [mk_col n [] [n; ucx]]
       /\ (exists children,
             collections_named (str w) F = [mk_col (str w) children []]
             /\ In n children)
       /\ In (str w) (scene_children F).
Proof.
  intros Hcfg Hwf Hclash.
  pose proof (cleanup_clean D Hwf) as HC.
  pose proof (valid_settings_spec cfg Hcfg) as [_ [Hnd Hpos]].
  set (C := cleanup D) in *.
  exists (generated cfg C). split; [apply generate_ok; assumption|].
  intros w h Hw Hh n ucx.
  destruct (pair_record cfg C w h Hw Hh) as [cr [Hin [Ew [Eh [Epo _]]]]].
  destruct (planes_exact cfg D Hcfg Hwf Hclash cr Hin) as [Ep Eu].
  rewrite Ew, Eh in Ep, Eu. fold n in Ep. fold n ucx in Eu.
  destruct (generated_objects cfg C cr Hin) as [_ [_ [Gp Gu]]].
  rewrite Ew, Eh in Gp, Gu. rewrite Ep in Gp. rewrite Eu in Gu.
  destruct (In_plane_names cfg w h Hw Hh) as [Hn1 Hn2].
  assert (Hnames : map obj_name (flat_map created_objects (planes cfg C))
                   = plane_names cfg).
  { rewrite created_objects_names.
    apply created_names_exact; assumption. }
  assert (Hobj : forall o,
             In o (flat_map created_objects (planes cfg C)) ->
             In (obj_name o) (plane_names cfg) ->
             objects_named (obj_name o) (generated cfg C) = [o]).
  { intros o Ho Hname. unfold objects_named, generated, hdoc.
    cbn [data_objects]. apply (filter_app_unique obj_name).
    - intros Hc. exact (no_clash_free cfg D _ Hwf Hclash Hc Hname).
    - rewrite Hnames. apply NoDup_plane_names. exact Hcfg.
    - exact Ho. }
  assert (Hpre : forall x, generated_name x = true ->
                           ~ In x (map col_name (data_collections C)))
    by (intros x G; exact (clean_no_generated C x HC G)).
  assert (Hcol : forall c,
             In c (hierarchy (PLANE_SIZES_CM cfg)
                     (subs (sorted_sizes (PLANE_SIZES_CM cfg)))
                     (pair_objects (planes cfg C)) (PLANE_SIZES_CM cfg)) ->
             generated_name (col_name c) = true ->
             collections_named (col_name c) (generated cfg C) = [c]).
  { intros c Hc G. unfold collections_named, generated, hdoc.
    cbn [data_collections]. apply (filter_app_unique col_name).
    - apply Hpre. exact G.
    - apply NoDup_hierarchy_names; exact Hnd.
    - exact Hc. }
  repeat split.
  - exists (cr_mesh cr).
    apply (Hobj {| obj_name := n; obj_type := "MESH";
                   obj_data := cr_mesh cr |}); [|exact Hn1].
    apply in_flat_map. exists cr. split; [exact Hin|].
    unfold created_objects. rewrite Ep. left. reflexivity.
  - exact Gp.
  - exists (cr_ucx_mesh cr).
    apply (Hobj {| obj_name := ucx; obj_type := "MESH";
                   obj_data := cr_ucx_mesh cr |}); [|exact Hn2].
    apply in_flat_map. exists cr. split; [exact Hin|].
    unfold created_objects. rewrite Eu. right. left. reflexivity.
  - exact Gu.
  - apply (Hcol (mk_col n [] [n; ucx])); [|apply subcol_name_generated].
    pose proof (find_col_hierarchy_sub (PLANE_SIZES_CM cfg)
                  (subs (sorted_sizes (PLANE_SIZES_CM cfg)))
                  (pair_objects (planes cfg C)) (PLANE_SIZES_CM cfg)
                  w h Hw Hh) as Hf.
    apply find_col_some_In in Hf. destruct Hf as [Hf _].
    rewrite Epo, Ep, Eu in Hf. exact Hf.
  - exists (subs (sorted_sizes (PLANE_SIZES_CM cfg)) w). split.
    + apply (Hcol (mk_col (str w)
                     (subs (sorted_sizes (PLANE_SIZES_CM cfg)) w) [])).
      * pose proof (find_col_hierarchy_width (PLANE_SIZES_CM cfg)
                      (subs (sorted_sizes (PLANE_SIZES_CM cfg)))
                      (pair_objects (planes cfg C)) (PLANE_SIZES_CM cfg)
                      w Hw) as Hf.
        apply find_col_some_In in Hf. apply Hf.
      * apply str_generated. rewrite Forall_forall in Hpos. auto.
    + apply In_subs. exists h. split; [|reflexivity].
      apply In_sort_by. exact Hh.
  - unfold generated, hdoc. cbn [scene_children]. apply in_or_app. right.
    apply in_map. apply In_sort_by. exact Hw.
Qed.

(** * The export stage (lines 208-269) *)

Lemma split_on_two (c : ascii) (s : string) :
  contains_char c s = true ->
  exists a b rest, split_on c s = a :: b :: rest.
Proof.
  induction s as [|x s IH]; cbn [contains_char split_on]; intros H;
    [discriminate|].
  destruct (Ascii.eqb x c) eqn:E.
  - destruct s as [|y s']; cbn [split_on].
    + eauto.
    + destruct (Ascii.eqb y c); [eauto|].
      destruct (split_on c s') as [|p ps]; eauto.
  - cbn [orb] in H. destruct (IH H) as [a [b [rest Es]]].
    rewrite Es. eauto.
Qed.

(** C7: for a leaf subgroup that is exported (its name has an "x", it holds
    a mesh object, its layer collection is found and the export directory
    can be made), the loop body always reaches the export call with the
    computed path.  An existing file at that path is removed first; when
    the removal raises, the only trace is the printed message, the file
    stays, and the export call is made all the same: the body ends with
    whatever the exporter answers. *)
Theorem deletion_failure_is_logged (cfg : Settings) (os : Os)
  (width_cm subcol : string) (objs : list string) (first : string)
  (rest : list string) (target : LayerCollection) (h : Host) :
  contains_char "x" subcol = true ->
  objects_of (DataCollection subcol) (doc h) = Ok objs ->
  filter (is_mesh_object (doc h)) objs = first :: rest ->
  find_layer_collection (view_layer_root (doc h)) (DataCollection subcol)
  = Some target ->
  (forall height_cm,
     makedirs_error os
       (path_join (sep os)
          (path_join (sep os) (EXPORT_BASE_DIR cfg) width_cm) height_cm)
     = false) ->
  exists height_cm,
    getitem (split_on "x" subcol) 1 = Ok height_cm
    /\ let p := export_path_of cfg os width_cm height_cm subcol in
       let r := fst (export_subcol cfg os width_cm subcol h) in
       let h' := snd (export_subcol cfg os width_cm subcol h) in
       fbx_calls h' = fbx_calls h ++ [p]
       /\ r = (if export_error os p then Raise RuntimeError else Ok tt)
       /\ stdout h'
          = stdout h ++ removal_log os h p
            ++ (if export_error os p then []
                else [("Exported " ++ p)%string])
       /\ files h'
          = (if export_error os p then files_after_removal os h p
             else if name_in p (files_after_removal os h p)
                  then files_after_removal os h p
                  else files_after_removal os h p ++ [p])
       /\ (forall e, name_in p (files h) = true ->
                     remove_error os p = Some e ->
                     In ("Could not remove old file " ++ p ++ ": " ++ e)%string
                        (stdout h')
                     /\ In p (fbx_calls h')).
Proof.
  intros Hx Hobjs Hmesh Hlayer Hdirs.
  destruct (split_on_two "x" subcol Hx) as [a [height_cm [tl Es]]].
  exists height_cm.
  assert (Eg : getitem (split_on "x" subcol) 1 = Ok height_cm)
    by (rewrite Es; reflexivity).
  split; [exact Eg|]. cbn zeta.
  set (p := export_path_of cfg os width_cm height_cm subcol).
  assert (Erun : export_subcol cfg os width_cm subcol h
                 = (if export_error os p then Raise RuntimeError else Ok tt,
                    {| doc := doc h;
                       active_layer_collection := layer_collection_of target;
                       active_object :=
                         Some (match find (fun obj => String.eqb obj subcol)
                                       (first :: rest) with
                               | Some o => o
                               | None => first
                               end);
                       files :=
                         if export_error os p then files_after_removal os h p
                         else if name_in p (files_after_removal os h p)
                              then files_after_removal os h p
                              else files_after_removal os h p ++ [p];
                       stdout :=
                         stdout h ++ removal_log os h p
                         ++ (if export_error os p then []
                             else [("Exported " ++ p)%string]);
                       fbx_calls := fbx_calls h ++ [p] |})).
  { unfold export_subcol. rewrite Hx. cbn [negb].
    unfold e_bind at 1, e_lift at 1. rewrite Eg.
    unfold e_bind at 1, e_get at 1.
    unfold e_bind at 1, e_lift at 1. rewrite Hobjs, Hmesh, Hlayer.
    unfold e_bind at 1, set_active_layer_collection at 1.
    unfold e_bind at 1, os_makedirs at 1. rewrite Hdirs.
    unfold e_ret at 1.
    unfold e_bind at 1.
    fold (export_path_of cfg os width_cm height_cm subcol). fold p.
    unfold remove_old_file, removal_log, files_after_removal.
    unfold e_bind at 1, os_isfile at 1. cbn [files].
    destruct (name_in p (files h)) eqn:Efile;
      [destruct (remove_error os p) as [e|] eqn:Erem|];
      unfold e_bind, e_ret, e_get, set_files, print, set_active_object,
        export_scene_fbx;
      cbn [doc active_layer_collection active_object files stdout
        fbx_calls];
      rewrite ?Efile;
      destruct (export_error os p);
      cbn [doc active_layer_collection active_object files stdout
        fbx_calls app];
      rewrite <- ?app_assoc, ?app_nil_r; reflexivity. }
  rewrite Erun. cbn [fst snd fbx_calls stdout files].
  repeat split.
  - unfold removal_log. rewrite H, H0. apply in_or_app. right.
    apply in_or_app. left. left. reflexivity.
  - apply in_or_app. right. left. reflexivity.
Qed.

(** ** The export calls of a run *)

Lemma export_subcol_trace (cfg : Settings) (os : Os) (width_cm subcol : string)
  (h h' : Host) (r : result unit) :
  export_subcol cfg os width_cm subcol h = (r, h') ->
  doc h' = doc h
  /\ (r = Ok tt ->
      fbx_calls h'
      = fbx_calls h ++ subcol_exports cfg (sep os) (doc h) width_cm subcol).
Proof.
  unfold export_subcol, subcol_exports.
  destruct (negb (contains_char "x" subcol)).
  { cbn. intros E. injection E as <- <-. rewrite app_nil_r. auto. }
  unfold e_bind at 1, e_lift at 1.
  destruct (getitem (split_on "x" subcol) 1) as [height_cm|e].
  2:{ intros E. injection E as <- <-. split; [reflexivity | discriminate]. }
  unfold e_bind at 1, e_get at 1. unfold e_bind at 1, e_lift at 1.
  destruct (objects_of (DataCollection subcol) (doc h)) as [objs|e].
  2:{ intros E. injection E as <- <-. split; [reflexivity | discriminate]. }
  destruct (filter (is_mesh_object (doc h)) objs) as [|first rest].
  { cbn. intros E. injection E as <- <-. rewrite app_nil_r. auto. }
  destruct (find_layer_collection (view_layer_root (doc h))
              (DataCollection subcol)) as [target|].
  2:{ cbn. intros E. injection E as <- <-. rewrite app_nil_r. auto. }
  cbv beta iota zeta delta [e_bind set_active_layer_collection os_makedirs
    e_lift e_ret remove_old_file os_isfile e_get set_files print
    set_active_object export_scene_fbx doc active_layer_collection
    active_object files stdout fbx_calls].
  match goal with
  | |- context [makedirs_error os ?d] => destruct (makedirs_error os d)
  end.
  { intros E. injection E as <- <-. split; [reflexivity | discriminate]. }
  match goal with
  | |- context [name_in ?q ?fs] =>
      destruct (name_in q fs);
        [destruct (remove_error os q)|];
        destruct (export_error os q)
  end;
    intros E; injection E as <- <-;
    (split; [reflexivity | first [discriminate | reflexivity]]).
Qed.

Lemma e_foreach_trace {A : Type} (l : list A) (body : A -> E unit)
  (f : Document -> A -> list string) :
  (forall a h r h', body a h = (r, h') ->
     doc h' = doc h
     /\ (r = Ok tt -> fbx_calls h' = fbx_calls h ++ f (doc h) a)) ->
  forall h r h', e_foreach l body h = (r, h') ->
    doc h' = doc h
    /\ (r = Ok tt -> fbx_calls h' = fbx_calls h ++ flat_map (f (doc h)) l).
Proof.
  intros Hb. induction l as [|a l IH]; intros h r h';
    cbn [e_foreach flat_map].
  - unfold e_ret. intros E. injection E as <- <-. rewrite app_nil_r. auto.
  - unfold e_bind. destruct (body a h) as [[[]|e] h1] eqn:Eb.
    + destruct (Hb a h _ _ Eb) as [Hd Hc]. intros E.
      destruct (IH h1 r h' E) as [Hd' Hc']. rewrite Hd in Hd', Hc'.
      split; [exact Hd'|]. intros Hr. rewrite (Hc' Hr), (Hc eq_refl).
      rewrite app_assoc. reflexivity.
    + destruct (Hb a h _ _ Eb) as [Hd _]. intros E. injection E as <- <-.
      split; [exact Hd | discriminate].
Qed.

Lemma export_width_trace (cfg : Settings) (os : Os) (width_col : string)
  (h h' : Host) (r : result unit) :
  export_width cfg os width_col h = (r, h') ->
  doc h' = doc h
  /\ (r = Ok tt ->
      fbx_calls h'
      = fbx_calls h ++ width_exports cfg (sep os) (doc h) width_col).
Proof.
  unfold export_width, width_exports.
  unfold e_bind at 1, e_get at 1. unfold e_bind at 1, e_lift at 1.
  destruct (children_of (DataCollection width_col) (doc h)) as [children|e].
  2:{ intros E. injection E as <- <-. split; [reflexivity | discriminate]. }
  unfold e_bind at 1, e_lift at 1.
  destruct (py_sorted alnum_key key_lt children) as [subcols|e].
  2:{ intros E. injection E as <- <-. split; [reflexivity | discriminate]. }
  apply (e_foreach_trace subcols (export_subcol cfg os width_col)
           (fun D => subcol_exports cfg (sep os) D width_col)).
  intros a h0 r0 h0'. apply export_subcol_trace.
Qed.

Lemma export_stage_trace (cfg : Settings) (os : Os) (h h' : Host)
  (r : result unit) :
  export_stage cfg os h = (r, h') ->
  doc h' = doc h
  /\ (r = Ok tt ->
      fbx_calls h' = fbx_calls h ++ planned_exports cfg (sep os) (doc h)).
Proof.
  unfold export_stage, planned_exports.
  destruct (EXPORT_TO_FBX cfg).
  2:{ unfold print. intros E. injection E as <- <-. cbn [doc fbx_calls].
      rewrite app_nil_r. auto. }
  unfold e_bind at 1, print at 1. unfold e_bind at 1, e_get at 1.
  cbn [doc]. unfold e_bind at 1, e_lift at 1.
  destruct (py_sorted py_int int_lt (filter isdigit (scene_children (doc h))))
    as [ws|e].
  2:{ intros E. injection E as <- <-. split; [reflexivity | discriminate]. }
  unfold e_bind at 1.
  set (h1 := {| doc := doc h;
                active_layer_collection := active_layer_collection h;
                active_object := active_object h;
                files := files h;
                stdout := stdout h ++ ["Now exporting FBX files..."%string];
                fbx_calls := fbx_calls h |}).
  destruct (e_foreach ws (export_width cfg os) h1) as [[[]|e] h2] eqn:Ef.
  - destruct (e_foreach_trace ws (export_width cfg os)
                (fun D => width_exports cfg (sep os) D)
                (fun a h0 r0 h0' => export_width_trace cfg os a h0 h0' r0)
                h1 _ _ Ef) as [Hd Hc].
    unfold print. intros E. injection E as <- <-. cbn [doc fbx_calls].
    split; [exact Hd|]. intros _. exact (Hc eq_refl).
  - destruct (e_foreach_trace ws (export_width cfg os)
                (fun D => width_exports cfg (sep os) D)
                (fun a h0 r0 h0' => export_width_trace cfg os a h0 h0' r0)
                h1 _ _ Ef) as [Hd _].
    intros E. injection E as <- <-. split; [exact Hd | discriminate].
Qed.

(** The document after a run does not depend on the file system, and a run
    that ends normally has made exactly the planned export calls. *)
Lemma run_trace (cfg : Settings) (os : Os) (h : Host) :
  doc (snd (run cfg os h)) = final_document cfg (doc h)
  /\ (fst (run cfg os h) = Ok tt ->
      fbx_calls (snd (run cfg os h))
      = fbx_calls h
        ++ planned_exports cfg (sep os) (final_document cfg (doc h))).
Proof.
  destruct (run cfg os h) as [r h'] eqn:Er. cbn [fst snd].
  revert Er. unfold run, final_document. cbv beta. unfold run_enum.
  unfold e_bind at 1, e_get at 1. unfold e_bind at 1, e_lift at 1.
  change (generate_enum (data_objects (doc h)) (data_collections (doc h))
            cfg (doc h)) with (generate cfg (doc h)).
  destruct (generate cfg (doc h)) as [D|e].
  2:{ intros E. injection E as <- <-. split; [reflexivity | discriminate]. }
  unfold e_bind at 1, clear_removed at 1.
  unfold e_bind at 1, set_doc at 1. unfold e_bind at 1, print at 1.
  cbn [doc active_layer_collection active_object files stdout fbx_calls].
  intros E. apply export_stage_trace in E. exact E.
Qed.

(** * Running the generator again *)

Lemma keep_names_all (ns l : list string) :
  (forall n, In n l -> In n ns) -> keep_names ns l = [].
Proof.
  intros H. unfold keep_names. apply filter_none. intros n Hn.
  apply negb_false_iff. apply name_in_In. apply H. exact Hn.
Qed.

Lemma keep_names_app (ns a b : list string) :
  keep_names ns (a ++ b) = keep_names ns a ++ keep_names ns b.
Proof. unfold keep_names. apply filter_app. Qed.

Lemma filter_all {A : Type} (f : A -> bool) (l : list A) :
  (forall a, In a l -> f a = true) -> filter f l = l.
Proof.
  induction l as [|x l IH]; cbn [filter]; intros H; [reflexivity|].
  rewrite (H x (or_introl eq_refl)). f_equal. apply IH.
  intros a Ha. apply H. right. exact Ha.
Qed.

Lemma map_id_in {A : Type} (f : A -> A) (l : list A) :
  (forall a, In a l -> f a = a) -> map f l = l.
Proof.
  induction l as [|x l IH]; cbn [map]; intros H; [reflexivity|].
  rewrite (H x (or_introl eq_refl)). f_equal. apply IH.
  intros a Ha. apply H. right. exact Ha.
Qed.

Lemma clean_wf (C : Document) :
  clean C ->
  (forall n, In n (scene_children C) -> In n (collection_names C))
  /\ (forall n, In n (scene_objects C) -> In n (object_names C))
  /\ (forall c, In c (data_collections C) ->
        (forall n, In n (col_children c) -> In n (collection_names C))
        /\ (forall n, In n (col_objects c) -> In n (object_names C))).
Proof. intros [_ [_ H]]. apply wf_doc_iff. exact H. Qed.

Section Rerun.

Variables (cfg : Settings) (C : Document).
Hypothesis Hcfg : valid_settings cfg = true.
Hypothesis HC : clean C.

Lemma created_fresh (cr : Created) :
  In cr (planes cfg C) ->
  ~ In (cr_obj cr) (object_names C) /\ ~ In (cr_ucx cr) (object_names C).
Proof.
  intros Hin. unfold planes in Hin.
  destruct (plan_In _ _ _ cr Hin) as [l1 [l2 [_ [_ Ecr]]]].
  set (on := object_names C ++ created_object_names l1) in *.
  split; intros Hn.
  - assert (Hn' : In (cr_obj cr) on) by (apply in_or_app; left; exact Hn).
    rewrite Ecr in Hn'. cbn [create_record cr_obj] in Hn'.
    apply name_in_In in Hn'. rewrite unique_name_fresh in Hn'.
    discriminate.
  - assert (Hn' : In (cr_ucx cr) (on ++ [cr_obj cr]))
      by (apply in_or_app; left; apply in_or_app; left; exact Hn).
    rewrite Ecr in Hn'. cbn [create_record cr_obj cr_ucx] in Hn'.
    apply name_in_In in Hn'. rewrite unique_name_fresh in Hn'.
    discriminate.
Qed.

Lemma In_created_names (n : string) :
  In n (created_object_names (planes cfg C)) <->
  exists cr, In cr (planes cfg C) /\ (n = cr_obj cr \/ n = cr_ucx cr).
Proof.
  unfold created_object_names. rewrite in_flat_map. split.
  - intros [cr [H1 H2]]. exists cr. split; [exact H1|].
    cbn [In] in H2. destruct H2 as [<-|[<-|[]]]; auto.
  - intros [cr [H1 H2]]. exists cr. split; [exact H1|].
    cbn [In]. destruct H2 as [->| ->]; auto.
Qed.

Lemma generated_mesh_object_names :
  mesh_object_names (generated cfg C)
  = created_object_names (planes cfg C).
Proof.
  unfold mesh_object_names, generated, hdoc. cbn [data_objects].
  destruct HC as [_ [Hmesh _]].
  rewrite filter_app, filter_none, filter_all.
  - apply created_objects_names.
  - intros o Ho. apply in_flat_map in Ho. destruct Ho as [cr [_ Ho]].
    cbn [created_objects In] in Ho. destruct Ho as [<-|[<-|[]]]; reflexivity.
  - intros o Ho. rewrite Forall_forall in Hmesh. auto.
Qed.

Lemma generated_collection_names_eq :
  generated_collection_names (generated cfg C)
  = map col_name
      (hierarchy (PLANE_SIZES_CM cfg)
         (subs (sorted_sizes (PLANE_SIZES_CM cfg)))
         (pair_objects (planes cfg C)) (PLANE_SIZES_CM cfg)).
Proof.
  unfold generated_collection_names, generated, hdoc.
  cbn [data_collections]. destruct HC as [Hgen _].
  pose proof (valid_settings_spec cfg Hcfg) as [_ [_ Hpos]].
  rewrite filter_app, filter_none, filter_all.
  - reflexivity.
  - intros c Hc.
    assert (Hn : In (col_name c)
                   (map col_name
                      (hierarchy (PLANE_SIZES_CM cfg)
                         (subs (sorted_sizes (PLANE_SIZES_CM cfg)))
                         (pair_objects (planes cfg C))
                         (PLANE_SIZES_CM cfg))))
      by (apply in_map; exact Hc).
    apply hierarchy_names in Hn. destruct Hn as [w [Hw [E|[h [_ E]]]]];
      rewrite E.
    + apply str_generated. rewrite Forall_forall in Hpos. auto.
    + apply subcol_name_generated.
  - intros c Hc. rewrite Forall_forall in Hgen. auto.
Qed.

Lemma not_created (n : string) :
  In n (object_names C) -> ~ In n (created_object_names (planes cfg C)).
Proof.
  intros Hn Hc. apply In_created_names in Hc.
  destruct Hc as [cr [Hcr [E|E]]]; subst n;
    destruct (created_fresh cr Hcr) as [H1 H2]; contradiction.
Qed.

(** Cleanup takes the generated objects and collections away again, and
    leaves the mesh datablocks. *)
Lemma cleanup_generated :
  cleanup (generated cfg C)
  = with_meshes (data_meshes (generated cfg C)) C.
Proof.
  rewrite cleanup_eq, generated_mesh_object_names,
    generated_collection_names_eq.
  destruct (clean_wf C HC) as [Hsc [Hso Hcs]].
  set (ns := created_object_names (planes cfg C)).
  set (H := hierarchy (PLANE_SIZES_CM cfg)
              (subs (sorted_sizes (PLANE_SIZES_CM cfg)))
              (pair_objects (planes cfg C)) (PLANE_SIZES_CM cfg)).
  assert (Hgn : forall n, In n (collection_names C) ->
                  ~ In n (map col_name H)).
  { intros n Hn Hh. unfold H in Hh. apply hierarchy_names in Hh.
    pose proof (valid_settings_spec cfg Hcfg) as [_ [_ Hpos]].
    rewrite Forall_forall in Hpos.
    destruct Hh as [w [Hw [E|[h [_ E]]]]]; subst n;
      refine (clean_no_generated C _ HC _ Hn);
      [apply str_generated; auto | apply subcol_name_generated]. }
  unfold remove_collections, remove_objects, with_meshes, generated, hdoc.
  cbn [data_collections data_objects data_meshes scene_children
       scene_objects].
  fold H. fold ns. f_equal.
  - rewrite map_app, filter_app.
    rewrite (filter_none _ (map _ H)).
    + rewrite app_nil_r, filter_all.
      * rewrite map_map. apply map_id_in. intros c Hc.
        destruct (Hcs c Hc) as [Hch Hob].
        unfold set_children, set_objects.
        cbn [col_name col_children col_objects].
        rewrite (keep_names_id ns); [|intros n Hn; apply not_created; auto].
        rewrite (keep_names_id (map col_name H)); [|auto].
        destruct c; reflexivity.
      * intros c Hc. apply in_map_iff in Hc. destruct Hc as [c0 [<- Hc0]].
        unfold set_objects. cbn [col_name].
        apply negb_true_iff, name_in_false, Hgn.
        unfold collection_names. apply in_map. exact Hc0.
    + intros c Hc. apply in_map_iff in Hc. destruct Hc as [c0 [<- Hc0]].
      unfold set_objects. cbn [col_name].
      apply negb_false_iff, name_in_In. apply in_map. exact Hc0.
  - rewrite filter_app. rewrite (filter_none _ (flat_map _ _)).
    + rewrite app_nil_r. apply filter_all. intros o Ho.
      apply negb_true_iff, name_in_false, not_created.
      unfold object_names. apply in_map. exact Ho.
    + intros o Ho. apply negb_false_iff, name_in_In. unfold ns.
      rewrite <- created_objects_names. apply in_map. exact Ho.
  - rewrite keep_names_app, (keep_names_id _ (scene_children C)); [|auto].
    rewrite keep_names_all; [apply app_nil_r|].
    intros n Hn. apply in_map_iff in Hn. destruct Hn as [w [<- Hw]].
    unfold H. apply hierarchy_names. exists w. split; [|left; reflexivity].
    unfold sorted_sizes in Hw. apply In_sort_by in Hw. exact Hw.
  - apply keep_names_id. intros n Hn. apply not_created. auto.
Qed.

(** What a run leaves is well formed again. *)
Lemma generated_wf : wf_doc (generated cfg C) = true.
Proof.
  destruct (clean_wf C HC) as [Hsc [Hso Hcs]].
  apply wf_doc_iff.
  assert (Ecn : collection_names (generated cfg C)
                = collection_names C
                  ++ map col_name
                       (hierarchy (PLANE_SIZES_CM cfg)
                          (subs (sorted_sizes (PLANE_SIZES_CM cfg)))
                          (pair_objects (planes cfg C))
                          (PLANE_SIZES_CM cfg))).
  { unfold collection_names, generated, hdoc. cbn [data_collections].
    apply map_app. }
  assert (Eon : object_names (generated cfg C)
                = object_names C ++ created_object_names (planes cfg C)).
  { unfold object_names, generated, hdoc. cbn [data_objects].
    rewrite map_app, created_objects_names. reflexivity. }
  rewrite Ecn, Eon.
  unfold generated at 1 2 3, hdoc.
  cbn [scene_children scene_objects data_collections].
  split; [|split].
  - intros n Hn. apply in_or_app. apply in_app_or in Hn.
    destruct Hn as [Hn|Hn]; [left; auto|right].
    apply in_map_iff in Hn. destruct Hn as [w [<- Hw]].
    apply hierarchy_names. exists w. split; [|left; reflexivity].
    unfold sorted_sizes in Hw. apply In_sort_by in Hw. exact Hw.
  - intros n Hn. apply in_or_app. left. auto.
  - intros c Hc. apply in_app_or in Hc. destruct Hc as [Hc|Hc].
    + destruct (Hcs c Hc) as [Hch Hob].
      split; intros n Hn; apply in_or_app; left; auto.
    + unfold hierarchy in Hc. apply in_flat_map in Hc.
      destruct Hc as [w [Hw Hc]]. apply In_width_block in Hc.
      destruct Hc as [->|[h [Hh ->]]]; cbn [mk_col col_children col_objects];
        split; intros n Hn; try contradiction.
      * apply in_or_app. right. apply hierarchy_names.
        apply In_subs in Hn. destruct Hn as [h [Hh ->]].
        exists w. split; [exact Hw|]. right. exists h. split; [|reflexivity].
        unfold sorted_sizes in Hh. apply In_sort_by in Hh. exact Hh.
      * apply in_or_app. right.
        destruct (pair_record cfg C w h Hw Hh) as [cr [Hcr [_ [_ [E _]]]]].
        rewrite E in Hn. apply In_created_names. exists cr.
        split; [exact Hcr|]. cbn [In] in Hn.
        destruct Hn as [<-|[<-|[]]]; auto.
Qed.

End Rerun.

(** ** The snapshot does not depend on the mesh datablocks before the run *)

Lemma plan_keys_indep (ps : list (Z * Z)) (on mn mn' : list string) :
  map created_key (plan on mn ps) = map created_key (plan on mn' ps).
Proof.
  revert on mn mn'. induction ps as [|[w h] ps IH]; intros on mn mn';
    cbn [plan map]; [reflexivity|].
  f_equal. cbn [create_record cr_obj cr_ucx]. apply IH.
Qed.

Lemma pair_objects_keys (pl pl' : list Created) (w h : Z) :
  map created_key pl = map created_key pl' ->
  pair_objects pl w h = pair_objects pl' w h.
Proof.
  revert pl'. unfold pair_objects.
  induction pl as [|cr pl IH]; intros [|cr' pl'] E; cbn [map] in E;
    try discriminate; [reflexivity|].
  unfold created_key in E. injection E as Ew Eh Eo Eu E2.
  cbn [find]. unfold is_pair. rewrite Ew, Eh.
  destruct ((cr_w cr' =? w) && (cr_h cr' =? h)).
  - rewrite Eo, Eu. reflexivity.
  - apply IH. exact E2.
Qed.

Lemma created_snaps_keys (cfg : Settings) (pl pl' : list Created) :
  map created_key pl = map created_key pl' ->
  flat_map (created_snaps cfg) pl = flat_map (created_snaps cfg) pl'.
Proof.
  revert pl'.
  induction pl as [|cr pl IH]; intros [|cr' pl'] E; cbn [map] in E;
    try discriminate; [reflexivity|].
  unfold created_key in E. injection E as Ew Eh Eo Eu E2.
  cbn [flat_map]. rewrite (IH pl' E2). unfold created_snaps.
  rewrite Ew, Eh, Eo, Eu. reflexivity.
Qed.

Lemma clean_with_meshes (ms : list Mesh) (C : Document) :
  clean C -> clean (with_meshes ms C).
Proof. intros H. exact H. Qed.

Lemma snapshot_generated (cfg : Settings) (C : Document) :
  valid_settings cfg = true -> clean C ->
  snapshot (generated cfg C)
  = {| snap_collections :=
         data_collections C
         ++ hierarchy (PLANE_SIZES_CM cfg)
              (subs (sorted_sizes (PLANE_SIZES_CM cfg)))
              (pair_objects (planes cfg C)) (PLANE_SIZES_CM cfg);
       snap_objects :=
         map (fun o => (obj_name o, obj_type o, None)) (data_objects C)
         ++ flat_map (created_snaps cfg) (planes cfg C);
       snap_scene_children :=
         scene_children C ++ map str (sorted_sizes (PLANE_SIZES_CM cfg));
       snap_scene_objects := scene_objects C |}.
Proof.
  intros Hcfg HC. unfold snapshot. f_equal.
  unfold generated at 2, hdoc. cbn [data_objects].
  rewrite map_app. f_equal.
  - apply map_ext_in. intros o Ho. unfold snap_object.
    destruct HC as [_ [Hm _]]. rewrite Forall_forall in Hm.
    rewrite (Hm o Ho). reflexivity.
  - assert (G : forall cr, In cr (planes cfg C) ->
                  map (snap_object (generated cfg C)) (created_objects cr)
                  = created_snaps cfg cr).
    { intros cr Hcr.
      destruct (generated_objects cfg C cr Hcr) as [_ [_ [G1 G2]]].
      unfold created_objects, created_snaps, snap_object.
      cbn [map obj_name obj_type is_mesh String.eqb].
      rewrite G1, G2. reflexivity. }
    revert G. generalize (generated cfg C). generalize (planes cfg C).
    intros pl. induction pl as [|cr pl IH]; intros F G; cbn [flat_map];
      [reflexivity|].
    rewrite map_app, (G cr (or_introl eq_refl)). f_equal.
    apply IH. intros cr' Hcr'. apply G. right. exact Hcr'.
Qed.

Lemma snapshot_with_meshes (cfg : Settings) (ms : list Mesh) (C : Document) :
  valid_settings cfg = true -> clean C ->
  snapshot (generated cfg (with_meshes ms C)) = snapshot (generated cfg C).
Proof.
  intros Hcfg HC.
  rewrite (snapshot_generated cfg (with_meshes ms C) Hcfg
             (clean_with_meshes ms C HC)).
  rewrite (snapshot_generated cfg C Hcfg HC).
  assert (K : map created_key (planes cfg (with_meshes ms C))
              = map created_key (planes cfg C)).
  { unfold planes, with_meshes, object_names. cbn [data_objects].
    apply plan_keys_indep. }
  cbn [with_meshes data_collections data_objects scene_children
       scene_objects].
  f_equal.
  - f_equal. apply hierarchy_ext; [reflexivity|].
    intros w h _ _. apply pair_objects_keys. exact K.
  - f_equal. apply created_snaps_keys. exact K.
Qed.

(** C3, amended: with valid settings and a well-formed document, a second
    run of the whole script leaves the same collections with the same
    children and objects, the same scene links, and the same objects with
    the same names, types and geometry as the first run left.  Cleanup
    removes the objects and the collections of the first run but not its
    mesh datablocks, which stay in the document; the snapshot leaves them
    out. *)
Theorem second_run_same_snapshot (cfg : Settings) (os1 os2 : Os) (h : Host) :
  valid_settings cfg = true ->
  wf_doc (doc h) = true ->
  snapshot (doc (snd (run cfg os2 (snd (run cfg os1 h)))))
  = snapshot (doc (snd (run cfg os1 h))).
Proof.
  intros Hcfg Hwf.
  destruct (run_trace cfg os2 (snd (run cfg os1 h))) as [E2 _].
  destruct (run_trace cfg os1 h) as [E1 _].
  rewrite E2, E1. clear E1 E2.
  pose proof (cleanup_clean (doc h) Hwf) as HC.
  unfold final_document at 2 3.
  rewrite (generate_ok cfg (doc h) Hcfg Hwf).
  unfold final_document.
  rewrite (generate_ok cfg _ Hcfg (generated_wf cfg _ HC)).
  rewrite (cleanup_generated cfg _ Hcfg HC).
  apply snapshot_with_meshes; assumption.
Qed.

(** * What a second run adds *)

Lemma plan_length (ps : list (Z * Z)) (on mn : list string) :
  length (plan on mn ps) = length ps.
Proof.
  revert on mn. induction ps as [|[w h] ps IH]; intros on mn; cbn [plan length];
    [reflexivity|]. rewrite IH. reflexivity.
Qed.

Lemma created_meshes_length (cfg : Settings) (pl : list Created) :
  length (flat_map (created_meshes cfg) pl) = (2 * length pl)%nat.
Proof.
  induction pl as [|cr pl IH]; cbn [flat_map length]; [reflexivity|].
  rewrite length_app, IH. cbn [created_meshes length]. lia.
Qed.

(** A run adds two mesh datablocks per size pair to the ones it found. *)
Lemma run_meshes_length (cfg : Settings) (os : Os) (h : Host) :
  valid_settings cfg = true -> wf_doc (doc h) = true ->
  length (data_meshes (doc (snd (run cfg os h))))
  = (length (data_meshes (doc h))
     + 2 * (length (PLANE_SIZES_CM cfg) * length (PLANE_SIZES_CM cfg)))%nat.
Proof.
  intros Hcfg Hwf. destruct (run_trace cfg os h) as [E _]. rewrite E.
  unfold final_document. rewrite (generate_ok cfg (doc h) Hcfg Hwf).
  unfold generated, hdoc. cbn [data_meshes].
  rewrite length_app, created_meshes_length. unfold planes.
  rewrite plan_length, product_list_prod, length_prod.
  rewrite cleanup_eq. reflexivity.
Qed.

Lemma run_wf (cfg : Settings) (os : Os) (h : Host) :
  valid_settings cfg = true -> wf_doc (doc h) = true ->
  wf_doc (doc (snd (run cfg os h))) = true.
Proof.
  intros Hcfg Hwf. destruct (run_trace cfg os h) as [E _]. rewrite E.
  unfold final_document. rewrite (generate_ok cfg (doc h) Hcfg Hwf).
  apply generated_wf. apply cleanup_clean. exact Hwf.
Qed.

(** * Concrete runs *)

(** C3, as stated, fails on the scene of a new file: the second run finds
    the 201 mesh datablocks the first run left (cleanup removes objects and
    collections only) and adds 200 more, so the two final documents
    differ. *)
Lemma second_run_keeps_old_meshes :
  length (data_meshes
            (doc (snd (run settings willing_os (host_of default_scene [])))))
  = 201%nat
  /\ length (data_meshes
               (doc (snd (run settings willing_os
                            (snd (run settings willing_os
                                    (host_of default_scene [])))))))
     = 401%nat
  /\ doc (snd (run settings willing_os
                 (snd (run settings willing_os (host_of default_scene [])))))
     <> doc (snd (run settings willing_os (host_of default_scene []))).
Proof.
  assert (Hwf : wf_doc (doc (host_of default_scene [])) = true)
    by reflexivity.
  assert (Hcfg : valid_settings settings = true) by reflexivity.
  pose proof (run_meshes_length settings willing_os _ Hcfg Hwf) as L1.
  pose proof (run_meshes_length settings willing_os _ Hcfg
                (run_wf settings willing_os _ Hcfg Hwf)) as L2.
  rewrite L1 in L2.
  change (length (data_meshes (doc (host_of default_scene []))) +
          2 * (length (PLANE_SIZES_CM settings)
               * length (PLANE_SIZES_CM settings)))%nat
    with 201%nat in L1, L2.
  change (201 + 2 * (length (PLANE_SIZES_CM settings)
                     * length (PLANE_SIZES_CM settings)))%nat
    with 401%nat in L2.
  split; [exact L1|]. split; [exact L2|].
  intros E. rewrite E in L2.
  generalize (eq_trans (eq_sym L1) L2). clear. intros H. discriminate H.
Qed.

Lemma second_run_same_snapshot_witness :
  valid_settings settings = true
  /\ wf_doc (doc (host_of default_scene [])) = true
  /\ snapshot (doc (snd (run settings read_only_os
                           (snd (run settings willing_os
                                   (host_of default_scene []))))))
     = snapshot (doc (snd (run settings willing_os
                             (host_of default_scene [])))).
Proof.
  split; [reflexivity|]. split; [reflexivity|].
  apply (second_run_same_snapshot settings willing_os read_only_os
           (host_of default_scene [])); reflexivity.
Defined.

(** C4, as stated, fails when an object that is not a mesh already bears
    the name of a plane: cleanup keeps it (line 44 removes mesh objects
    only), so the host names the new primary 20x20.001, and no mesh object
    is called 20x20. *)
Lemma renamed_camera_keeps_its_name :
  wf_doc renamed_camera_scene = true
  /\ exists F,
       generate settings renamed_camera_scene = Ok F
       /\ objects_named "20x20" F
          = [{| obj_name := "20x20"; obj_type := "CAMERA";
                obj_data := "Camera" |}]
       /\ objects_of (DataCollection "20x20") F
          = Ok ["20x20.001"; "UCX_20x20"]%string.
Proof.
  split; [reflexivity|].
  exists (generated settings (cleanup renamed_camera_scene)).
  split; [apply generate_ok; reflexivity|].
  split; lazy; reflexivity.
Qed.

Lemma one_pair_per_size_witness :
  valid_settings settings = true
  /\ wf_doc default_scene = true
  /\ no_name_clash settings default_scene = true
  /\ exists F,
       generate settings default_scene = Ok F
       /\ forall w h,
          In w (PLANE_SIZES_CM settings) -> In h (PLANE_SIZES_CM settings) ->
          let n := subcol_name_of w h in
          let ucx := ("UCX_" ++ n)%string in
          (exists m, objects_named n F
                     = [{| obj_name := n; obj_type := "MESH";
                           obj_data := m |}])
          /\ object_geometry F n
             = Some (plane_geometry settings (to_m w) (to_m h))
          /\ (exists m, objects_named ucx F
                        = [{| obj_name := ucx; obj_type := "MESH";
                              obj_data := m |}])
          /\ object_geometry F ucx = Some (simple_plane (to_m w) (to_m h))
          /\ collections_named n F = [mk_col n [] [n; ucx]]
          /\ (exists children,
                collections_named (str w) F = [mk_col (str w) children []]
                /\ In n children)
          /\ In (str w) (scene_children F).
Proof.
  split; [reflexivity|]. split; [reflexivity|]. split; [reflexivity|].
  apply (one_pair_per_size settings default_scene); reflexivity.
Defined.

Lemma vertex_count_witness :
  (0 < PLANE_SUBDIVISION_SIZE settings)%Q
  /\ (0 < 3 # 10)%Q /\ (0 < 1 # 2)%Q
  /\ py_round (float_quot (3 # 10) (PLANE_SUBDIVISION_SIZE settings)) = 1
  /\ py_round (float_quot (1 # 2) (PLANE_SUBDIVISION_SIZE settings)) = 2
  /\ exists obj D' bm,
       create_subdivided_plane_bmesh settings (3 # 10) (1 # 2) "30x50"
         empty_document = Ok (obj, D')
       /\ object_geometry D' obj = Some bm
       /\ Z.of_nat (length (bm_verts bm))
          = (py_round (float_quot (3 # 10) (PLANE_SUBDIVISION_SIZE settings))
             + 1)
            * (py_round
                 (float_quot (1 # 2) (PLANE_SUBDIVISION_SIZE settings)) + 1)
       /\ (float_quot (3 # 10) (PLANE_SUBDIVISION_SIZE settings) - (1 # 2)
           <= inject_Z
                (py_round
                   (float_quot (3 # 10) (PLANE_SUBDIVISION_SIZE settings)))
           <= float_quot (3 # 10) (PLANE_SUBDIVISION_SIZE settings)
              + (1 # 2))%Q
       /\ (float_quot (1 # 2) (PLANE_SUBDIVISION_SIZE settings) - (1 # 2)
           <= inject_Z
                (py_round
                   (float_quot (1 # 2) (PLANE_SUBDIVISION_SIZE settings)))
           <= float_quot (1 # 2) (PLANE_SUBDIVISION_SIZE settings)
              + (1 # 2))%Q
       /\ ((3 # 10) / PLANE_SUBDIVISION_SIZE settings * (1 - (1 # 2 ^ 51))
           <= float_quot (3 # 10) (PLANE_SUBDIVISION_SIZE settings)
           <= (3 # 10) / PLANE_SUBDIVISION_SIZE settings
              * (1 + (1 # 2 ^ 51)))%Q
       /\ ((1 # 2) / PLANE_SUBDIVISION_SIZE settings * (1 - (1 # 2 ^ 51))
           <= float_quot (1 # 2) (PLANE_SUBDIVISION_SIZE settings)
           <= (1 # 2) / PLANE_SUBDIVISION_SIZE settings
              * (1 + (1 # 2 ^ 51)))%Q.
Proof.
  split; [reflexivity|]. split; [reflexivity|]. split; [reflexivity|].
  split; [vm_compute; reflexivity|]. split; [vm_compute; reflexivity|].
  apply (vertex_count settings (3 # 10) (1 # 2) "30x50" empty_document);
    reflexivity.
Defined.

Lemma degenerate_plane_witness :
  (0 < PLANE_SUBDIVISION_SIZE settings)%Q
  /\ ((0 <= 0)%Q \/ (1 <= 0)%Q)
  /\ exists obj D' bm,
       create_subdivided_plane_bmesh settings 0 1 "0x100" empty_document
       = Ok (obj, D')
       /\ object_geometry D' obj = Some bm
       /\ bm_faces bm = [].
Proof.
  assert (H0 : (0 <= 0)%Q) by (unfold Qle; simpl; lia).
  split; [reflexivity|]. split; [left; exact H0|].
  apply (degenerate_plane settings 0 1 "0x100" empty_document);
    [reflexivity | left; exact H0].
Defined.

Lemma sorted_iteration_order_witness :
  valid_settings settings = true
  /\ wf_doc default_scene = true
  /\ exists F,
       generate settings default_scene = Ok F
       /\ filter isdigit (scene_children F)
          = map str (sorted_sizes (PLANE_SIZES_CM settings))
       /\ ascending py_int int_lt (filter isdigit (scene_children F))
       /\ (forall w, In w (PLANE_SIZES_CM settings) ->
             children_of (DataCollection (str w)) F
             = Ok (subs (sorted_sizes (PLANE_SIZES_CM settings)) w)
             /\ ascending alnum_key key_lt
                  (subs (sorted_sizes (PLANE_SIZES_CM settings)) w))
       /\ (forall w h, 0 <= w -> 0 <= h ->
             alnum_key (subcol_name_of w h) = Ok [PInt w; PInt h])
       /\ (forall a b, contains_char "x" a = false -> isdigit a = false ->
             contains_char "x" b = false -> isdigit b = false ->
             alnum_key a = Ok [PStr a] /\ alnum_key b = Ok [PStr b]
             /\ key_lt [PStr a] [PStr b] = Ok (String.ltb a b)).
Proof.
  split; [reflexivity|]. split; [reflexivity|].
  apply (sorted_iteration_order settings default_scene); reflexivity.
Defined.

Lemma deletion_failure_is_logged_witness :
  contains_char "x" "20x40" = true
  /\ objects_of (DataCollection "20x40") (doc one_leaf_host)
     = Ok ["20x40"; "UCX_20x40"]%string
  /\ filter (is_mesh_object (doc one_leaf_host))
       ["20x40"; "UCX_20x40"]%string
     = "20x40"%string :: ["UCX_20x40"%string]
  /\ find_layer_collection (view_layer_root (doc one_leaf_host))
       (DataCollection "20x40")
     = Some (layer_of one_leaf_scene "20x40")
  /\ (forall height_cm,
        makedirs_error read_only_os
          (path_join (sep read_only_os)
             (path_join (sep read_only_os) (EXPORT_BASE_DIR settings) "20")
             height_cm)
        = false)
  /\ exists height_cm,
       getitem (split_on "x" "20x40") 1 = Ok height_cm
       /\ let p := export_path_of settings read_only_os "20" height_cm
                     "20x40" in
          let r := fst (export_subcol settings read_only_os "20" "20x40"
                          one_leaf_host) in
          let h' := snd (export_subcol settings read_only_os "20" "20x40"
                           one_leaf_host) in
          fbx_calls h' = fbx_calls one_leaf_host ++ [p]
          /\ r = (if export_error read_only_os p then Raise RuntimeError
                  else Ok tt)
          /\ stdout h'
             = stdout one_leaf_host ++ removal_log read_only_os one_leaf_host p
               ++ (if export_error read_only_os p then []
                   else [("Exported " ++ p)%string])
          /\ files h'
             = (if export_error read_only_os p
                then files_after_removal read_only_os one_leaf_host p
                else if name_in p
                          (files_after_removal read_only_os one_leaf_host p)
                     then files_after_removal read_only_os one_leaf_host p
                     else files_after_removal read_only_os one_leaf_host p
                          ++ [p])
          /\ (forall e, name_in p (files one_leaf_host) = true ->
                        remove_error read_only_os p = Some e ->
                        In ("Could not remove old file " ++ p ++ ": " ++ e)%string
                           (stdout h')
                        /\ In p (fbx_calls h')).
Proof.
  split; [reflexivity|]. split; [reflexivity|]. split; [reflexivity|].
  split; [reflexivity|]. split; [intros height_cm; reflexivity|].
  apply (deletion_failure_is_logged settings read_only_os "20" "20x40"
           ["20x40"; "UCX_20x40"]%string "20x40" ["UCX_20x40"%string]
           (layer_of one_leaf_scene "20x40") one_leaf_host);
    [reflexivity | reflexivity | reflexivity | reflexivity
    | intros height_cm; reflexivity].
Defined.

(** * The faces of the tessellated plane *)

Lemma find_face_None (tri : list nat) (fs : list BMFace) (i : nat) :
  (forall f, In f fs -> same_verts tri (face_verts f) = false) ->
  find_face tri fs i = None.
Proof.
  revert i. induction fs as [|f fs IH]; intros i H; cbn [find_face];
    [reflexivity|].
  rewrite (H f (or_introl eq_refl)). apply IH.
  intros g Hg. apply H. right. exact Hg.
Qed.

Lemma foreach_seq {S : Type} (I : nat -> S -> Prop)
  (body : Z -> S -> result S) (c a : nat) :
  (forall i s, (a <= i < a + c)%nat -> I i s ->
     exists s', body (Z.of_nat i) s = Ok s' /\ I (Datatypes.S i) s') ->
  forall s, I a s ->
    exists s', foreach (map Z.of_nat (seq a c)) body s = Ok s'
               /\ I (a + c)%nat s'.
Proof.
  revert a. induction c as [|c IH]; intros a Hb s Hs; cbn [seq map foreach].
  - exists s. rewrite Nat.add_0_r. split; [reflexivity | exact Hs].
  - destruct (Hb a s) as [s1 [E1 H1]]; [lia | exact Hs |].
    rewrite E1. cbn [bind].
    destruct (IH (Datatypes.S a)) with (s := s1) as [s2 [E2 H2]].
    + intros i s' Hi. apply Hb. lia.
    + exact H1.
    + exists s2. split; [exact E2|].
      replace (a + Datatypes.S c)%nat with (Datatypes.S a + c)%nat by lia.
      exact H2.
Qed.

(** A triangle of a cell differs from the triangles of every earlier cell
    of the row-major order, and the second triangle of a cell from the
    first. *)
Lemma cell_tris_fresh (m p x p' x' : nat) (t t' : list nat) :
  (x + 2 <= m)%nat -> (x' + 2 <= m)%nat ->
  (p' = p /\ x' < x)%nat \/ (p' + m <= p)%nat ->
  In t (cell_tris m (p + x)) -> In t' (cell_tris m (p' + x')) ->
  same_verts t t' = false.
Proof.
  intros Hx Hx' Hord Ht Ht'. unfold cell_tris in Ht, Ht'. cbn [In] in Ht, Ht'.
  destruct (same_verts t t') eqn:E; [exfalso|reflexivity].
  destruct Ht as [<-|[<-|[]]]; destruct Ht' as [<-|[<-|[]]];
    unfold same_verts, mem_nat in E; cbn [length forallb existsb] in E;
    rewrite ?andb_true_iff, ?orb_true_iff, ?Nat.eqb_eq in E; lia.
Qed.

Lemma cell_tris_second (m a : nat) :
  (1 <= m)%nat ->
  same_verts [a + 1; a + m + 1; a + m]%nat [a; a + 1; a + m]%nat = false.
Proof.
  intros Hm.
  destruct (same_verts _ _) eqn:E; [exfalso|reflexivity].
  unfold same_verts, mem_nat in E; cbn [length forallb existsb] in E.
  rewrite ?andb_true_iff, ?orb_true_iff, ?Nat.eqb_eq in E. lia.
Qed.

Lemma In_row_tris (m n_x j : nat) (t : list nat) :
  In t (row_tris m n_x j) <->
  exists i, (i < n_x)%nat /\ In t (cell_tris m (j * m + i)).
Proof.
  unfold row_tris. rewrite in_flat_map. split.
  - intros [i [Hi Ht]]. apply in_seq in Hi. exists i. split; [lia | exact Ht].
  - intros [i [Hi Ht]]. exists i. split; [apply in_seq; lia | exact Ht].
Qed.

Lemma In_grid_tris (m n_y n_x : nat) (t : list nat) :
  In t (grid_tris m n_y n_x) <->
  exists j i, (j < n_y)%nat /\ (i < n_x)%nat
              /\ In t (cell_tris m (j * m + i)).
Proof.
  unfold grid_tris. rewrite in_flat_map. split.
  - intros [j [Hj Ht]]. apply in_seq in Hj. apply In_row_tris in Ht.
    destruct Ht as [i [Hi Ht]]. exists j, i. repeat split; [lia | lia | exact Ht].
  - intros [j [i [Hj [Hi Ht]]]]. exists j. split; [apply in_seq; lia|].
    apply In_row_tris. exists i. split; [exact Hi | exact Ht].
Qed.

Lemma row_tris_snoc (m i j : nat) :
  row_tris m (S i) j = row_tris m i j ++ cell_tris m (j * m + i).
Proof.
  unfold row_tris. rewrite seq_S, flat_map_app. cbn [flat_map Nat.add].
  rewrite app_nil_r. reflexivity.
Qed.

Lemma grid_tris_snoc (m n_x j : nat) :
  grid_tris m (S j) n_x = grid_tris m j n_x ++ row_tris m n_x j.
Proof.
  unfold grid_tris. rewrite seq_S, flat_map_app. cbn [flat_map Nat.add].
  rewrite app_nil_r. reflexivity.
Qed.

Lemma grid_tris_length (m n_y n_x : nat) :
  length (grid_tris m n_y n_x) = (2 * n_x * n_y)%nat.
Proof.
  assert (R : forall j, length (row_tris m n_x j) = (2 * n_x)%nat).
  { intros j. induction n_x as [|i IH]; [reflexivity|].
    rewrite row_tris_snoc, length_app, IH. cbn [cell_tris length]. lia. }
  induction n_y as [|j IH]; [cbn; lia|].
  rewrite grid_tris_snoc, length_app, IH, R. lia.
Qed.

Section NewFaces.

Variables (min_x max_x min_y max_y : Q) (V : list vec3).
Hypothesis Hdx : ~ (max_x - min_x == 0)%Q.
Hypothesis Hdy : ~ (max_y - min_y == 0)%Q.

(** A triangle that no face uses yet is created anew and appended. *)
Lemma add_tri_new (tri : list nat) (bm : BMesh) :
  mesh_inv min_x max_x min_y max_y V bm ->
  (3 <= length tri)%nat -> has_dup tri = false ->
  Forall (fun v => (v < length V)%nat) tri ->
  (forall t, In t (map face_verts (bm_faces bm)) -> same_verts tri t = false) ->
  exists bm',
    add_tri min_x max_x min_y max_y tri bm = Ok bm'
    /\ mesh_inv min_x max_x min_y max_y V bm'
    /\ map face_verts (bm_faces bm') = map face_verts (bm_faces bm) ++ [tri].
Proof.
  intros [HV HF] Hlen Hdup Htri Hnew. unfold add_tri, faces_new.
  assert (E3 : (length tri <? 3)%nat = false) by (apply Nat.ltb_ge; exact Hlen).
  rewrite E3, Hdup, find_face_None.
  2:{ intros f Hf. apply Hnew. apply in_map. exact Hf. }
  cbn [bind bm_faces bm_verts].
  rewrite nth_error_app2 by lia. rewrite Nat.sub_diag. cbn [nth_error].
  cbn [face_verts].
  rewrite (loops_uv_ok min_x max_x min_y max_y V Hdx Hdy); cbn [bm_verts]; auto.
  cbn [bind]. eexists. split; [reflexivity|].
  rewrite set_nth_last. split.
  - split; cbn [bm_verts bm_faces]; [exact HV|].
    apply Forall_app. split; [exact HF|].
    constructor; [|constructor]. split; cbn [face_verts face_uvs]; auto.
  - cbn [bm_faces]. rewrite map_app. reflexivity.
Qed.

End NewFaces.

(** One cell adds its two triangles when no earlier face uses their
    vertices. *)
Lemma add_cell_new (min_x max_x min_y max_y : Q) (V : list vec3) (m k : nat)
  (y x : Z) (bm : BMesh) :
  ~ (max_x - min_x == 0)%Q -> ~ (max_y - min_y == 0)%Q ->
  length V = (k * m)%nat ->
  0 <= y -> (Z.to_nat y + 1 < k)%nat -> 0 <= x -> (Z.to_nat x + 1 < m)%nat ->
  mesh_inv min_x max_x min_y max_y V bm ->
  (forall t t', In t (cell_tris m (Z.to_nat y * m + Z.to_nat x)) ->
                In t' (map face_verts (bm_faces bm)) ->
                same_verts t t' = false) ->
  exists bm',
    add_cell (grid_rows 0 m k) min_x max_x min_y max_y y x bm = Ok bm'
    /\ mesh_inv min_x max_x min_y max_y V bm'
    /\ map face_verts (bm_faces bm')
       = map face_verts (bm_faces bm)
         ++ cell_tris m (Z.to_nat y * m + Z.to_nat x).
Proof.
  intros Hdx Hdy HV Hy Hyk Hx Hxm Hbm Hnew. unfold add_cell.
  set (j := Z.to_nat y) in *. set (i := Z.to_nat x) in *.
  replace y with (Z.of_nat j) by (subst j; lia).
  replace x with (Z.of_nat i) by (subst i; lia).
  replace (Z.of_nat j + 1) with (Z.of_nat (S j)) by lia.
  replace (Z.of_nat i + 1) with (Z.of_nat (S i)) by lia.
  destruct (grid_rows_nth 0 m k j i)
    as [r0 [Hr0 Hv0]]; [lia | lia |].
  destruct (grid_rows_nth 0 m k j (S i))
    as [r0' [Hr0' Hv1]]; [lia | lia |].
  destruct (grid_rows_nth 0 m k (S j) i)
    as [r1 [Hr1 Hv2]]; [lia | lia |].
  destruct (grid_rows_nth 0 m k (S j) (S i))
    as [r1' [Hr1' Hv3]]; [lia | lia |].
  assert (r0' = r0) as -> by congruence.
  assert (r1' = r1) as -> by congruence.
  rewrite (getitem_nth _ _ _ Hr0). cbn [bind].
  rewrite (getitem_nth _ _ _ Hv0). cbn [bind].
  rewrite (getitem_nth _ _ _ Hv1). cbn [bind].
  rewrite (getitem_nth _ _ _ Hr1). cbn [bind].
  rewrite (getitem_nth _ _ _ Hv2). cbn [bind].
  rewrite (getitem_nth _ _ _ Hv3). cbn [bind].
  set (a := (j * m + i)%nat) in *.
  replace (0 + j * m + i)%nat with a by (subst a; lia).
  replace (0 + j * m + S i)%nat with (a + 1)%nat by (subst a; lia).
  replace (0 + S j * m + i)%nat with (a + m)%nat by (subst a; lia).
  replace (0 + S j * m + S i)%nat with (a + m + 1)%nat by (subst a; lia).
  assert (Ha : (a + m + 1 < length V)%nat).
  { rewrite HV. subst a. nia. }
  cbn [foreach].
  destruct (add_tri_new min_x max_x min_y max_y V Hdx Hdy
              [a; a + 1; a + m]%nat bm Hbm) as [bm1 [E1 [I1 F1]]].
  - cbn [length]. lia.
  - apply has_dup3; lia.
  - repeat constructor; lia.
  - intros t Ht. apply Hnew; [|exact Ht]. left. reflexivity.
  - rewrite E1. cbn [bind].
    destruct (add_tri_new min_x max_x min_y max_y V Hdx Hdy
                [a + 1; a + m + 1; a + m]%nat bm1 I1) as [bm2 [E2 [I2 F2]]].
    + cbn [length]. lia.
    + apply has_dup3; lia.
    + repeat constructor; lia.
    + intros t Ht. rewrite F1 in Ht. apply in_app_or in Ht.
      destruct Ht as [Ht|[<-|[]]].
      * apply Hnew; [|exact Ht]. right. left. reflexivity.
      * apply cell_tris_second. lia.
    + rewrite E2. cbn [bind]. exists bm2. split; [reflexivity|].
      split; [exact I2|]. rewrite F2, F1, <- app_assoc. reflexivity.
Qed.

(** The faces of the tessellation are the two triangles of every cell, in
    row-major order: no call of [bm.faces.new] finds its face already
    there. *)
Lemma subdivided_plane_faces (step width height : Q) :
  ~ (step == 0)%Q ->
  let n_x := py_round (float_quot width step) in
  let n_y := py_round (float_quot height step) in
  exists bm,
    subdivided_plane step width height = Ok bm
    /\ mesh_inv (- width / 2) (width / 2) (- height / 2) (height / 2)
         (grid_verts step width height n_x (range (n_y + 1))) bm
    /\ map face_verts (bm_faces bm)
       = grid_tris (Z.to_nat (n_x + 1)) (Z.to_nat n_y) (Z.to_nat n_x).
Proof.
  intros Hs n_x n_y. unfold subdivided_plane.
  rewrite !float_div_ok by exact Hs. cbn [bind]. fold n_x n_y.
  rewrite new_grid_spec. cbn [bmesh_new bm_verts bm_faces app length Nat.add].
  set (V := grid_verts step width height n_x (range (n_y + 1))).
  rewrite !range_length.
  set (m := Z.to_nat (n_x + 1)). set (k := Z.to_nat (n_y + 1)).
  set (nx := Z.to_nat n_x). set (ny := Z.to_nat n_y).
  set (min_x := (- width / 2)%Q). set (max_x := (width / 2)%Q).
  set (min_y := (- height / 2)%Q). set (max_y := (height / 2)%Q).
  assert (HV : length V = (k * m)%nat).
  { subst V. rewrite grid_verts_length, range_length. reflexivity. }
  pose (I := fun (j : nat) (bm : BMesh) =>
               mesh_inv min_x max_x min_y max_y V bm
               /\ map face_verts (bm_faces bm) = grid_tris m j nx).
  assert (Hgoal : exists bm,
            foreach (range n_y)
              (fun y => foreach (range n_x)
                          (add_cell (grid_rows 0 m k)
                             min_x max_x min_y max_y y))
              {| bm_verts := V; bm_faces := [] |} = Ok bm
            /\ I (0 + ny)%nat bm).
  { unfold range. fold ny nx.
    apply (foreach_seq I); [|split; [split; [reflexivity | constructor]
                                    | reflexivity]].
    intros j bm Hj [Hinv Hf].
    pose (J := fun (i : nat) (bm' : BMesh) =>
                 mesh_inv min_x max_x min_y max_y V bm'
                 /\ map face_verts (bm_faces bm')
                    = grid_tris m j nx ++ row_tris m i j).
    assert (Hrow : exists bm',
              foreach (map Z.of_nat (seq 0 nx))
                (add_cell (grid_rows 0 m k) min_x max_x min_y max_y
                   (Z.of_nat j)) bm = Ok bm'
              /\ J (0 + nx)%nat bm').
    { apply (foreach_seq J).
      2:{ split; [exact Hinv|]. rewrite Hf. unfold row_tris. cbn [seq flat_map].
          rewrite app_nil_r. reflexivity. }
      intros i bm' Hi [Hinv' Hf'].
      assert (Hnx : 0 < n_x) by (subst nx; lia).
      assert (Hny : 0 < n_y) by (subst ny; lia).
      assert (Hw : ~ (width == 0)%Q).
      { intros E. assert (n_x = 0); [|lia]. subst n_x.
        rewrite (float_quot_zero _ step E). reflexivity. }
      assert (Hh : ~ (height == 0)%Q).
      { intros E. assert (n_y = 0); [|lia]. subst n_y.
        rewrite (float_quot_zero _ step E). reflexivity. }
      destruct (add_cell_new min_x max_x min_y max_y V m k
                  (Z.of_nat j) (Z.of_nat i) bm') as [bm2 [E2 [I2 F2]]].
      - subst min_x max_x. intros E. apply Hw. unfold Qdiv in E.
        change (/ 2)%Q with (1 # 2)%Q in E. lra.
      - subst min_y max_y. intros E. apply Hh. unfold Qdiv in E.
        change (/ 2)%Q with (1 # 2)%Q in E. lra.
      - exact HV.
      - lia.
      - subst k ny. lia.
      - lia.
      - subst m nx. lia.
      - exact Hinv'.
      - rewrite !Nat2Z.id. intros t t' Ht Ht'. rewrite Hf' in Ht'.
        apply in_app_or in Ht'. destruct Ht' as [Ht'|Ht'].
        + apply In_grid_tris in Ht'.
          destruct Ht' as [j' [i' [Hj' [Hi' Ht']]]].
          apply (cell_tris_fresh m (j * m) i (j' * m) i' t t');
            [subst m nx; lia | subst m nx; lia | right; nia
            | exact Ht | exact Ht'].
        + apply In_row_tris in Ht'. destruct Ht' as [i' [Hi' Ht']].
          apply (cell_tris_fresh m (j * m) i (j * m) i' t t');
            [subst m nx; lia | subst m nx; lia
            | left; split; [reflexivity | lia] | exact Ht | exact Ht'].
      - exists bm2. split; [exact E2|]. split; [exact I2|].
        rewrite F2, Hf', !Nat2Z.id, row_tris_snoc, app_assoc. reflexivity. }
    destruct Hrow as [bm' [E' [Hinv' Hf']]].
    exists bm'. split; [exact E'|]. split; [exact Hinv'|].
    rewrite Hf', grid_tris_snoc. reflexivity. }
  destruct Hgoal as [bm [E [Hinv Hf]]].
  exists bm. split; [|split; [exact Hinv | exact Hf]].
  rewrite <- E. reflexivity.
Qed.

(** ** Vertices by index *)

Lemma nth_flat_rows {A B : Type} (f : A -> list B) (m : nat) (d : B)
  (l : list A) (j i : nat) (a : A) :
  (forall x, In x l -> length (f x) = m) ->
  nth_error l j = Some a -> (i < m)%nat ->
  nth (j * m + i) (flat_map f l) d = nth i (f a) d.
Proof.
  revert j. induction l as [|x l IH]; intros j Hlen Hj Hi.
  - destruct j; discriminate.
  - cbn [flat_map]. destruct j as [|j]; cbn [nth_error] in Hj.
    + injection Hj as ->. cbn [Nat.mul Nat.add].
      apply app_nth1. rewrite (Hlen a (or_introl eq_refl)). exact Hi.
    + rewrite app_nth2; rewrite (Hlen x (or_introl eq_refl)); [|lia].
      replace (S j * m + i - m)%nat with (j * m + i)%nat by lia.
      apply IH; auto. intros y Hy. apply Hlen. right. exact Hy.
Qed.

Lemma nth_grid_verts (step width height : Q) (n_x k : Z) (j i : nat) :
  (j < Z.to_nat k)%nat -> (i < Z.to_nat (n_x + 1))%nat ->
  nth (j * Z.to_nat (n_x + 1) + i)
      (grid_verts step width height n_x (range k)) (0, 0, 0)%Q
  = grid_co step width height (Z.of_nat j) (Z.of_nat i).
Proof.
  intros Hj Hi. unfold grid_verts.
  rewrite (nth_flat_rows _ (Z.to_nat (n_x + 1)) _ _ j i (Z.of_nat j)).
  - unfold range. rewrite (nth_indep _ _ (grid_co step width height
                                            (Z.of_nat j) 0)).
    + rewrite (map_nth (grid_co step width height (Z.of_nat j))).
      rewrite (nth_indep _ _ (Z.of_nat 0)) by (rewrite length_map, length_seq; exact Hi).
      rewrite (map_nth Z.of_nat), seq_nth by exact Hi. reflexivity.
    + rewrite !length_map, length_seq. exact Hi.
  - intros y _. rewrite length_map, range_length. reflexivity.
  - unfold range. rewrite nth_error_map, nth_error_seq.
    destruct (Nat.ltb_spec j (Z.to_nat k)); [reflexivity | lia].
  - exact Hi.
Qed.

(** Every vertex of a cell gives its UV to a loop. *)
Lemma cell_uvs (cfg : Settings) (width height : Q) (j i : nat) :
  let step := PLANE_SUBDIVISION_SIZE cfg in
  let n_x := py_round (float_quot width step) in
  let n_y := py_round (float_quot height step) in
  ~ (step == 0)%Q ->
  (j < Z.to_nat n_y)%nat -> (i < Z.to_nat n_x)%nat ->
  forall dj di, (dj <= 1)%nat -> (di <= 1)%nat ->
  In (norm_uv (- width / 2) (width / 2) (- height / 2) (height / 2)
        (grid_co step width height (Z.of_nat (j + dj)) (Z.of_nat (i + di))))
     (all_uvs (plane_geometry cfg width height)).
Proof.
  intros step n_x n_y Hs Hj Hi dj di Hdj Hdi.
  destruct (subdivided_plane_faces step width height Hs) as [bm [E [Hinv Hf]]].
  fold n_x n_y in Hinv, Hf.
  assert (Eg : plane_geometry cfg width height = bm).
  { unfold plane_geometry. fold step. rewrite E. reflexivity. }
  rewrite Eg. clear Eg E.
  set (m := Z.to_nat (n_x + 1)) in *.
  set (V := grid_verts step width height n_x (range (n_y + 1))) in *.
  assert (Hm : m = S (Z.to_nat n_x)) by (subst m; lia).
  assert (Hnth : nth ((j + dj) * m + (i + di)) V (0, 0, 0)%Q
                 = grid_co step width height (Z.of_nat (j + dj))
                     (Z.of_nat (i + di))).
  { subst V m. apply nth_grid_verts; lia. }
  rewrite <- Hnth.
  change (norm_uv (- width / 2) (width / 2) (- height / 2) (height / 2)
            (nth ((j + dj) * m + (i + di)) V (0, 0, 0)%Q))
    with (uv_of (- width / 2) (width / 2) (- height / 2) (height / 2) V
            ((j + dj) * m + (i + di))).
  assert (Hcell : exists t, In t (cell_tris m (j * m + i))
                            /\ In ((j + dj) * m + (i + di))%nat t).
  { unfold cell_tris.
    assert (Hc : (dj = 0 \/ dj = 1)%nat) by lia.
    assert (Hc' : (di = 0 \/ di = 1)%nat) by lia.
    destruct Hc as [-> | ->]; destruct Hc' as [-> | ->].
    - exists [j * m + i; j * m + i + 1; j * m + i + m]%nat.
      split; [left; reflexivity|]. left. lia.
    - exists [j * m + i; j * m + i + 1; j * m + i + m]%nat.
      split; [left; reflexivity|]. right. left. lia.
    - exists [j * m + i; j * m + i + 1; j * m + i + m]%nat.
      split; [left; reflexivity|]. right. right. left. lia.
    - exists [j * m + i + 1; j * m + i + m + 1; j * m + i + m]%nat.
      split; [right; left; reflexivity|]. right. left. lia. }
  destruct Hcell as [t [Ht Hv]].
  assert (Hin : In t (map face_verts (bm_faces bm))).
  { rewrite Hf. apply In_grid_tris. exists j, i. auto. }
  apply in_map_iff in Hin. destruct Hin as [f [Ef Hfin]].
  destruct Hinv as [_ HF]. rewrite Forall_forall in HF.
  destruct (HF f Hfin) as [_ Hu].
  unfold all_uvs. apply in_flat_map. exists f. split; [exact Hfin|].
  rewrite Hu, Ef. apply in_map. exact Hv.
Qed.

Lemma scaled_index_bounds (step len : Q) (k n : Z) :
  (0 < step)%Q -> (0 < len)%Q -> 0 <= k <= n ->
  (0 <= inject_Z k * step / len <= inject_Z n * step / len)%Q.
Proof.
  intros Hs Hl Hk.
  assert (H0 : (inject_Z 0 <= inject_Z k)%Q) by (rewrite <- Zle_Qle; lia).
  change (inject_Z 0) with 0%Q in H0.
  assert (H1 : (inject_Z k <= inject_Z n)%Q) by (rewrite <- Zle_Qle; lia).
  split.
  - apply Qle_shift_div_l; [exact Hl|]. nra.
  - apply Qle_shift_div_l; [exact Hl|].
    assert (E : (inject_Z k * step / len * len == inject_Z k * step)%Q).
    { field. intros E. rewrite E in Hl. exact (Qlt_irrefl 0 Hl). }
    rewrite E. nra.
Qed.

Lemma div_le_one (a b : Q) : (0 < b)%Q -> (a / b <= 1)%Q -> (a <= b)%Q.
Proof.
  intros Hb H.
  assert (E : (a == a / b * b)%Q).
  { field. intros E. rewrite E in Hb. exact (Qlt_irrefl 0 Hb). }
  rewrite E. nra.
Qed.

(** X1: the faces of the primary mesh: two triangles per grid cell, row by
    row, each with three different vertices, the grid having as many cells
    in each direction as the float quotients width/step and height/step
    round to; every corner carries the normalised position of its vertex as
    UV.  No face is created twice, so the lookup of an existing face (the
    except branch) is never needed. *)
Theorem primary_faces (cfg : Settings) (width height : Q) (name : string)
  (D : Document) :
  let step := PLANE_SUBDIVISION_SIZE cfg in
  let n_x := Z.to_nat (py_round (float_quot width step)) in
  let n_y := Z.to_nat (py_round (float_quot height step)) in
  ~ (step == 0)%Q ->
  exists obj D' bm,
    create_subdivided_plane_bmesh cfg width height name D = Ok (obj, D')
    /\ object_geometry D' obj = Some bm
    /\ map face_verts (bm_faces bm)
       = grid_tris (Z.to_nat (py_round (float_quot width step) + 1)) n_y n_x
    /\ length (bm_faces bm) = (2 * n_x * n_y)%nat
    /\ Forall (fun f => length (face_verts f) = 3%nat
                        /\ has_dup (face_verts f) = false
                        /\ face_uvs f
                           = map (uv_of (- width / 2) (width / 2)
                                    (- height / 2) (height / 2) (bm_verts bm))
                                 (face_verts f)) (bm_faces bm).
Proof.
  intros step n_x n_y Hs.
  destruct (create_subdivided_plane_ok cfg width height name D Hs)
    as [obj [D' [E G]]].
  exists obj, D', (plane_geometry cfg width height).
  split; [exact E|]. split; [exact G|].
  destruct (subdivided_plane_faces step width height Hs) as [bm [Eb [Hinv Hf]]].
  assert (Eg : plane_geometry cfg width height = bm).
  { unfold plane_geometry. fold step. rewrite Eb. reflexivity. }
  rewrite Eg. fold n_x n_y in Hf.
  split; [exact Hf|]. split.
  - rewrite <- (length_map face_verts), Hf. apply grid_tris_length.
  - destruct Hinv as [HV HF]. rewrite Forall_forall in HF.
    apply Forall_forall. intros f Hfin.
    destruct (HF f Hfin) as [_ Hu].
    assert (Hin : In (face_verts f) (map face_verts (bm_faces bm)))
      by (apply in_map; exact Hfin).
    rewrite Hf in Hin. apply In_grid_tris in Hin.
    destruct Hin as [j [i [Hj [Hi Ht]]]].
    assert (Hm : (2 <= Z.to_nat (py_round (float_quot width step) + 1))%nat)
      by (subst n_x; lia).
    unfold cell_tris in Ht. cbn [In] in Ht.
    rewrite HV.
    split; [|split; [|exact Hu]];
      destruct Ht as [<-|[<-|[]]]; try reflexivity; apply has_dup3; lia.
Qed.

(** X2: the UVs of the primary mesh span [0, n_x*step/width] x
    [0, n_y*step/height] and both corners of that range are attained, n_x
    and n_y being the numbers of cells that the float quotients round to:
    the UVs are normalised by the requested size, not by the extent of the
    grid. *)
Theorem primary_uv_range (cfg : Settings) (width height : Q) (name : string)
  (D : Document) :
  let step := PLANE_SUBDIVISION_SIZE cfg in
  let n_x := py_round (float_quot width step) in
  let n_y := py_round (float_quot height step) in
  (0 < step)%Q -> (0 < width)%Q -> (0 < height)%Q ->
  1 <= n_x -> 1 <= n_y ->
  exists obj D' bm,
    create_subdivided_plane_bmesh cfg width height name D = Ok (obj, D')
    /\ object_geometry D' obj = Some bm
    /\ (forall uv, In uv (all_uvs bm) ->
          (0 <= fst uv <= inject_Z n_x * step / width)%Q
          /\ (0 <= snd uv <= inject_Z n_y * step / height)%Q)
    /\ (exists uv, In uv (all_uvs bm) /\ (fst uv == 0)%Q /\ (snd uv == 0)%Q)
    /\ (exists uv, In uv (all_uvs bm)
                   /\ (fst uv == inject_Z n_x * step / width)%Q
                   /\ (snd uv == inject_Z n_y * step / height)%Q).
Proof.
  intros step n_x n_y Hs Hw Hh Hnx Hny.
  assert (Hs' : ~ (step == 0)%Q)
    by (intros E; rewrite E in Hs; exact (Qlt_irrefl 0 Hs)).
  assert (Hw' : ~ (width == 0)%Q)
    by (intros E; rewrite E in Hw; exact (Qlt_irrefl 0 Hw)).
  assert (Hh' : ~ (height == 0)%Q)
    by (intros E; rewrite E in Hh; exact (Qlt_irrefl 0 Hh)).
  destruct (create_subdivided_plane_ok cfg width height name D Hs')
    as [obj [D' [E G]]].
  exists obj, D', (plane_geometry cfg width height).
  split; [exact E|]. split; [exact G|].
  assert (Hall : forall uv, In uv (all_uvs (plane_geometry cfg width height)) ->
            (0 <= fst uv <= inject_Z n_x * step / width)%Q
            /\ (0 <= snd uv <= inject_Z n_y * step / height)%Q).
  { intros uv Hin.
    destruct (plane_uvs cfg width height uv Hs' Hin) as [x [y [Hx [Hy ->]]]].
    fold step n_x n_y in Hx, Hy |- *.
    destruct (norm_uv_grid step width height y x Hw' Hh') as [Eu Ev].
    rewrite Eu, Ev. split; apply scaled_index_bounds; assumption. }
  assert (Hlo : exists uv, In uv (all_uvs (plane_geometry cfg width height))
                           /\ (fst uv == 0)%Q /\ (snd uv == 0)%Q).
  { eexists. split.
    - apply (cell_uvs cfg width height 0 0 Hs'); fold step n_x n_y;
        [lia | lia | apply Nat.le_0_l | apply Nat.le_0_l].
    - fold step. cbn [Nat.add Z.of_nat].
      destruct (norm_uv_grid step width height 0 0 Hw' Hh') as [Eu Ev].
      rewrite Eu, Ev. change (inject_Z 0) with 0%Q. split; field; assumption. }
  assert (Hhi : exists uv, In uv (all_uvs (plane_geometry cfg width height))
                           /\ (fst uv == inject_Z n_x * step / width)%Q
                           /\ (snd uv == inject_Z n_y * step / height)%Q).
  { eexists. split.
    - apply (cell_uvs cfg width height (Z.to_nat n_y - 1) (Z.to_nat n_x - 1)
               Hs' ltac:(fold step n_y; lia) ltac:(fold step n_x; lia)
               1%nat 1%nat (le_n 1) (le_n 1)).
    - fold step.
      replace (Z.of_nat (Z.to_nat n_y - 1 + 1)) with n_y by lia.
      replace (Z.of_nat (Z.to_nat n_x - 1 + 1)) with n_x by lia.
      apply (norm_uv_grid step width height n_y n_x Hw' Hh'). }
  split; [exact Hall|]. split; [exact Hlo | exact Hhi].
Qed.

Lemma In_grid_verts (step width height : Q) (n_x k : Z) (p : vec3) :
  In p (grid_verts step width height n_x (range k)) <->
  exists y x, 0 <= y < k /\ 0 <= x < n_x + 1
              /\ p = grid_co step width height y x.
Proof.
  unfold grid_verts. rewrite in_flat_map. split.
  - intros [y [Hy Hp]]. apply in_map_iff in Hp. destruct Hp as [x [<- Hx]].
    apply In_range in Hy, Hx. exists y, x. auto.
  - intros [y [x [Hy [Hx ->]]]]. exists y. split; [apply In_range; exact Hy|].
    apply in_map. apply In_range. exact Hx.
Qed.

(** X3: when width and height are whole multiples of the step (fewer than
    2^50 steps, so that the float quotient rounds to their number), the
    primary mesh covers exactly the rectangle of the collision proxy: every
    vertex of the grid lies in it and its four corners are grid vertices. *)
Theorem proxy_footprint (step width height : Q) (a b : Z) :
  (0 < step)%Q -> 1 <= a < 2 ^ 50 -> 1 <= b < 2 ^ 50 ->
  (width == inject_Z a * step)%Q -> (height == inject_Z b * step)%Q ->
  exists bm,
    subdivided_plane step width height = Ok bm
    /\ Forall (in_rectangle width height) (bm_verts bm)
    /\ Forall (has_vertex bm) (bm_verts (simple_plane width height))
    /\ Forall (in_rectangle width height)
         (bm_verts (simple_plane width height)).
Proof.
  intros Hs Ha Hb Ew Eh.
  assert (Hs' : ~ (step == 0)%Q)
    by (intros E; rewrite E in Hs; exact (Qlt_irrefl 0 Hs)).
  destruct (subdivided_plane_spec step width height Hs') as [bm [E [HV _]]].
  assert (Enx : py_round (float_quot width step) = a)
    by (apply float_quot_multiple; assumption).
  assert (Eny : py_round (float_quot height step) = b)
    by (apply float_quot_multiple; assumption).
  rewrite Enx, Eny in HV.
  assert (H0a : (inject_Z 0 <= inject_Z a)%Q) by (rewrite <- Zle_Qle; lia).
  assert (H0b : (inject_Z 0 <= inject_Z b)%Q) by (rewrite <- Zle_Qle; lia).
  change (inject_Z 0) with 0%Q in H0a, H0b.
  exists bm. split; [exact E|]. split; [|split].
  - rewrite HV. apply Forall_forall. intros p Hp.
    apply In_grid_verts in Hp. destruct Hp as [y [x [Hy [Hx ->]]]].
    assert (Hx0 : (inject_Z 0 <= inject_Z x)%Q) by (rewrite <- Zle_Qle; lia).
    assert (Hx1 : (inject_Z x <= inject_Z a)%Q) by (rewrite <- Zle_Qle; lia).
    assert (Hy0 : (inject_Z 0 <= inject_Z y)%Q) by (rewrite <- Zle_Qle; lia).
    assert (Hy1 : (inject_Z y <= inject_Z b)%Q) by (rewrite <- Zle_Qle; lia).
    change (inject_Z 0) with 0%Q in Hx0, Hy0.
    unfold in_rectangle, grid_co. cbn [fst snd].
    unfold Qdiv. change (/ 2)%Q with (1 # 2)%Q.
    repeat split; try reflexivity; try nra.
  - assert (Hc : forall y x, 0 <= y < b + 1 -> 0 <= x < a + 1 ->
                   forall p, vec3_eq (grid_co step width height y x) p ->
                             has_vertex bm p).
    { intros y x Hy Hx p Hp. exists (grid_co step width height y x).
      split; [|exact Hp]. rewrite HV. apply In_grid_verts.
      exists y, x. auto. }
    unfold simple_plane. cbn [bm_verts].
    repeat constructor.
    + apply (Hc 0 0); [lia | lia |]. unfold vec3_eq, grid_co. cbn [fst snd].
      change (inject_Z 0) with 0%Q. repeat split; try reflexivity; lra.
    + apply (Hc 0 a); [lia | lia |]. unfold vec3_eq, grid_co. cbn [fst snd].
      change (inject_Z 0) with 0%Q. unfold Qdiv. change (/ 2)%Q with (1 # 2)%Q.
      repeat split; try reflexivity; lra.
    + apply (Hc b a); [lia | lia |]. unfold vec3_eq, grid_co. cbn [fst snd].
      unfold Qdiv. change (/ 2)%Q with (1 # 2)%Q.
      repeat split; try reflexivity; lra.
    + apply (Hc b 0); [lia | lia |]. unfold vec3_eq, grid_co. cbn [fst snd].
      change (inject_Z 0) with 0%Q. unfold Qdiv. change (/ 2)%Q with (1 # 2)%Q.
      repeat split; try reflexivity; lra.
  - assert (Hw : (0 <= width)%Q) by nra.
    assert (Hh : (0 <= height)%Q) by nra.
    unfold simple_plane. cbn [bm_verts]. unfold in_rectangle.
    unfold Qdiv. change (/ 2)%Q with (1 # 2)%Q.
    repeat constructor; cbn [fst snd]; try reflexivity; lra.
Qed.

(** * A subdivision size of zero *)

Lemma subdivided_plane_zero_step (step width height : Q) :
  (step == 0)%Q ->
  subdivided_plane step width height = Raise ZeroDivisionError.
Proof.
  intros E. unfold subdivided_plane, float_div.
  assert (Eb : Qeq_bool step 0 = true) by (apply Qeq_bool_iff; exact E).
  rewrite Eb. reflexivity.
Qed.

Lemma generate_zero_step (cfg : Settings) (D : Document) :
  (PLANE_SUBDIVISION_SIZE cfg == 0)%Q ->
  PLANE_SIZES_CM cfg <> [] ->
  NoDup (PLANE_SIZES_CM cfg) ->
  Forall (fun w => 0 <= w) (PLANE_SIZES_CM cfg) ->
  wf_doc D = true ->
  generate cfg D = Raise ZeroDivisionError.
Proof.
  intros Hstep Hne Hnd Hpos Hwf.
  pose proof (cleanup_clean D Hwf) as HC.
  unfold generate, generate_enum. fold (cleanup D).
  pose proof (build_hierarchy_ok cfg (cleanup D) HC Hnd Hpos) as Hb.
  cbn zeta in Hb. rewrite Hb. clear Hb.
  cbn [bind build_doc height_collections_map].
  unfold create_planes, PLANE_SIZE_PAIRS, PLANE_SIZES_M, product.
  destruct (PLANE_SIZES_CM cfg) as [|w ws]; [contradiction|].
  cbn [map flat_map app foreach].
  unfold create_pair at 1, create_subdivided_plane_bmesh.
  rewrite (subdivided_plane_zero_step _ _ _ Hstep). reflexivity.
Qed.

(** X4: with a subdivision size of zero the first division of the first plane
    raises: the run ends with ZeroDivisionError before anything is printed,
    deleted or exported. *)
Theorem zero_step_stops_run (cfg : Settings) (os : Os) (h : Host) :
  (PLANE_SUBDIVISION_SIZE cfg == 0)%Q ->
  PLANE_SIZES_CM cfg <> [] ->
  NoDup (PLANE_SIZES_CM cfg) ->
  Forall (fun w => 0 <= w) (PLANE_SIZES_CM cfg) ->
  wf_doc (doc h) = true ->
  fst (run cfg os h) = Raise ZeroDivisionError
  /\ stdout (snd (run cfg os h)) = stdout h
  /\ files (snd (run cfg os h)) = files h
  /\ fbx_calls (snd (run cfg os h)) = fbx_calls h.
Proof.
  intros Hstep Hne Hnd Hpos Hwf.
  assert (E : run cfg os h = (Raise ZeroDivisionError, h)).
  { unfold run. cbv beta. unfold run_enum.
    unfold e_bind at 1, e_get at 1. unfold e_bind at 1, e_lift at 1.
    change (generate_enum (data_objects (doc h)) (data_collections (doc h))
              cfg (doc h)) with (generate cfg (doc h)).
    rewrite (generate_zero_step cfg (doc h) Hstep Hne Hnd Hpos Hwf).
    reflexivity. }
  rewrite E. cbn [fst snd]. repeat split; reflexivity.
Qed.

(** * Cleanup (lines 42-50) *)

Lemma NoDup_map_eq {A B : Type} (f : A -> B) (l : list A) (x y : A) :
  NoDup (map f l) -> In x l -> In y l -> f x = f y -> x = y.
Proof.
  induction l as [|a l IH]; cbn [map]; intros Hnd Hx Hy E; [destruct Hx|].
  inversion Hnd as [|b l' Hnotin Hnd']; subst.
  destruct Hx as [->|Hx]; destruct Hy as [->|Hy].
  - reflexivity.
  - exfalso. apply Hnotin. rewrite E. apply in_map. exact Hy.
  - exfalso. apply Hnotin. rewrite <- E. apply in_map. exact Hx.
  - apply IH; assumption.
Qed.

Lemma In_mesh_object_names (D : Document) (n : string) :
  In n (mesh_object_names D) <->
  exists o, In o (data_objects D) /\ is_mesh o = true /\ obj_name o = n.
Proof.
  unfold mesh_object_names. rewrite in_map_iff. split.
  - intros [o [E Ho]]. apply filter_In in Ho. exists o. tauto.
  - intros [o [Ho [Hm E]]]. exists o. split; [exact E|].
    apply filter_In. auto.
Qed.

Lemma In_generated_collection_names (D : Document) (n : string) :
  In n (generated_collection_names D) <->
  In n (collection_names D) /\ generated_name n = true.
Proof.
  unfold generated_collection_names, collection_names.
  rewrite !in_map_iff. split.
  - intros [c [E Hc]]. apply filter_In in Hc. destruct Hc as [Hc G].
    subst n. split; [exists c; auto | exact G].
  - intros [[c [E Hc]] G]. exists c. split; [exact E|].
    apply filter_In. subst n. auto.
Qed.

Lemma keep_names_generated (D : Document) (l : list string) :
  (forall n, In n l -> In n (collection_names D)) ->
  keep_names (generated_collection_names D) l
  = filter (fun n => negb (generated_name n)) l.
Proof.
  intros Hl. unfold keep_names. apply filter_ext_in. intros n Hn. f_equal.
  destruct (generated_name n) eqn:G.
  - apply name_in_In. apply In_generated_collection_names. auto.
  - apply name_in_false. intros H. apply In_generated_collection_names in H.
    destruct H as [_ H]. congruence.
Qed.

Lemma cleanup_data_objects (D : Document) :
  data_objects (cleanup D)
  = filter (fun o => negb (name_in (obj_name o) (mesh_object_names D)))
           (data_objects D).
Proof. rewrite cleanup_eq. reflexivity. Qed.

Lemma cleanup_data_meshes (D : Document) :
  data_meshes (cleanup D) = data_meshes D.
Proof. rewrite cleanup_eq. reflexivity. Qed.

(** X5: what cleanup removes and what it keeps, in a document whose
    collections have ASCII names: the mesh objects go, the objects of every
    other type stay in their order; the mesh datablocks all stay; the
    collections with a generated name (digits only, an "x", or a UCX_
    prefix) go, the others stay in their order, also as children of the
    scene; and no reference is left dangling. *)
Theorem cleanup_effect (D : Document) :
  wf_doc D = true ->
  NoDup (object_names D) ->
  ascii_names (collection_names D) = true ->
  data_objects (cleanup D)
  = filter (fun o => negb (is_mesh o)) (data_objects D)
  /\ data_meshes (cleanup D) = data_meshes D
  /\ collection_names (cleanup D)
     = filter (fun n => negb (generated_name n)) (collection_names D)
  /\ scene_children (cleanup D)
     = filter (fun n => negb (generated_name n)) (scene_children D)
  /\ wf_doc (cleanup D) = true.
Proof.
  intros Hwf Hnd _.
  pose proof (cleanup_clean D Hwf) as [_ [_ Hwf']].
  pose proof Hwf as Hwf0. apply wf_doc_iff in Hwf0.
  destruct Hwf0 as [Hsc _].
  repeat split.
  - rewrite cleanup_data_objects. apply filter_ext_in. intros o Ho. f_equal.
    destruct (is_mesh o) eqn:Hm.
    + apply name_in_In. apply In_mesh_object_names. exists o. auto.
    + apply name_in_false. intros H. apply In_mesh_object_names in H.
      destruct H as [o' [Ho' [Hm' E]]].
      assert (o' = o)
        by (apply (NoDup_map_eq obj_name (data_objects D)); assumption).
      subst o'. congruence.
  - apply cleanup_data_meshes.
  - rewrite cleanup_collection_names. apply keep_names_generated. auto.
  - rewrite cleanup_eq. unfold remove_collections, remove_objects.
    cbn [scene_children]. apply keep_names_generated. exact Hsc.
  - exact Hwf'.
Qed.

(** X6: cleanup is idempotent: a second cleanup finds nothing to remove. *)
Theorem cleanup_idempotent (D : Document) : cleanup (cleanup D) = cleanup D.
Proof.
  assert (Hm : mesh_object_names (cleanup D) = []).
  { unfold mesh_object_names. rewrite filter_none; [reflexivity|].
    intros o Ho. rewrite cleanup_data_objects in Ho. apply filter_In in Ho.
    destruct Ho as [Ho Hn]. destruct (is_mesh o) eqn:E; [|reflexivity].
    apply negb_true_iff, name_in_false in Hn. exfalso. apply Hn.
    apply In_mesh_object_names. exists o. auto. }
  assert (Hg : generated_collection_names (cleanup D) = []).
  { unfold generated_collection_names. rewrite filter_none; [reflexivity|].
    intros c Hc. destruct (cleanup_collections_In D c Hc)
      as [c0 [Hc0 [En [Hn _]]]].
    destruct (generated_name (col_name c)) eqn:G; [|reflexivity].
    exfalso. apply Hn. apply In_generated_collection_names.
    rewrite <- En. split; [|exact G].
    rewrite En. unfold collection_names. apply in_map. exact Hc0. }
  rewrite (cleanup_eq (cleanup D)), Hm, Hg.
  rewrite remove_objects_nil, remove_collections_nil. reflexivity.
Qed.

(** * The hierarchy builder (lines 53-71) *)

Lemma hierarchy_col_names (sizes ws : list Z) (ch : Z -> list string)
  (ob : Z -> Z -> list string) :
  map col_name (hierarchy sizes ch ob ws)
  = flat_map (fun w => str w :: map (subcol_name_of w) sizes) ws.
Proof.
  unfold hierarchy. induction ws as [|w ws IH]; cbn [flat_map]; [reflexivity|].
  rewrite map_app, IH, width_block_names. reflexivity.
Qed.

Lemma hierarchy_length (sizes ws : list Z) (ch : Z -> list string)
  (ob : Z -> Z -> list string) :
  length (hierarchy sizes ch ob ws) = (length ws * (1 + length sizes))%nat.
Proof.
  unfold hierarchy. induction ws as [|w ws IH]; cbn [flat_map]; [reflexivity|].
  rewrite length_app, IH. unfold width_block. cbn [length].
  rewrite length_map. lia.
Qed.

(** X7: after cleanup the builder creates every width group and every subgroup
    anew, in configuration order: no lookup finds an old collection, every
    width group becomes a child of the scene and every subgroup a child of
    its width group, all of them empty, and both caches answer every
    configured size. *)
Theorem hierarchy_built (cfg : Settings) (D : Document) :
  let sizes := PLANE_SIZES_CM cfg in
  wf_doc D = true -> NoDup sizes -> Forall (fun w => 0 <= w) sizes ->
  exists B,
    build_hierarchy cfg (cleanup D) = Ok B
    /\ collection_names (build_doc B)
       = collection_names (cleanup D)
         ++ flat_map (fun w => str w :: map (subcol_name_of w) sizes) sizes
    /\ scene_children (build_doc B)
       = scene_children (cleanup D) ++ map str sizes
    /\ data_objects (build_doc B) = data_objects (cleanup D)
    /\ (forall w, In w sizes ->
          dict_get w (width_collections B) = Ok (str w)
          /\ children_of (DataCollection (str w)) (build_doc B)
             = Ok (map (subcol_name_of w) sizes)
          /\ objects_of (DataCollection (str w)) (build_doc B) = Ok [])
    /\ (forall w h, In w sizes -> In h sizes ->
          (inner <- dict_get w (height_collections_map B) ;;
           dict_get h inner) = Ok (subcol_name_of w h)
          /\ children_of (DataCollection (subcol_name_of w h)) (build_doc B)
             = Ok []
          /\ objects_of (DataCollection (subcol_name_of w h)) (build_doc B)
             = Ok []).
Proof.
  intros sizes Hwf Hnd Hpos.
  pose proof (cleanup_clean D Hwf) as HC.
  pose proof (build_hierarchy_ok cfg (cleanup D) HC Hnd Hpos) as Hb.
  cbn zeta in Hb. fold sizes in Hb.
  eexists. split; [exact Hb|].
  cbn [build_doc width_collections height_collections_map].
  assert (Hpre : forall n, generated_name n = true ->
                   ~ In n (map col_name (data_collections (cleanup D))))
    by (intros n G; exact (clean_no_generated (cleanup D) n HC G)).
  rewrite Forall_forall in Hpos.
  split; [|split; [reflexivity | split; [reflexivity | split]]].
  - unfold collection_names. cbn [data_collections].
    rewrite map_app, hierarchy_col_names. reflexivity.
  - intros w Hw. split; [|split].
    + unfold width_cache. apply (dict_get_map str). exact Hw.
    + unfold children_of. rewrite collections_get_find. cbn [data_collections].
      rewrite (get_width sizes _ Hpre (subs sizes) no_objects w Hw (Hpos w Hw)).
      reflexivity.
    + unfold objects_of. rewrite collections_get_find. cbn [data_collections].
      rewrite (get_width sizes _ Hpre (subs sizes) no_objects w Hw (Hpos w Hw)).
      reflexivity.
  - intros w h Hw Hh. split; [|split].
    + unfold height_cache.
      rewrite (dict_get_map
                 (fun w => map (fun h => (h, subcol_name_of w h)) sizes) w
                 sizes Hw).
      cbn [bind]. apply (dict_get_map (subcol_name_of w)). exact Hh.
    + unfold children_of. rewrite collections_get_find. cbn [data_collections].
      rewrite (get_sub sizes _ Hpre (subs sizes) no_objects w h Hw Hh).
      reflexivity.
    + unfold objects_of. rewrite collections_get_find. cbn [data_collections].
      rewrite (get_sub sizes _ Hpre (subs sizes) no_objects w h Hw Hh).
      reflexivity.
Qed.

(** * What generation adds (lines 144-193) *)

Lemma created_objects_length (pl : list Created) :
  length (flat_map created_objects pl) = (2 * length pl)%nat.
Proof.
  induction pl as [|cr pl IH]; cbn [flat_map length]; [reflexivity|].
  rewrite length_app, IH. cbn [created_objects length]. lia.
Qed.

Lemma planes_length (cfg : Settings) (C : Document) :
  length (planes cfg C)
  = (length (PLANE_SIZES_CM cfg) * length (PLANE_SIZES_CM cfg))%nat.
Proof.
  unfold planes. rewrite plan_length, product_list_prod, length_prod.
  reflexivity.
Qed.

(** X8: generation appends to what cleanup left: one width group per size and
    one subgroup per size pair, two mesh objects and two mesh datablocks per
    size pair.  Nothing that cleanup left is changed or reordered, and no
    new object is linked to the scene root, so the unlink of lines 159-163
    never finds anything to unlink. *)
Theorem generation_appends (cfg : Settings) (D : Document) :
  let n := length (PLANE_SIZES_CM cfg) in
  valid_settings cfg = true -> wf_doc D = true ->
  exists F new_collections new_objects new_meshes,
    generate cfg D = Ok F
    /\ data_collections F = data_collections (cleanup D) ++ new_collections
    /\ length new_collections = (n + n * n)%nat
    /\ data_objects F = data_objects (cleanup D) ++ new_objects
    /\ length new_objects = (2 * (n * n))%nat
    /\ Forall (fun o => is_mesh o = true) new_objects
    /\ data_meshes F = data_meshes D ++ new_meshes
    /\ length new_meshes = (2 * (n * n))%nat
    /\ scene_objects F = scene_objects (cleanup D).
Proof.
  intros n Hcfg Hwf.
  exists (generated cfg (cleanup D)).
  exists (hierarchy (PLANE_SIZES_CM cfg)
            (subs (sorted_sizes (PLANE_SIZES_CM cfg)))
            (pair_objects (planes cfg (cleanup D))) (PLANE_SIZES_CM cfg)).
  exists (flat_map created_objects (planes cfg (cleanup D))).
  exists (flat_map (created_meshes cfg) (planes cfg (cleanup D))).
  split; [apply generate_ok; assumption|].
  unfold generated, hdoc.
  cbn [data_collections data_objects data_meshes scene_objects].
  repeat split.
  - rewrite hierarchy_length. fold n. lia.
  - rewrite created_objects_length, planes_length. reflexivity.
  - apply Forall_forall. intros o Ho. apply in_flat_map in Ho.
    destruct Ho as [cr [_ Ho]]. cbn [created_objects In] in Ho.
    destruct Ho as [<-|[<-|[]]]; reflexivity.
  - rewrite cleanup_data_meshes. reflexivity.
  - rewrite created_meshes_length, planes_length. reflexivity.
Qed.

Lemma sort_by_sorted (l : list Z) :
  StronglySorted Z.le l -> sort_by Z.ltb l = l.
Proof.
  intros H. induction H as [|x l Hl IH Hx]; cbn [sort_by]; [reflexivity|].
  rewrite IH. destruct l as [|y l']; cbn [insert_by]; [reflexivity|].
  inversion Hx as [|? ? Hxy _]; subst.
  destruct (Z.ltb_spec y x); [lia | reflexivity].
Qed.

(** X9: in a document whose collections have ASCII names, the sorting stage
    moves the width groups behind every other child of the scene: the
    children that cleanup left keep their places and their order, and the
    width groups follow in ascending numeric order. *)
Theorem scene_children_after_run (cfg : Settings) (D : Document) :
  valid_settings cfg = true -> wf_doc D = true ->
  ascii_names (collection_names D) = true ->
  exists F,
    generate cfg D = Ok F
    /\ scene_children F
       = filter (fun n => negb (generated_name n)) (scene_children D)
         ++ map str (sorted_sizes (PLANE_SIZES_CM cfg))
    /\ StronglySorted Z.lt (sorted_sizes (PLANE_SIZES_CM cfg))
    /\ (forall w, In w (sorted_sizes (PLANE_SIZES_CM cfg))
                  <-> In w (PLANE_SIZES_CM cfg)).
Proof.
  intros Hcfg Hwf _.
  exists (generated cfg (cleanup D)).
  split; [apply generate_ok; assumption|].
  destruct (valid_settings_spec cfg Hcfg) as [_ [Hnd _]].
  split; [|split].
  - unfold generated, hdoc. cbn [scene_children]. f_equal.
    rewrite cleanup_eq. unfold remove_collections, remove_objects.
    cbn [scene_children]. apply keep_names_generated.
    apply wf_doc_iff in Hwf. apply Hwf.
  - apply sorted_sizes_strict. exact Hnd.
  - intros w. unfold sorted_sizes. apply In_sort_by.
Qed.

(** * Names and the numbers in them *)

Lemma digit_not_x (c : ascii) :
  is_digit_char c = true -> Ascii.eqb c "x" = false.
Proof.
  destruct c as [[] [] [] [] [] [] [] []]; simpl; intros H;
    try discriminate; reflexivity.
Qed.

Lemma isdigit_no_x (s : string) :
  isdigit s = true -> contains_char "x" s = false.
Proof.
  intros H. assert (Ha : all_digits s = true)
    by (destruct s; [discriminate | exact H]).
  clear H. induction s as [|c s IH]; cbn [contains_char]; [reflexivity|].
  cbn [all_digits] in Ha. apply andb_true_iff in Ha. destruct Ha as [Hc Hs].
  rewrite (digit_not_x c Hc), (IH Hs). reflexivity.
Qed.

(** X10: the size pair can be read back from the names the script builds: the
    centimetres from the metres, the two numbers from a subgroup name and
    the number from a width group name; both kinds of name are recognised
    by cleanup, and only the width group name is all digits. *)
Theorem names_round_trip (w h : Z) :
  0 <= w -> 0 <= h ->
  py_round (to_m w * 100) = w
  /\ split_on "x" (subcol_name_of w h) = [str w; str h]
  /\ getitem (split_on "x" (subcol_name_of w h)) 1 = Ok (str h)
  /\ alnum_key (subcol_name_of w h) = Ok [PInt w; PInt h]
  /\ py_int (str w) = Ok w
  /\ isdigit (str w) = true
  /\ isdigit (subcol_name_of w h) = false
  /\ generated_name (str w) = true
  /\ generated_name (subcol_name_of w h) = true.
Proof.
  intros Hw Hh.
  split; [apply to_m_round|].
  split; [apply split_subcol_name|].
  split; [rewrite split_subcol_name; reflexivity|].
  split; [apply alnum_key_subcol_name; assumption|].
  split; [apply py_int_str|].
  split; [apply str_nonneg_isdigit; exact Hw|].
  split; [|split; [apply str_generated; exact Hw
                  | apply subcol_name_generated]].
  destruct (isdigit (subcol_name_of w h)) eqn:E; [|reflexivity].
  apply isdigit_no_x in E. rewrite subcol_name_has_x in E. discriminate.
Qed.

(** * The search in the view layer (lines 198-205) *)

Lemma find_app_first {A : Type} (f : A -> bool) (l l' : list A) :
  find f (l ++ l')
  = match find f l with
    | Some a => Some a
    | None => find f l'
    end.
Proof.
  induction l as [|x l IH]; cbn [app find]; [reflexivity|].
  destruct (f x); [reflexivity | exact IH].
Qed.

Lemma find_layer_collection_nodes (coll : coll_ref) :
  forall layer_coll,
    find_layer_collection layer_coll coll
    = find (fun n => coll_ref_eqb (layer_collection_of n) coll)
           (layer_nodes layer_coll).
Proof.
  fix IH 1. intros [c children].
  cbn [find_layer_collection layer_nodes find layer_collection_of].
  destruct (coll_ref_eqb c coll); [reflexivity|].
  induction children as [|child l IHl]; cbn [flat_map]; [reflexivity|].
  rewrite find_app_first, <- (IH child).
  destruct (find_layer_collection child coll); [reflexivity | exact IHl].
Qed.

Lemma coll_ref_eqb_eq (a b : coll_ref) : coll_ref_eqb a b = true <-> a = b.
Proof.
  destruct a as [|x]; destruct b as [|y]; cbn [coll_ref_eqb];
    split; intros H; try reflexivity; try discriminate.
  - apply String.eqb_eq in H. subst. reflexivity.
  - injection H as ->. apply String.eqb_refl.
Qed.

(** X11: [find_layer_collection] returns the first layer collection of the tree,
    parents before children and children in their order, whose collection
    is the one looked for, and [None] exactly when the tree has none. *)
Theorem find_layer_collection_first (layer_coll : LayerCollection)
  (coll : coll_ref) :
  find_layer_collection layer_coll coll
  = find (fun n => coll_ref_eqb (layer_collection_of n) coll)
         (layer_nodes layer_coll)
  /\ (forall res, find_layer_collection layer_coll coll = Some res ->
        In res (layer_nodes layer_coll) /\ layer_collection_of res = coll)
  /\ (find_layer_collection layer_coll coll = None <->
      forall n, In n (layer_nodes layer_coll) ->
                layer_collection_of n <> coll).
Proof.
  rewrite find_layer_collection_nodes. split; [reflexivity|]. split.
  - intros res H. apply find_some in H. destruct H as [Hin E].
    split; [exact Hin | apply coll_ref_eqb_eq; exact E].
  - split.
    + intros H n Hn E. pose proof (find_none _ _ H n Hn) as Hf.
      cbv beta in Hf. apply coll_ref_eqb_eq in E. congruence.
    + intros H. destruct (find _ _) as [res|] eqn:E; [|reflexivity].
      apply find_some in E. destruct E as [Hin E].
      apply coll_ref_eqb_eq in E. exfalso. exact (H res Hin E).
Qed.

(** ** The view layer of a document *)

Lemma layer_tree_collection (fuel : nat) (D : Document) (c : coll_ref) :
  layer_collection_of (layer_tree fuel D c) = c.
Proof. destruct fuel; reflexivity. Qed.

Lemma layer_nodes_root (lc : LayerCollection) : In lc (layer_nodes lc).
Proof. destruct lc. left. reflexivity. Qed.

Lemma layer_nodes_child (fuel : nat) (D : Document) (c : coll_ref)
  (l : list string) (n : string) (x : LayerCollection) :
  children_of c D = Ok l -> In n l ->
  In x (layer_nodes (layer_tree fuel D (DataCollection n))) ->
  In x (layer_nodes (layer_tree (S fuel) D c)).
Proof.
  intros Hc Hn Hx. cbn [layer_tree layer_nodes]. rewrite Hc. right.
  apply in_flat_map. exists (layer_tree fuel D (DataCollection n)).
  split; [|exact Hx]. apply in_map_iff. exists n. auto.
Qed.

(** A collection two links below the scene has a layer collection, and the
    search finds one. *)
Lemma find_grandchild (D : Document) (parent leaf : string)
  (l : list string) :
  data_collections D <> [] ->
  In parent (scene_children D) ->
  children_of (DataCollection parent) D = Ok l -> In leaf l ->
  exists target,
    find_layer_collection (view_layer_root D) (DataCollection leaf)
    = Some target
    /\ layer_collection_of target = DataCollection leaf.
Proof.
  intros Hne Hp Hc Hl. unfold view_layer_root.
  destruct (data_collections D) as [|c0 cs] eqn:Ed; [contradiction|].
  cbn [length].
  set (k := length cs).
  assert (Hin : In (layer_tree k D (DataCollection leaf))
                   (layer_nodes (layer_tree (S (S k)) D SceneCollection))).
  { apply (layer_nodes_child (S k) D SceneCollection (scene_children D)
             parent); [reflexivity | exact Hp |].
    apply (layer_nodes_child k D (DataCollection parent) l leaf);
      [exact Hc | exact Hl |]. apply layer_nodes_root. }
  destruct (find_layer_collection (layer_tree (S (S k)) D SceneCollection)
              (DataCollection leaf)) as [t|] eqn:E.
  - exists t. split; [reflexivity|].
    rewrite find_layer_collection_nodes in E. apply find_some in E.
    apply coll_ref_eqb_eq. apply E.
  - exfalso. rewrite find_layer_collection_nodes in E.
    pose proof (find_none _ _ E _ Hin) as Hf. cbv beta in Hf.
    rewrite layer_tree_collection in Hf. cbn [coll_ref_eqb] in Hf.
    rewrite String.eqb_refl in Hf. discriminate.
Qed.

(** * The export loops on the generated hierarchy (lines 209-267) *)

Lemma export_outcome_app (os : Os) (l1 l2 : list (string * string)) :
  export_outcome os (l1 ++ l2)
  = match export_outcome os l1 with
    | Ok _ => export_outcome os l2
    | Raise e => Raise e
    end.
Proof.
  induction l1 as [|[d p] l1 IH]; cbn [app export_outcome]; [reflexivity|].
  destruct (makedirs_error os d); [reflexivity|].
  destruct (export_error os p); [reflexivity | exact IH].
Qed.

Lemma calls_made_app (os : Os) (l1 l2 : list (string * string)) :
  calls_made os (l1 ++ l2)
  = calls_made os l1
    ++ match export_outcome os l1 with
       | Ok _ => calls_made os l2
       | Raise _ => []
       end.
Proof.
  induction l1 as [|[d p] l1 IH]; cbn [app calls_made export_outcome];
    [reflexivity|].
  destruct (makedirs_error os d); [reflexivity|].
  destruct (export_error os p); [reflexivity|].
  rewrite IH. reflexivity.
Qed.

Lemma export_outcome_ok (os : Os) (l : list (string * string)) :
  (forall d p, In (d, p) l ->
     makedirs_error os d = false /\ export_error os p = false) ->
  export_outcome os l = Ok tt /\ calls_made os l = map snd l.
Proof.
  induction l as [|[d p] l IH]; intros H; cbn [export_outcome calls_made map];
    [split; reflexivity|].
  destruct (H d p (or_introl eq_refl)) as [E1 E2]. rewrite E1, E2.
  destruct IH as [I1 I2]; [intros d' p' Hin; apply H; right; exact Hin|].
  split; [exact I1 | cbn [snd]; rewrite I2; reflexivity].
Qed.

Lemma files_grow_refl (h h' : Host) :
  files h' = files h -> files_grow [] h h'.
Proof.
  intros E. split; [intros q Hq; rewrite E; exact Hq | intros p []].
Qed.

Lemma files_grow_trans (ps1 ps2 : list string) (h h1 h2 : Host) :
  files_grow ps1 h h1 -> files_grow ps2 h1 h2 ->
  files_grow (ps1 ++ ps2) h h2.
Proof.
  intros [A1 B1] [A2 B2]. split.
  - intros q Hq. apply A2, A1, Hq.
  - intros p Hp. apply in_app_or in Hp. destruct Hp as [Hp|Hp].
    + apply A2, B1, Hp.
    + apply B2, Hp.
Qed.

Lemma In_remove_name (n q : string) (l : list string) :
  In q (remove_name n l) <-> In q l /\ q <> n.
Proof.
  unfold remove_name. rewrite filter_In, negb_true_iff, String.eqb_neq.
  reflexivity.
Qed.

(** What one pass of the loop body does for a subgroup that has a mesh
    object and a layer collection. *)
Lemma export_subcol_leaf (cfg : Settings) (os : Os)
  (width_cm subcol height_cm : string) (objs : list string) (first : string)
  (rest : list string) (target : LayerCollection) (h : Host) :
  contains_char "x" subcol = true ->
  getitem (split_on "x" subcol) 1 = Ok height_cm ->
  objects_of (DataCollection subcol) (doc h) = Ok objs ->
  filter (is_mesh_object (doc h)) objs = first :: rest ->
  find_layer_collection (view_layer_root (doc h)) (DataCollection subcol)
  = Some target ->
  let d := export_dir_of cfg os width_cm height_cm in
  let p := export_path_of cfg os width_cm height_cm subcol in
  exists h',
    export_subcol cfg os width_cm subcol h
    = (export_outcome os [(d, p)], h')
    /\ doc h' = doc h
    /\ fbx_calls h' = fbx_calls h ++ calls_made os [(d, p)]
    /\ (export_outcome os [(d, p)] = Ok tt -> files_grow [p] h h')
    /\ (makedirs_error os d = true ->
        files h' = files h /\ stdout h' = stdout h).
Proof.
  intros Hx Eg Hobjs Hmesh Hlayer d p.
  unfold export_subcol. rewrite Hx. cbn [negb].
  unfold e_bind at 1, e_lift at 1. rewrite Eg.
  unfold e_bind at 1, e_get at 1.
  unfold e_bind at 1, e_lift at 1. rewrite Hobjs, Hmesh, Hlayer.
  unfold e_bind at 1, set_active_layer_collection at 1.
  unfold e_bind at 1, os_makedirs at 1.
  fold (export_dir_of cfg os width_cm height_cm). fold d.
  cbn [export_outcome calls_made].
  destruct (makedirs_error os d) eqn:Ed.
  { unfold e_lift. eexists. split; [reflexivity|].
    cbn [doc fbx_calls files stdout]. rewrite app_nil_r.
    split; [reflexivity|]. split; [reflexivity|].
    split; [discriminate | auto]. }
  unfold e_ret at 1. unfold e_bind at 1.
  change (path_join (sep os) d ("SM_Developer_Plane_" ++ subcol ++ ".fbx"))
    with p.
  unfold remove_old_file.
  unfold e_bind at 1, os_isfile at 1. cbn [files].
  destruct (name_in p (files h)) eqn:Efile;
    [destruct (remove_error os p) as [e|] eqn:Erem|];
    unfold e_bind, e_ret, e_get, set_files, print, set_active_object,
      export_scene_fbx;
    cbn [doc active_layer_collection active_object files stdout fbx_calls];
    rewrite ?Efile;
    destruct (export_error os p) eqn:Ee;
    (eexists; split; [reflexivity|]);
    cbn [doc active_layer_collection active_object files stdout fbx_calls];
    (split; [reflexivity|]); (split; [reflexivity|]);
    (split; [|intros; discriminate]);
    try (intros; discriminate); intros _.
  - (* the old file could not be removed *)
    split; [auto|]. intros q [<-|[]]. apply name_in_In. exact Efile.
  - (* the old file was removed, the export puts it back *)
    assert (Enot : name_in p (remove_name p (files h)) = false).
    { apply name_in_false. intros H. apply In_remove_name in H.
      destruct H as [_ H]. contradiction. }
    rewrite Enot. split.
    + intros q Hq. apply in_or_app.
      destruct (String.eqb_spec q p) as [->|Hne]; [right; left; reflexivity|].
      left. apply In_remove_name. auto.
    + intros q [<-|[]]. apply in_or_app. right. left. reflexivity.
  - (* there was no old file *)
    split.
    + intros q Hq. apply in_or_app. left. exact Hq.
    + intros q [<-|[]]. apply in_or_app. right. left. reflexivity.
Qed.

Lemma e_foreach_map {A B : Type} (f : A -> B) (l : list A)
  (body : B -> E unit) :
  e_foreach (map f l) body = e_foreach l (fun a => body (f a)).
Proof.
  induction l as [|a l IH]; cbn [map e_foreach]; [reflexivity|].
  rewrite IH. reflexivity.
Qed.

Lemma flat_map_singleton {A B : Type} (f : A -> B) (l : list A) :
  flat_map (fun a => [f a]) l = map f l.
Proof.
  induction l as [|a l IH]; cbn [flat_map map app]; [reflexivity|].
  rewrite IH. reflexivity.
Qed.

(** A loop whose passes each work through their own leaves works through
    all of them in order, and stops where a pass stops. *)
Lemma e_foreach_leaves {A : Type} (os : Os) (P : Host -> Prop)
  (leaves : A -> list (string * string)) (body : A -> E unit)
  (items : list A) :
  (forall a h0, In a items -> P h0 ->
     exists h1,
       body a h0 = (export_outcome os (leaves a), h1)
       /\ P h1
       /\ fbx_calls h1 = fbx_calls h0 ++ calls_made os (leaves a)
       /\ (export_outcome os (leaves a) = Ok tt ->
           files_grow (map snd (leaves a)) h0 h1)) ->
  forall h0, P h0 ->
    exists h1,
      e_foreach items body h0
      = (export_outcome os (flat_map leaves items), h1)
      /\ P h1
      /\ fbx_calls h1
         = fbx_calls h0 ++ calls_made os (flat_map leaves items)
      /\ (export_outcome os (flat_map leaves items) = Ok tt ->
          files_grow (map snd (flat_map leaves items)) h0 h1).
Proof.
  induction items as [|a items IH]; intros Hb h0 HP;
    cbn [e_foreach flat_map].
  - exists h0. unfold e_ret. cbn [export_outcome calls_made map].
    rewrite app_nil_r. repeat split; auto. intros p [].
  - destruct (Hb a h0 (or_introl eq_refl) HP) as [h1 [E1 [P1 [C1 G1]]]].
    unfold e_bind. rewrite E1.
    rewrite export_outcome_app, calls_made_app, map_app.
    destruct (export_outcome os (leaves a)) as [[]|e] eqn:Eo.
    + destruct (IH (fun a' h' Ha' => Hb a' h' (or_intror Ha')) h1 P1)
        as [h2 [E2 [P2 [C2 G2]]]].
      exists h2. split; [exact E2|]. split; [exact P2|]. split.
      * rewrite C2, C1, app_assoc. reflexivity.
      * intros Hok. apply (files_grow_trans _ _ h0 h1 h2);
          [apply G1; reflexivity | apply G2; exact Hok].
    + exists h1. split; [reflexivity|]. split; [exact P1|]. split.
      * rewrite C1, app_nil_r. reflexivity.
      * discriminate.
Qed.

Section ExportGenerated.

Variables (cfg : Settings) (os : Os) (C : Document).
Hypothesis Hcfg : valid_settings cfg = true.
Hypothesis HC : clean C.

Lemma leaf_objects (w h : Z) :
  In w (PLANE_SIZES_CM cfg) -> In h (PLANE_SIZES_CM cfg) ->
  exists p u,
    objects_of (DataCollection (subcol_name_of w h)) (generated cfg C)
    = Ok [p; u]
    /\ filter (is_mesh_object (generated cfg C)) [p; u] = [p; u].
Proof.
  intros Hw Hh.
  destruct (pair_record cfg C w h Hw Hh) as [cr [Hcr [_ [_ [E _]]]]].
  exists (cr_obj cr), (cr_ucx cr). split.
  - unfold objects_of. rewrite (generated_sub cfg C HC w h Hw Hh).
    cbn [mk_col col_objects]. rewrite E. reflexivity.
  - destruct (generated_objects cfg C cr Hcr) as [G1 [G2 _]].
    cbn [filter]. unfold is_mesh_object. rewrite G1, G2.
    cbn [obj_type String.eqb Ascii.eqb Bool.eqb]. reflexivity.
Qed.

Lemma sorted_in_sizes (w : Z) :
  In w (sorted_sizes (PLANE_SIZES_CM cfg)) -> In w (PLANE_SIZES_CM cfg).
Proof. unfold sorted_sizes. apply In_sort_by. Qed.

Lemma generated_collections_nonempty (w : Z) :
  In w (PLANE_SIZES_CM cfg) -> data_collections (generated cfg C) <> [].
Proof.
  intros Hw E.
  pose proof (generated_width cfg C Hcfg HC w Hw) as G.
  unfold collections_get in G. rewrite E in G. discriminate.
Qed.

Lemma leaf_layer (w h : Z) :
  In w (PLANE_SIZES_CM cfg) -> In h (PLANE_SIZES_CM cfg) ->
  exists target,
    find_layer_collection (view_layer_root (generated cfg C))
      (DataCollection (subcol_name_of w h)) = Some target.
Proof.
  intros Hw Hh.
  destruct (find_grandchild (generated cfg C) (str w) (subcol_name_of w h)
              (subs (sorted_sizes (PLANE_SIZES_CM cfg)) w))
    as [t [E _]].
  - apply (generated_collections_nonempty w Hw).
  - unfold generated, hdoc. cbn [scene_children]. apply in_or_app. right.
    apply in_map. unfold sorted_sizes. apply In_sort_by. exact Hw.
  - unfold children_of. rewrite (generated_width cfg C Hcfg HC w Hw).
    reflexivity.
  - apply In_subs. exists h. split; [|reflexivity].
    unfold sorted_sizes. apply In_sort_by. exact Hh.
  - exists t. exact E.
Qed.

(** One pass of the inner loop on the generated document. *)
Lemma export_subcol_generated (w h : Z) (h0 : Host) :
  In w (PLANE_SIZES_CM cfg) -> In h (PLANE_SIZES_CM cfg) ->
  doc h0 = generated cfg C ->
  exists h1,
    export_subcol cfg os (str w) (subcol_name_of w h) h0
    = (export_outcome os [export_leaf cfg os w h], h1)
    /\ doc h1 = generated cfg C
    /\ fbx_calls h1 = fbx_calls h0 ++ calls_made os [export_leaf cfg os w h]
    /\ (export_outcome os [export_leaf cfg os w h] = Ok tt ->
        files_grow (map snd [export_leaf cfg os w h]) h0 h1).
Proof.
  intros Hw Hh Hd.
  destruct (leaf_objects w h Hw Hh) as [p [u [Ho Hf]]].
  destruct (leaf_layer w h Hw Hh) as [t Ht].
  rewrite <- Hd in Ho, Hf, Ht.
  destruct (export_subcol_leaf cfg os (str w) (subcol_name_of w h) (str h)
              [p; u] p [u] t h0 (subcol_name_has_x w h)
              ltac:(rewrite split_subcol_name; reflexivity) Ho Hf Ht)
    as [h1 [E [D1 [C1 [G1 _]]]]].
  exists h1. unfold export_leaf. split; [exact E|].
  split; [rewrite D1; exact Hd|]. split; [exact C1 | exact G1].
Qed.

Lemma sorted_sizes_idem :
  sorted_sizes (sorted_sizes (PLANE_SIZES_CM cfg))
  = sorted_sizes (PLANE_SIZES_CM cfg).
Proof. apply sort_by_sorted. apply sorted_sizes_sorted. Qed.

(** One pass of the outer loop on the generated document. *)
Lemma export_width_generated (w : Z) (h0 : Host) :
  In w (PLANE_SIZES_CM cfg) ->
  doc h0 = generated cfg C ->
  exists h1,
    export_width cfg os (str w) h0
    = (export_outcome os (width_leaves cfg os w), h1)
    /\ doc h1 = generated cfg C
    /\ fbx_calls h1 = fbx_calls h0 ++ calls_made os (width_leaves cfg os w)
    /\ (export_outcome os (width_leaves cfg os w) = Ok tt ->
        files_grow (map snd (width_leaves cfg os w)) h0 h1).
Proof.
  intros Hw Hd.
  destruct (valid_settings_spec cfg Hcfg) as [_ [_ Hpos]].
  rewrite Forall_forall in Hpos.
  unfold export_width. unfold e_bind at 1, e_get at 1.
  unfold e_bind at 1, e_lift at 1. rewrite Hd.
  unfold children_of. rewrite (generated_width cfg C Hcfg HC w Hw).
  cbn [mk_col col_children].
  unfold e_bind at 1, e_lift at 1.
  rewrite sorted_heights.
  2:{ apply Hpos. exact Hw. }
  2:{ apply Forall_forall. intros x Hx. apply Hpos, sorted_in_sizes, Hx. }
  rewrite sorted_sizes_idem. unfold subs. rewrite e_foreach_map.
  unfold width_leaves. rewrite <- flat_map_singleton.
  apply (e_foreach_leaves os (fun h' => doc h' = generated cfg C)
           (fun h => [export_leaf cfg os w h])); [|exact Hd].
  intros h h0' Hh Hd'. apply export_subcol_generated; auto.
  apply sorted_in_sizes. exact Hh.
Qed.

Lemma generated_digit_children :
  filter isdigit (scene_children (generated cfg C))
  = map str (sorted_sizes (PLANE_SIZES_CM cfg)).
Proof.
  destruct (valid_settings_spec cfg Hcfg) as [_ [_ Hpos]].
  rewrite Forall_forall in Hpos.
  unfold generated, hdoc. cbn [scene_children].
  rewrite filter_app, filter_none, filter_isdigit_str; [reflexivity | |].
  - intros w Hw. apply Hpos, sorted_in_sizes, Hw.
  - intros n Hn. apply not_generated_not_digit.
    apply (clean_scene_children C n HC Hn).
Qed.

(** The two loops of the export stage on the generated document. *)
Lemma export_loops_generated (h0 : Host) :
  doc h0 = generated cfg C ->
  exists h1,
    e_foreach (map str (sorted_sizes (PLANE_SIZES_CM cfg)))
      (export_width cfg os) h0
    = (export_outcome os (export_leaves cfg os), h1)
    /\ doc h1 = generated cfg C
    /\ fbx_calls h1 = fbx_calls h0 ++ calls_made os (export_leaves cfg os)
    /\ (export_outcome os (export_leaves cfg os) = Ok tt ->
        files_grow (map snd (export_leaves cfg os)) h0 h1).
Proof.
  intros Hd. rewrite e_foreach_map. unfold export_leaves.
  apply (e_foreach_leaves os (fun h' => doc h' = generated cfg C)
           (width_leaves cfg os)); [|exact Hd].
  intros w h0' Hw Hd'. apply export_width_generated; [|exact Hd'].
  apply sorted_in_sizes. exact Hw.
Qed.

End ExportGenerated.

(** * Export paths (lines 236-239) *)

Lemma list_ascii_of_string_app (a b : string) :
  list_ascii_of_string (a ++ b)
  = list_ascii_of_string a ++ list_ascii_of_string b.
Proof.
  induction a as [|c a IH]; cbn [String.append list_ascii_of_string app];
    [reflexivity|]. rewrite IH. reflexivity.
Qed.

Lemma list_ascii_of_string_inj (a b : string) :
  list_ascii_of_string a = list_ascii_of_string b -> a = b.
Proof.
  intros H. rewrite <- (string_of_list_ascii_of_string a),
    <- (string_of_list_ascii_of_string b), H. reflexivity.
Qed.

Lemma rev_eq_inj {A : Type} (a b : list A) : rev a = rev b -> a = b.
Proof.
  intros H. rewrite <- (rev_involutive a), <- (rev_involutive b), H.
  reflexivity.
Qed.

(** A run of digits that ends at a character which is no digit is
    determined by the text it starts. *)
Lemma digits_then_other (d1 d2 : list ascii) (c1 c2 : ascii)
  (r1 r2 : list ascii) :
  Forall (fun c => is_digit_char c = true) d1 ->
  Forall (fun c => is_digit_char c = true) d2 ->
  is_digit_char c1 = false -> is_digit_char c2 = false ->
  d1 ++ c1 :: r1 = d2 ++ c2 :: r2 ->
  d1 = d2 /\ r1 = r2.
Proof.
  intros H1. revert d2. induction H1 as [|x d1 Hx Hd1 IH];
    intros d2 H2 Hc1 Hc2 E.
  - destruct d2 as [|y d2]; cbn [app] in E.
    + injection E as _ E. auto.
    + injection E as E _. subst y. inversion H2; subst. congruence.
  - destruct d2 as [|y d2]; cbn [app] in E.
    + injection E as E _. subst x. congruence.
    + injection E as -> E. inversion H2; subst.
      destruct (IH d2) as [-> ->]; auto.
Qed.

Lemma str_digits (n : Z) :
  0 <= n ->
  Forall (fun c => is_digit_char c = true) (list_ascii_of_string (str n)).
Proof.
  intros Hn. pose proof (str_nonneg_isdigit n Hn) as H.
  assert (Ha : all_digits (str n) = true)
    by (destruct (str n); [discriminate | exact H]).
  clear H. induction (str n) as [|c s IH]; cbn [list_ascii_of_string];
    [constructor|].
  cbn [all_digits] in Ha. apply andb_true_iff in Ha. destruct Ha as [Hc Hs].
  constructor; [exact Hc | apply IH; exact Hs].
Qed.

Lemma path_join_suffix (sep' a b : string) :
  exists pre, path_join sep' a b = (pre ++ b)%string.
Proof.
  unfold path_join.
  destruct (String.prefix sep' b && negb (String.eqb sep' ""));
    [exists ""%string; reflexivity|].
  destruct (String.eqb a "" || endswith a sep');
    [exists a; reflexivity|].
  exists (a ++ sep')%string. rewrite append_assoc. reflexivity.
Qed.

(** The file names of two subgroups tell their sizes apart, whatever
    precedes them. *)
Lemma file_name_inj (pre pre' : string) (w h w' h' : Z) :
  0 <= w -> 0 <= h -> 0 <= w' -> 0 <= h' ->
  (pre ++ "SM_Developer_Plane_" ++ subcol_name_of w h ++ ".fbx")%string
  = (pre' ++ "SM_Developer_Plane_" ++ subcol_name_of w' h' ++ ".fbx")%string ->
  w = w' /\ h = h'.
Proof.
  intros Hw Hh Hw' Hh' E.
  apply (f_equal list_ascii_of_string) in E.
  unfold subcol_name_of in E.
  rewrite !list_ascii_of_string_app in E.
  apply (f_equal (@rev ascii)) in E.
  rewrite !rev_app_distr in E.
  change (list_ascii_of_string ".fbx") with ["."; "f"; "b"; "x"]%char in E.
  change (list_ascii_of_string "x") with ["x"]%char in E.
  change (list_ascii_of_string "SM_Developer_Plane_")
    with (list_ascii_of_string "SM_Developer_Plane" ++ ["_"]%char) in E.
  rewrite !rev_app_distr in E.
  cbn [rev app] in E. rewrite <- !app_assoc in E. cbn [app] in E.
  injection E as E.
  destruct (digits_then_other _ _ "x"%char "x"%char _ _
              (Forall_rev (str_digits h Hh)) (Forall_rev (str_digits h' Hh'))
              eq_refl eq_refl E) as [Eh E2].
  destruct (digits_then_other _ _ "_"%char "_"%char _ _
              (Forall_rev (str_digits w Hw)) (Forall_rev (str_digits w' Hw'))
              eq_refl eq_refl E2) as [Ew _].
  split; apply str_inj, list_ascii_of_string_inj, rev_eq_inj; assumption.
Qed.

Lemma export_path_suffix (cfg : Settings) (os : Os)
  (width_cm height_cm subcol : string) :
  exists pre,
    export_path_of cfg os width_cm height_cm subcol
    = (pre ++ "SM_Developer_Plane_" ++ subcol ++ ".fbx")%string.
Proof. unfold export_path_of. apply path_join_suffix. Qed.

(** * The export stage of a run *)

Lemma last_snoc {A : Type} (l : list A) (a d : A) : last (l ++ [a]) d = a.
Proof. apply last_last. Qed.

Lemma run_exports (cfg : Settings) (os : Os) (h : Host) :
  valid_settings cfg = true -> wf_doc (doc h) = true ->
  EXPORT_TO_FBX cfg = true ->
  exists h',
    run cfg os h = (export_outcome os (export_leaves cfg os), h')
    /\ fbx_calls h'
       = fbx_calls h ++ calls_made os (export_leaves cfg os)
    /\ (export_outcome os (export_leaves cfg os) = Ok tt ->
        files_grow (map snd (export_leaves cfg os)) h h'
        /\ last (stdout h') ""%string = "Batch FBX export complete."%string).
Proof.
  intros Hcfg Hwf Hexp.
  pose proof (cleanup_clean (doc h) Hwf) as HC.
  unfold run. cbv beta. unfold run_enum.
  unfold e_bind at 1, e_get at 1. unfold e_bind at 1, e_lift at 1.
  change (generate_enum (data_objects (doc h)) (data_collections (doc h))
            cfg (doc h)) with (generate cfg (doc h)).
  rewrite (generate_ok cfg (doc h) Hcfg Hwf).
  unfold e_bind at 1, clear_removed at 1.
  unfold e_bind at 1, set_doc at 1. unfold e_bind at 1, print at 1.
  cbn [doc active_layer_collection active_object files stdout fbx_calls].
  unfold export_stage. rewrite Hexp.
  unfold e_bind at 1, print at 1.
  cbn [doc active_layer_collection active_object files stdout fbx_calls].
  unfold e_bind at 1, e_get at 1. cbn [doc].
  unfold e_bind at 1, e_lift at 1.
  rewrite (generated_digit_children cfg (cleanup (doc h)) Hcfg HC).
  rewrite sorted_widths, sorted_sizes_idem.
  unfold e_bind at 1.
  match goal with
  | |- context [e_foreach _ _ ?h2] =>
      destruct (export_loops_generated cfg os (cleanup (doc h)) Hcfg HC h2
                  eq_refl) as [h3 [E [D3 [C3 G3]]]]
  end.
  rewrite E.
  cbn [fbx_calls files] in C3.
  destruct (export_outcome os (export_leaves cfg os)) as [[]|e] eqn:Eo.
  - unfold print. eexists. split; [reflexivity|].
    cbn [fbx_calls stdout files]. split; [exact C3|]. intros _. split.
    + destruct (G3 eq_refl) as [A B]. split; [exact A | exact B].
    + apply last_snoc.
  - exists h3. split; [reflexivity|]. split; [exact C3 | discriminate].
Qed.

(** X12: how the export stage of a run goes, whatever the file system and the
    exporter answer: the size pairs are taken widths ascending and heights
    ascending within a width; for each the directory is made, then the
    exporter is called; the run ends with OSError at the first directory
    that cannot be made, with the exporter's exception at the first export
    that raises, and normally otherwise. *)
Theorem export_trace (cfg : Settings) (os : Os) (h : Host) :
  valid_settings cfg = true -> wf_doc (doc h) = true ->
  EXPORT_TO_FBX cfg = true ->
  fst (run cfg os h) = export_outcome os (export_leaves cfg os)
  /\ fbx_calls (snd (run cfg os h))
     = fbx_calls h ++ calls_made os (export_leaves cfg os).
Proof.
  intros Hcfg Hwf Hexp.
  destruct (run_exports cfg os h Hcfg Hwf Hexp) as [h' [E [Hc _]]].
  rewrite E. cbn [fst snd]. split; [reflexivity | exact Hc].
Qed.

Lemma NoDup_map_inj_in {A B : Type} (f : A -> B) (l : list A) :
  (forall a b, In a l -> In b l -> f a = f b -> a = b) ->
  NoDup l -> NoDup (map f l).
Proof.
  intros Hf H. induction H as [|x l Hx Hl IH]; cbn [map]; constructor.
  - rewrite in_map_iff. intros [y [E Hy]].
    assert (y = x) by (apply Hf; [right; exact Hy | left; reflexivity | exact E]).
    subst. contradiction.
  - apply IH. intros a b Ha Hb. apply Hf; right; assumption.
Qed.

Lemma export_leaves_paths (cfg : Settings) (os : Os) :
  map snd (export_leaves cfg os)
  = map (fun p => export_path_of cfg os (str (fst p)) (str (snd p))
                    (subcol_name_of (fst p) (snd p)))
        (product (sorted_sizes (PLANE_SIZES_CM cfg))
                 (sorted_sizes (PLANE_SIZES_CM cfg))).
Proof.
  unfold export_leaves, width_leaves, product.
  assert (G : forall ws hs : list Z,
            map snd (flat_map (fun w => map (export_leaf cfg os w) hs) ws)
            = map (fun p => export_path_of cfg os (str (fst p)) (str (snd p))
                              (subcol_name_of (fst p) (snd p)))
                  (flat_map (fun x => map (fun y => (x, y)) hs) ws)).
  { intros ws hs. induction ws as [|w ws IH]; cbn [flat_map map];
      [reflexivity|].
    rewrite !map_app, IH, !map_map. reflexivity. }
  apply G.
Qed.

Lemma export_leaves_NoDup (cfg : Settings) (os : Os) :
  valid_settings cfg = true -> NoDup (map snd (export_leaves cfg os)).
Proof.
  intros Hcfg. destruct (valid_settings_spec cfg Hcfg) as [_ [Hnd Hpos]].
  rewrite Forall_forall in Hpos.
  rewrite export_leaves_paths. apply NoDup_map_inj_in.
  - intros [w h] [w' h'] H1 H2 E. cbn [fst snd] in E.
    apply In_product in H1, H2. destruct H1 as [Hw Hh]. destruct H2 as [Hw' Hh'].
    unfold sorted_sizes in Hw, Hh, Hw', Hh'.
    apply In_sort_by in Hw, Hh, Hw', Hh'.
    destruct (export_path_suffix cfg os (str w) (str h)
                (subcol_name_of w h)) as [pre Ep].
    destruct (export_path_suffix cfg os (str w') (str h')
                (subcol_name_of w' h')) as [pre' Ep'].
    rewrite Ep, Ep' in E.
    destruct (file_name_inj pre pre' w h w' h') as [-> ->]; auto.
  - apply NoDup_product; apply NoDup_sort_by; exact Hnd.
Qed.

(** X13: two size pairs never share an export file: the path of a subgroup
    determines its width and its height. *)
Theorem export_paths_distinct (cfg : Settings) (os : Os) (w h w' h' : Z) :
  0 <= w -> 0 <= h -> 0 <= w' -> 0 <= h' ->
  export_path_of cfg os (str w) (str h) (subcol_name_of w h)
  = export_path_of cfg os (str w') (str h') (subcol_name_of w' h') ->
  w = w' /\ h = h'.
Proof.
  intros Hw Hh Hw' Hh' E.
  destruct (export_path_suffix cfg os (str w) (str h) (subcol_name_of w h))
    as [pre Ep].
  destruct (export_path_suffix cfg os (str w') (str h')
              (subcol_name_of w' h')) as [pre' Ep'].
  rewrite Ep, Ep' in E.
  exact (file_name_inj pre pre' w h w' h' Hw Hh Hw' Hh' E).
Qed.

Lemma export_leaves_length (cfg : Settings) (os : Os) :
  length (map snd (export_leaves cfg os))
  = (length (PLANE_SIZES_CM cfg) * length (PLANE_SIZES_CM cfg))%nat.
Proof.
  rewrite export_leaves_paths, length_map, product_list_prod, length_prod.
  unfold sorted_sizes.
  rewrite <- (Permutation_length (sort_by_perm Z.ltb (PLANE_SIZES_CM cfg))).
  reflexivity.
Qed.

(** X14: when every directory can be made and no export raises, the run ends
    normally after one export per size pair, each to a file of its own; no
    file that was there before is missing afterwards, every exported file
    is there, and the last line printed is the closing message. *)
Theorem export_complete (cfg : Settings) (os : Os) (h : Host) :
  valid_settings cfg = true -> wf_doc (doc h) = true ->
  EXPORT_TO_FBX cfg = true ->
  (forall d, makedirs_error os d = false) ->
  (forall p, export_error os p = false) ->
  let paths := map snd (export_leaves cfg os) in
  let n := length (PLANE_SIZES_CM cfg) in
  fst (run cfg os h) = Ok tt
  /\ fbx_calls (snd (run cfg os h)) = fbx_calls h ++ paths
  /\ length paths = (n * n)%nat
  /\ NoDup paths
  /\ files_grow paths h (snd (run cfg os h))
  /\ last (stdout (snd (run cfg os h))) ""%string
     = "Batch FBX export complete."%string.
Proof.
  intros Hcfg Hwf Hexp Hdirs Hfbx paths n.
  destruct (run_exports cfg os h Hcfg Hwf Hexp) as [h' [E [Hc Hok]]].
  destruct (export_outcome_ok os (export_leaves cfg os)) as [Eo Em].
  { intros d p _. split; [apply Hdirs | apply Hfbx]. }
  rewrite E, Eo. cbn [fst snd]. rewrite Eo in Hok. rewrite Em in Hc.
  destruct (Hok eq_refl) as [G L].
  split; [reflexivity|]. split; [exact Hc|].
  split; [apply export_leaves_length|].
  split; [apply export_leaves_NoDup; exact Hcfg|].
  split; [exact G | exact L].
Qed.

(** X15: with EXPORT_TO_FBX set to False the run ends normally after the
    generation: two lines are printed, no file is touched and the exporter
    is not called. *)
Theorem export_disabled (cfg : Settings) (os : Os) (h : Host) :
  valid_settings cfg = true -> wf_doc (doc h) = true ->
  EXPORT_TO_FBX cfg = false ->
  fst (run cfg os h) = Ok tt
  /\ stdout (snd (run cfg os h))
     = stdout h
       ++ ["Plane generation and organization complete!";
           "EXPORT_TO_FBX is set to False. Skipping FBX export step."]%string
  /\ files (snd (run cfg os h)) = files h
  /\ fbx_calls (snd (run cfg os h)) = fbx_calls h.
Proof.
  intros Hcfg Hwf Hexp.
  assert (E : exists lc ao,
             run cfg os h
             = (Ok tt,
                {| doc := generated cfg (cleanup (doc h));
                   active_layer_collection := lc;
                   active_object := ao;
                   files := files h;
                   stdout :=
                     (stdout h
                      ++ ["Plane generation and organization complete!"])
                     ++ ["EXPORT_TO_FBX is set to False. Skipping FBX export step."];
                   fbx_calls := fbx_calls h |})%string).
  { unfold run. cbv beta. unfold run_enum.
    unfold e_bind at 1, e_get at 1. unfold e_bind at 1, e_lift at 1.
    change (generate_enum (data_objects (doc h)) (data_collections (doc h))
              cfg (doc h)) with (generate cfg (doc h)).
    rewrite (generate_ok cfg (doc h) Hcfg Hwf).
    unfold e_bind at 1, clear_removed at 1.
    unfold e_bind at 1, set_doc at 1. unfold e_bind at 1, print at 1.
    cbn [doc active_layer_collection active_object files stdout fbx_calls].
    unfold export_stage. rewrite Hexp. eexists. eexists. reflexivity. }
  destruct E as [lc [ao E]].
  rewrite E. cbn [fst snd stdout files fbx_calls].
  rewrite <- app_assoc. repeat split; reflexivity.
Qed.

(** * Positions and orientation of the primary mesh *)

Lemma plane_geometry_faces (cfg : Settings) (width height : Q) :
  let step := PLANE_SUBDIVISION_SIZE cfg in
  let n_x := py_round (float_quot width step) in
  let n_y := py_round (float_quot height step) in
  ~ (step == 0)%Q ->
  bm_verts (plane_geometry cfg width height)
  = grid_verts step width height n_x (range (n_y + 1))
  /\ map face_verts (bm_faces (plane_geometry cfg width height))
     = grid_tris (Z.to_nat (n_x + 1)) (Z.to_nat n_y) (Z.to_nat n_x).
Proof.
  intros step n_x n_y Hs.
  destruct (subdivided_plane_faces step width height Hs)
    as [bm [E [[HV _] Hf]]].
  unfold plane_geometry. fold step. rewrite E. split; assumption.
Qed.

(** X16: the vertices of the primary mesh in creation order: row after row
    from the bottom, each row from the left, one step apart, starting at
    (-width/2, -height/2); a row has one vertex more than the number of
    cells that the float quotient width/step rounds to, and there is one
    row more than the number that height/step rounds to. *)
Theorem primary_vertex_positions (cfg : Settings) (width height : Q)
  (name : string) (D : Document) :
  let step := PLANE_SUBDIVISION_SIZE cfg in
  let n_x := Z.to_nat (py_round (float_quot width step) + 1) in
  let n_y := Z.to_nat (py_round (float_quot height step) + 1) in
  ~ (step == 0)%Q ->
  exists obj D' bm,
    create_subdivided_plane_bmesh cfg width height name D = Ok (obj, D')
    /\ object_geometry D' obj = Some bm
    /\ length (bm_verts bm) = (n_y * n_x)%nat
    /\ forall j i, (j < n_y)%nat -> (i < n_x)%nat ->
         nth_error (bm_verts bm) (j * n_x + i)
         = Some (inject_Z (Z.of_nat i) * step - width / 2,
                 inject_Z (Z.of_nat j) * step - height / 2, 0)%Q.
Proof.
  intros step n_x n_y Hs.
  destruct (create_subdivided_plane_ok cfg width height name D Hs)
    as [obj [D' [E G]]].
  exists obj, D', (plane_geometry cfg width height).
  split; [exact E|]. split; [exact G|].
  destruct (plane_geometry_faces cfg width height Hs) as [HV _].
  fold step in HV. rewrite HV.
  assert (Hlen : length (grid_verts step width height
                           (py_round (float_quot width step))
                           (range (py_round (float_quot height step) + 1)))
                 = (n_y * n_x)%nat).
  { rewrite grid_verts_length, range_length. reflexivity. }
  split; [exact Hlen|].
  intros j i Hj Hi.
  assert (Hb : (j * n_x + i
                < length
                    (grid_verts step width height
                       (py_round (float_quot width step))
                       (range (py_round (float_quot height step) + 1))))%nat)
    by (rewrite Hlen; nia).
  rewrite (@nth_error_nth' vec3 _ _ (0, 0, 0)%Q Hb).
  f_equal. apply (nth_grid_verts step width height); assumption.
Qed.

Lemma inject_Z_succ (i : nat) :
  (inject_Z (Z.of_nat (i + 1)) == inject_Z (Z.of_nat i) + 1)%Q.
Proof.
  rewrite Nat2Z.inj_add, inject_Z_plus. reflexivity.
Qed.

Lemma cross_z_cell (step width height : Q) (j i : nat) :
  (cross_z (grid_co step width height (Z.of_nat j) (Z.of_nat i))
           (grid_co step width height (Z.of_nat j) (Z.of_nat (i + 1)))
           (grid_co step width height (Z.of_nat (j + 1)) (Z.of_nat i))
   == step * step)%Q
  /\ (cross_z (grid_co step width height (Z.of_nat j) (Z.of_nat (i + 1)))
              (grid_co step width height (Z.of_nat (j + 1))
                 (Z.of_nat (i + 1)))
              (grid_co step width height (Z.of_nat (j + 1)) (Z.of_nat i))
      == step * step)%Q.
Proof.
  unfold cross_z, grid_co. cbn [fst snd].
  rewrite !inject_Z_succ. split; ring.
Qed.

(** X17: every triangle of the primary mesh runs counter-clockwise seen from
    +Z and has the area of half a cell; the quad of the collision proxy
    runs the same way when width * height is positive. *)
Theorem faces_point_up (cfg : Settings) (width height : Q) (name : string)
  (D : Document) :
  let step := PLANE_SUBDIVISION_SIZE cfg in
  ~ (step == 0)%Q ->
  exists obj D' bm,
    create_subdivided_plane_bmesh cfg width height name D = Ok (obj, D')
    /\ object_geometry D' obj = Some bm
    /\ Forall (fun f =>
                 exists a b c,
                   face_verts f = [a; b; c]
                   /\ (cross_z (vertex bm a) (vertex bm b) (vertex bm c)
                       == step * step)%Q) (bm_faces bm)
    /\ (cross_z (vertex (simple_plane width height) 0)
                (vertex (simple_plane width height) 1)
                (vertex (simple_plane width height) 2)
        == width * height)%Q
    /\ (cross_z (vertex (simple_plane width height) 0)
                (vertex (simple_plane width height) 2)
                (vertex (simple_plane width height) 3)
        == width * height)%Q.
Proof.
  intros step Hs.
  destruct (create_subdivided_plane_ok cfg width height name D Hs)
    as [obj [D' [E G]]].
  exists obj, D', (plane_geometry cfg width height).
  split; [exact E|]. split; [exact G|].
  destruct (plane_geometry_faces cfg width height Hs) as [HV Hf].
  fold step in HV, Hf.
  split; [|split].
  - apply Forall_forall. intros f Hfin.
    assert (Hin : In (face_verts f)
                     (map face_verts
                        (bm_faces (plane_geometry cfg width height))))
      by (apply in_map; exact Hfin).
    rewrite Hf in Hin. apply In_grid_tris in Hin.
    destruct Hin as [j [i [Hj [Hi Ht]]]].
    set (m := Z.to_nat (py_round (float_quot width step) + 1)) in *.
    assert (Hm : m = S (Z.to_nat (py_round (float_quot width step))))
      by (subst m; lia).
    assert (Hn : forall j' i', (j' <= j + 1)%nat -> (i' <= i + 1)%nat ->
              vertex (plane_geometry cfg width height) (j' * m + i')
              = grid_co step width height (Z.of_nat j') (Z.of_nat i')).
    { intros j' i' Hj' Hi'. unfold vertex. rewrite HV.
      apply (nth_grid_verts step width height); lia. }
    assert (V00 : vertex (plane_geometry cfg width height) (j * m + i)
                  = grid_co step width height (Z.of_nat j) (Z.of_nat i))
      by (apply Hn; lia).
    assert (V01 : vertex (plane_geometry cfg width height) (j * m + i + 1)
                  = grid_co step width height (Z.of_nat j)
                      (Z.of_nat (i + 1))).
    { replace (j * m + i + 1)%nat with (j * m + (i + 1))%nat by lia.
      apply Hn; lia. }
    assert (V10 : vertex (plane_geometry cfg width height) (j * m + i + m)
                  = grid_co step width height (Z.of_nat (j + 1))
                      (Z.of_nat i)).
    { replace (j * m + i + m)%nat with ((j + 1) * m + i)%nat by lia.
      apply Hn; lia. }
    assert (V11 : vertex (plane_geometry cfg width height)
                    (j * m + i + m + 1)
                  = grid_co step width height (Z.of_nat (j + 1))
                      (Z.of_nat (i + 1))).
    { replace (j * m + i + m + 1)%nat with ((j + 1) * m + (i + 1))%nat
        by lia.
      apply Hn; lia. }
    destruct (cross_z_cell step width height j i) as [C1 C2].
    unfold cell_tris in Ht. cbn [In] in Ht.
    destruct Ht as [<-|[<-|[]]].
    + exists (j * m + i)%nat, (j * m + i + 1)%nat, (j * m + i + m)%nat.
      split; [reflexivity|]. rewrite V00, V01, V10. exact C1.
    + exists (j * m + i + 1)%nat, (j * m + i + m + 1)%nat,
        (j * m + i + m)%nat.
      split; [reflexivity|]. rewrite V01, V11, V10. exact C2.
  - unfold cross_z, vertex, simple_plane. cbn [bm_verts nth fst snd]. field.
  - unfold cross_z, vertex, simple_plane. cbn [bm_verts nth fst snd]. field.
Qed.

(** * Subgroups the export loop passes over (lines 218-232) *)

(** X18: a subgroup whose name has no "x", or that holds no mesh object, is
    passed over without a trace; one whose layer collection is not found
    leaves a line in the output.  In none of these cases is a directory
    made, a file removed or the exporter called. *)
Theorem export_subcol_skips (cfg : Settings) (os : Os)
  (width_cm subcol : string) (h : Host) :
  (contains_char "x" subcol = false ->
   export_subcol cfg os width_cm subcol h = (Ok tt, h))
  /\ (forall objs,
        contains_char "x" subcol = true ->
        objects_of (DataCollection subcol) (doc h) = Ok objs ->
        filter (is_mesh_object (doc h)) objs = [] ->
        export_subcol cfg os width_cm subcol h = (Ok tt, h))
  /\ (forall objs,
        contains_char "x" subcol = true ->
        objects_of (DataCollection subcol) (doc h) = Ok objs ->
        filter (is_mesh_object (doc h)) objs <> [] ->
        find_layer_collection (view_layer_root (doc h))
          (DataCollection subcol) = None ->
        fst (export_subcol cfg os width_cm subcol h) = Ok tt
        /\ stdout (snd (export_subcol cfg os width_cm subcol h))
           = stdout h
             ++ [("LayerCollection for " ++ subcol
                  ++ " not found, skipping.")%string]
        /\ files (snd (export_subcol cfg os width_cm subcol h)) = files h
        /\ fbx_calls (snd (export_subcol cfg os width_cm subcol h))
           = fbx_calls h).
Proof.
  split; [|split].
  - intros Hx. unfold export_subcol. rewrite Hx. reflexivity.
  - intros objs Hx Ho Hf. unfold export_subcol. rewrite Hx. cbn [negb].
    destruct (split_on_two "x" subcol Hx) as [a [b [tl Es]]].
    unfold e_bind at 1, e_lift at 1. rewrite Es. cbn [getitem].
    replace (getitem (a :: b :: tl) 1) with (Ok b) by reflexivity.
    unfold e_bind at 1, e_get at 1. unfold e_bind at 1, e_lift at 1.
    rewrite Ho, Hf. reflexivity.
  - intros objs Hx Ho Hf Hl.
    assert (E : export_subcol cfg os width_cm subcol h
                = print ("LayerCollection for " ++ subcol
                         ++ " not found, skipping.")%string h).
    { unfold export_subcol. rewrite Hx. cbn [negb].
      destruct (split_on_two "x" subcol Hx) as [a [b [tl Es]]].
      unfold e_bind at 1, e_lift at 1. rewrite Es.
      replace (getitem (a :: b :: tl) 1) with (Ok b) by reflexivity.
      unfold e_bind at 1, e_get at 1. unfold e_bind at 1, e_lift at 1.
      rewrite Ho.
      destruct (filter (is_mesh_object (doc h)) objs) as [|first rest];
        [contradiction|].
      rewrite Hl. reflexivity. }
    rewrite E. unfold print. cbn [fst snd stdout files fbx_calls].
    repeat split; reflexivity.
Qed.

(** * The further properties on concrete inputs *)

Lemma primary_faces_witness :
  ~ (PLANE_SUBDIVISION_SIZE settings == 0)%Q
  /\ exists obj D' bm,
       create_subdivided_plane_bmesh settings (3 # 10) (1 # 2) "30x50"
         empty_document = Ok (obj, D')
       /\ object_geometry D' obj = Some bm
       /\ length (bm_faces bm) = 4%nat.
Proof.
  assert (Hs : ~ (PLANE_SUBDIVISION_SIZE settings == 0)%Q)
    by (unfold Qeq; simpl; lia).
  split; [exact Hs|].
  destruct (primary_faces settings (3 # 10) (1 # 2) "30x50" empty_document
              Hs)
    as [obj [D' [bm [E [G [_ [L _]]]]]]].
  exists obj, D', bm. split; [exact E|]. split; [exact G|].
  rewrite L. vm_compute. reflexivity.
Defined.

Lemma primary_uv_range_witness :
  (0 < PLANE_SUBDIVISION_SIZE settings)%Q
  /\ (0 < 3 # 10)%Q /\ (0 < 1 # 2)%Q
  /\ 1 <= py_round (float_quot (3 # 10) (PLANE_SUBDIVISION_SIZE settings))
  /\ 1 <= py_round (float_quot (1 # 2) (PLANE_SUBDIVISION_SIZE settings))
  /\ exists obj D' bm,
       create_subdivided_plane_bmesh settings (3 # 10) (1 # 2) "30x50"
         empty_document = Ok (obj, D')
       /\ object_geometry D' obj = Some bm
       /\ (forall uv, In uv (all_uvs bm) ->
             (0 <= fst uv <= 2 # 3)%Q /\ (0 <= snd uv <= 4 # 5)%Q)
       /\ (exists uv, In uv (all_uvs bm)
                      /\ (fst uv == 2 # 3)%Q /\ (snd uv == 4 # 5)%Q).
Proof.
  assert (H1 : 1 <= py_round (float_quot (3 # 10)
                               (PLANE_SUBDIVISION_SIZE settings)))
    by (vm_compute; discriminate).
  assert (H2 : 1 <= py_round (float_quot (1 # 2)
                               (PLANE_SUBDIVISION_SIZE settings)))
    by (vm_compute; discriminate).
  split; [reflexivity|]. split; [reflexivity|]. split; [reflexivity|].
  split; [exact H1|]. split; [exact H2|].
  destruct (primary_uv_range settings (3 # 10) (1 # 2) "30x50"
              empty_document eq_refl eq_refl eq_refl H1 H2)
    as [obj [D' [bm [E [G [Hall [_ [uv [Hin [Hu Hv]]]]]]]]]].
  assert (Ex : (inject_Z (py_round (float_quot (3 # 10)
                                      (PLANE_SUBDIVISION_SIZE settings)))
                * PLANE_SUBDIVISION_SIZE settings / (3 # 10) == 2 # 3)%Q)
    by (vm_compute; reflexivity).
  assert (Ey : (inject_Z (py_round (float_quot (1 # 2)
                                      (PLANE_SUBDIVISION_SIZE settings)))
                * PLANE_SUBDIVISION_SIZE settings / (1 # 2) == 4 # 5)%Q)
    by (vm_compute; reflexivity).
  exists obj, D', bm. split; [exact E|]. split; [exact G|]. split.
  - intros uv' Hin'. destruct (Hall uv' Hin') as [[A B] [C D]].
    rewrite Ex in B. rewrite Ey in D. auto.
  - exists uv. split; [exact Hin|]. rewrite Ex in Hu. rewrite Ey in Hv. auto.
Defined.

Lemma proxy_footprint_witness :
  (0 < 2 # 10)%Q /\ 1 <= 3 < 2 ^ 50 /\ 1 <= 2 < 2 ^ 50
  /\ (6 # 10 == inject_Z 3 * (2 # 10))%Q
  /\ (4 # 10 == inject_Z 2 * (2 # 10))%Q
  /\ exists bm,
       subdivided_plane (2 # 10) (6 # 10) (4 # 10) = Ok bm
       /\ Forall (in_rectangle (6 # 10) (4 # 10)) (bm_verts bm)
       /\ Forall (has_vertex bm) (bm_verts (simple_plane (6 # 10) (4 # 10)))
       /\ Forall (in_rectangle (6 # 10) (4 # 10))
            (bm_verts (simple_plane (6 # 10) (4 # 10))).
Proof.
  split; [reflexivity|]. split; [lia|]. split; [lia|].
  split; [reflexivity|]. split; [reflexivity|].
  apply (proxy_footprint (2 # 10) (6 # 10) (4 # 10) 3 2);
    [reflexivity | lia | lia | reflexivity | reflexivity].
Defined.

Lemma zero_step_stops_run_witness :
  (PLANE_SUBDIVISION_SIZE zero_step_settings == 0)%Q
  /\ PLANE_SIZES_CM zero_step_settings <> []
  /\ NoDup (PLANE_SIZES_CM zero_step_settings)
  /\ Forall (fun w => 0 <= w) (PLANE_SIZES_CM zero_step_settings)
  /\ wf_doc (doc (host_of default_scene [])) = true
  /\ fst (run zero_step_settings willing_os (host_of default_scene []))
     = Raise ZeroDivisionError
  /\ stdout (snd (run zero_step_settings willing_os
                    (host_of default_scene [])))
     = stdout (host_of default_scene [])
  /\ files (snd (run zero_step_settings willing_os
                   (host_of default_scene [])))
     = files (host_of default_scene [])
  /\ fbx_calls (snd (run zero_step_settings willing_os
                       (host_of default_scene [])))
     = fbx_calls (host_of default_scene []).
Proof.
  assert (Hne : PLANE_SIZES_CM zero_step_settings <> [])
    by (simpl; discriminate).
  assert (Hnd : NoDup (PLANE_SIZES_CM zero_step_settings))
    by (apply nodup_z_NoDup; reflexivity).
  assert (Hpos : Forall (fun w => 0 <= w) (PLANE_SIZES_CM zero_step_settings))
    by (simpl; repeat constructor; lia).
  split; [reflexivity|]. split; [exact Hne|]. split; [exact Hnd|].
  split; [exact Hpos|]. split; [reflexivity|].
  apply (zero_step_stops_run zero_step_settings willing_os
           (host_of default_scene []));
    [reflexivity | exact Hne | exact Hnd | exact Hpos | reflexivity].
Defined.

Lemma cleanup_effect_witness :
  wf_doc default_scene = true
  /\ NoDup (object_names default_scene)
  /\ ascii_names (collection_names default_scene) = true
  /\ data_objects (cleanup default_scene)
     = filter (fun o => negb (is_mesh o)) (data_objects default_scene)
  /\ data_meshes (cleanup default_scene) = data_meshes default_scene
  /\ collection_names (cleanup default_scene)
     = filter (fun n => negb (generated_name n))
              (collection_names default_scene)
  /\ scene_children (cleanup default_scene)
     = filter (fun n => negb (generated_name n))
              (scene_children default_scene)
  /\ wf_doc (cleanup default_scene) = true.
Proof.
  assert (Hnd : NoDup (object_names default_scene)).
  { simpl. repeat constructor; simpl; intuition discriminate. }
  split; [reflexivity|]. split; [exact Hnd|]. split; [reflexivity|].
  apply (cleanup_effect default_scene);
    [reflexivity | exact Hnd | reflexivity].
Defined.

Lemma hierarchy_built_witness :
  wf_doc default_scene = true
  /\ NoDup (PLANE_SIZES_CM settings)
  /\ Forall (fun w => 0 <= w) (PLANE_SIZES_CM settings)
  /\ exists B,
       build_hierarchy settings (cleanup default_scene) = Ok B
       /\ scene_children (build_doc B)
          = scene_children (cleanup default_scene)
            ++ map str (PLANE_SIZES_CM settings)
       /\ data_objects (build_doc B) = data_objects (cleanup default_scene).
Proof.
  assert (Hnd : NoDup (PLANE_SIZES_CM settings))
    by (apply nodup_z_NoDup; reflexivity).
  assert (Hpos : Forall (fun w => 0 <= w) (PLANE_SIZES_CM settings))
    by (simpl; repeat constructor; lia).
  split; [reflexivity|]. split; [exact Hnd|]. split; [exact Hpos|].
  destruct (hierarchy_built settings default_scene eq_refl Hnd Hpos)
    as [B [E [_ [Hs [Ho _]]]]].
  exists B. split; [exact E|]. split; [exact Hs | exact Ho].
Defined.

Lemma generation_appends_witness :
  valid_settings settings = true
  /\ wf_doc default_scene = true
  /\ exists F new_collections new_objects new_meshes,
       generate settings default_scene = Ok F
       /\ data_collections F
          = data_collections (cleanup default_scene) ++ new_collections
       /\ length new_collections = 110%nat
       /\ data_objects F
          = data_objects (cleanup default_scene) ++ new_objects
       /\ length new_objects = 200%nat
       /\ Forall (fun o => is_mesh o = true) new_objects
       /\ data_meshes F = data_meshes default_scene ++ new_meshes
       /\ length new_meshes = 200%nat
       /\ scene_objects F = scene_objects (cleanup default_scene).
Proof.
  split; [reflexivity|]. split; [reflexivity|].
  apply (generation_appends settings default_scene); reflexivity.
Defined.

Lemma scene_children_after_run_witness :
  valid_settings settings = true
  /\ wf_doc default_scene = true
  /\ ascii_names (collection_names default_scene) = true
  /\ exists F,
       generate settings default_scene = Ok F
       /\ scene_children F
          = filter (fun n => negb (generated_name n))
                   (scene_children default_scene)
            ++ map str (sorted_sizes (PLANE_SIZES_CM settings))
       /\ StronglySorted Z.lt (sorted_sizes (PLANE_SIZES_CM settings))
       /\ (forall w, In w (sorted_sizes (PLANE_SIZES_CM settings))
                     <-> In w (PLANE_SIZES_CM settings)).
Proof.
  split; [reflexivity|]. split; [reflexivity|]. split; [reflexivity|].
  apply (scene_children_after_run settings default_scene); reflexivity.
Defined.

Lemma names_round_trip_witness :
  0 <= 20 /\ 0 <= 40
  /\ py_round (to_m 20 * 100) = 20
  /\ split_on "x" (subcol_name_of 20 40) = [str 20; str 40]
  /\ getitem (split_on "x" (subcol_name_of 20 40)) 1 = Ok (str 40)
  /\ alnum_key (subcol_name_of 20 40) = Ok [PInt 20; PInt 40]
  /\ py_int (str 20) = Ok 20
  /\ isdigit (str 20) = true
  /\ isdigit (subcol_name_of 20 40) = false
  /\ generated_name (str 20) = true
  /\ generated_name (subcol_name_of 20 40) = true.
Proof.
  split; [lia|]. split; [lia|]. apply (names_round_trip 20 40); lia.
Defined.

Lemma export_trace_witness :
  valid_settings settings = true
  /\ wf_doc (doc (host_of default_scene [])) = true
  /\ EXPORT_TO_FBX settings = true
  /\ fst (run settings read_only_os (host_of default_scene []))
     = export_outcome read_only_os (export_leaves settings read_only_os)
  /\ fbx_calls (snd (run settings read_only_os (host_of default_scene [])))
     = fbx_calls (host_of default_scene [])
       ++ calls_made read_only_os (export_leaves settings read_only_os).
Proof.
  split; [reflexivity|]. split; [reflexivity|]. split; [reflexivity|].
  apply (export_trace settings read_only_os (host_of default_scene []));
    reflexivity.
Defined.

Lemma export_complete_witness :
  valid_settings settings = true
  /\ wf_doc (doc (host_of default_scene [])) = true
  /\ EXPORT_TO_FBX settings = true
  /\ (forall d, makedirs_error willing_os d = false)
  /\ (forall p, export_error willing_os p = false)
  /\ fst (run settings willing_os (host_of default_scene [])) = Ok tt
  /\ fbx_calls (snd (run settings willing_os (host_of default_scene [])))
     = fbx_calls (host_of default_scene [])
       ++ map snd (export_leaves settings willing_os)
  /\ length (map snd (export_leaves settings willing_os)) = 100%nat
  /\ NoDup (map snd (export_leaves settings willing_os))
  /\ files_grow (map snd (export_leaves settings willing_os))
       (host_of default_scene [])
       (snd (run settings willing_os (host_of default_scene [])))
  /\ last (stdout (snd (run settings willing_os (host_of default_scene []))))
          ""%string
     = "Batch FBX export complete."%string.
Proof.
  split; [reflexivity|]. split; [reflexivity|]. split; [reflexivity|].
  split; [intros d; reflexivity|]. split; [intros p; reflexivity|].
  apply (export_complete settings willing_os (host_of default_scene []));
    [reflexivity | reflexivity | reflexivity
    | intros d; reflexivity | intros p; reflexivity].
Defined.

Lemma export_disabled_witness :
  valid_settings no_export_settings = true
  /\ wf_doc (doc (host_of default_scene [])) = true
  /\ EXPORT_TO_FBX no_export_settings = false
  /\ fst (run no_export_settings willing_os (host_of default_scene []))
     = Ok tt
  /\ stdout (snd (run no_export_settings willing_os
                    (host_of default_scene [])))
     = stdout (host_of default_scene [])
       ++ ["Plane generation and organization complete!";
           "EXPORT_TO_FBX is set to False. Skipping FBX export step."]%string
  /\ files (snd (run no_export_settings willing_os
                   (host_of default_scene [])))
     = files (host_of default_scene [])
  /\ fbx_calls (snd (run no_export_settings willing_os
                       (host_of default_scene [])))
     = fbx_calls (host_of default_scene []).
Proof.
  split; [reflexivity|]. split; [reflexivity|]. split; [reflexivity|].
  apply (export_disabled no_export_settings willing_os
           (host_of default_scene [])); reflexivity.
Defined.

Lemma export_paths_distinct_witness :
  0 <= 20 /\ 0 <= 40
  /\ export_path_of settings willing_os (str 20) (str 40)
       (subcol_name_of 20 40)
     = export_path_of settings willing_os (str 20) (str 40)
         (subcol_name_of 20 40)
  /\ 20 = 20 /\ 40 = 40.
Proof.
  split; [lia|]. split; [lia|]. split; [reflexivity|].
  apply (export_paths_distinct settings willing_os 20 40 20 40);
    [lia | lia | lia | lia | reflexivity].
Defined.

Lemma primary_vertex_positions_witness :
  ~ (PLANE_SUBDIVISION_SIZE settings == 0)%Q
  /\ exists obj D' bm,
       create_subdivided_plane_bmesh settings 1 (1 # 2) "100x50"
         empty_document = Ok (obj, D')
       /\ object_geometry D' obj = Some bm
       /\ length (bm_verts bm) = 18%nat.
Proof.
  assert (Hs : ~ (PLANE_SUBDIVISION_SIZE settings == 0)%Q)
    by (unfold Qeq; simpl; lia).
  split; [exact Hs|].
  destruct (primary_vertex_positions settings 1 (1 # 2) "100x50"
              empty_document Hs)
    as [obj [D' [bm [E [G [L _]]]]]].
  exists obj, D', bm. split; [exact E|]. split; [exact G | exact L].
Defined.

Lemma faces_point_up_witness :
  ~ (PLANE_SUBDIVISION_SIZE settings == 0)%Q
  /\ exists obj D' bm,
       create_subdivided_plane_bmesh settings 1 (1 # 2) "100x50"
         empty_document = Ok (obj, D')
       /\ object_geometry D' obj = Some bm
       /\ Forall (fun f =>
                    exists a b c,
                      face_verts f = [a; b; c]
                      /\ (cross_z (vertex bm a) (vertex bm b) (vertex bm c)
                          == PLANE_SUBDIVISION_SIZE settings
                             * PLANE_SUBDIVISION_SIZE settings)%Q)
                 (bm_faces bm).
Proof.
  assert (Hs : ~ (PLANE_SUBDIVISION_SIZE settings == 0)%Q)
    by (unfold Qeq; simpl; lia).
  split; [exact Hs|].
  destruct (faces_point_up settings 1 (1 # 2) "100x50" empty_document Hs)
    as [obj [D' [bm [E [G [F _]]]]]].
  exists obj, D', bm. split; [exact E|]. split; [exact G | exact F].
Defined.

(** * The object-sorting step (lines 189-193) on any document *)

Lemma find_update_collection (n : string) (f : Collection -> Collection)
  (cs : list Collection) (c : Collection) :
  (forall x, col_name (f x) = col_name x) ->
  find_col n cs = Some c ->
  find_col n (update_collection n f cs) = Some (f c).
Proof.
  intros Hf. unfold find_col, update_collection.
  induction cs as [|x cs IH]; cbn [find map]; intros E; [discriminate|].
  destruct (String.eqb (col_name x) n) eqn:En.
  - rewrite Hf, En. injection E as <-. reflexivity.
  - rewrite En. apply IH. exact E.
Qed.

Lemma objects_of_put (parent : coll_ref) (l l0 : list string) (D : Document) :
  objects_of parent D = Ok l0 ->
  objects_of parent (put_objects parent l D) = Ok l.
Proof.
  destruct parent as [|n]; cbn [objects_of put_objects scene_objects];
    [reflexivity|].
  unfold collections_get. cbn [data_collections].
  destruct (find (fun c => String.eqb (col_name c) n) (data_collections D))
    as [c|] eqn:E; [|discriminate].
  intros _.
  pose proof (find_update_collection n (set_objects l) _ c
                (fun x => eq_refl) E) as H.
  unfold find_col in H. rewrite H. reflexivity.
Qed.

Lemma put_objects_data (parent : coll_ref) (l : list string) (D : Document) :
  data_objects (put_objects parent l D) = data_objects D.
Proof. destruct parent; reflexivity. Qed.

Lemma objects_unlink_step (parent : coll_ref) (o : string) (l : list string)
  (D : Document) :
  objects_of parent D = Ok l -> In o l ->
  exists D',
    objects_unlink parent o D = Ok D'
    /\ objects_of parent D' = Ok (remove_name o l)
    /\ data_objects D' = data_objects D.
Proof.
  intros E Hin. unfold objects_unlink. rewrite E. cbn [bind].
  apply name_in_In in Hin. rewrite Hin.
  eexists. split; [reflexivity|]. split.
  - apply (objects_of_put parent _ l). exact E.
  - apply put_objects_data.
Qed.

Lemma objects_link_step (parent : coll_ref) (o : string) (l : list string)
  (D : Document) :
  objects_of parent D = Ok l -> ~ In o l ->
  exists D',
    objects_link parent o D = Ok D'
    /\ objects_of parent D' = Ok (l ++ [o])
    /\ data_objects D' = data_objects D.
Proof.
  intros E Hin. unfold objects_link. rewrite E. cbn [bind].
  apply name_in_false in Hin. rewrite Hin.
  eexists. split; [reflexivity|]. split.
  - apply (objects_of_put parent _ l). exact E.
  - apply put_objects_data.
Qed.

(** Unlinking the objects of a collection one after the other empties it. *)
Lemma objects_unlink_all (parent : coll_ref) (l : list string) (D : Document) :
  NoDup l -> objects_of parent D = Ok l ->
  exists D',
    foreach l (objects_unlink parent) D = Ok D'
    /\ objects_of parent D' = Ok []
    /\ data_objects D' = data_objects D.
Proof.
  revert D. induction l as [|o l IH]; intros D Hnd E; cbn [foreach].
  - exists D. auto.
  - inversion Hnd as [|? ? Hnotin Hnd']; subst.
    destruct (objects_unlink_step parent o (o :: l) D E (or_introl eq_refl))
      as [D1 [E1 [O1 G1]]].
    rewrite E1. cbn [bind]. rewrite (remove_name_head o l Hnotin) in O1.
    destruct (IH D1 Hnd' O1) as [D2 [E2 [O2 G2]]].
    exists D2. split; [exact E2|]. split; [exact O2|]. congruence.
Qed.

(** Linking distinct objects that are not yet there appends them in order. *)
Lemma objects_link_all (parent : coll_ref) (s l0 : list string)
  (D : Document) :
  NoDup (l0 ++ s) -> objects_of parent D = Ok l0 ->
  exists D',
    foreach s (objects_link parent) D = Ok D'
    /\ objects_of parent D' = Ok (l0 ++ s)
    /\ data_objects D' = data_objects D.
Proof.
  revert l0 D. induction s as [|o s IH]; intros l0 D Hnd E; cbn [foreach].
  - exists D. rewrite app_nil_r. auto.
  - assert (Hnotin : ~ In o l0).
    { apply NoDup_remove_2 in Hnd. intros H. apply Hnd.
      apply in_or_app. left. exact H. }
    destruct (objects_link_step parent o l0 D E Hnotin)
      as [D1 [E1 [O1 G1]]].
    rewrite E1. cbn [bind].
    assert (Hnd1 : NoDup ((l0 ++ [o]) ++ s))
      by (rewrite <- app_assoc; exact Hnd).
    destruct (IH (l0 ++ [o]) D1 Hnd1 O1) as [D2 [E2 [O2 G2]]].
    exists D2. split; [exact E2|]. split.
    + rewrite O2, <- app_assoc. reflexivity.
    + congruence.
Qed.

(** The sorting step leaves the objects of the subcollection in ascending
    order of their names, and touches no object. *)
Lemma sort_objects_sorts (subcol : string) (objs : list string)
  (D : Document) :
  objects_of (DataCollection subcol) D = Ok objs -> NoDup objs ->
  exists D',
    sort_objects subcol D = Ok D'
    /\ objects_of (DataCollection subcol) D' = Ok (sort_by String.ltb objs)
    /\ data_objects D' = data_objects D.
Proof.
  intros E Hnd. unfold sort_objects. rewrite E. cbn [bind].
  pose proof (py_sorted_pure (fun o : string => o) (fun o => Ok o)
                (fun o => o) str_lt String.ltb objs
                (fun b _ => eq_refl) (fun a b => eq_refl)) as Hs.
  rewrite !map_id in Hs. rewrite Hs. cbn [bind].
  destruct (objects_unlink_all (DataCollection subcol) objs D Hnd E)
    as [D1 [E1 [O1 G1]]].
  rewrite E1. cbn [bind].
  destruct (objects_link_all (DataCollection subcol)
              (sort_by String.ltb objs) [] D1
              (NoDup_sort_by String.ltb objs Hnd) O1)
    as [D2 [E2 [O2 G2]]].
  exists D2. split; [exact E2|]. split; [exact O2|]. congruence.
Qed.

Lemma sort_pair (p u : string) (objs : list string) :
  String.ltb p u = true -> String.ltb u p = false ->
  objs = [p; u] \/ objs = [u; p] ->
  sort_by String.ltb objs = [p; u].
Proof.
  intros H1 H2 [-> | ->]; cbn [sort_by insert_by].
  - rewrite H2. reflexivity.
  - rewrite H1. reflexivity.
Qed.

Lemma is_mesh_object_data (D D' : Document) (o : string) :
  data_objects D' = data_objects D ->
  is_mesh_object D' o = is_mesh_object D o.
Proof.
  intros E. unfold is_mesh_object, objects_get. rewrite E. reflexivity.
Qed.

(** C8: in every leaf subgroup the object-sorting step puts the primary mesh
    before the collision proxy.  A run gives the primary mesh of the size
    pair (w, h) a name p that begins with "{w}x{h}" and the proxy a name u
    that begins with "UCX_{w}x{h}"; p is smaller than u in string order,
    because a digit is smaller than "U".  On any document, a subgroup that
    holds the two, linked in either order, lists p first and u second once
    its objects have been sorted, and the first mesh of the subgroup, to
    which the exporter falls back, is p.  So it is in the document that the
    run leaves. *)
Theorem primary_sorts_first (cfg : Settings) (D : Document) (w h : Z) :
  valid_settings cfg = true -> wf_doc D = true ->
  In w (PLANE_SIZES_CM cfg) -> In h (PLANE_SIZES_CM cfg) ->
  exists F p u,
    generate cfg D = Ok F
    /\ (exists s, p = (subcol_name_of w h ++ s)%string)
    /\ (exists s, u = ("UCX_" ++ subcol_name_of w h ++ s)%string)
    /\ object_geometry F p = Some (plane_geometry cfg (to_m w) (to_m h))
    /\ object_geometry F u = Some (simple_plane (to_m w) (to_m h))
    /\ String.ltb p u = true
    /\ (forall (D0 : Document) (subcol : string) (objs : list string),
          objects_of (DataCollection subcol) D0 = Ok objs ->
          objs = [p; u] \/ objs = [u; p] ->
          exists D1,
            sort_objects subcol D0 = Ok D1
            /\ objects_of (DataCollection subcol) D1 = Ok [p; u]
            /\ (is_mesh_object D0 p = true ->
                hd_error (objects_to_export D1 subcol) = Some p))
    /\ objects_of (DataCollection (subcol_name_of w h)) F = Ok [p; u]
    /\ hd_error (objects_to_export F (subcol_name_of w h)) = Some p.
Proof.
  intros Hcfg Hwf Hw Hh.
  pose proof (cleanup_clean D Hwf) as HC.
  destruct (pair_record cfg (cleanup D) w h Hw Hh)
    as [cr [Hin [Ew [Eh [Epo [on [mn Ecr]]]]]]].
  destruct (generated_objects cfg (cleanup D) cr Hin)
    as [Gp [Gu [Geo_p Geo_u]]].
  assert (Hw0 : 0 <= w).
  { apply valid_settings_spec in Hcfg. destruct Hcfg as [_ [_ Hpos]].
    rewrite Forall_forall in Hpos. auto. }
  assert (Hobjs : objects_of (DataCollection (subcol_name_of w h))
                    (generated cfg (cleanup D))
                  = Ok [cr_obj cr; cr_ucx cr]).
  { unfold objects_of. rewrite (generated_sub cfg (cleanup D) HC w h Hw Hh).
    cbn [mk_col col_objects]. rewrite Epo. reflexivity. }
  exists (generated cfg (cleanup D)), (cr_obj cr), (cr_ucx cr).
  split; [apply generate_ok; assumption|].
  rewrite Ew, Eh in Geo_p, Geo_u.
  assert (Hpre : (exists s, cr_obj cr = (subcol_name_of w h ++ s)%string)
                 /\ (exists s, cr_ucx cr
                               = ("UCX_" ++ subcol_name_of w h ++ s)%string)
                 /\ String.ltb (cr_obj cr) (cr_ucx cr) = true
                 /\ String.ltb (cr_ucx cr) (cr_obj cr) = false
                 /\ cr_obj cr <> cr_ucx cr).
  { rewrite Ecr. cbn [create_record cr_obj cr_ucx]. split; [|split].
    - apply unique_name_prefix.
    - destruct (unique_name_prefix
                  (on ++ [unique_name on (subcol_name_of w h)])
                  ("UCX_" ++ subcol_name_of w h)) as [s Es].
      exists s. rewrite Es. cbn [append]. reflexivity.
    - apply (primary_before_proxy w h w h); exact Hw0. }
  destruct Hpre as [Hp [Hu [Hlt [Hgt Hne]]]].
  split; [exact Hp|]. split; [exact Hu|]. split; [exact Geo_p|].
  split; [exact Geo_u|]. split; [exact Hlt|]. split; [|split].
  - intros D0 subcol objs E0 Hobjs0.
    assert (Hnd : NoDup objs).
    { destruct Hobjs0 as [-> | ->]; repeat constructor; cbn [In];
        intuition congruence. }
    destruct (sort_objects_sorts subcol objs D0 E0 Hnd) as [D1 [E1 [O1 G1]]].
    rewrite (sort_pair _ _ objs Hlt Hgt Hobjs0) in O1.
    exists D1. split; [exact E1|]. split; [exact O1|].
    intros Hm. unfold objects_to_export. rewrite O1. cbn [filter].
    rewrite (is_mesh_object_data D0 D1 _ G1), Hm. reflexivity.
  - exact Hobjs.
  - unfold objects_to_export. rewrite Hobjs. cbn [filter].
    unfold is_mesh_object at 1. rewrite Gp. cbn [obj_type].
    change (String.eqb "MESH" "MESH") with true. cbn iota. reflexivity.
Qed.

(** * Two runs from the same document *)

Lemma generate_enum_perm (objs : list Object) (cols : list Collection)
  (cfg : Settings) (D : Document) :
  Permutation objs (data_objects D) ->
  Permutation cols (data_collections D) ->
  generate_enum objs cols cfg D = generate cfg D.
Proof.
  intros Po Pc. unfold generate, generate_enum.
  fold (cleanup D). rewrite (cleanup_enum_perm objs cols D Po Pc).
  reflexivity.
Qed.

(** A run does the same whatever the order in which the host enumerates its
    objects and collections for cleanup. *)
Lemma run_enum_perm (objs : list Object) (cols : list Collection)
  (cfg : Settings) (os : Os) (h : Host) :
  Permutation objs (data_objects (doc h)) ->
  Permutation cols (data_collections (doc h)) ->
  run_enum objs cols cfg os h = run cfg os h.
Proof.
  intros Po Pc. unfold run. cbv beta. unfold run_enum.
  unfold e_bind at 1, e_get at 1.
  unfold e_bind at 1, e_lift at 1.
  rewrite (generate_enum_perm objs cols cfg (doc h) Po Pc).
  rewrite (cleanup_enum_perm objs cols (doc h) Po Pc).
  reflexivity.
Qed.

Lemma export_leaves_sep (cfg : Settings) (os1 os2 : Os) :
  sep os1 = sep os2 -> export_leaves cfg os1 = export_leaves cfg os2.
Proof.
  intros E. unfold export_leaves, width_leaves, export_leaf, export_dir_of,
    export_path_of. rewrite E. reflexivity.
Qed.

Lemma calls_made_all (os : Os) (l : list (string * string)) :
  export_outcome os l = Ok tt -> calls_made os l = map snd l.
Proof.
  induction l as [|[d p] l IH]; cbn [export_outcome calls_made map snd];
    [reflexivity|].
  destruct (makedirs_error os d); [discriminate|].
  destruct (export_error os p); [discriminate|].
  intros H. rewrite (IH H). reflexivity.
Qed.

(** C10: two runs with the same settings that start from the same document
    leave the same document: the collections and their order, the objects,
    and the meshes with their vertices, faces and UVs.  The two runs may
    differ in everything else that the script reads: the order in which the
    host enumerates its objects and its collections for cleanup, the files
    that exist, what the operating system and the exporter answer, what was
    printed or exported before and what is selected.  When both runs end
    normally they have handed the same paths to the exporter, in the same
    order.  With valid settings and a well-formed document the common
    result is the generated document, and the paths of two runs that end
    normally are those of all size pairs, one per pair. *)
Theorem run_deterministic (cfg : Settings) (os1 os2 : Os) (h1 h2 : Host)
  (objs1 objs2 : list Object) (cols1 cols2 : list Collection) :
  doc h1 = doc h2 -> sep os1 = sep os2 ->
  Permutation objs1 (data_objects (doc h1)) ->
  Permutation cols1 (data_collections (doc h1)) ->
  Permutation objs2 (data_objects (doc h2)) ->
  Permutation cols2 (data_collections (doc h2)) ->
  let r1 := run_enum objs1 cols1 cfg os1 h1 in
  let r2 := run_enum objs2 cols2 cfg os2 h2 in
  doc (snd r1) = doc (snd r2)
  /\ (fst r1 = Ok tt -> fst r2 = Ok tt ->
      exists paths,
        fbx_calls (snd r1) = fbx_calls h1 ++ paths
        /\ fbx_calls (snd r2) = fbx_calls h2 ++ paths)
  /\ (valid_settings cfg = true -> wf_doc (doc h1) = true ->
      doc (snd r1) = generated cfg (cleanup (doc h1))
      /\ (EXPORT_TO_FBX cfg = true -> fst r1 = Ok tt -> fst r2 = Ok tt ->
          let paths := map snd (export_leaves cfg os1) in
          fbx_calls (snd r1) = fbx_calls h1 ++ paths
          /\ fbx_calls (snd r2) = fbx_calls h2 ++ paths
          /\ length paths
             = (length (PLANE_SIZES_CM cfg)
                * length (PLANE_SIZES_CM cfg))%nat
          /\ NoDup paths)).
Proof.
  intros Hd Hs Po1 Pc1 Po2 Pc2 r1 r2. subst r1 r2.
  rewrite (run_enum_perm objs1 cols1 cfg os1 h1 Po1 Pc1).
  rewrite (run_enum_perm objs2 cols2 cfg os2 h2 Po2 Pc2).
  destruct (run_trace cfg os1 h1) as [D1 C1].
  destruct (run_trace cfg os2 h2) as [D2 C2].
  split; [rewrite D1, D2, Hd; reflexivity|]. split.
  - intros R1 R2.
    exists (planned_exports cfg (sep os1) (final_document cfg (doc h1))).
    split; [exact (C1 R1)|]. rewrite (C2 R2), Hs, Hd. reflexivity.
  - intros Hcfg Hwf. split.
    + rewrite D1. unfold final_document.
      rewrite (generate_ok cfg (doc h1) Hcfg Hwf). reflexivity.
    + intros Hexp R1 R2 paths.
      assert (Hwf2 : wf_doc (doc h2) = true) by (rewrite <- Hd; exact Hwf).
      destruct (run_exports cfg os1 h1 Hcfg Hwf Hexp) as [k1 [E1 [F1 _]]].
      destruct (run_exports cfg os2 h2 Hcfg Hwf2 Hexp) as [k2 [E2 [F2 _]]].
      rewrite E1 in R1 |- *. rewrite E2 in R2 |- *. cbn [fst snd] in *.
      rewrite (calls_made_all _ _ R1) in F1.
      rewrite (calls_made_all _ _ R2) in F2.
      rewrite <- (export_leaves_sep cfg os1 os2 Hs) in F2.
      split; [exact F1|]. split; [exact F2|].
      split; [apply export_leaves_length|].
      apply export_leaves_NoDup. exact Hcfg.
Qed.

(** * The sorting step and two runs on concrete inputs *)

(** A leaf whose proxy was linked first lists the primary mesh first after
    the sorting step. *)
Example sort_objects_reversed_leaf :
  objects_of (DataCollection "20x40") reversed_leaf_scene
  = Ok ["UCX_20x40"; "20x40"]%string
  /\ exists D1,
       sort_objects "20x40" reversed_leaf_scene = Ok D1
       /\ objects_of (DataCollection "20x40") D1
          = Ok ["20x40"; "UCX_20x40"]%string
       /\ hd_error (objects_to_export D1 "20x40") = Some "20x40"%string.
Proof.
  split; [reflexivity|]. eexists. split; [reflexivity|].
  split; reflexivity.
Qed.

Lemma primary_sorts_first_witness :
  valid_settings settings = true
  /\ wf_doc default_scene = true
  /\ In 20 (PLANE_SIZES_CM settings)
  /\ In 40 (PLANE_SIZES_CM settings)
  /\ exists F p u,
       generate settings default_scene = Ok F
       /\ (exists s, p = (subcol_name_of 20 40 ++ s)%string)
       /\ (exists s, u = ("UCX_" ++ subcol_name_of 20 40 ++ s)%string)
       /\ object_geometry F p
          = Some (plane_geometry settings (to_m 20) (to_m 40))
       /\ object_geometry F u = Some (simple_plane (to_m 20) (to_m 40))
       /\ String.ltb p u = true
       /\ (forall (D0 : Document) (subcol : string) (objs : list string),
             objects_of (DataCollection subcol) D0 = Ok objs ->
             objs = [p; u] \/ objs = [u; p] ->
             exists D1,
               sort_objects subcol D0 = Ok D1
               /\ objects_of (DataCollection subcol) D1 = Ok [p; u]
               /\ (is_mesh_object D0 p = true ->
                   hd_error (objects_to_export D1 subcol) = Some p))
       /\ objects_of (DataCollection (subcol_name_of 20 40)) F = Ok [p; u]
       /\ hd_error (objects_to_export F (subcol_name_of 20 40)) = Some p.
Proof.
  assert (H20 : In 20 (PLANE_SIZES_CM settings)) by (simpl; lia).
  assert (H40 : In 40 (PLANE_SIZES_CM settings)) by (simpl; lia).
  split; [reflexivity|]. split; [reflexivity|].
  split; [exact H20|]. split; [exact H40|].
  apply (primary_sorts_first settings default_scene 20 40);
    [reflexivity | reflexivity | exact H20 | exact H40].
Defined.

Lemma run_deterministic_witness :
  doc (host_of default_scene [])
  = doc (host_of default_scene ["old.fbx"%string])
  /\ sep willing_os = sep read_only_os
  /\ Permutation (data_objects default_scene)
       (data_objects (doc (host_of default_scene [])))
  /\ Permutation (data_collections default_scene)
       (data_collections (doc (host_of default_scene [])))
  /\ Permutation (rev (data_objects default_scene))
       (data_objects (doc (host_of default_scene ["old.fbx"%string])))
  /\ Permutation (rev (data_collections default_scene))
       (data_collections (doc (host_of default_scene ["old.fbx"%string])))
  /\ let r1 :=
       run_enum (data_objects default_scene)
         (data_collections default_scene) settings willing_os
         (host_of default_scene []) in
     let r2 :=
       run_enum (rev (data_objects default_scene))
         (rev (data_collections default_scene)) settings read_only_os
         (host_of default_scene ["old.fbx"%string]) in
     doc (snd r1) = doc (snd r2)
     /\ (fst r1 = Ok tt -> fst r2 = Ok tt ->
         exists paths,
           fbx_calls (snd r1) = fbx_calls (host_of default_scene []) ++ paths
           /\ fbx_calls (snd r2)
              = fbx_calls (host_of default_scene ["old.fbx"%string])
                ++ paths)
     /\ (valid_settings settings = true ->
         wf_doc (doc (host_of default_scene [])) = true ->
         doc (snd r1)
         = generated settings (cleanup (doc (host_of default_scene [])))
         /\ (EXPORT_TO_FBX settings = true ->
             fst r1 = Ok tt -> fst r2 = Ok tt ->
             let paths := map snd (export_leaves settings willing_os) in
             fbx_calls (snd r1)
             = fbx_calls (host_of default_scene []) ++ paths
             /\ fbx_calls (snd r2)
                = fbx_calls (host_of default_scene ["old.fbx"%string])
                  ++ paths
             /\ length paths
                = (length (PLANE_SIZES_CM settings)
                   * length (PLANE_SIZES_CM settings))%nat
             /\ NoDup paths)).
Proof.
  assert (P1 : Permutation (rev (data_objects default_scene))
                 (data_objects
                    (doc (host_of default_scene ["old.fbx"%string]))))
    by (apply Permutation_sym, Permutation_rev).
  assert (P2 : Permutation (rev (data_collections default_scene))
                 (data_collections
                    (doc (host_of default_scene ["old.fbx"%string]))))
    by (apply Permutation_sym, Permutation_rev).
  split; [reflexivity|]. split; [reflexivity|].
  split; [apply Permutation_refl|]. split; [apply Permutation_refl|].
  split; [exact P1|]. split; [exact P2|].
  apply (run_deterministic settings willing_os read_only_os
           (host_of default_scene [])
           (host_of default_scene ["old.fbx"%string])
           (data_objects default_scene) (rev (data_objects default_scene))
           (data_collections default_scene)
           (rev (data_collections default_scene)));
    [reflexivity | reflexivity | apply Permutation_refl
    | apply Permutation_refl | exact P1 | exact P2].
Defined.
